(** * Enterprise AI Knowledge Assistant: a shallow embedding of the tool
      framework, the workflow's action node, the retriever, the upload route
      and the agent's composite executor, with the properties proved of them.

    Python values are modelled by a JSON-like [Value] type; code that can
    raise runs in a state-and-exception monad [M] in which a raised
    exception keeps the mutations made before it, as in Python.  Text is
    UTF-8 in [string]; the Unicode-dependent built-ins ([str.lower],
    [str.strip], the class of decimal digits) are parameters of the
    sections that use them. *)

From Stdlib Require Import ZArith List String Ascii Bool Lia Floats.
From Stdlib Require DecimalString.
Import ListNotations.
Local Open Scope string_scope.
Local Open Scope Z_scope.

(* ===================================================================== *)
(** ** Python values *)
(* ===================================================================== *)

Module Py.

(** The values that travel through tool parameters and tool results: what
    [json.loads] produces, dictionaries keeping their insertion order. *)
#[warnings="-register-all"]
Inductive Value : Type :=
| VNone
| VBool (b : bool)
| VInt (z : Z)
| VFloat (f : float)
| VStr (s : string)
| VList (xs : list Value)
| VDict (kvs : list (string * Value)).

Definition Dict := list (string * Value).

(** Induction over values that reaches inside lists and dictionaries. *)
Section ValueInd.
Variable P : Value -> Prop.
Hypothesis HNone : P VNone.
Hypothesis HBool : forall b, P (VBool b).
Hypothesis HInt : forall z, P (VInt z).
Hypothesis HFloat : forall f, P (VFloat f).
Hypothesis HStr : forall s, P (VStr s).
Hypothesis HList : forall xs, Forall P xs -> P (VList xs).
Hypothesis HDict : forall kvs, Forall (fun kv => P (snd kv)) kvs -> P (VDict kvs).

Fixpoint Value_nested_ind (v : Value) : P v :=
  match v with
  | VNone => HNone
  | VBool b => HBool b
  | VInt z => HInt z
  | VFloat f => HFloat f
  | VStr s => HStr s
  | VList xs =>
      HList xs
        ((fix go (l : list Value) : Forall P l :=
            match l with
            | [] => Forall_nil P
            | x :: l' => Forall_cons x (Value_nested_ind x) (go l')
            end) xs)
  | VDict kvs =>
      HDict kvs
        ((fix go (l : list (string * Value)) : Forall (fun kv => P (snd kv)) l :=
            match l with
            | [] => Forall_nil _
            | kv :: l' =>
                Forall_cons kv (Value_nested_ind (snd kv)) (go l')
            end) kvs)
  end.
End ValueInd.

(** [d.get(k)]: the value bound to [k], if any. *)
Fixpoint dict_get (d : Dict) (k : string) : option Value :=
  match d with
  | [] => None
  | (k', v) :: d' => if String.eqb k' k then Some v else dict_get d' k
  end.

(** [k in d]. *)
Definition dict_has (d : Dict) (k : string) : bool :=
  match dict_get d k with Some _ => true | None => false end.

(** [d[k] = v]: an existing key keeps its position, a new key goes last. *)
Fixpoint dict_set (d : Dict) (k : string) (v : Value) : Dict :=
  match d with
  | [] => [(k, v)]
  | (k', v') :: d' =>
      if String.eqb k' k then (k', v) :: d' else (k', v') :: dict_set d' k v
  end.

(** [del d[k]] on a key that may be absent. *)
Fixpoint dict_remove (d : Dict) (k : string) : Dict :=
  match d with
  | [] => []
  | (k', v') :: d' =>
      if String.eqb k' k then d' else (k', v') :: dict_remove d' k
  end.

(** [d.get(k, default)]. *)
Definition dict_get_default (d : Dict) (k : string) (dflt : Value) : Value :=
  match dict_get d k with Some v => v | None => dflt end.

(** [d.setdefault(k, v)]. *)
Definition dict_setdefault (d : Dict) (k : string) (v : Value) : Dict :=
  if dict_has d k then d else dict_set d k v.

(** Python truthiness, [bool(v)]. *)
Definition truthy (v : Value) : bool :=
  match v with
  | VNone => false
  | VBool b => b
  | VInt z => negb (z =? 0)
  | VFloat f => negb (PrimFloat.eqb f 0%float)
  | VStr s => negb (String.eqb s EmptyString)
  | VList xs => match xs with [] => false | _ => true end
  | VDict kvs => match kvs with [] => false | _ => true end
  end.

(** [v == s] for a string [s]: only an equal string compares equal. *)
Definition eq_str (v : Value) (s : string) : bool :=
  match v with
  | VStr s' => String.eqb s' s
  | _ => false
  end.

(** [f == z] for a float and an integer: Python compares the exact
    mathematical values. *)
Definition float_eq_Z (f : float) (z : Z) : bool :=
  match FloatOps.Prim2SF f with
  | SpecFloat.S754_zero _ => z =? 0
  | SpecFloat.S754_finite sign m e =>
      let signed (n : Z) := if sign then - n else n in
      if 0 <=? e then z =? signed (Z.pos m * 2 ^ e)
      else if Z.pos m mod 2 ^ (- e) =? 0
           then z =? signed (Z.pos m / 2 ^ (- e))
           else false
  | _ => false
  end.

(** [a == b].  Booleans are the integers 0 and 1; lists compare element by
    element; dictionaries compare as maps, whatever their order. *)
Fixpoint py_eqb (a b : Value) {struct a} : bool :=
  match a with
  | VNone => match b with VNone => true | _ => false end
  | VBool x =>
      match b with
      | VBool y => Bool.eqb x y
      | VInt y => Z.b2z x =? y
      | VFloat y => float_eq_Z y (Z.b2z x)
      | _ => false
      end
  | VInt x =>
      match b with
      | VBool y => x =? Z.b2z y
      | VInt y => x =? y
      | VFloat y => float_eq_Z y x
      | _ => false
      end
  | VFloat x =>
      match b with
      | VBool y => float_eq_Z x (Z.b2z y)
      | VInt y => float_eq_Z x y
      | VFloat y => PrimFloat.eqb x y
      | _ => false
      end
  | VStr x => match b with VStr y => String.eqb x y | _ => false end
  | VList xs =>
      match b with
      | VList ys =>
          (fix go (l : list Value) (r : list Value) {struct l} : bool :=
             match l, r with
             | [], [] => true
             | x :: l', y :: r' => py_eqb x y && go l' r'
             | _, _ => false
             end) xs ys
      | _ => false
      end
  | VDict d1 =>
      match b with
      | VDict d2 =>
          (Nat.eqb (List.length d1) (List.length d2) &&
           (fix go (l : list (string * Value)) {struct l} : bool :=
              match l with
              | [] => true
              | (k, v) :: l' =>
                  match dict_get d2 k with
                  | Some v' => py_eqb v v' && go l'
                  | None => false
                  end
              end) d1)%bool
      | _ => false
      end
  end.

(** *** Exceptions *)

(** The exception classes the modelled code raises or tells apart.  All of
    them derive from [Exception]: they are what an [except Exception]
    clause catches. *)
Inductive ExcClass : Type :=
| ValueError
| TypeError
| KeyError
| AttributeError
| OverflowError
| OSError
| SMTPAuthenticationError
| SMTPConnectError
| SMTPException
| HTTPException (status_code : Z)
| OtherException (name : string).

(** An exception instance: its class and [str(e)]. *)
Record Exc : Type := mkExc { exc_class : ExcClass; exc_str : string }.

Inductive Outcome (A : Type) : Type :=
| Returns (a : A)
| Raises (e : Exc).
Arguments Returns {A} a.
Arguments Raises {A} e.

(** *** The state-and-exception monad *)

(** A computation over a mutable world [S]: it ends by returning or by
    raising, and in both cases leaves the world as mutated so far. *)
Definition M (S A : Type) : Type := S -> Outcome A * S.

Definition ret {S A} (a : A) : M S A := fun s => (Returns a, s).

Definition bind {S A B} (c : M S A) (k : A -> M S B) : M S B :=
  fun s =>
    match c s with
    | (Returns a, s') => k a s'
    | (Raises e, s') => (Raises e, s')
    end.

Definition raise {S A} (e : Exc) : M S A := fun s => (Raises e, s).

(** [try: body / except Exception as e: handler(e)]. *)
Definition try_except {S A} (body : M S A) (handler : Exc -> M S A) : M S A :=
  fun s =>
    match body s with
    | (Returns a, s') => (Returns a, s')
    | (Raises e, s') => handler e s'
    end.

Definition get {S} : M S S := fun s => (Returns s, s).
Definition put {S} (s : S) : M S unit := fun _ => (Returns tt, s).
Definition modify {S} (f : S -> S) : M S unit := fun s => (Returns tt, f s).

(** An outcome already decided, run without touching the world. *)
Definition lift {S A} (o : Outcome A) : M S A := fun s => (o, s).

End Py.
Export Py.

Declare Scope py_scope.
Delimit Scope py_scope with py.
Notation "x <- c ;; k" := (bind c (fun x => k))
  (at level 100, c at next level, right associativity) : py_scope.
Notation "c ;;; k" := (bind c (fun _ => k))
  (at level 100, right associativity) : py_scope.
Local Open Scope py_scope.

(** The for loop [for x in xs: acc = body(acc, x)], stopping at the first
    exception. *)
Fixpoint for_each {S A B} (xs : list A) (acc : B) (body : B -> A -> M S B)
  : M S B :=
  match xs with
  | [] => ret acc
  | x :: xs' => acc' <- body acc x ;; for_each xs' acc' body
  end.

(* ===================================================================== *)
(** ** src/mcp/base_tool.py *)
(* ===================================================================== *)

Module BaseTool.

(** [BaseMCPTool]: a name and the abstract [execute], which receives the
    keyword arguments and runs over the tool's world (its own fields and
    whatever it talks to). *)
Record BaseMCPTool (W : Type) : Type := mkTool {
  name : string;
  execute : Dict -> M W Value
}.
Arguments mkTool {W} name execute.
Arguments name {W} _.
Arguments execute {W} _ _ _.

(** The two envelopes [safe_execute] builds. *)
Definition success_envelope (tool_name : string) (result : Value) : Value :=
  VDict [("success", VBool true); ("result", result);
         ("tool_name", VStr tool_name)].

Definition failure_envelope (tool_name : string) (e : Exc) : Value :=
  VDict [("success", VBool false); ("error", VStr (exc_str e));
         ("tool_name", VStr tool_name)].

(** [BaseMCPTool.safe_execute]; the logger calls have no effect on the
    result and are left out. *)
Definition safe_execute {W} (self : BaseMCPTool W) (kwargs : Dict) : M W Value :=
  try_except
    (result <- execute self kwargs ;;
     ret (success_envelope (name self) result))
    (fun e => ret (failure_envelope (name self) e)).

End BaseTool.

(* ===================================================================== *)
(** ** Subscripting and attribute access on arbitrary values *)
(* ===================================================================== *)

Module PyOps.

(** [repr] of a string key as it appears in [str(KeyError(k))]. *)
Definition quote (k : string) : string := "'" ++ k ++ "'".

(** [v[k]] for a string key [k]. *)
Definition subscript (v : Value) (k : string) : Outcome Value :=
  match v with
  | VDict d =>
      match dict_get d k with
      | Some x => Returns x
      | None => Raises (mkExc KeyError (quote k))
      end
  | _ => Raises (mkExc TypeError "object is not subscriptable with a string key")
  end.

(** [v.get(k, default)]: only dictionaries have [get]. *)
Definition py_get (v : Value) (k : string) (dflt : Value) : Outcome Value :=
  match v with
  | VDict d => Returns (dict_get_default d k dflt)
  | _ => Raises (mkExc AttributeError "object has no attribute 'get'")
  end.

End PyOps.
Export PyOps.

(* ===================================================================== *)
(** ** Text *)
(* ===================================================================== *)

Module StrOps.

(** [sub in s]. *)
Fixpoint contains (s sub : string) : bool :=
  (String.prefix sub s ||
   match s with
   | EmptyString => false
   | String _ s' => contains s' sub
   end)%bool.

(** [any(k in s for k in keywords)]. *)
Definition contains_any (s : string) (keywords : list string) : bool :=
  existsb (contains s) keywords.

(** [s] without its first [n] characters. *)
Fixpoint drop (n : nat) (s : string) : string :=
  match n, s with
  | O, _ => s
  | S n', String _ s' => drop n' s'
  | S _, EmptyString => EmptyString
  end.

(** [s.split(sep)] for a one-character separator. *)
Fixpoint split (sep : ascii) (s : string) : list string :=
  match s with
  | EmptyString => [EmptyString]
  | String c s' =>
      if Ascii.eqb c sep then EmptyString :: split sep s'
      else
        match split sep s' with
        | [] => [String c EmptyString]
        | w :: ws => String c w :: ws
        end
  end.

(** [sep.join(parts)]. *)
Fixpoint join (sep : string) (parts : list string) : string :=
  match parts with
  | [] => EmptyString
  | [p] => p
  | p :: ps => p ++ sep ++ join sep ps
  end.

(** [str.lower] on ASCII text. *)
Definition ascii_lower_char (c : ascii) : ascii :=
  let n := nat_of_ascii c in
  if (andb (Nat.leb 65 n) (Nat.leb n 90)) then ascii_of_nat (n + 32) else c.

Fixpoint ascii_lower (s : string) : string :=
  match s with
  | EmptyString => EmptyString
  | String c s' => String (ascii_lower_char c) (ascii_lower s')
  end.

(** [str(z)] for an integer. *)
Definition str_of_Z (z : Z) : string :=
  DecimalString.NilZero.string_of_int (Z.to_int z).

(** [s.strip()] on text whose only whitespace is ASCII. *)
Definition is_space (c : ascii) : bool :=
  let n := nat_of_ascii c in
  ((Nat.leb 9 n && Nat.leb n 13) || Nat.eqb n 32 ||
   (Nat.leb 28 n && Nat.leb n 31))%bool.

Fixpoint lstrip (s : string) : string :=
  match s with
  | String c s' => if is_space c then lstrip s' else s
  | EmptyString => EmptyString
  end.

Fixpoint rstrip (s : string) : string :=
  match s with
  | EmptyString => EmptyString
  | String c s' =>
      match rstrip s' with
      | EmptyString => if is_space c then EmptyString else String c EmptyString
      | rest => String c rest
      end
  end.

Definition ascii_strip (s : string) : string := rstrip (lstrip s).

(** [f"{x:.3f}"]: the exact value of the float, rounded half-to-even to
    three decimals. *)
Definition format_3f (x : float) : string :=
  let render (sign : bool) (thousandths : Z) : string :=
    let frac := str_of_Z (thousandths mod 1000) in
    (if sign then "-" else EmptyString) ++
    str_of_Z (thousandths / 1000) ++ "." ++
    (match String.length frac with
     | 1%nat => "00" | 2%nat => "0" | _ => EmptyString
     end) ++ frac in
  match FloatOps.Prim2SF x with
  | SpecFloat.S754_zero sign => render sign 0
  | SpecFloat.S754_infinity sign => if sign then "-inf" else "inf"
  | SpecFloat.S754_nan => "nan"
  | SpecFloat.S754_finite sign m e =>
      if 0 <=? e then render sign (Z.pos m * 2 ^ e * 1000)
      else
        let den := 2 ^ (- e) in
        let q := (Z.pos m * 1000) / den in
        let r := (Z.pos m * 1000) mod den in
        let up :=
          match 2 * r ?= den with
          | Gt => true
          | Eq => Z.odd q
          | Lt => false
          end in
        render sign (if up then q + 1 else q)
  end.

(** [str(v)] for the scalars that are not floats; the other values do not
    occur where the examples format a value. *)
Definition str_scalar (v : Value) : string :=
  match v with
  | VStr s => s
  | VNone => "None"
  | VBool true => "True"
  | VBool false => "False"
  | VInt z => str_of_Z z
  | _ => EmptyString
  end.

End StrOps.
Export StrOps.

(* ===================================================================== *)
(** ** src/agents/workflow.py: the action-execution node *)
(* ===================================================================== *)

Module Workflow.

Section ActionExecution.

(** [str.lower], Unicode-aware in Python; any function will do here. *)
Variable lower : string -> string.

(** The world the agent's tools act on, and [KnowledgeAgent().execute_tool]. *)
Variable W : Type.
Variable agent_execute_tool : Value -> M W Value.

Definition sensitive_keys : list string :=
  ["password"; "sender_password"; "api_key"; "token"; "secret";
   "authorization"].

(** [k.lower() in {...}]. *)
Definition is_sensitive (k : string) : bool :=
  existsb (String.eqb (lower k)) sensitive_keys.

Definition mask : Value := VStr "***".

(** One turn of [for k, val in v.items()]: [redacted_val] stands for
    [_redact(val)], which only the branch of a key that is not sensitive
    uses. *)
Definition redact_item (out : Dict) (k : string) (redacted_val : Value) : Dict :=
  if is_sensitive k then dict_set out k mask
  else dict_set out k redacted_val.

(** The nested function [_redact]. *)
Fixpoint _redact (v : Value) : Value :=
  match v with
  | VDict kvs =>
      VDict (fold_left
               (fun out kv => redact_item out (fst kv) (_redact (snd kv)))
               kvs [])
  | VList xs => VList (map _redact xs)
  | _ => v
  end.

(** The key [k] is bound to [x] somewhere inside [v]: in [v] itself when
    it is a dictionary, or at any depth below it, through dictionary
    values and list elements. *)
Inductive occurs : Value -> string -> Value -> Prop :=
| occurs_here (d : Dict) k x :
    In (k, x) d -> occurs (VDict d) k x
| occurs_in_dict (d : Dict) k' v k x :
    In (k', v) d -> occurs v k x -> occurs (VDict d) k x
| occurs_in_list (xs : list Value) v k x :
    In v xs -> occurs v k x -> occurs (VList xs) k x.

(** [action_execution_node].  The state dictionary is mutated only by the
    last statements of the [try] body, none of which can raise, so the
    handler starts from the state the node was given. *)
Definition action_execution_node (state : Dict) : M W Dict :=
  try_except
    (intent <- lift (subscript (VDict state) "intent_analysis") ;;
     requires_tools <- lift (py_get intent "requires_tools" (VBool false)) ;;
     if truthy requires_tools then
       tool_result <- agent_execute_tool intent ;;
       success <- lift (subscript tool_result "success") ;;
       action <-
         (if truthy success then
            type <- lift (py_get intent "tool_category" (VStr "unknown")) ;;
            result <- lift (subscript tool_result "result") ;;
            tool_params <- lift (py_get tool_result "tool_params" (VDict [])) ;;
            ret (VDict [("type", type); ("status", VStr "completed");
                        ("result", result);
                        ("tool_params", _redact tool_params)])
          else
            type <- lift (py_get intent "tool_category" (VStr "unknown")) ;;
            error <- lift (subscript tool_result "error") ;;
            ret (VDict [("type", type); ("status", VStr "failed");
                        ("error", error)])) ;;
       let state1 := dict_set state "actions" (VList [action]) in
       if truthy success then
         ret (dict_set state1 "tool_result" tool_result)
       else
         ret (dict_remove state1 "tool_result")
     else
       ret (dict_set state "actions" (VList [])))
    (fun e =>
       let state1 := dict_set state "error" (VStr (exc_str e)) in
       ret (dict_set state1 "actions"
              (VList [VDict [("type", VStr "error");
                             ("status", VStr "failed");
                             ("error", VStr (exc_str e))]]))).

End ActionExecution.

End Workflow.

(* ===================================================================== *)
(** ** src/mcp/calendar_tools.py: CalendarEventTool *)
(* ===================================================================== *)

Module Calendar.

(** What one call of [datetime.now()] yields, as far as the tool uses it:
    [str(now.timestamp())] and [now.isoformat()]. *)
Record Instant : Type := mkInstant { timestamp : string; isoformat : string }.

(** The tool instance, [self.events], together with the clock it reads:
    the [n]-th call of [datetime.now()] returns [clock n]. *)
Record CalendarEventTool : Type := mkCalendar {
  events : list Dict;
  clock : nat -> Instant;
  ticks : nat
}.

Definition now : M CalendarEventTool Instant :=
  fun self =>
    (Returns (clock self (ticks self)),
     mkCalendar (events self) (clock self) (S (ticks self))).

Definition set_events (evs : list Dict) : M CalendarEventTool unit :=
  modify (fun self => mkCalendar evs (clock self) (ticks self)).

(** [str(n)] for a natural number. *)
Definition str_of_nat (n : nat) : string :=
  DecimalString.NilEmpty.string_of_uint (Nat.to_uint n).

(** [x or default]. *)
Definition or_default (x : option Value) (dflt : Value) : Value :=
  match x with
  | Some v => if truthy v then v else dflt
  | None => dflt
  end.

(** [next((e for e in events if e["id"] == event_id), None)], with the
    position of the event found: the object the later statements mutate or
    remove. *)
Fixpoint find_event (evs : list Dict) (event_id : Value) (i : nat)
  : Outcome (option (nat * Dict)) :=
  match evs with
  | [] => Returns None
  | e :: evs' =>
      match dict_get e "id" with
      | None => Raises (mkExc KeyError (quote "id"))
      | Some id =>
          if py_eqb id event_id then Returns (Some (i, e))
          else find_event evs' event_id (S i)
      end
  end.

(** [events.remove(event)] for the object at position [i]: the first
    element that is that object or compares equal to it goes. *)
Fixpoint list_remove (evs : list Dict) (event : Dict) (i : nat) (j : nat)
  : option (list Dict) :=
  match evs with
  | [] => None
  | e :: evs' =>
      if (Nat.eqb j i || py_eqb (VDict e) (VDict event))%bool then Some evs'
      else option_map (cons e) (list_remove evs' event i (S j))
  end.

(** Replace the element at position [i]. *)
Fixpoint list_update (evs : list Dict) (i : nat) (e : Dict) : list Dict :=
  match evs, i with
  | [], _ => []
  | _ :: evs', O => e :: evs'
  | x :: evs', S i' => x :: list_update evs' i' e
  end.

Section Tool.

(** The built-in [str], used to format values into error messages. *)
Variable str : Value -> string.

Definition _create_event (kwargs : Dict) : M CalendarEventTool Value :=
  self <- get ;;
  t1 <- now ;;
  let event_id :=
    "event_" ++ str_of_nat (List.length (events self) + 1) ++ "_" ++ timestamp t1 in
  t2 <- now ;;
  let event : Dict :=
    [("id", VStr event_id);
     ("title", dict_get_default kwargs "title" VNone);
     ("start_time", dict_get_default kwargs "start_time" VNone);
     ("end_time", dict_get_default kwargs "end_time" VNone);
     ("description", or_default (dict_get kwargs "description") (VStr EmptyString));
     ("location", or_default (dict_get kwargs "location") (VStr EmptyString));
     ("attendees", or_default (dict_get kwargs "attendees") (VList []));
     ("created_at", VStr (isoformat t2))] in
  set_events (events self ++ [event]) ;;;
  ret (VDict [("action", VStr "create"); ("event_id", VStr event_id);
              ("event", VDict event); ("status", VStr "created")]).

(** [event["start_time"].startswith(date_filter)]. *)
Definition startswith (v prefix : Value) : Outcome bool :=
  match v with
  | VStr s =>
      match prefix with
      | VStr p => Returns (String.prefix p s)
      | _ => Raises (mkExc TypeError "startswith first arg must be str")
      end
  | _ => Raises (mkExc AttributeError "object has no attribute 'startswith'")
  end.

Fixpoint filter_by_date (evs : list Dict) (date_filter : Value)
  : Outcome (list Dict) :=
  match evs with
  | [] => Returns []
  | e :: evs' =>
      match subscript (VDict e) "start_time" with
      | Raises x => Raises x
      | Returns st =>
          match startswith st date_filter with
          | Raises x => Raises x
          | Returns keep =>
              match filter_by_date evs' date_filter with
              | Raises x => Raises x
              | Returns rest => Returns (if keep then e :: rest else rest)
              end
          end
      end
  end.

Definition _list_events (kwargs : Dict) : M CalendarEventTool Value :=
  self <- get ;;
  let date_filter := dict_get_default kwargs "date_filter" VNone in
  evs <- (if truthy date_filter
          then lift (filter_by_date (events self) date_filter)
          else ret (events self)) ;;
  ret (VDict [("action", VStr "list");
              ("events", VList (map VDict evs));
              ("total_count", VInt (Z.of_nat (List.length evs)));
              ("date_filter", date_filter)]).

Definition not_found (event_id : Value) : Exc :=
  mkExc ValueError ("事件不存在: " ++ str event_id).

Definition updatable_fields : list string :=
  ["title"; "start_time"; "end_time"; "description"; "location"; "attendees"].

(** The loop over [updatable_fields]: the event after the assignments and
    the fields assigned, in order. *)
Fixpoint apply_updates (fields : list string) (kwargs : Dict) (event : Dict)
  : Dict * list string :=
  match fields with
  | [] => (event, [])
  | field :: fields' =>
      match dict_get kwargs field with
      | Some v =>
          let (event', updated) :=
            apply_updates fields' kwargs (dict_set event field v) in
          (event', field :: updated)
      | None => apply_updates fields' kwargs event
      end
  end.

Definition _update_event (event_id : Value) (kwargs : Dict)
  : M CalendarEventTool Value :=
  self <- get ;;
  found <- lift (find_event (events self) event_id 0) ;;
  match found with
  | None => raise (not_found event_id)
  | Some (i, event) =>
      if negb (truthy (VDict event)) then raise (not_found event_id)
      else
        let (event1, updated_fields) :=
          apply_updates updatable_fields kwargs event in
        t <- now ;;
        let event2 := dict_set event1 "updated_at" (VStr (isoformat t)) in
        set_events (list_update (events self) i event2) ;;;
        ret (VDict [("action", VStr "update"); ("event_id", event_id);
                    ("updated_fields", VList (map VStr updated_fields));
                    ("event", VDict event2); ("status", VStr "updated")])
  end.

Definition _delete_event (event_id : Value) (kwargs : Dict)
  : M CalendarEventTool Value :=
  self <- get ;;
  found <- lift (find_event (events self) event_id 0) ;;
  match found with
  | None => raise (not_found event_id)
  | Some (i, event) =>
      if negb (truthy (VDict event)) then raise (not_found event_id)
      else
        match list_remove (events self) event i 0 with
        | None => raise (mkExc ValueError "list.remove(x): x not in list")
        | Some evs' =>
            set_events evs' ;;;
            ret (VDict [("action", VStr "delete"); ("event_id", event_id);
                        ("status", VStr "deleted")])
        end
  end.

(** The first of [required] that [kwargs] lacks. *)
Fixpoint first_missing (required : list string) (kwargs : Dict)
  : option string :=
  match required with
  | [] => None
  | r :: required' =>
      if dict_has kwargs r then first_missing required' kwargs else Some r
  end.

(** [CalendarEventTool.execute(action, **kwargs)], called with the keyword
    arguments [params]: [action] is bound from them, the rest is [kwargs]. *)
Definition execute (params : Dict) : M CalendarEventTool Value :=
  match dict_get params "action" with
  | None =>
      raise (mkExc TypeError
               "execute() missing 1 required positional argument: 'action'")
  | Some action =>
      let kwargs := dict_remove params "action" in
      if eq_str action "create" then
        match first_missing ["title"; "start_time"; "end_time"] kwargs with
        | Some r =>
            raise (mkExc ValueError
                     ("Missing required parameter for create: " ++ r))
        | None => _create_event kwargs
        end
      else if eq_str action "list" then _list_events kwargs
      else if eq_str action "update" then
        match dict_get kwargs "event_id" with
        | None =>
            raise (mkExc ValueError
                     "Missing required parameter for update: event_id")
        | Some event_id => _update_event event_id (dict_remove kwargs "event_id")
        end
      else if eq_str action "delete" then
        match dict_get kwargs "event_id" with
        | None =>
            raise (mkExc ValueError
                     "Missing required parameter for delete: event_id")
        | Some event_id => _delete_event event_id (dict_remove kwargs "event_id")
        end
      else raise (mkExc ValueError ("不支持的操作: " ++ str action))
  end.

(** The tool as the framework sees it. *)
Definition calendar_event : BaseTool.BaseMCPTool CalendarEventTool :=
  BaseTool.mkTool "calendar_event" execute.

End Tool.

(** A fresh [CalendarEventTool()]. *)
Definition new (clock : nat -> Instant) : CalendarEventTool :=
  mkCalendar [] clock 0.

End Calendar.

(* ===================================================================== *)
(** ** src/rag/retriever.py: DocumentRetriever.retrieve_documents *)
(* ===================================================================== *)

Module Retriever.

(** One raw match as [VectorStore.search_similar] builds it. *)
Record SearchResult : Type := mkResult {
  content : string;
  metadata : Value;
  similarity_score : float;
  distance : float
}.

(** A request as the vector store receives it: query text, [n_results],
    [filter_dict]. *)
Definition Request : Type := (string * Z * Value)%type.

(** The vector store: how it answers a request, and the requests it has
    received so far. *)
Record VectorStore : Type := mkStore {
  answer : Request -> Outcome (list SearchResult);
  requests : list Request
}.

Definition search_similar (query : string) (n_results : Z) (filter_dict : Value)
  : M VectorStore (list SearchResult) :=
  fun store =>
    (answer store (query, n_results, filter_dict),
     mkStore (answer store) (requests store ++ [(query, n_results, filter_dict)])).

(** The slice [xs[:n]] for any integer [n]. *)
Definition slice_to {A} (xs : list A) (n : Z) : list A :=
  if 0 <=? n then firstn (Z.to_nat n) xs
  else firstn (List.length xs - Z.to_nat (- n)) xs.

Section Retrieve.

(** Built-ins: [str] of a metadata value, the format [:.3f], [str.strip]. *)
Variable str : Value -> string.
Variable format_3f : float -> string.
Variable strip : string -> string.

Definition boost_phrase : string := " 公司政策 员工福利 休假制度".

Definition enhance (query : string) : string :=
  if (contains query "年假" || contains query "休假" || contains query "假期")%bool
  then query ++ boost_phrase else query.

Definition make_filter (filter_category : option string) : Value :=
  match filter_category with
  | Some c => if truthy (VStr c) then VDict [("category", VStr c)] else VNone
  | None => VNone
  end.

(** The metadata of a match is a dictionary (the vector store may also
    hand back [None] for a chunk stored without metadata). *)
Definition has_metadata (result : SearchResult) : bool :=
  match metadata result with VDict _ => true | _ => false end.

(** [result["similarity_score"] >= min_similarity]. *)
Definition passes (min_similarity : float) (result : SearchResult) : bool :=
  PrimFloat.leb min_similarity (similarity_score result).

(** The log line written for each of the first five raw matches reads
    the metadata with [get]; it matters only in that it can raise. *)
Definition log_result (result : SearchResult) : Outcome unit :=
  match py_get (metadata result) "filename" (VStr "未知") with
  | Raises e => Raises e
  | Returns _ =>
      match py_get (metadata result) "category" (VStr "未知") with
      | Raises e => Raises e
      | Returns _ => Returns tt
      end
  end.

Fixpoint log_results (results : list SearchResult) : Outcome unit :=
  match results with
  | [] => Returns tt
  | r :: rs =>
      match log_result r with
      | Raises e => Raises e
      | Returns _ => log_results rs
      end
  end.

(** The labeled block built for one surviving match. *)
Definition enrich (result : SearchResult) : Outcome string :=
  match py_get (metadata result) "filename" (VStr "未知") with
  | Raises e => Raises e
  | Returns filename =>
      match py_get (metadata result) "category" (VStr "未知") with
      | Raises e => Raises e
      | Returns category =>
          Returns
            (strip
               (String "010" "文档来源: " ++ str filename ++
                String "010" "文档类别: " ++ str category ++
                String "010" "相似度: " ++ format_3f (similarity_score result) ++
                String "010" (String "010" "内容:") ++
                String "010" (content result) ++ String "010" EmptyString))
      end
  end.

Definition retrieve_documents (query : string) (n_results : Z)
    (filter_category : option string) (min_similarity : float)
  : M VectorStore (list string) :=
  try_except
    (let filter_dict := make_filter filter_category in
     let enhanced_query := enhance query in
     search_results <- search_similar enhanced_query (n_results * 4) filter_dict ;;
     let filtered_results := filter (passes min_similarity) search_results in
     lift (log_results (firstn 5 search_results)) ;;;
     for_each (slice_to filtered_results n_results) []
       (fun documents result =>
          enriched_content <- lift (enrich result) ;;
          ret (documents ++ [enriched_content])%list))
    (fun _ => ret []).

End Retrieve.

End Retriever.

(* ===================================================================== *)
(** ** src/api/routes.py: upload_document *)
(* ===================================================================== *)

Module Routes.

(** [settings], as far as the upload route reads it. *)
Record Settings : Type := mkSettings {
  max_file_size : Z;
  documents_path : string
}.

(** [config/settings.py]. *)
Definition settings : Settings :=
  mkSettings (10 * 1024 * 1024) "./data/documents".

(** The [UploadFile] of a request.  FastAPI declares both [filename] and
    [size] optional. *)
Record UploadFile : Type := mkUpload {
  filename : option string;
  size : option Z
}.

(** What the route touches outside itself: the identifier [uuid.uuid4()]
    will produce, how the calls to the file system and to [file.read()]
    end, the files written and the background tasks queued. *)
Record Server : Type := mkServer {
  next_uuid : string;
  mkdir_result : Outcome unit;
  read_result : Outcome string;
  write_result : Outcome unit;
  written : list (string * string);
  background_tasks : list string
}.

Record DocumentUploadResponse : Type := mkResponse {
  resp_filename : string;
  file_size : Z;
  upload_id : string;
  status : string
}.

Definition uuid4 : M Server string := fun srv => (Returns (next_uuid srv), srv).
Definition mkdir : M Server unit := fun srv => (mkdir_result srv, srv).
Definition read : M Server string := fun srv => (read_result srv, srv).

Definition write (path content : string) : M Server unit :=
  fun srv =>
    match write_result srv with
    | Returns _ =>
        (Returns tt,
         mkServer (next_uuid srv) (mkdir_result srv) (read_result srv)
           (write_result srv) (written srv ++ [(path, content)])
           (background_tasks srv))
    | Raises e => (Raises e, srv)
    end.

Definition add_task (path : string) : M Server unit :=
  modify (fun srv =>
            mkServer (next_uuid srv) (mkdir_result srv) (read_result srv)
              (write_result srv) (written srv)
              (background_tasks srv ++ [path])).

Section Upload.

(** Library behaviour: [Path(name).suffix], [str.lower], the path
    [Path(dir) / name] as text, [str(e)] of an [HTTPException] given its
    status code and detail, and the text [{allowed_extensions}] formats
    to (the order of a set is not fixed). *)
Variable suffix : string -> string.
Variable lower : string -> string.
Variable path_join : string -> string -> string.
Variable http_exception_str : Z -> string -> string.
Variable allowed_extensions_repr : string.

Variable config : Settings.

Definition http_exception (status_code : Z) (detail : string) : Exc :=
  mkExc (HTTPException status_code) (http_exception_str status_code detail).

Definition allowed_extensions : list string := [".pdf"; ".docx"; ".txt"].

(** [upload_document]: the whole body sits in [try], and the handler is
    [except Exception], which an [HTTPException] raised in the body also
    reaches. *)
Definition upload_document (file : UploadFile)
  : M Server DocumentUploadResponse :=
  try_except
    (name <- match filename file with
             | Some n => ret n
             | None =>
                 raise (mkExc TypeError
                          "expected str, bytes or os.PathLike object, not NoneType")
             end ;;
     let file_extension := lower (suffix name) in
     if negb (existsb (String.eqb file_extension) allowed_extensions) then
       raise (http_exception 400
                ("不支持的文件类型: " ++ file_extension ++ "。支持的类型: "
                 ++ allowed_extensions_repr))
     else
       sz <- match size file with
             | Some n => ret n
             | None =>
                 raise (mkExc TypeError
                          "'>' not supported between instances of 'NoneType' and 'int'")
             end ;;
       if sz >? max_file_size config then
         raise (http_exception 400
                  ("文件太大: " ++ str_of_Z sz ++ " 字节。最大允许: "
                   ++ str_of_Z (max_file_size config) ++ " 字节"))
       else
         upload_id <- uuid4 ;;
         let safe_filename := upload_id ++ "_" ++ name in
         let file_path := path_join (documents_path config) safe_filename in
         mkdir ;;;
         content <- read ;;
         write file_path content ;;;
         add_task file_path ;;;
         ret (mkResponse name (Z.of_nat (String.length content)) upload_id
                "uploaded"))
    (fun e => raise (http_exception 500 ("文档上传失败: " ++ exc_str e))).

(** The status code of the HTTP response FastAPI sends for the outcome of
    a route: 200 for a returned model, the code of a raised
    [HTTPException], 500 from the catch-all handler otherwise. *)
Definition status_code {A} (o : Outcome A) : Z :=
  match o with
  | Returns _ => 200
  | Raises e =>
      match exc_class e with
      | HTTPException code => code
      | _ => 500
      end
  end.

End Upload.

(** [PurePosixPath(path).name]: the last component of the path, empty
    components and [.] components not counting. *)
Definition path_name (path : string) : string :=
  last (filter (fun part => negb (String.eqb part EmptyString || String.eqb part "."))
          (split "/" path))
    EmptyString.

Fixpoint rfind_dot (s : string) (i : nat) (found : option nat) : option nat :=
  match s with
  | EmptyString => found
  | String c s' =>
      rfind_dot s' (S i) (if Ascii.eqb c "." then Some i else found)
  end.

(** [PurePosixPath(path).suffix]: the part of the name from its last dot
    on, unless that dot starts or ends the name. *)
Definition posix_suffix (path : string) : string :=
  let name := path_name path in
  match rfind_dot name 0 None with
  | Some i =>
      if (Nat.ltb 0 i && Nat.ltb i (String.length name - 1))%bool
      then drop i name else EmptyString
  | None => EmptyString
  end.

(** The components [pathlib] keeps of a path: the texts between its
    slashes, without the empty ones and the single dots. *)
Definition path_parts (path : string) : list string :=
  filter (fun part =>
            negb (String.eqb part EmptyString || String.eqb part ".")%bool)
    (split "/" path).

(** The root of a path: one slash, or two when it starts with exactly
    two. *)
Definition path_root (path : string) : string :=
  if String.prefix "///" path then "/"
  else if String.prefix "//" path then "//"
  else if String.prefix "/" path then "/"
  else EmptyString.

Definition path_text (root : string) (parts : list string) : string :=
  match parts with
  | [] => if String.eqb root EmptyString then "." else root
  | _ => root ++ join "/" parts
  end.

(** [str(Path(dir) / name)]: an absolute [name] replaces [dir]. *)
Definition posix_join (dir name : string) : string :=
  if String.prefix "/" name then path_text (path_root name) (path_parts name)
  else path_text (path_root dir) (path_parts dir ++ path_parts name).

(** [str(e)] of Starlette's [HTTPException]. *)
Definition starlette_str (status_code : Z) (detail : string) : string :=
  str_of_Z status_code ++ ": " ++ detail.

End Routes.

(* ===================================================================== *)
(** ** src/mcp/email_tools.py: EmailSendTool *)
(* ===================================================================== *)

Module Email.

(** The arguments of [EmailSendTool.execute] as a call binds them: any
    values, whatever the annotations say; [cc_addresses] is [None] when
    the call does not give it. *)
Record SendArgs : Type := mkArgs {
  to_addresses : Value;
  subject : Value;
  body : Value;
  sender_email : Value;
  sender_password : Value;
  cc_addresses : Value
}.

(** The message under construction: its headers in the order set, with
    the values as given, and the body its text part was made from. *)
Record Message : Type := mkMessage {
  headers : list (string * Value);
  payload : Value
}.

(** [msg.get(name)]: header names compare without regard to case. *)
Fixpoint msg_get (hs : list (string * Value)) (name : string) : option Value :=
  match hs with
  | [] => None
  | (h, v) :: hs' =>
      if String.eqb (ascii_lower h) (ascii_lower name) then Some v
      else msg_get hs' name
  end.

(** The mail libraries as the tool meets them: how [MIMEText] and each
    call into [ssl] and [smtplib] ends, the rendering of a message, and
    the mails accepted by the server so far. *)
Record Smtp : Type := mkSmtp {
  mime_text : Value -> Outcome unit;
  create_default_context : Outcome unit;
  connect : string -> Z -> Outcome unit;
  starttls : Outcome unit;
  login : Value -> Value -> Outcome unit;
  as_string : Message -> Outcome string;
  sendmail : Value -> Value -> string -> Outcome unit;
  quit : Outcome unit;
  delivered : list (Value * Value * string)
}.

Definition call {A} (f : Smtp -> Outcome A) : M Smtp A := fun net => (f net, net).

Definition server_sendmail (sender recipients : Value) (text : string)
  : M Smtp unit :=
  fun net =>
    match sendmail net sender recipients text with
    | Returns _ =>
        (Returns tt,
         mkSmtp (mime_text net) (create_default_context net) (connect net)
           (starttls net) (login net) (as_string net) (sendmail net) (quit net)
           (delivered net ++ [(sender, recipients, text)]))
    | Raises e => (Raises e, net)
    end.

(** [try: server.quit() / except: pass]. *)
Definition quit_quietly : M Smtp unit :=
  try_except (call quit) (fun _ => ret tt).

(** [xs or []]. *)
Definition or_empty (xs : Value) : Value :=
  if truthy xs then xs else VList [].

(** [type(v).__name__]. *)
Definition type_name (v : Value) : string :=
  match v with
  | VNone => "NoneType"
  | VBool _ => "bool"
  | VInt _ => "int"
  | VFloat _ => "float"
  | VStr _ => "str"
  | VList _ => "list"
  | VDict _ => "dict"
  end.

(** The characters of a text in UTF-8: each byte that starts a character
    with the continuation bytes after it. *)
Definition continuation (c : ascii) : bool :=
  let n := nat_of_ascii c in (Nat.leb 128 n && Nat.ltb n 192)%bool.

Definition starts_with_continuation (s : string) : bool :=
  match s with
  | String c _ => continuation c
  | EmptyString => false
  end.

Fixpoint characters (s : string) : list string :=
  match s with
  | EmptyString => []
  | String c s' =>
      match characters s' with
      | chunk :: rest =>
          if starts_with_continuation s' then String c chunk :: rest
          else String c EmptyString :: chunk :: rest
      | [] => [String c EmptyString]
      end
  end.

(** The items of a sequence that [str.join] accepts: texts only. *)
Fixpoint texts (items : list Value) (i : nat) : Outcome (list string) :=
  match items with
  | [] => Returns []
  | VStr s :: items' =>
      match texts items' (S i) with
      | Returns l => Returns (s :: l)
      | Raises e => Raises e
      end
  | v :: _ =>
      Raises (mkExc TypeError
                ("sequence item " ++ Calendar.str_of_nat i ++
                 ": expected str instance, " ++ type_name v ++ " found"))
  end.

(** [sep.join(v)]: over the elements of a list, the characters of a
    text, the keys of a dictionary. *)
Definition str_join (sep : string) (v : Value) : Outcome string :=
  match v with
  | VList items =>
      match texts items 0 with
      | Returns l => Returns (join sep l)
      | Raises e => Raises e
      end
  | VStr s => Returns (join sep (characters s))
  | VDict d => Returns (join sep (map fst d))
  | _ => Raises (mkExc TypeError "can only join an iterable")
  end.

(** [to_addresses + (cc_addresses or [])], for operands [str.join] has
    accepted (lists, texts and dictionaries): two lists and two texts
    concatenate, anything else is a [TypeError]. *)
Definition all_recipients (to cc : Value) : Outcome Value :=
  match to, or_empty cc with
  | VList a, VList b => Returns (VList (a ++ b))
  | VStr a, VStr b => Returns (VStr (a ++ b))
  | a, b =>
      Raises (mkExc TypeError
                ("unsupported operand type(s) for +: '" ++ type_name a ++
                 "' and '" ++ type_name b ++ "'"))
  end.

(** The statements of [execute] before its [try]: the message is built,
    and what [join] or [MIMEText] raises leaves [execute]. *)
Definition build_message (args : SendArgs) : M Smtp Message :=
  to_header <- lift (str_join ", " (to_addresses args)) ;;
  let msg0 :=
    [("From", sender_email args);
     ("To", VStr to_header);
     ("Subject", subject args)] in
  msg1 <-
    (if truthy (cc_addresses args)
     then cc_header <- lift (str_join ", " (cc_addresses args)) ;;
          ret (msg0 ++ [("Cc", VStr cc_header)])%list
     else ret msg0) ;;
  call (fun net => mime_text net (body args)) ;;;
  ret (mkMessage msg1 (body args)).

Definition option_value (x : option Value) : Value :=
  match x with Some v => v | None => VNone end.

(** The [try] statement of [execute].  The SMTP port is the literal 587
    of the source, whatever port the tool was constructed with. *)
Definition send (smtp_server : string) (args : SendArgs) (msg : Message)
  : M Smtp Value :=
  try_except
    (call create_default_context ;;;
     call (fun net => connect net smtp_server 587) ;;;
     call starttls ;;;
     logged_in <-
       try_except
         (call (fun net => login net (sender_email args) (sender_password args)) ;;;
          ret true)
         (fun e => quit_quietly ;;; ret false) ;;
     if negb logged_in then ret (VBool false)
     else
       recipients <-
         lift (all_recipients (to_addresses args) (cc_addresses args)) ;;
       try_except
         (text <- call (fun net => as_string net msg) ;;
          server_sendmail (sender_email args) recipients text ;;;
          let result :=
            VDict [("status", VStr "sent");
                   ("to_addresses", to_addresses args);
                   ("cc_addresses", or_empty (cc_addresses args));
                   ("subject", subject args);
                   ("message_id", option_value (msg_get (headers msg) "Message-ID"))] in
          quit_quietly ;;;
          ret result)
         (fun send_error => quit_quietly ;;; ret (VBool false)))
    (fun e => ret (VBool false)).

(** [EmailSendTool.execute]. *)
Definition execute (smtp_server : string) (args : SendArgs) : M Smtp Value :=
  msg <- build_message args ;;
  send smtp_server args msg.

(** Whether an outcome is an exception. *)
Definition raises {A} (o : Outcome A) : bool :=
  match o with Raises _ => true | Returns _ => false end.

(** The message [execute] builds from its arguments, when it can. *)
Definition message_of (net : Smtp) (args : SendArgs) : Outcome Message :=
  fst (build_message args net).

(** A send fails when one of the statements of the [try] raises:
    building the TLS context, connecting, STARTTLS, the login, adding
    the copies to the recipients, rendering the message, or handing it
    to the server. *)
Definition send_fails (smtp_server : string) (args : SendArgs) (msg : Message)
    (net : Smtp) : bool :=
  (raises (create_default_context net) ||
   raises (connect net smtp_server 587) ||
   raises (starttls net) ||
   raises (login net (sender_email args) (sender_password args)) ||
   raises (all_recipients (to_addresses args) (cc_addresses args)) ||
   raises (as_string net msg) ||
   match all_recipients (to_addresses args) (cc_addresses args),
         as_string net msg with
   | Returns recipients, Returns text =>
       raises (sendmail net (sender_email args) recipients text)
   | _, _ => false
   end)%bool.

(** The result map of a successful send. *)
Definition sent_result (args : SendArgs) : Value :=
  VDict [("status", VStr "sent");
         ("to_addresses", to_addresses args);
         ("cc_addresses", or_empty (cc_addresses args));
         ("subject", subject args);
         ("message_id", VNone)].

(** The keyword arguments of a call bound to the parameters of
    [execute].  The keywords are taken in the order of the mapping: one
    that names no parameter, or names [self], ends the call; then every
    parameter without a default must have a value.  The values
    themselves are not looked at. *)
Definition parameter_names : list string :=
  ["to_addresses"; "subject"; "body"; "sender_email"; "sender_password";
   "cc_addresses"].

Definition required_names : list string :=
  ["to_addresses"; "subject"; "body"; "sender_email"; "sender_password"].

Definition unexpected_keyword (name : string) : Exc :=
  mkExc TypeError
    (if String.eqb name "self"
     then "EmailSendTool.execute() got multiple values for argument 'self'"
     else "EmailSendTool.execute() got an unexpected keyword argument '"
          ++ name ++ "'").

(** ['a'], ['a' and 'b'], ['a', 'b', and 'c']. *)
Definition listed (names : list string) : string :=
  match names with
  | [] => EmptyString
  | [a] => quote a
  | [a; b] => quote a ++ " and " ++ quote b
  | a :: rest =>
      (fix commas (names : list string) : string :=
         match names with
         | [] => EmptyString
         | [z] => "and " ++ quote z
         | x :: names' => quote x ++ ", " ++ commas names'
         end) (a :: rest)
  end.

Definition missing_arguments (names : list string) : Exc :=
  mkExc TypeError
    ("EmailSendTool.execute() missing " ++
     Calendar.str_of_nat (List.length names) ++
     " required positional argument" ++
     (match names with [_] => EmptyString | _ => "s" end) ++
     ": " ++ listed names).

Definition bind_arguments (kwargs : Dict) : Outcome SendArgs :=
  match find (fun kv => negb (existsb (String.eqb (fst kv)) parameter_names))
          kwargs with
  | Some (name, _) => Raises (unexpected_keyword name)
  | None =>
      match filter (fun name => negb (dict_has kwargs name)) required_names with
      | [] =>
          Returns
            (mkArgs (dict_get_default kwargs "to_addresses" VNone)
               (dict_get_default kwargs "subject" VNone)
               (dict_get_default kwargs "body" VNone)
               (dict_get_default kwargs "sender_email" VNone)
               (dict_get_default kwargs "sender_password" VNone)
               (dict_get_default kwargs "cc_addresses" VNone))
      | missing => Raises (missing_arguments missing)
      end
  end.

(** The tool as the framework sees it: [self.execute] called with the
    keyword arguments. *)
Definition email_send (smtp_server : string) : BaseTool.BaseMCPTool Smtp :=
  BaseTool.mkTool "email_send"
    (fun kwargs =>
       args <- lift (bind_arguments kwargs) ;;
       execute smtp_server args).

End Email.

(* ===================================================================== *)
(** ** The parts of [datetime] and [re] the agent uses *)
(* ===================================================================== *)

Module Datetime.

(** A naive [datetime]: the proleptic Gregorian ordinal of its date
    ([date.toordinal()], day 1 is 0001-01-01) and its time of day. *)
Record datetime : Type := mkDatetime {
  ordinal : Z;
  hour : Z;
  minute : Z;
  second : Z;
  microsecond : Z
}.

(** [date.max.toordinal()]. *)
Definition MAXORDINAL : Z := 3652059.

Definition out_of_range : Exc := mkExc OverflowError "date value out of range".

Definition check_ordinal (dt : datetime) : Outcome datetime :=
  if ((1 <=? ordinal dt) && (ordinal dt <=? MAXORDINAL))%bool
  then Returns dt else Raises out_of_range.

(** [dt + timedelta(days=d, hours=h)]. *)
Definition add (dt : datetime) (days hours : Z) : Outcome datetime :=
  let secs := hour dt * 3600 + minute dt * 60 + second dt + hours * 3600 in
  let day := ordinal dt + days + secs / 86400 in
  let rest := secs mod 86400 in
  check_ordinal
    (mkDatetime day (rest / 3600) (rest mod 3600 / 60) (rest mod 60)
       (microsecond dt)).

(** [dt.replace(hour=h, minute=m, second=0, microsecond=0)]. *)
Definition replace_time (dt : datetime) (h m : Z) : Outcome datetime :=
  if negb ((0 <=? h) && (h <=? 23))%bool
  then Raises (mkExc ValueError "hour must be in 0..23")
  else if negb ((0 <=? m) && (m <=? 59))%bool
  then Raises (mkExc ValueError "minute must be in 0..59")
  else Returns (mkDatetime (ordinal dt) h m 0 0).

Definition DAYS_IN_MONTH (month : Z) : Z :=
  match month with
  | 1 => 31 | 2 => 28 | 3 => 31 | 4 => 30 | 5 => 31 | 6 => 30
  | 7 => 31 | 8 => 31 | 9 => 30 | 10 => 31 | 11 => 30 | _ => 31
  end.

Definition DAYS_BEFORE_MONTH (month : Z) : Z :=
  match month with
  | 1 => 0 | 2 => 31 | 3 => 59 | 4 => 90 | 5 => 120 | 6 => 151
  | 7 => 181 | 8 => 212 | 9 => 243 | 10 => 273 | 11 => 304 | _ => 334
  end.

(** CPython's [_ord2ymd]: year, month and day of an ordinal. *)
Definition ord2ymd (n0 : Z) : Z * Z * Z :=
  let n := n0 - 1 in
  let n400 := n / 146097 in
  let n := n mod 146097 in
  let year := n400 * 400 + 1 in
  let n100 := n / 36524 in
  let n := n mod 36524 in
  let n4 := n / 1461 in
  let n := n mod 1461 in
  let n1 := n / 365 in
  let n := n mod 365 in
  let year := year + n100 * 100 + n4 * 4 + n1 in
  if ((n1 =? 4) || (n100 =? 4))%bool then (year - 1, 12, 31)
  else
    let leapyear := ((n1 =? 3) && (negb (n4 =? 24) || (n100 =? 3)))%bool in
    let month := Z.shiftr (n + 50) 5 in
    let preceding :=
      DAYS_BEFORE_MONTH month + Z.b2z ((2 <? month) && leapyear)%bool in
    if n <? preceding then
      let month := month - 1 in
      let preceding :=
        preceding - (DAYS_IN_MONTH month + Z.b2z ((month =? 2) && leapyear)%bool) in
      (year, month, n - preceding + 1)
    else (year, month, n - preceding + 1).

(** A number printed in at least [width] digits. *)
Definition zero_pad (width : nat) (z : Z) : string :=
  let digits := str_of_Z z in
  let fix zeros (k : nat) : string :=
    match k with O => EmptyString | S k' => String "0" (zeros k') end in
  zeros (width - String.length digits)%nat ++ digits.

(** [dt.strftime("%Y-%m-%dT%H:%M:%S")]. *)
Definition strftime (dt : datetime) : string :=
  let '(y, m, d) := ord2ymd (ordinal dt) in
  zero_pad 4 y ++ "-" ++ zero_pad 2 m ++ "-" ++ zero_pad 2 d ++ "T" ++
  zero_pad 2 (hour dt) ++ ":" ++ zero_pad 2 (minute dt) ++ ":" ++
  zero_pad 2 (second dt).

End Datetime.

Module Regex.

(** The fragment of regular expressions the agent's time patterns are
    written in.  Groups are numbered in the order they close, which for
    groups that do not nest is the order they open. *)
Inductive regex : Type :=
| Lit (text : string)
| Digit
| Cat (r1 r2 : regex)
| Rep (r : regex) (lo hi : nat)
| Group (r : regex).

Section Matching.

(** [\d]: the value of the decimal digit at the front of the text, and
    the text after it. *)
Variable digit_at : string -> option (Z * string).

(** What a match remembers: the text of its groups. *)
Definition Captures : Type := list string.

(** The text consumed between [before] and its suffix [after]. *)
Definition consumed (before after : string) : string :=
  String.substring 0 (String.length before - String.length after)%nat before.

(** Match [r] at the front of [s], then continue with [k]; greedy, with
    backtracking into [k]'s failure. *)
Fixpoint match_here {R} (r : regex) (s : string) (caps : Captures)
    (k : string -> Captures -> option R) {struct r} : option R :=
  match r with
  | Lit text =>
      if String.prefix text s then k (drop (String.length text) s) caps
      else None
  | Digit =>
      match digit_at s with
      | Some (_, rest) => k rest caps
      | None => None
      end
  | Cat r1 r2 =>
      match_here r1 s caps (fun s' caps' => match_here r2 s' caps' k)
  | Rep r' lo hi =>
      (fix rep (lo hi : nat) (s : string) (caps : Captures) {struct hi}
         : option R :=
         match hi with
         | O => match lo with O => k s caps | S _ => None end
         | S hi' =>
             match match_here r' s caps
                     (fun s' caps' => rep (Nat.pred lo) hi' s' caps') with
             | Some x => Some x
             | None => match lo with O => k s caps | S _ => None end
             end
         end) lo hi s caps
  | Group r' =>
      match_here r' s caps
        (fun s' caps' => k s' (caps' ++ [consumed s s'])%list)
  end.

(** [re.search(r, s)]: the leftmost match, as the groups it captured. *)
Fixpoint search (r : regex) (s : string) : option Captures :=
  match match_here r s [] (fun _ caps => Some caps) with
  | Some caps => Some caps
  | None =>
      match s with
      | EmptyString => None
      | String _ s' => search r s'
      end
  end.

(** [int(text)] for a text of decimal digits. *)
Fixpoint int_digits (fuel : nat) (text : string) (acc : Z) : Outcome Z :=
  match fuel with
  | O => Returns acc
  | S fuel' =>
      match text with
      | EmptyString => Returns acc
      | _ =>
          match digit_at text with
          | Some (d, rest) => int_digits fuel' rest (acc * 10 + d)
          | None => Raises (mkExc ValueError "invalid literal for int()")
          end
      end
  end.

Definition int (text : string) : Outcome Z :=
  match text with
  | EmptyString => Raises (mkExc ValueError "invalid literal for int()")
  | _ => int_digits (String.length text) text 0
  end.

(** [int(m.group(i))]. *)
Definition int_group (m : Captures) (i : nat) : Outcome Z :=
  match nth_error m (i - 1)%nat with
  | Some text => int text
  | None => Raises (mkExc (OtherException "IndexError") "no such group")
  end.

End Matching.

(** [\d] on ASCII text. *)
Definition ascii_digit_at (s : string) : option (Z * string) :=
  match s with
  | String c rest =>
      let n := nat_of_ascii c in
      if (Nat.leb 48 n && Nat.leb n 57)%bool
      then Some (Z.of_nat (n - 48), rest) else None
  | EmptyString => None
  end.

End Regex.

(* ===================================================================== *)
(** ** src/agents/knowledge_agent.py: parameter extraction and the
       composite executor *)
(* ===================================================================== *)

Module Agent.

Import Datetime Regex.

(** [settings], as far as the agent reads it. *)
Record Settings : Type := mkSettings {
  email_sender : string;
  email_password : string;
  default_recipient : string
}.

(** A tool collection ([FileTools], [EmailTools], [CalendarTools]): the
    name of its class, the words its [execute_tool] opens the
    unknown-tool message with, and its tools by name. *)
Record ToolCollection (W : Type) : Type := mkCollection {
  class_name : string;
  unknown_tool : string;
  tools : list (string * BaseTool.BaseMCPTool W)
}.
Arguments mkCollection {W} class_name unknown_tool tools.
Arguments class_name {W} _.
Arguments unknown_tool {W} _.
Arguments tools {W} _.

(** Lookup in a dictionary keyed by strings. *)
Fixpoint lookup {A} (k : string) (m : list (string * A)) : option A :=
  match m with
  | [] => None
  | (k', a) :: m' => if String.eqb k' k then Some a else lookup k m'
  end.

(** Sequencing of outcomes. *)
Definition and_then {A B} (o : Outcome A) (k : A -> Outcome B) : Outcome B :=
  match o with
  | Returns a => k a
  | Raises e => Raises e
  end.

(** [v.items()]. *)
Definition py_items (v : Value) : Outcome Dict :=
  match v with
  | VDict d => Returns d
  | _ => Raises (mkExc AttributeError "object has no attribute 'items'")
  end.

(** [v.copy()]: a shallow copy, which as a value is [v] itself. *)
Definition py_copy (v : Value) : Outcome Value :=
  match v with
  | VDict _ | VList _ => Returns v
  | _ => Raises (mkExc AttributeError "object has no attribute 'copy'")
  end.

(** [for x in v]: the elements a value iterates over. *)
Definition py_iter (v : Value) : Outcome (list Value) :=
  match v with
  | VList xs => Returns xs
  | VDict d => Returns (map (fun kv => VStr (fst kv)) d)
  | VStr s => Returns (map (fun c => VStr (String c EmptyString)) (list_ascii_of_string s))
  | _ => Raises (mkExc TypeError "object is not iterable")
  end.

Definition is_dict (v : Value) : bool :=
  match v with VDict _ => true | _ => false end.

Definition is_list (v : Value) : bool :=
  match v with VList _ => true | _ => false end.

(** [v in (None, '', "__AUTO__")]: [None], the empty string or the
    auto sentinel. *)
Definition is_auto (v : Value) : bool :=
  (py_eqb v VNone || eq_str v EmptyString || eq_str v "__AUTO__")%bool.

(** One entry of [time_patterns]: the pattern as written, the pattern as
    compiled, and the hour its lambda computes from a match. *)
Record TimePattern : Type := mkPattern {
  source : string;
  compiled : regex;
  extractor : Captures -> Outcome Z
}.

(** The pattern the reply of the model is searched with: an opening
    brace, then characters that are no braces and groups of an opening
    brace, characters that are no braces and a closing brace, then a
    closing brace.  [object_body] matches it from the character after
    the opening brace on and gives the text up to the brace that closes
    it; [inner] says that a brace opened inside is not closed yet.  A
    second brace opening inside, or the end of the text, leaves no match
    from this opening brace. *)
Fixpoint object_body (inner : bool) (s : string) : option string :=
  match s with
  | EmptyString => None
  | String c s' =>
      if Ascii.eqb c "{" then
        if inner then None else option_map (String c) (object_body true s')
      else if Ascii.eqb c "}" then
        if inner then option_map (String c) (object_body false s')
        else Some (String c EmptyString)
      else option_map (String c) (object_body inner s')
  end.

(** The leftmost match of that pattern in a text. *)
Fixpoint nested_object (text : string) : option string :=
  match text with
  | EmptyString => None
  | String c rest =>
      if Ascii.eqb c "{" then
        match object_body false rest with
        | Some body => Some (String c body)
        | None => nested_object rest
        end
      else nested_object rest
  end.

Section KnowledgeAgent.

(** The world the agent runs in: the model behind the completion API,
    the clock, the state of the tools and of what they talk to. *)
Variable W : Type.

(** Built-ins: [str.strip], the decimal digits [\d] matches, [str]. *)
Variable strip : string -> string.
Variable digit_at : string -> option (Z * string).
Variable str : Value -> string.

Variable settings : Settings.

(** [datetime.now()]. *)
Variable now : M W datetime.

(** The completion call of [_intelligent_parameter_extraction], for a
    query and a category: the [content] of the model's response, or what
    the call raises ([ValueError] after a timeout). *)
Variable llm_content : string -> string -> M W Value.

(** [json.loads] of a text that starts with an opening brace: the object
    decoded, or a [JSONDecodeError]. *)
Variable json_loads : string -> Outcome Dict.

(** [_fallback_parameter_extraction]. *)
Variable _fallback_parameter_extraction : string -> string -> M W Value.

(** The texts [_extract_email_parameters_with_meeting] computes from the
    query and the meeting information: recipient, subject and body. *)
Variable compose_meeting_email : string -> Value -> Outcome (string * string * string).

(** [self.tools_map]. *)
Variable tools_map : list (string * ToolCollection W).

(** *** Calendar time normalisation *)

Definition digits_1_2 : regex := Group (Rep Digit 1 2).

(** The list [time_patterns] of [_process_calendar_time]. *)
Definition time_patterns (query : string) : list TimePattern :=
  [ mkPattern "(\d{1,2})点"
      (Cat digits_1_2 (Lit "点"))
      (fun m => int_group digit_at m 1);
    mkPattern "下午(\d{1,2})点"
      (Cat (Lit "下午") (Cat digits_1_2 (Lit "点")))
      (fun m =>
         and_then (int_group digit_at m 1)
           (fun n => Returns (if n <? 12 then n + 12 else n)));
    mkPattern "上午(\d{1,2})点"
      (Cat (Lit "上午") (Cat digits_1_2 (Lit "点")))
      (fun m => int_group digit_at m 1);
    mkPattern "(\d{1,2}):(\d{2})"
      (Cat digits_1_2 (Cat (Lit ":") (Group (Rep Digit 2 2))))
      (fun m =>
         and_then (int_group digit_at m 1)
           (fun h =>
              Returns (h + (if (contains query "下午" && (h <? 12))%bool
                            then 12 else 0)))) ].

(** The loop over [time_patterns]: the first pattern found in the query
    sets the hour (and the minute, for the pattern with a colon) and
    ends the loop. *)
Fixpoint scan_time (patterns : list TimePattern) (query : string)
    (hour minute : Z) : Outcome (Z * Z) :=
  match patterns with
  | [] => Returns (hour, minute)
  | p :: patterns' =>
      match search digit_at (compiled p) query with
      | Some m =>
          if contains (source p) ":(" then
            and_then (extractor p m)
              (fun h => and_then (int_group digit_at m 2)
                          (fun mi => Returns (h, mi)))
          else
            and_then (extractor p m) (fun h => Returns (h, minute))
      | None => scan_time patterns' query hour minute
      end
  end.

Definition _process_calendar_time (params : Dict) (query : string)
  : M W Dict :=
  now_dt <- now ;;
  target_date <-
    lift (if contains query "明天" then add now_dt 1 0
          else if contains query "后天" then add now_dt 2 0
          else if contains query "今天" then Returns now_dt
          else add now_dt 1 0) ;;
  hm <- lift (scan_time (time_patterns query) query 14 0) ;;
  start_dt <- lift (replace_time target_date (fst hm) (snd hm)) ;;
  end_dt <- lift (add start_dt 0 1) ;;
  let params1 := dict_set params "start_time" (VStr (strftime start_dt)) in
  ret (dict_set params1 "end_time" (VStr (strftime end_dt))).

(** *** Parameter extraction *)

(** The injection of the sender's address and credential. *)
Definition inject_sender (params : Dict) : Dict :=
  let params1 :=
    if is_auto (dict_get_default params "sender_email" VNone)
    then dict_set params "sender_email" (VStr (email_sender settings))
    else params in
  if is_auto (dict_get_default params1 "sender_password" VNone)
  then dict_set params1 "sender_password" (VStr (email_password settings))
  else params1.

Definition no_json_found : Exc := mkExc ValueError "未找到有效的JSON响应".

(** The reply of the model decoded: the object [json.loads] gives for the
    match of the pattern in the response. *)
Definition llm_json (query tool_category : string) : M W Dict :=
  content <- llm_content query tool_category ;;
  match content with
  | VStr text =>
      match nested_object text with
      | Some json_str => lift (json_loads json_str)
      | None => raise no_json_found
      end
  | _ => raise (mkExc TypeError "expected string or bytes-like object")
  end.

Definition _intelligent_parameter_extraction (query tool_category : string)
  : M W Dict :=
  if existsb (String.eqb tool_category) ["calendar"; "email"; "file"] then
    params <- llm_json query tool_category ;;
    params1 <-
      (if (String.eqb tool_category "calendar" &&
           eq_str (dict_get_default params "action" VNone) "create")%bool
       then _process_calendar_time params query
       else ret params) ;;
    if String.eqb tool_category "email" then
      let to := dict_get_default params1 "to_addresses" VNone in
      let params2 :=
        if (negb (truthy to) || negb (is_list to))%bool
        then dict_set params1 "to_addresses"
               (VList [VStr (default_recipient settings)])
        else params1 in
      ret (inject_sender params2)
    else ret params1
  else ret [].

Definition _extract_tool_parameters (query tool_category : string)
  : M W Dict :=
  extracted <-
    try_except
      (params <- _intelligent_parameter_extraction query tool_category ;;
       ret (VDict params))
      (fun e => _fallback_parameter_extraction query tool_category) ;;
  let params := match extracted with VDict d => d | _ => [] end in
  if String.eqb tool_category "calendar" then
    let params1 := dict_setdefault params "tool_name" (VStr "calendar_event") in
    ret (dict_set params1 "action"
           (dict_get_default params1 "action" (VStr "create")))
  else if String.eqb tool_category "email" then
    let params1 := dict_setdefault params "tool_name" (VStr "email_send") in
    let params2 :=
      match dict_get params1 "to_addresses" with
      | Some (VStr to_addr) => dict_set params1 "to_addresses" (VList [VStr to_addr])
      | _ => params1
      end in
    ret (inject_sender params2)
  else if String.eqb tool_category "file" then
    let params1 := dict_setdefault params "tool_name" (VStr "file_search") in
    if eq_str (dict_get_default params1 "tool_name" VNone) "file_search" then
      let params2 := dict_setdefault params1 "directory" (VStr "./") in
      let params3 := dict_setdefault params2 "filename_pattern" (VStr "*") in
      ret (dict_setdefault params3 "recursive" (VBool true))
    else ret params1
  else ret params.

Definition _extract_email_parameters_with_meeting (query : string)
    (meeting_info : Value) : M W Dict :=
  texts <- lift (compose_meeting_email query meeting_info) ;;
  let '(to_email, subject, body) := texts in
  ret [("tool_name", VStr "email_send");
       ("to_addresses", VList [VStr to_email]);
       ("subject", VStr subject);
       ("body", VStr body);
       ("sender_email", VStr (email_sender settings));
       ("sender_password", VStr (email_password settings))].

(** *** Tool dispatch *)

(** [execute_tool(tool_name, **kwargs)] of a tool collection. *)
Definition execute_tool (collection : ToolCollection W) (tool_name : Value)
    (kwargs : Dict) : M W Value :=
  match tool_name with
  | VStr n =>
      match lookup n (tools collection) with
      | Some tool => BaseTool.safe_execute tool kwargs
      | None => raise (mkExc ValueError (unknown_tool collection ++ n))
      end
  | VList _ | VDict _ => raise (mkExc TypeError "unhashable type")
  | _ => raise (mkExc ValueError (unknown_tool collection ++ str tool_name))
  end.

(** The parameters [self] and [tool_name] of [execute_tool] are taken by
    the call itself: a key of the mapping passed as keyword arguments
    that has one of these names is a second value for it.  The keywords
    are bound in the order of the mapping. *)
Definition keyword_clash (kwargs : Dict) : option string :=
  option_map fst
    (find (fun kv =>
             (String.eqb (fst kv) "self" || String.eqb (fst kv) "tool_name")%bool)
       kwargs).

Definition multiple_values (collection : ToolCollection W) (name : string)
  : Exc :=
  mkExc TypeError
    (class_name collection ++
     ".execute_tool() got multiple values for argument '" ++ name ++ "'").

(** The call [collection.execute_tool(tool_name, **kwargs)]. *)
Definition call_execute_tool (collection : ToolCollection W)
    (tool_name : Value) (kwargs : Dict) : M W Value :=
  match keyword_clash kwargs with
  | Some name => raise (multiple_values collection name)
  | None => execute_tool collection tool_name kwargs
  end.

Definition missing_tool_name : Exc :=
  mkExc ValueError "缺少必要的tool_name参数".

(** [{k: v for k, v in params.items() if k != "tool_name"}]. *)
Definition without_tool_name (params : Dict) : Dict :=
  filter (fun kv => negb (String.eqb (fst kv) "tool_name")) params.

(** The dispatch both branches end with: read [tool_name], refuse a
    missing one, call the collection. *)
Definition dispatch (tool_instance : ToolCollection W) (params : Dict)
  : M W Value :=
  let tool_name := dict_get_default params "tool_name" VNone in
  if negb (truthy tool_name) then raise missing_tool_name
  else call_execute_tool tool_instance tool_name (without_tool_name params).

(** The template-then-send chain of the email category. *)
Definition fill_from_template (tool_instance : ToolCollection W)
    (tool_params : Dict) : M W Dict :=
  match dict_get_default tool_params "template" VNone with
  | VDict template_info =>
      try_except
        (template_result <-
           call_execute_tool tool_instance (VStr "email_template")
             template_info ;;
         if truthy template_result then
           params1 <-
             (if negb (truthy (dict_get_default tool_params "subject" VNone))
              then subject <- lift (py_get template_result "subject" VNone) ;;
                   ret (dict_set tool_params "subject" subject)
              else ret tool_params) ;;
           if negb (truthy (dict_get_default params1 "body" VNone))
           then body <- lift (py_get template_result "body" VNone) ;;
                ret (dict_set params1 "body" body)
           else ret params1
         else ret tool_params)
        (fun e => ret tool_params)
  | _ => ret tool_params
  end.

(** [r.get("result", {}).get("event", dflt)]. *)
Definition result_event (r : Value) (dflt : Value) : Outcome Value :=
  and_then (py_get r "result" (VDict []))
    (fun res => py_get res "event" dflt).

(** One turn of [for meeting_params in meetings]. *)
Definition create_meeting (tool_instance : ToolCollection W)
    (acc : list Value * Value) (meeting_params : Value)
  : M W (list Value * Value) :=
  let '(meeting_results, meeting_info) := acc in
  items <- lift (py_items meeting_params) ;;
  let clean_params :=
    filter (fun kv => negb (String.prefix "_" (fst kv))) items in
  meeting_result <- dispatch tool_instance clean_params ;;
  meeting_info1 <-
    lift (if negb (truthy meeting_info) then
            and_then (py_get meeting_result "success" VNone)
              (fun ok =>
                 if truthy ok then
                   and_then (result_event meeting_result VNone)
                     (fun ev =>
                        if truthy ev then
                          and_then (result_event meeting_result (VDict [])) py_copy
                        else Returns (VDict []))
                 else Returns meeting_info)
          else Returns meeting_info) ;;
  ret ((meeting_results ++ [meeting_result])%list, meeting_info1).

(** The loop that collects the events of the meetings created. *)
Fixpoint successful_events (meeting_results : list Value)
  : Outcome (list Value) :=
  match meeting_results with
  | [] => Returns []
  | r :: rest =>
      and_then (py_get r "success" VNone)
        (fun ok =>
           and_then
             (if truthy ok then
                and_then (result_event r (VDict []))
                  (fun event =>
                     if truthy event
                     then and_then (py_copy event) (fun c => Returns [c])
                     else Returns [])
              else Returns [])
             (fun here =>
                and_then (successful_events rest)
                  (fun more => Returns (here ++ more)%list)))
  end.

(** [all(r.get("success", False) for r in meeting_results)]. *)
Fixpoint all_succeeded (meeting_results : list Value) : Outcome bool :=
  match meeting_results with
  | [] => Returns true
  | r :: rest =>
      and_then (py_get r "success" (VBool false))
        (fun ok => if truthy ok then all_succeeded rest else Returns false)
  end.

Fixpoint copy_all (vs : list Value) : Outcome (list Value) :=
  match vs with
  | [] => Returns []
  | v :: vs' =>
      and_then (py_copy v)
        (fun c => and_then (copy_all vs') (fun cs => Returns (c :: cs)))
  end.

(** *** The composite executor *)

(** The variables the loop over the categories carries. *)
Record Loop : Type := mkLoop {
  results : list Value;
  all_success : bool;
  meeting_info : Value
}.

(** The branch for several meetings: result, parameters as left after
    [pop], and the meeting information. *)
Definition multiple_meetings (tool_instance : ToolCollection W)
    (tool_params : Dict) (meeting_info0 : Value)
  : M W (Value * Dict * Value) :=
  let meetings := dict_get_default tool_params "_multiple_meetings" VNone in
  let tool_params1 := dict_remove tool_params "_multiple_meetings" in
  meeting_list <- lift (py_iter meetings) ;;
  created <- for_each meeting_list ([], meeting_info0)
               (create_meeting tool_instance) ;;
  let '(meeting_results, meeting_info1) := created in
  successful_meetings <- lift (successful_events meeting_results) ;;
  ok <- lift (all_succeeded meeting_results) ;;
  let result :=
    VDict [("success", VBool ok);
           ("result",
            VDict [("action", VStr "create_multiple");
                   ("meetings", VList successful_meetings);
                   ("total_created",
                    VInt (Z.of_nat (List.length successful_meetings)))])] in
  match successful_meetings with
  | [] => ret (result, tool_params1, meeting_info1)
  | _ =>
      copies <- lift (copy_all successful_meetings) ;;
      ret (result, tool_params1,
           VDict [("meetings", VList copies);
                  ("total_created",
                   VInt (Z.of_nat (List.length successful_meetings)))])
  end.

(** The branch for a single tool call. *)
Definition single_tool (category : string) (tool_instance : ToolCollection W)
    (tool_params : Dict) (meeting_info0 : Value)
  : M W (Value * Dict * Value) :=
  tool_params1 <-
    (if String.eqb category "email"
     then fill_from_template tool_instance tool_params
     else ret tool_params) ;;
  result <- dispatch tool_instance tool_params1 ;;
  meeting_info1 <-
    lift (if String.eqb category "calendar" then
            and_then (py_get result "success" VNone)
              (fun ok =>
                 if truthy ok then
                   and_then (py_get result "result" (VDict []))
                     (fun res =>
                        and_then (py_get res "action" VNone)
                          (fun action =>
                             if eq_str action "create"
                             then result_event result (VDict [])
                             else Returns meeting_info0))
                 else Returns meeting_info0)
          else Returns meeting_info0) ;;
  ret (result, tool_params1, meeting_info1).

(** One turn of [for category in tool_categories]. *)
Definition run_category (query : string) (st : Loop) (category : string)
  : M W Loop :=
  match lookup category tools_map with
  | None => ret (mkLoop (results st) false (meeting_info st))
  | Some tool_instance =>
      tool_params <-
        (if (String.eqb category "email" && truthy (meeting_info st))%bool
         then _extract_email_parameters_with_meeting query (meeting_info st)
         else _extract_tool_parameters query category) ;;
      outcome <-
        (if (String.eqb category "calendar" &&
             dict_has tool_params "_multiple_meetings")%bool
         then multiple_meetings tool_instance tool_params (meeting_info st)
         else single_tool category tool_instance tool_params (meeting_info st)) ;;
      let '(result, tool_params1, meeting_info1) := outcome in
      ret (mkLoop
             (results st ++
              [VDict [("category", VStr category); ("result", result);
                      ("tool_params", VDict tool_params1)]])%list
             (all_success st) meeting_info1)
  end.

(** [[cat.strip() for cat in tool_category.split("|")]]. *)
Definition split_categories (tool_category : string) : list string :=
  map strip (split "|" tool_category).

Definition composite_envelope (tool_category : string)
    (tool_categories : list string) (st : Loop) : Value :=
  VDict [("success", VBool (all_success st));
         ("result",
          VDict [("composite_results", VList (results st));
                 ("total_tools", VInt (Z.of_nat (List.length tool_categories)));
                 ("executed_tools", VInt (Z.of_nat (List.length (results st))))]);
         ("tool_category", VStr tool_category);
         ("tool_params", VDict [("composite", VBool true)])].

Definition composite_failure (tool_category : string) (e : Exc) : Value :=
  VDict [("success", VBool false); ("error", VStr (exc_str e));
         ("tool_category", VStr tool_category)].

(** [category in self.tools_map]. *)
Definition known (category : string) : bool :=
  match lookup category tools_map with Some _ => true | None => false end.

(** An entry [{category, result, tool_params}] of [composite_results]
    for the given category. *)
Definition entry_for (category : string) (entry : Value) : Prop :=
  exists result tool_params,
    entry = VDict [("category", VStr category); ("result", result);
                   ("tool_params", VDict tool_params)].

Definition _execute_composite_tools (tool_category query : string)
    (intent_analysis : Dict) : M W Value :=
  try_except
    (let tool_categories := split_categories tool_category in
     st <- for_each tool_categories (mkLoop [] true VNone)
             (run_category query) ;;
     ret (composite_envelope tool_category tool_categories st))
    (fun e => ret (composite_failure tool_category e)).

End KnowledgeAgent.

End Agent.

(* ===================================================================== *)
(** ** src/agents/knowledge_agent.py: the fallback extraction for the
       calendar *)
(* ===================================================================== *)

Module Fallback.

Import Datetime Regex Agent.

(** [dt.strftime("%Y-%m-%d")]. *)
Definition strftime_date (dt : datetime) : string :=
  let '(y, m, d) := ord2ymd (ordinal dt) in
  zero_pad 4 y ++ "-" ++ zero_pad 2 m ++ "-" ++ zero_pad 2 d.

Definition list_keywords : list string :=
  ["查看"; "查询"; "显示"; "列出"; "我的日程"; "日程安排"].

Definition several_keywords : list string :=
  ["两个会议"; "2个会议"; "多个会议"; "几个会议"].

Section Extraction.

Variable W : Type.
Variable lower : string -> string.
Variable digit_at : string -> option (Z * string).
Variable settings : Settings.
Variable now : M W datetime.

(** The branches of [_fallback_parameter_extraction] for the other
    categories. *)
Variable other_categories : string -> string -> M W Value.

(** [re.findall(r, s)]: the groups of the matches from left to right,
    each search starting where the match before ended.  A match of a
    time pattern is not empty, so the length of the text bounds the
    searches. *)
Fixpoint findall_from (searches : nat) (r : regex) (s : string)
  : list Captures :=
  match searches with
  | O => []
  | S searches' =>
      match match_here digit_at r s [] (fun rest caps => Some (caps, rest)) with
      | Some (caps, rest) => caps :: findall_from searches' r rest
      | None =>
          match s with
          | EmptyString => []
          | String _ s' => findall_from searches' r s'
          end
      end
  end.

Definition findall (r : regex) (s : string) : list Captures :=
  findall_from (S (String.length s)) r s.

(** Hour and minute of one match: the minute is the second group of a
    pattern that has two, and the afternoon adds twelve hours. *)
Definition time_of (query : string) (m : Captures) : Outcome (Z * Z) :=
  and_then (int_group digit_at m 1) (fun hour =>
  and_then (match m with
            | _ :: _ :: _ => int_group digit_at m 2
            | _ => Returns 0
            end) (fun minute =>
  Returns (if (contains query "下午" && (hour <? 12))%bool
           then hour + 12 else hour, minute))).

Fixpoint times_of (query : string) (matches : list Captures)
  : Outcome (list (Z * Z)) :=
  match matches with
  | [] => Returns []
  | m :: matches' =>
      and_then (time_of query m) (fun t =>
      and_then (times_of query matches') (fun ts => Returns (t :: ts)))
  end.

(** The loop over the four time patterns. *)
Fixpoint times_found (query : string) (patterns : list TimePattern)
  : Outcome (list (Z * Z)) :=
  match patterns with
  | [] => Returns []
  | p :: patterns' =>
      and_then (times_of query (findall (compiled p) query)) (fun here =>
      and_then (times_found query patterns') (fun more =>
      Returns (here ++ more)%list))
  end.

(** The parameters of the meeting number [i + 1]. *)
Definition meeting (i : nat) (tomorrow : datetime) (time : Z * Z)
  : Outcome Value :=
  and_then (replace_time tomorrow (fst time) (snd time)) (fun start_dt =>
  and_then (add start_dt 0 1) (fun end_dt =>
  Returns
    (VDict [("tool_name", VStr "calendar_event");
            ("action", VStr "create");
            ("title", VStr ("会议" ++ Calendar.str_of_nat (i + 1)));
            ("start_time", VStr (strftime start_dt));
            ("end_time", VStr (strftime end_dt));
            ("description",
             VStr ("第" ++ Calendar.str_of_nat (i + 1) ++ "个会议"));
            ("location", VStr "会议室");
            ("attendees", VList [VStr (default_recipient settings)])]))).

(** The meetings of a query that speaks of several and names two times
    at least. *)
Definition several_meetings (query : string) : M W (list Value) :=
  if contains_any query several_keywords then
    times <- lift (times_found query (time_patterns digit_at query)) ;;
    match times with
    | first :: second :: _ =>
        now_dt <- now ;;
        tomorrow <- lift (add now_dt 1 0) ;;
        meeting1 <- lift (meeting 0 tomorrow first) ;;
        meeting2 <- lift (meeting 1 tomorrow second) ;;
        ret [meeting1; meeting2]
    | _ => ret []
    end
  else ret [].

(** The branch for the calendar. *)
Definition calendar (query : string) : M W Value :=
  let query_lower := lower query in
  if contains_any query_lower list_keywords then
    now_dt <- now ;;
    ret (VDict [("tool_name", VStr "calendar_event");
                ("action", VStr "list");
                ("date_filter", VStr (strftime_date now_dt))])
  else
    meetings <- several_meetings query ;;
    match meetings with
    | VDict first_meeting :: _ =>
        ret (VDict (dict_set first_meeting "_multiple_meetings" (VList meetings)))
    | _ =>
        now_dt <- now ;;
        tomorrow <- lift (add now_dt 1 0) ;;
        ret (VDict [("tool_name", VStr "calendar_event");
                    ("action", VStr "create");
                    ("title", VStr "会议");
                    ("start_time", VStr (strftime_date tomorrow ++ "T14:00:00"));
                    ("end_time", VStr (strftime_date tomorrow ++ "T15:00:00"));
                    ("description", VStr "会议安排");
                    ("location", VStr "会议室");
                    ("attendees", VList [VStr (default_recipient settings)])])
    end.

(** [_fallback_parameter_extraction]. *)
Definition _fallback_parameter_extraction (query tool_category : string)
  : M W Value :=
  if String.eqb tool_category "calendar" then calendar query
  else other_categories query tool_category.

End Extraction.

End Fallback.

(* ===================================================================== *)
(** ** The time normalisation as the specification words it *)
(* ===================================================================== *)

Module AgentSpec.

Import Datetime Regex Agent.

Section TimeNormalisation.

Variable digit_at : string -> option (Z * string).

(** How many days after today the meeting falls: tomorrow for 明天,
    the day after for 后天, today for 今天, tomorrow when the query
    names no day. *)
Definition day_offset (query : string) : Z :=
  if contains query "明天" then 1
  else if contains query "后天" then 2
  else if contains query "今天" then 0
  else 1.

(** The patterns [N点], [下午N点], [上午N点] and [H:MM]. *)
Definition N_dian : regex := Cat (Group (Rep Digit 1 2)) (Lit "点").
Definition afternoon_N_dian : regex := Cat (Lit "下午") N_dian.
Definition morning_N_dian : regex := Cat (Lit "上午") N_dian.
Definition H_colon_MM : regex :=
  Cat (Group (Rep Digit 1 2)) (Cat (Lit ":") (Group (Rep Digit 2 2))).

(** Hour and minute: the patterns tried in the order listed, the first
    one found in the query deciding; 14:00 when none is found. *)
Definition hour_minute (query : string) : Outcome (Z * Z) :=
  match search digit_at N_dian query with
  | Some m => and_then (int_group digit_at m 1) (fun n => Returns (n, 0))
  | None =>
  match search digit_at afternoon_N_dian query with
  | Some m =>
      and_then (int_group digit_at m 1)
        (fun n => Returns (if n <? 12 then n + 12 else n, 0))
  | None =>
  match search digit_at morning_N_dian query with
  | Some m => and_then (int_group digit_at m 1) (fun n => Returns (n, 0))
  | None =>
  match search digit_at H_colon_MM query with
  | Some m =>
      and_then (int_group digit_at m 1)
        (fun h =>
           and_then (int_group digit_at m 2)
             (fun mm =>
                Returns (if (contains query "下午" && (h <? 12))%bool
                         then h + 12 else h, mm)))
  | None => Returns (14, 0)
  end end end end.

End TimeNormalisation.

(** Seconds elapsed at a [datetime] since the start of ordinal day 0. *)
Definition seconds (dt : datetime) : Z :=
  ordinal dt * 86400 + hour dt * 3600 + minute dt * 60 + second dt.

(** A time of day within its ranges. *)
Definition valid_time (dt : datetime) : Prop :=
  0 <= hour dt < 24 /\ 0 <= minute dt < 60 /\ 0 <= second dt < 60.

End AgentSpec.

(* ===================================================================== *)
(** ** Concrete inputs *)
(* ===================================================================== *)

Module Examples.

(** A workflow state whose intent asks for the email tool, and an agent
    whose tool call succeeds with parameters that carry credentials, some
    of them nested. *)
Definition email_state : Dict :=
  [("query", VStr "给团队发邮件");
   ("intent_analysis",
    VDict [("requires_tools", VBool true); ("tool_category", VStr "email")])].

Definition email_tool_params : Value :=
  VDict [("tool_name", VStr "email_send");
         ("sender_password", VStr "lgntvtzvjpzbbibc");
         ("options",
          VList [VDict [("API_KEY", VStr "sk-123"); ("retries", VInt 3)]])].

Definition email_agent (intent : Value) : M unit Value :=
  ret (VDict [("success", VBool true);
              ("result", VDict [("status", VStr "sent")]);
              ("tool_category", VStr "email");
              ("tool_params", email_tool_params)]).

Definition email_action : Dict :=
  [("type", VStr "email"); ("status", VStr "completed");
   ("result", VDict [("status", VStr "sent")]);
   ("tool_params",
    VDict [("tool_name", VStr "email_send");
           ("sender_password", VStr "***");
           ("options",
            VList [VDict [("API_KEY", VStr "***"); ("retries", VInt 3)]])])].

(** A call of the email tool, and a mail server that refuses the login. *)
Definition send_kwargs : Dict :=
  [("to_addresses", VList [VStr "example@company.com"]);
   ("subject", VStr "会议通知");
   ("body", VStr "请准时参加。");
   ("sender_email", VStr "sender@company.com");
   ("sender_password", VStr "app-password")].

Definition send_args : Email.SendArgs :=
  Email.mkArgs (VList [VStr "example@company.com"]) (VStr "会议通知")
    (VStr "请准时参加。") (VStr "sender@company.com") (VStr "app-password")
    VNone.

Definition send_message : Email.Message :=
  Email.mkMessage
    [("From", VStr "sender@company.com"); ("To", VStr "example@company.com");
     ("Subject", VStr "会议通知")]
    (VStr "请准时参加。").

Definition refusing_server : Email.Smtp :=
  Email.mkSmtp (fun _ => Returns tt)
    (Returns tt) (fun _ _ => Returns tt) (Returns tt)
    (fun _ _ => Raises (mkExc SMTPAuthenticationError
                          "(535, b'Login Fail. Please enter your authorization code to login.')"))
    (fun _ => Returns EmptyString)
    (fun _ _ _ => Returns tt)
    (Returns tt)
    [].

(** The same call with a recipient that is a number. *)
Definition numbered_kwargs : Dict :=
  [("to_addresses", VList [VInt 1]);
   ("subject", VStr "会议通知");
   ("body", VStr "请准时参加。");
   ("sender_email", VStr "sender@company.com");
   ("sender_password", VStr "app-password")].

Definition numbered_args : Email.SendArgs :=
  Email.mkArgs (VList [VInt 1]) (VStr "会议通知") (VStr "请准时参加。")
    (VStr "sender@company.com") (VStr "app-password") VNone.

Definition not_a_text : Exc :=
  mkExc TypeError "sequence item 0: expected str instance, int found".


Definition email_final_state : Dict :=
  dict_set (dict_set email_state "actions" (VList [VDict email_action]))
    "tool_result"
    (VDict [("success", VBool true);
            ("result", VDict [("status", VStr "sent")]);
            ("tool_category", VStr "email");
            ("tool_params", email_tool_params)]).

Definition email_redacted_params : Value :=
  VDict [("tool_name", VStr "email_send");
         ("sender_password", VStr "***");
         ("options",
          VList [VDict [("API_KEY", VStr "***"); ("retries", VInt 3)]])].

(** A server on which every file operation succeeds, an upload with an
    extension that is not allowed, and an upload that is too large. *)
Definition healthy_server : Routes.Server :=
  Routes.mkServer "3f2b8c1e-0d4a-4c57-9e61-7a5d2f0b9c11"
    (Returns tt) (Returns "MZ") (Returns tt) [] [].

Definition exe_upload : Routes.UploadFile :=
  Routes.mkUpload (Some "setup.exe") (Some 2).

Definition huge_upload : Routes.UploadFile :=
  Routes.mkUpload (Some "handbook.pdf") (Some (20 * 1024 * 1024)).

Definition allowed_repr : string := "{'.pdf', '.docx', '.txt'}".

(** The three raw matches of the retriever scenario, and a vector store
    that answers every request with them. *)
Definition hr_metadata (filename : string) : Value :=
  VDict [("filename", VStr filename); ("category", VStr "hr")].

#[warnings="-inexact-float"]
Definition match1 : Retriever.SearchResult :=
  Retriever.mkResult "年假为每年十天。" (hr_metadata "leave.txt") 0.42%float 0.58%float.
#[warnings="-inexact-float"]
Definition match2 : Retriever.SearchResult :=
  Retriever.mkResult "病假需提供证明。" (hr_metadata "sick.txt") 0.20%float 0.80%float.
#[warnings="-inexact-float"]
Definition match3 : Retriever.SearchResult :=
  Retriever.mkResult "食堂开放时间。" (hr_metadata "canteen.txt") 0.10%float 0.90%float.

#[warnings="-inexact-float"]
Definition threshold : float := 0.15%float.

Definition scenario_store : Retriever.VectorStore :=
  Retriever.mkStore (fun _ => Returns [match1; match2; match3]) [].


(** The calendar scenario: the meeting of the tool test, and a clock. *)
Definition create_meeting : Dict :=
  [("action", VStr "create");
   ("title", VStr "测试会议");
   ("start_time", VStr "2024-01-15T14:00:00");
   ("end_time", VStr "2024-01-15T15:00:00");
   ("description", VStr "这是一个测试事件");
   ("location", VStr "测试会议室")].

Definition test_clock (n : nat) : Calendar.Instant :=
  Calendar.mkInstant "1705298400.123456" "2024-01-15T14:00:00.123456".


(** The agent scenarios.  The world is the calendar tool's state together
    with the mail system; the collections hold the tools modelled above
    (the scenarios call no other). *)
Definition World : Type := (Calendar.CalendarEventTool * Email.Smtp)%type.

Definition on_calendar {A} (c : M Calendar.CalendarEventTool A) : M World A :=
  fun w => let (o, cal) := c (fst w) in (o, (cal, snd w)).

Definition on_mail {A} (c : M Email.Smtp A) : M World A :=
  fun w => let (o, net) := c (snd w) in (o, (fst w, net)).

Definition calendar_tools : Agent.ToolCollection World :=
  Agent.mkCollection "CalendarTools" "未知的日历工具: "
    [("calendar_event",
      BaseTool.mkTool "calendar_event"
        (fun kwargs => on_calendar (Calendar.execute str_scalar kwargs)))].

Definition email_tools : Agent.ToolCollection World :=
  Agent.mkCollection "EmailTools" "未知的邮件工具: "
    [("email_send",
      BaseTool.mkTool "email_send"
        (fun kwargs =>
           on_mail (BaseTool.execute (Email.email_send "smtp.qq.com") kwargs)))].

Definition file_tools : Agent.ToolCollection World :=
  Agent.mkCollection "FileTools" "未知的文件工具: " [].

Definition tools_map : list (string * Agent.ToolCollection World) :=
  [("file", file_tools); ("email", email_tools); ("calendar", calendar_tools)].

Definition agent_settings : Agent.Settings :=
  Agent.mkSettings "sender@company.com" "app-password" "example@company.com".

Definition healthy_mail : Email.Smtp :=
  Email.mkSmtp (fun _ => Returns tt)
    (Returns tt) (fun _ _ => Returns tt) (Returns tt)
    (fun _ _ => Returns tt) (fun _ => Returns "Subject: ...")
    (fun _ _ _ => Returns tt) (Returns tt) [].

Definition fresh_world : World := (Calendar.new test_clock, healthy_mail).

(** 2024-01-15, 09:30:15. *)
Definition monday_morning : Datetime.datetime :=
  Datetime.mkDatetime 738900 9 30 15 0.

Definition wall_clock {S} : M S Datetime.datetime := ret monday_morning.

Definition no_fallback (query category : string) : M World Value :=
  ret (VDict []).

Definition invitation (query : string) (meeting_info : Value)
  : Outcome (string * string * string) :=
  Returns ("example@company.com", "会议邀请：会议", "您好！诚挚邀请您参加以下会议。").

(** The JSON text of a value, for texts that need no escape. *)
Definition double_quote : string := String "034" EmptyString.

Fixpoint json_text (v : Value) : string :=
  match v with
  | VNone => "null"
  | VBool b => if b then "true" else "false"
  | VInt z => str_of_Z z
  | VFloat f => format_3f f
  | VStr s => double_quote ++ s ++ double_quote
  | VList xs => "[" ++ join ", " (map json_text xs) ++ "]"
  | VDict d =>
      "{" ++
      join ", "
        (map (fun '(k, x) =>
                double_quote ++ k ++ double_quote ++ ": " ++ json_text x) d)
      ++ "}"
  end.

(** A model that answers with the JSON text of an object chosen by the
    category. *)
Definition answer_with {S} (reply : string -> Dict) (query category : string)
  : M S Value :=
  ret (VStr (json_text (VDict (reply category)))).

(** The objects the models of the scenarios answer with. *)

(** The calendar tool named by its category. *)
Definition wrong_tool_name_reply (category : string) : Dict :=
  if String.eqb category "calendar"
  then [("tool_name", VStr "calendar"); ("action", VStr "list")]
  else [("tool_name", VStr "email_send");
        ("to_addresses", VList [VStr "team@company.com"]);
        ("subject", VStr "日程"); ("body", VStr "见日程。")].

(** An operation the calendar does not have, and an email without a
    body. *)
Definition bad_parameters_reply (category : string) : Dict :=
  if String.eqb category "calendar"
  then [("tool_name", VStr "calendar_event"); ("action", VStr "remind")]
  else [("tool_name", VStr "email_send");
        ("to_addresses", VList [VStr "team@company.com"]);
        ("subject", VStr "日程")].

(** A meeting with times of the model's own. *)
Definition review_meeting_reply (category : string) : Dict :=
  [("tool_name", VStr "calendar_event"); ("action", VStr "create");
   ("title", VStr "评审会");
   ("start_time", VStr "2024-01-16T15:00:00");
   ("end_time", VStr "2024-01-16T17:00:00")].

(** A review meeting, whatever the category. *)
Definition meeting_reply (category : string) : Dict :=
  [("tool_name", VStr "calendar_event"); ("action", VStr "create");
   ("title", VStr "评审会")].

(** An email that asks for the invitation template. *)
Definition template_reply (category : string) : Dict :=
  [("tool_name", VStr "email_send");
   ("to_addresses", VList [VStr "team@company.com"]);
   ("template", VDict [("template_name", VStr "meeting_invite")])].

(** A calendar request with a key named like the first parameter of
    [execute_tool]. *)
Definition self_reply (category : string) : Dict :=
  [("tool_name", VStr "calendar_event"); ("action", VStr "remind");
   ("self", VInt 1)].

Definition replies : list Dict :=
  [wrong_tool_name_reply "calendar"; wrong_tool_name_reply "email";
   bad_parameters_reply "calendar"; bad_parameters_reply "email";
   review_meeting_reply "calendar"; meeting_reply "calendar";
   template_reply "email"; self_reply "calendar"].

(** [json.loads] on the texts of these objects. *)
Definition loads (text : string) : Outcome Dict :=
  match find (fun reply => String.eqb (json_text (VDict reply)) text) replies with
  | Some reply => Returns reply
  | None => Raises (mkExc (OtherException "JSONDecodeError") "Expecting value")
  end.

Definition llm_wrong_tool_name : string -> string -> M World Value :=
  answer_with wrong_tool_name_reply.

Definition llm_bad_parameters : string -> string -> M World Value :=
  answer_with bad_parameters_reply.

Definition llm_review_meeting : string -> string -> M unit Value :=
  answer_with review_meeting_reply.

Definition no_fallback_unit (query category : string) : M unit Value :=
  ret (VDict []).


(** The composite executor on the scenarios' world. *)
Definition run_composite (llm_content : string -> string -> M World Value)
    (tool_category query : string) : Outcome Value * World :=
  Agent._execute_composite_tools World ascii_strip Regex.ascii_digit_at str_scalar
    agent_settings wall_clock llm_content loads no_fallback invitation tools_map
    tool_category query [] fresh_world.

(** The envelope of a run in which both tools were called and both failed. *)
Definition all_failed_envelope : Dict :=
  [("success", VBool true);
   ("result",
    VDict
      [("composite_results",
        VList
          [VDict
             [("category", VStr "calendar");
              ("result",
               VDict [("success", VBool false);
                      ("error", VStr "不支持的操作: remind");
                      ("tool_name", VStr "calendar_event")]);
              ("tool_params",
               VDict [("tool_name", VStr "calendar_event");
                      ("action", VStr "remind")])];
           VDict
             [("category", VStr "email");
              ("result",
               VDict [("success", VBool false);
                      ("error",
                       VStr "EmailSendTool.execute() missing 1 required positional argument: 'body'");
                      ("tool_name", VStr "email_send")]);
              ("tool_params",
               VDict [("tool_name", VStr "email_send");
                      ("to_addresses", VList [VStr "team@company.com"]);
                      ("subject", VStr "日程");
                      ("sender_email", VStr "sender@company.com");
                      ("sender_password", VStr "app-password")])]]);
       ("total_tools", VInt 2); ("executed_tools", VInt 2)]);
   ("tool_category", VStr "calendar|email");
   ("tool_params", VDict [("composite", VBool true)])].

End Examples.

(* ===================================================================== *)
(** ** The calendar tool over a sequence of calls *)
(* ===================================================================== *)

Module CalendarRuns.

Import Calendar.

(** The tool after a sequence of calls of [execute], whatever each call
    returned or raised. *)
Definition run_calls (str : Value -> string) (calls : list Dict)
    (self : CalendarEventTool) : CalendarEventTool :=
  fold_left (fun tool params => snd (execute str params tool)) calls self.

(** The keys [_create_event] gives every event. *)
Definition event_fields : list string :=
  ["id"; "title"; "start_time"; "end_time"; "description"; "location";
   "attendees"; "created_at"].

(** An event as the tool stores it: every field of [_create_event]
    present, the id a string. *)
Definition well_formed_event (event : Dict) : Prop :=
  (exists id, dict_get event "id" = Some (VStr id)) /\
  forallb (dict_has event) event_fields = true.

Definition well_formed (self : CalendarEventTool) : Prop :=
  Forall well_formed_event (events self).

(** [e["id"] == event_id], the test of the generator in [_update_event]
    and [_delete_event], for an event that has an id. *)
Definition has_id (event_id : Value) (event : Dict) : bool :=
  match dict_get event "id" with
  | Some id => py_eqb id event_id
  | None => false
  end.

(** A calendar holding the meeting of the tool test and a second one. *)
Definition review : Dict :=
  [("action", VStr "create"); ("title", VStr "评审会");
   ("start_time", VStr "2024-01-16T09:00:00");
   ("end_time", VStr "2024-01-16T10:00:00")].

Definition two_meetings : CalendarEventTool :=
  run_calls str_scalar [Examples.create_meeting; review]
    (new Examples.test_clock).

Definition first_id : Value :=
  match events two_meetings with
  | event :: _ => dict_get_default event "id" VNone
  | [] => VNone
  end.

(** Calls on that calendar: one naming an id it does not hold, one
    renaming its first meeting, one deleting it. *)
Definition delete_unknown : Dict :=
  [("action", VStr "delete"); ("event_id", VStr "event_9")].

Definition update_unknown : Dict :=
  [("action", VStr "update"); ("event_id", VStr "event_9");
   ("title", VStr "周会")].

Definition rename_first : Dict :=
  [("action", VStr "update"); ("event_id", first_id); ("title", VStr "周会");
   ("id", VStr "event_0"); ("created_at", VStr "1970-01-01T00:00:00")].

Definition delete_first : Dict :=
  [("action", VStr "delete"); ("event_id", first_id)].

(** The result of a call that returned. *)
Definition returned {S : Type} (call : Outcome Value * S) : Value :=
  match fst call with
  | Returns r => r
  | Raises _ => VNone
  end.

End CalendarRuns.

(* ===================================================================== *)
(** ** src/mcp/email_tools.py: EmailTemplateTool and EmailTools *)
(* ===================================================================== *)

Module EmailTemplate.

(** A format string as [str.format] reads it: literal text and
    replacement fields. *)
Inductive Piece : Type :=
| Lit (text : string)
| Field (name : string).

Definition snoc (s : string) (c : ascii) : string := s ++ String c EmptyString.

Definition literal (lit : string) (rest : list Piece) : list Piece :=
  if String.eqb lit EmptyString then rest else Lit lit :: rest.

(** A field name that [str.format] looks up among the keyword arguments:
    not empty and not a number. *)
Definition keyword (name : string) : bool :=
  match name with
  | EmptyString => false
  | String c _ =>
      negb ((48 <=? nat_of_ascii c) && (nat_of_ascii c <=? 57))%nat
  end.

(** The format strings with plain keyword fields: [{name}], and the
    doubled braces that stand for one.  A field with a conversion, a
    format specification, an attribute, an index or a position, and an
    unbalanced brace, are outside it ([None]).  [field] is the name read
    so far when inside a field, [lit] the literal text read so far. *)
Fixpoint parse (s : string) (field : option string) (lit : string)
  : option (list Piece) :=
  match s with
  | EmptyString =>
      match field with
      | None => Some (literal lit [])
      | Some _ => None
      end
  | String c rest =>
      match field with
      | Some name =>
          if Ascii.eqb c "}" then
            if keyword name
            then option_map (cons (Field name)) (parse rest None EmptyString)
            else None
          else if existsb (Ascii.eqb c) ["{"; "!"; ":"; "."; "["]%char then None
          else parse rest (Some (snoc name c)) lit
      | None =>
          if Ascii.eqb c "{" then
            match rest with
            | String "{" rest' => parse rest' None (snoc lit "{")
            | _ => option_map (literal lit) (parse rest (Some EmptyString) EmptyString)
            end
          else if Ascii.eqb c "}" then
            match rest with
            | String "}" rest' => parse rest' None (snoc lit "}")
            | _ => None
            end
          else parse rest None (snoc lit c)
      end
  end.

(** The names of the replacement fields, in order. *)
Fixpoint fields (pieces : list Piece) : list string :=
  match pieces with
  | [] => []
  | Lit _ :: pieces' => fields pieces'
  | Field name :: pieces' => name :: fields pieces'
  end.

Record Template : Type := mkTemplate { subject : string; body : string }.

(** [self.templates]. *)
Definition templates : list (string * Template) :=
  [("meeting_invite",
    mkTemplate "会议邀请：{meeting_title}"
"您好，

邀请您参加以下会议：

会议主题：{meeting_title}
会议时间：{meeting_time}
会议地点：{meeting_location}
会议议程：{agenda}

请确认您的参会情况。

谢谢！
");
   ("task_reminder",
    mkTemplate "任务提醒：{task_title}"
"您好，

提醒您有一个任务需要处理：

任务名称：{task_title}
截止时间：{due_date}
任务描述：{description}
优先级：{priority}

请及时处理。

谢谢！
");
   ("report_summary",
    mkTemplate "报告摘要：{report_title}"
"您好，

以下是 {report_title} 的摘要：

{summary_content}

详细报告请查看附件或联系我获取。

谢谢！
")].

Section Tool.

(** The built-in [str]: what a replacement field without a format
    specification renders its value with. *)
Variable str : Value -> string.

(** The world of the collection the tool sits in; the tool leaves it
    alone. *)
Variable W : Type.

(** Left to right: the first field without a variable raises. *)
Fixpoint render (pieces : list Piece) (vars : Dict) : Outcome string :=
  match pieces with
  | [] => Returns EmptyString
  | Lit text :: pieces' =>
      match render pieces' vars with
      | Returns rest => Returns (text ++ rest)
      | Raises e => Raises e
      end
  | Field name :: pieces' =>
      match dict_get vars name with
      | None => Raises (mkExc KeyError (quote name))
      | Some v =>
          match render pieces' vars with
          | Returns rest => Returns (str v ++ rest)
          | Raises e => Raises e
          end
      end
  end.

(** [template.format], called with the variables as keyword arguments. *)
Definition format (template : string) (vars : Dict) : Outcome string :=
  match parse template None EmptyString with
  | Some pieces => render pieces vars
  | None => Raises (mkExc ValueError "format string outside the fragment")
  end.

(** The first of [required] that [vars] lacks. *)
Definition missing (required : list string) (vars : Dict) : option string :=
  find (fun k => negb (dict_has vars k)) required.

Definition unknown_template (template_name : string) : Exc :=
  mkExc ValueError ("未知的邮件模板: " ++ template_name).

Definition missing_variable (e : Exc) : Exc :=
  mkExc ValueError ("模板变量缺失: " ++ exc_str e).

(** [except KeyError as e: raise ValueError(...)]; other exceptions pass. *)
Definition key_error_as_value_error {A} (o : Outcome A) : Outcome A :=
  match o with
  | Returns a => Returns a
  | Raises e =>
      match exc_class e with
      | KeyError => Raises (missing_variable e)
      | _ => Raises e
      end
  end.

(** The body of [EmailTemplateTool.execute]. *)
Definition generate (template_name template_vars : Value) : M W Value :=
  template <-
    match template_name with
    | VStr n =>
        match Agent.lookup n templates with
        | Some template => ret template
        | None => raise (unknown_template n)
        end
    | VList _ | VDict _ => raise (mkExc TypeError "unhashable type")
    | _ => raise (unknown_template (str template_name))
    end ;;
  lift
    (key_error_as_value_error
       match template_vars with
       | VDict vars =>
           Agent.and_then (format (subject template) vars) (fun subject =>
           Agent.and_then (format (body template) vars) (fun body =>
           Returns
             (VDict [("template_name", template_name);
                     ("subject", VStr subject);
                     ("body", VStr body);
                     ("variables_used", VList (map (fun kv => VStr (fst kv)) vars))])))
       | _ => Raises (mkExc TypeError "argument after ** must be a mapping")
       end).

Definition parameter_names : list string := ["template_name"; "template_vars"].

(** [execute(template_name, template_vars)] called with keyword
    arguments: both are required and no other is taken. *)
Definition execute (kwargs : Dict) : M W Value :=
  if forallb (fun kv => existsb (String.eqb (fst kv)) parameter_names) kwargs
  then
    match dict_get kwargs "template_name", dict_get kwargs "template_vars" with
    | Some template_name, Some template_vars =>
        generate template_name template_vars
    | _, _ =>
        raise (mkExc TypeError "execute() missing required arguments")
    end
  else raise (mkExc TypeError "execute() got an unexpected keyword argument").

Definition email_template : BaseTool.BaseMCPTool W :=
  BaseTool.mkTool "email_template" execute.

End Tool.

End EmailTemplate.

Module EmailTools.

(** [EmailTools().tools] with its [execute_tool], over the mail system
    the send tool talks to. *)
Definition new (str : Value -> string) (smtp_server : string)
  : Agent.ToolCollection Email.Smtp :=
  Agent.mkCollection "EmailTools" "未知的邮件工具: "
    [("email_send", Email.email_send smtp_server);
     ("email_template", EmailTemplate.email_template str Email.Smtp)].

End EmailTools.

(* ===================================================================== *)
(** ** What a send leaves behind on the mail system *)
(* ===================================================================== *)

Module EmailRuns.

Import Email.

(** The mail system after the server has accepted one more mail. *)
Definition hand_over (net : Smtp) (sender recipients : Value) (text : string)
  : Smtp :=
  mkSmtp (mime_text net) (create_default_context net) (connect net)
    (starttls net) (login net) (as_string net) (sendmail net) (quit net)
    (delivered net ++ [(sender, recipients, text)]).

(** [if not tool_params.get(key): tool_params[key] = None], what the
    template chain amounts to for a key. *)
Definition none_unless_given (key : string) (tool_params : Dict) : Dict :=
  if truthy (dict_get_default tool_params key VNone) then tool_params
  else dict_set tool_params key VNone.

(** A send that asks for the meeting invitation template: the
    parameters the extraction arrives at for the reply
    [Examples.template_reply], with the sender of the settings. *)
Definition invite_template : Dict :=
  [("template_name", VStr "meeting_invite")].

Definition templated_params : Dict :=
  [("tool_name", VStr "email_send");
   ("to_addresses", VList [VStr "team@company.com"]);
   ("template", VDict invite_template);
   ("sender_email", VStr "sender@company.com");
   ("sender_password", VStr "app-password")].

(** The same with a key named like the first parameter of
    [execute_tool] in the template. *)
Definition clashing_template : Dict :=
  [("self", VInt 1); ("template_name", VStr "meeting_invite")].

Definition clashing_params : Dict :=
  [("tool_name", VStr "email_send");
   ("to_addresses", VList [VStr "team@company.com"]);
   ("template", VDict clashing_template);
   ("sender_email", VStr "sender@company.com");
   ("sender_password", VStr "app-password")].

(** The variables of a report summary, the summary itself left out. *)
Definition report_vars : Dict :=
  [("report_title", VStr "季度报告"); ("author", VStr "王芳")].

End EmailRuns.

(* ===================================================================== *)
(** ** src/agents/knowledge_agent.py: KnowledgeAgent.execute_tool *)
(* ===================================================================== *)

Module AgentTools.

Import Agent.

Section ExecuteTool.

(** The world the tools act on and the agent's collaborators, as for the
    composite executor. *)
Variable W : Type.
Variable strip : string -> string.
Variable digit_at : string -> option (Z * string).
Variable str : Value -> string.
Variable settings : Settings.
Variable now : M W Datetime.datetime.
Variable llm_content : string -> string -> M W Value.
Variable json_loads : string -> Outcome Dict.
Variable _fallback_parameter_extraction : string -> string -> M W Value.
Variable compose_meeting_email :
  string -> Value -> Outcome (string * string * string).
Variable tools_map : list (string * ToolCollection W).

(** What the agent makes of an intent whose [original_query] is not a
    string; [analyze_query_intent] stores the query it was given, and the
    prompts and keyword tests are written for a string. *)
Variable untyped_query : Value -> M W Value.

(** ["|" in tool_category]. *)
Definition bar_in (tool_category : Value) : Outcome bool :=
  match tool_category with
  | VStr s => Returns (contains s "|")
  | VList xs => Returns (existsb (fun x => py_eqb x (VStr "|")) xs)
  | VDict d => Returns (dict_has d "|")
  | _ => Raises (mkExc TypeError "argument is not iterable")
  end.

Definition unsupported (tool_category : Value) : Value :=
  VDict [("success", VBool false);
         ("error", VStr ("不支持的工具类型: " ++ str tool_category));
         ("tool_category", tool_category)].

Definition tool_failure (tool_category : Value) (e : Exc) : Value :=
  VDict [("success", VBool false); ("error", VStr (exc_str e));
         ("tool_category", tool_category)].

(** The [try] body for a category the agent has tools for. *)
Definition run_tool (category query : string) (tool_instance : ToolCollection W)
  : M W Value :=
  tool_params <-
    _extract_tool_parameters W digit_at settings now llm_content json_loads
      _fallback_parameter_extraction query category ;;
  let tool_name := dict_get_default tool_params "tool_name" VNone in
  if negb (truthy tool_name) then raise missing_tool_name
  else
    tool_params1 <-
      (if String.eqb category "email"
       then fill_from_template W str tool_instance tool_params
       else ret tool_params) ;;
    result <-
      call_execute_tool W str tool_instance tool_name
        (without_tool_name tool_params1) ;;
    ret (VDict [("success", VBool true); ("result", result);
                ("tool_category", VStr category);
                ("tool_params", VDict tool_params1)]).

(** [KnowledgeAgent.execute_tool]. *)
Definition execute_tool (intent_analysis : Value) : M W Value :=
  tool_category <- lift (py_get intent_analysis "tool_category" (VStr "none")) ;;
  query <- lift (py_get intent_analysis "original_query" (VStr EmptyString)) ;;
  composite <- lift (bar_in tool_category) ;;
  if composite then
    match tool_category, query with
    | VStr categories, VStr q =>
        _execute_composite_tools W strip digit_at str settings now llm_content json_loads
          _fallback_parameter_extraction compose_meeting_email tools_map
          categories q
          match intent_analysis with VDict d => d | _ => [] end
    | VStr _, _ => untyped_query intent_analysis
    | VList _, _ =>
        ret (tool_failure tool_category
               (mkExc AttributeError "'list' object has no attribute 'split'"))
    | _, _ =>
        ret (tool_failure tool_category
               (mkExc AttributeError "'dict' object has no attribute 'split'"))
    end
  else
    match tool_category with
    | VStr category =>
        match lookup category tools_map with
        | None => ret (unsupported tool_category)
        | Some tool_instance =>
            if String.eqb category "none" then ret (unsupported tool_category)
            else
              match query with
              | VStr q =>
                  try_except (run_tool category q tool_instance)
                    (fun e => ret (tool_failure tool_category e))
              | _ => untyped_query intent_analysis
              end
        end
    | _ => raise (mkExc TypeError "unhashable type")
    end.

End ExecuteTool.

End AgentTools.

(* ===================================================================== *)
(** ** Requests run through the agent and the action-execution node *)
(* ===================================================================== *)

Module AgentScenarios.

Import Examples.

(** The envelope of a call that returned a dictionary. *)
Definition returned_dict {S : Type} (call : Outcome Value * S) : Dict :=
  match fst call with
  | Returns (VDict envelope) => envelope
  | _ => []
  end.

Definition no_untyped_query {S : Type} (intent_analysis : Value) : M S Value :=
  raise (mkExc TypeError "query is not a string").

(** The agent over the calendar and the mail system of the scenarios. *)
Definition agent (llm_content : string -> string -> M World Value)
    (intent_analysis : Value) : M World Value :=
  AgentTools.execute_tool World ascii_strip Regex.ascii_digit_at str_scalar
    agent_settings wall_clock llm_content loads no_fallback invitation
    tools_map no_untyped_query intent_analysis.

(** A request for the calendar, and one for the calendar and a fax. *)
Definition calendar_intent : Dict :=
  [("intent_type", VStr "task"); ("requires_tools", VBool true);
   ("tool_category", VStr "calendar"); ("original_query", VStr "提醒我日程")].

Definition calendar_state : Dict :=
  [("query", VStr "提醒我日程"); ("intent_analysis", VDict calendar_intent)].

Definition fax_intent : Dict :=
  [("intent_type", VStr "task"); ("requires_tools", VBool true);
   ("tool_category", VStr "calendar|fax");
   ("original_query", VStr "安排评审会并发传真")].

Definition fax_state : Dict :=
  [("query", VStr "安排评审会并发传真"); ("intent_analysis", VDict fax_intent)].

(** The calendar tool of the scenarios' collection, and the parameters
    the extraction arrives at for a model that asks it to remind. *)
Definition calendar_tool : BaseTool.BaseMCPTool World :=
  BaseTool.mkTool "calendar_event"
    (fun kwargs => on_calendar (Calendar.execute str_scalar kwargs)).

Definition remind_params : Dict :=
  [("tool_name", VStr "calendar_event"); ("action", VStr "remind")].

Definition unsupported_remind : Exc :=
  mkExc ValueError "不支持的操作: remind".

(** A model that asks for a review meeting, whatever the category. *)
Definition llm_meeting : string -> string -> M World Value :=
  answer_with meeting_reply.

(** A model whose reply holds a key named [self]. *)
Definition llm_self : string -> string -> M World Value :=
  answer_with self_reply.

(** The agent with the email tools alone, and a model that proposes the
    invitation template. *)
Definition mail_tools_map : list (string * Agent.ToolCollection Email.Smtp) :=
  [("email", EmailTools.new str_scalar "smtp.qq.com")].

Definition llm_template : string -> string -> M Email.Smtp Value :=
  answer_with template_reply.

Definition mail_intent : Dict :=
  [("intent_type", VStr "task"); ("requires_tools", VBool true);
   ("tool_category", VStr "email"); ("original_query", VStr "发会议邀请")].

End AgentScenarios.

(* ===================================================================== *)
(** ** src/api/routes.py: the tool execution route *)
(* ===================================================================== *)

Module ToolRoute.

Section ExecuteTool.

(** The world of the tools, the built-ins [str.lower] and [str], [str(e)]
    of an [HTTPException], [initialize_components()] and the three
    collections it sets up. *)
Variable W : Type.
Variable lower : string -> string.
Variable str : Value -> string.
Variable http_exception_str : Z -> string -> string.
Variable initialize_components : M W unit.
Variable file_tools email_tools calendar_tools : Agent.ToolCollection W.

(** [collection.execute_tool(request.tool_name, **request.parameters)];
    a parameter called [self] or [tool_name] collides with the
    arguments the call has bound. *)
Definition call (collection : Agent.ToolCollection W) (tool_name : string)
    (parameters : Dict) : M W Value :=
  Agent.call_execute_tool W str collection (VStr tool_name) parameters.

(** The route [POST /tools/execute] on a validated request. *)
Definition execute_tool (tool_category tool_name : string) (parameters : Dict)
  : M W Value :=
  try_except
    (initialize_components ;;;
     let tool_category := lower tool_category in
     if String.eqb tool_category "file"
     then call file_tools tool_name parameters
     else if String.eqb tool_category "email"
     then call email_tools tool_name parameters
     else if String.eqb tool_category "calendar"
     then call calendar_tools tool_name parameters
     else
       raise (Routes.http_exception http_exception_str 400
                ("不支持的工具类别: " ++ tool_category)))
    (fun e =>
       raise (Routes.http_exception http_exception_str 500
                ("工具执行失败: " ++ exc_str e))).

End ExecuteTool.

End ToolRoute.

(* ===================================================================== *)
(** ** src/rag/retriever.py: DocumentRetriever.retrieve_with_rerank *)
(* ===================================================================== *)

Module Rerank.

Import Retriever.

(** The threshold the candidates are retrieved with, [0.2]. *)
#[warnings="-inexact-float"]
Definition candidate_threshold : float := 0.2%float.

Section Retrieve.

Variable str : Value -> string.
Variable format_3f : float -> string.
Variable strip : string -> string.

Definition retrieve_with_rerank (query : string) (n_results : Z)
    (filter_category : option string) : M VectorStore (list string) :=
  try_except
    (candidates <-
       retrieve_documents str format_3f strip query (n_results * 3)
         filter_category candidate_threshold ;;
     match candidates with
     | [] => ret []
     | _ => ret (slice_to candidates n_results)
     end)
    (fun _ => ret []).

End Retrieve.

End Rerank.

(* ===================================================================== *)
(** ** src/rag/vector_store.py: VectorStore.search_similar *)
(* ===================================================================== *)

Module VectorSearch.

Import Retriever.

Definition Embedding : Type := list float.

(** What [collection.query] returns: for each of the three fields asked
    for, [None] or one list per query embedding. *)
Record QueryResult : Type := mkQueryResult {
  documents : option (list (list string));
  metadatas : option (list (list Value));
  distances : option (list (list float))
}.

(** The store as [search_similar] meets it: the embedding model, the
    collection, and the queries the collection has received so far, each
    with its [n_results] and its [where] ([None] when left out). *)
Record Store : Type := mkStore {
  embed_documents : list string -> Outcome (list Embedding);
  collection_query : Embedding -> Z -> Value -> Outcome QueryResult;
  queries : list (Z * Value)
}.

(** [generate_embeddings]: an empty list when the model fails. *)
Definition generate_embeddings (texts : list string) : M Store (list Embedding) :=
  fun store =>
    match embed_documents store texts with
    | Returns embeddings => (Returns embeddings, store)
    | Raises _ => (Returns [], store)
    end.

Definition query (embedding : Embedding) (n_results : Z) (where_ : Value)
  : M Store QueryResult :=
  fun store =>
    (collection_query store embedding n_results where_,
     mkStore (embed_documents store) (collection_query store)
       (queries store ++ [(n_results, where_)])).

(** [field[0]]. *)
Definition first {A} (field : option (list A)) : Outcome A :=
  match field with
  | None => Raises (mkExc TypeError "'NoneType' object is not subscriptable")
  | Some [] => Raises (mkExc (OtherException "IndexError") "list index out of range")
  | Some (x :: _) => Returns x
  end.

(** [results["documents"] and len(results["documents"]) > 0]. *)
Definition has_documents (results : QueryResult) : bool :=
  match documents results with
  | Some (_ :: _) => true
  | _ => false
  end.

(** [zip(documents, metadatas, distances)] turned into results. *)
Fixpoint format_results (docs : list string) (metas : list Value)
    (dists : list float) : list SearchResult :=
  match docs, metas, dists with
  | doc :: docs', meta :: metas', dist :: dists' =>
      mkResult doc meta (PrimFloat.sub 1 dist) dist
      :: format_results docs' metas' dists'
  | _, _, _ => []
  end.

Definition formatted (results : QueryResult) : Outcome (list SearchResult) :=
  Agent.and_then (first (documents results)) (fun docs =>
  Agent.and_then (first (metadatas results)) (fun metas =>
  Agent.and_then (first (distances results)) (fun dists =>
  Returns (format_results docs metas dists)))).

(** The log line with the file names of the first three results reads
    each metadata with [get]. *)
Fixpoint log_filenames (results : list SearchResult) : Outcome unit :=
  match results with
  | [] => Returns tt
  | r :: results' =>
      match py_get (metadata r) "filename" (VStr "未知") with
      | Raises e => Raises e
      | Returns _ => log_filenames results'
      end
  end.

(** [VectorStore.search_similar]. *)
Definition search_similar (query_text : string) (n_results : Z)
    (filter_dict : Value) : M Store (list SearchResult) :=
  try_except
    (query_embedding_list <- generate_embeddings [query_text] ;;
     match query_embedding_list with
     | [] => ret []
     | query_embedding :: _ =>
         results <- query query_embedding n_results filter_dict ;;
         formatted_results <-
           (if has_documents results then lift (formatted results)
            else if truthy filter_dict then
              results2 <- query query_embedding n_results VNone ;;
              if has_documents results2 then lift (formatted results2)
              else ret []
            else ret []) ;;
         lift (log_filenames (firstn 3 formatted_results)) ;;;
         ret formatted_results
     end)
    (fun _ => ret []).

(** A collection that has nothing in the category asked for, and two
    chunks otherwise, the second stored without metadata. *)
Definition hr_filter : Value := VDict [("category", VStr "hr")].

Definition no_match : QueryResult :=
  mkQueryResult (Some [[]]) (Some [[]]) (Some [[]]).

Definition two_chunks : QueryResult :=
  mkQueryResult (Some [["年假制度"; "报销流程"]])
    (Some [[VDict [("filename", VStr "hr_policy.txt")]; VNone]])
    (Some [[0.25%float; 0.5%float]]).

Definition small_store : Store :=
  mkStore (fun _ => Returns [[0.5%float; 0.25%float]])
    (fun _ _ where_ =>
       Returns (if truthy where_ then no_match else two_chunks))
    [].

End VectorSearch.

(* ===================================================================== *)
(** ** src/agents/knowledge_agent.py: _fallback_intent_analysis *)
(* ===================================================================== *)

Module FallbackIntent.

Section Analysis.

(** [str.lower]. *)
Variable lower : string -> string.

Definition file_keywords : list string :=
  ["搜索文件"; "查找文件"; "读取文件"; "创建文件"; "文件"; "目录"].

Definition email_keywords : list string :=
  ["发送邮件"; "邮件"; "发邮件"; "发送"; "email"; "通知"].

Definition calendar_keywords : list string :=
  ["安排会议"; "创建会议"; "会议"; "日程"; "预约"; "约会"; "时间安排"].

#[warnings="-inexact-float"]
Definition confidence (requires_tools : bool) : float :=
  if requires_tools then 0.7%float else 0.8%float.

Definition _fallback_intent_analysis (query : string) : Dict :=
  let query_lower := lower query in
  let file := contains_any query_lower file_keywords in
  let email := contains_any query_lower email_keywords in
  let calendar := contains_any query_lower calendar_keywords in
  let requires_tools := (file || email || calendar)%bool in
  let tool_categories :=
    ((if file then ["file"] else []) ++
     (if email then ["email"] else []) ++
     (if calendar then ["calendar"] else []))%list in
  let intent_type := if requires_tools then "task" else "question" in
  let tool_category :=
    match tool_categories with
    | [] => "none"
    | [category] => category
    | _ => join "|" tool_categories
    end in
  [("intent_type", VStr intent_type);
   ("confidence", VFloat (confidence requires_tools));
   ("entities", VList []);
   ("requires_tools", VBool requires_tools);
   ("tool_category", VStr tool_category);
   ("category", VStr "general");
   ("action_needed", VStr (if requires_tools then query else EmptyString));
   ("original_query", VStr query)].

End Analysis.

(** The keywords that decide: every other keyword of a list contains one
    of these. *)
Definition deciding_keywords (category : string) : list string :=
  if String.eqb category "file" then ["文件"; "目录"]
  else if String.eqb category "email" then ["邮件"; "发送"; "email"; "通知"]
  else if String.eqb category "calendar"
  then ["会议"; "日程"; "预约"; "约会"; "时间安排"]
  else [].

(** The categories a lower-cased query asks for. *)
Definition wanted (query_lower : string) : list string :=
  filter (fun category => contains_any query_lower (deciding_keywords category))
    ["file"; "email"; "calendar"].

End FallbackIntent.

(* ===================================================================== *)
(** ** src/mcp/calendar_tools.py: SchedulingTool *)
(* ===================================================================== *)

Module Scheduling.

Record Slot : Type := mkSlot {
  start_time : string;
  end_time : string;
  duration_minutes : Z
}.

Definition slot_value (slot : Slot) : Value :=
  VDict [("start_time", VStr (start_time slot));
         ("end_time", VStr (end_time slot));
         ("duration_minutes", VInt (duration_minutes slot))].

(** [f"{preferred_date}T{current_hour:02d}:{minutes:02d}:00"]. *)
Definition clock_time (current_hour minutes : Z) : string :=
  Datetime.zero_pad 2 current_hour ++ ":" ++ Datetime.zero_pad 2 minutes ++ ":00".

Definition slot_start (preferred_date : string) (current_hour minutes : Z)
  : string :=
  preferred_date ++ "T" ++ clock_time current_hour minutes.

(** [time_range[key]] for a range whose values are integers. *)
Definition hour_of (time_range : list (string * Z)) (key : string) : Outcome Z :=
  match Agent.lookup key time_range with
  | Some hour => Returns hour
  | None => Raises (mkExc KeyError (quote key))
  end.

(** The hours the [while] loop visits: [start_hour], [start_hour + 1],
    ... as long as [current_hour < end_hour]. *)
Definition hours (start_hour end_hour : Z) : list Z :=
  map (fun i => start_hour + Z.of_nat i) (seq 0 (Z.to_nat (end_hour - start_hour))).

(** [slot["start_time"].split("T")[1]]. *)
Definition time_part (slot : Slot) : Outcome string :=
  match split "T" (start_time slot) with
  | _ :: time :: _ => Returns time
  | _ => Raises (mkExc (OtherException "IndexError") "list index out of range")
  end.

(** [next((slot for slot in slots if ... < "12:00:00"), default)]. *)
Fixpoint first_morning (slots : list Slot) (default : option Slot)
  : Outcome (option Slot) :=
  match slots with
  | [] => Returns default
  | slot :: slots' =>
      match time_part slot with
      | Raises e => Raises e
      | Returns time =>
          if String.ltb time "12:00:00" then Returns (Some slot)
          else first_morning slots' default
      end
  end.

Definition option_value (slot : option Slot) : Value :=
  match slot with
  | Some s => slot_value s
  | None => VNone
  end.

Section Tool.

(** [(datetime.fromisoformat(start_time) + timedelta(minutes=m)).isoformat()],
    which raises [ValueError] for a text that is not a date and time. *)
Variable end_time_of : string -> Z -> Outcome string.

(** One turn of [for minutes in [0, 30]]. *)
Definition try_slot (preferred_date : string) (duration end_hour : Z)
    (current_hour : Z) (available_slots : list Slot) (minutes : Z)
  : Outcome (list Slot) :=
  if current_hour * 60 + minutes + duration <=? end_hour * 60 then
    let start := slot_start preferred_date current_hour minutes in
    match end_time_of start duration with
    | Raises e => Raises e
    | Returns end_ => Returns (available_slots ++ [mkSlot start end_ duration])%list
    end
  else Returns available_slots.

(** One turn of the [while] loop. *)
Definition try_hour (preferred_date : string) (duration end_hour : Z)
    (available_slots : list Slot) (current_hour : Z) : Outcome (list Slot) :=
  Agent.and_then
    (try_slot preferred_date duration end_hour current_hour available_slots 0)
    (fun slots =>
       try_slot preferred_date duration end_hour current_hour slots 30).

Fixpoint scan (preferred_date : string) (duration end_hour : Z)
    (current_hours : list Z) (available_slots : list Slot)
  : Outcome (list Slot) :=
  match current_hours with
  | [] => Returns available_slots
  | current_hour :: rest =>
      match try_hour preferred_date duration end_hour available_slots
              current_hour with
      | Raises e => Raises e
      | Returns slots => scan preferred_date duration end_hour rest slots
      end
  end.

Definition default_range : list (string * Z) :=
  [("start_hour", 9); ("end_hour", 17)].

(** [SchedulingTool.execute], on arguments of the types its signature
    and schema give: a date as text, whole minutes, whole hours. *)
Definition execute (attendees : Value) (preferred_date : string)
    (duration : Z) (time_range : option (list (string * Z)))
  : Outcome Value :=
  let range := match time_range with
               | None => default_range
               | Some r => r
               end in
  Agent.and_then (hour_of range "start_hour") (fun start_hour =>
  Agent.and_then (hour_of range "end_hour") (fun end_hour =>
  Agent.and_then
    (scan preferred_date duration end_hour (hours start_hour end_hour) [])
    (fun available_slots =>
  Agent.and_then (first_morning available_slots (hd_error available_slots))
    (fun recommended_slot =>
  Returns
    (VDict [("attendees", attendees);
            ("preferred_date", VStr preferred_date);
            ("available_slots", VList (map slot_value (firstn 5 available_slots)));
            ("recommended_slot", option_value recommended_slot);
            ("total_available",
             VInt (Z.of_nat (List.length available_slots)))]))))).

End Tool.

(** The half hours of the hours visited, in the order visited. *)
Definition half_hours (current_hours : list Z) : list (Z * Z) :=
  flat_map (fun h => [(h, 0); (h, 30)]) current_hours.

(** A slot starting at [minutes] past [current_hour] leaves room for the
    meeting before [end_hour]. *)
Definition fits (duration end_hour : Z) (start : Z * Z) : bool :=
  fst start * 60 + snd start + duration <=? end_hour * 60.

(** The slot built for a start. *)
Definition slot_at (preferred_date : string) (duration : Z) (start : Z * Z)
    (slot : Slot) : Prop :=
  start_time slot = slot_start preferred_date (fst start) (snd start) /\
  duration_minutes slot = duration.

(** What the test of the recommendation reads from a slot's start: the
    clock time when the date holds no [T], and otherwise the part of the
    date after its first [T], the same for every slot. *)
Definition morning_key (preferred_date clock : string) : string :=
  match split "T" preferred_date with
  | _ :: part :: _ => part
  | _ => clock
  end.

(** A clock that adds no minutes, for the examples. *)
Definition same_time (start : string) (minutes : Z) : Outcome string :=
  Returns start.

Definition afternoon : list (string * Z) :=
  [("start_hour", 13); ("end_hour", 18)].

(** An hour's meeting on an afternoon. *)
Definition afternoon_result : Value :=
  match execute same_time (VList [VStr "a@company.com"]) "2024-01-16" 60
          (Some afternoon) with
  | Returns result => result
  | Raises _ => VNone
  end.

End Scheduling.

(* ===================================================================== *)
(** ** src/agents/workflow.py: the nodes, the routers and the graph *)
(* ===================================================================== *)

Module Graph.

Inductive Node : Type :=
| query_analysis
| document_retrieval
| context_assembly
| response_generation
| action_execution
| context_integration
| error_handling.

Definition newline : string := String "010" EmptyString.

(** [x + 1] for what [state.get("iteration_count", 0)] may hold. *)
Definition add_one (v : Value) : Outcome Value :=
  match v with
  | VInt z => Returns (VInt (z + 1))
  | VBool b => Returns (VInt ((if b then 1 else 0) + 1))
  | VFloat f => Returns (VFloat (PrimFloat.add f 1))
  | _ => Raises (mkExc TypeError "unsupported operand type(s) for +")
  end.

Definition hr_words : list string :=
  ["年假"; "休假"; "请假"; "福利"; "薪资"; "社保"; "人事"].

Definition tech_words : list string :=
  ["接口"; "报错"; "部署"; "数据库"; "代码"; "技术"; "bug"].

(** The intent the analysis node falls back to. *)
Definition fallback_intent (query : string) : Value :=
  let category :=
    if contains_any query hr_words then "hr"
    else if contains_any query tech_words then "tech"
    else "general" in
  VDict [("intent_type", VStr "question");
         ("confidence", VFloat 0.5%float);
         ("entities", VList []);
         ("requires_tools", VBool false);
         ("tool_category", VStr "none");
         ("category", VStr category);
         ("action_needed", VStr EmptyString);
         ("original_query", VStr query);
         ("fallback", VBool true)].

(** The [except] branch of the analysis node, from the state as the
    [try] body left it.  It is not itself guarded: what it raises leaves
    the node. *)
Definition analysis_fallback (state : Dict) : Outcome Dict :=
  Agent.and_then (add_one (dict_get_default state "iteration_count" (VInt 0)))
    (fun count =>
       let state1 := dict_set state "iteration_count" count in
       match dict_get_default state1 "query" (VStr EmptyString) with
       | VStr query =>
           Returns (dict_set state1 "intent_analysis" (fallback_intent query))
       | _ => Raises (mkExc AttributeError "object has no attribute 'lower'")
       end).

(** The three routers. *)
Definition requires_tools (state : Dict) : Outcome Value :=
  py_get (dict_get_default state "intent_analysis" (VDict []))
    "requires_tools" (VBool false).

Definition should_continue_after_response (state : Dict) : Outcome string :=
  if truthy (dict_get_default state "error" VNone) then Returns "error_handling"
  else
    Agent.and_then (requires_tools state) (fun required =>
      if (truthy required &&
          negb (truthy (dict_get_default state "actions" VNone)))%bool
      then Returns "action_execution"
      else Returns "end").

Definition should_continue_after_analysis (state : Dict) : Outcome string :=
  if truthy (dict_get_default state "error" VNone) then Returns "error_handling"
  else
    Agent.and_then (requires_tools state) (fun required =>
      if truthy required then Returns "action_execution"
      else Returns "document_retrieval").

Definition after_context_assembly (state : Dict) : Outcome string :=
  if truthy (dict_get_default state "error" VNone) then Returns "error_handling"
  else
    match dict_get_default state "tool_result" VNone with
    | VNone => Returns "response_generation"
    | _ => Returns "context_integration"
    end.

(** The destinations of a conditional edge: [None] is [END]. *)
Definition destination (mapping : list (string * option Node)) (label : string)
  : Outcome (option Node) :=
  match Agent.lookup label mapping with
  | Some node => Returns node
  | None => Raises (mkExc KeyError (quote label))
  end.

(** The edges of the graph: where a run goes after a node, given the
    state the node left. *)
Definition successor (node : Node) (state : Dict) : Outcome (option Node) :=
  match node with
  | query_analysis =>
      Agent.and_then (should_continue_after_analysis state)
        (destination
           [("document_retrieval", Some document_retrieval);
            ("action_execution", Some action_execution);
            ("error_handling", Some error_handling)])
  | response_generation =>
      Agent.and_then (should_continue_after_response state)
        (destination
           [("action_execution", Some action_execution);
            ("error_handling", Some error_handling);
            ("end", None)])
  | context_assembly =>
      Agent.and_then (after_context_assembly state)
        (destination
           [("context_integration", Some context_integration);
            ("response_generation", Some response_generation);
            ("error_handling", Some error_handling)])
  | document_retrieval => Returns (Some context_assembly)
  | action_execution => Returns (Some document_retrieval)
  | context_integration => Returns None
  | error_handling => Returns None
  end.

Section Workflow.

(** The world the collaborators act on; the built-ins [str.lower], [str]
    and [str.strip]; the first five characters of a text, as values. *)
Variable W : Type.
Variable lower : string -> string.
Variable str : Value -> string.
Variable strip : string -> string.
Variable first_characters : string -> list Value.

(** The collaborators: [str(uuid4())], the constructors [KnowledgeAgent()]
    and [DocumentRetriever()], and the methods the nodes call. *)
Variable uuid4 : M W string.
Variable new_agent : M W unit.
Variable new_retriever : M W unit.
Variable analyze_query_intent : Value -> M W Value.
Variable retrieve_documents : Value -> option string -> M W (list Value).
Variable generate_response : Value -> Value -> Value -> M W Value.
Variable agent_execute_tool : Value -> M W Value.
Variable integrate_tool_result_with_context :
  Value -> Value -> Value -> Value -> Value -> M W Value.

(** How the graph folds the state a node returns into its own: every key
    the node returned takes the returned value; a key the node dropped
    keeps its old value or goes, as the library has it. *)
Variable merge : Dict -> Dict -> Dict.

(** A step of a [try] body whose failure is handled from the state
    reached so far. *)
Definition attempt {A} (step : M W A) (on_error : M W Dict)
    (continue : A -> M W Dict) : M W Dict :=
  fun w =>
    match step w with
    | (Returns a, w') => continue a w'
    | (Raises _, w') => on_error w'
    end.

Definition query_analysis_node (state : Dict) : M W Dict :=
  attempt
    (if negb (truthy (dict_get_default state "request_id" VNone))
     then request_id <- uuid4 ;; ret (dict_set state "request_id" (VStr request_id))
     else ret state)
    (lift (analysis_fallback state))
    (fun state1 =>
       attempt
         (new_agent ;;;
          query <- lift (subscript (VDict state1) "query") ;;
          analyze_query_intent query)
         (lift (analysis_fallback state1))
         (fun intent_analysis =>
            let state2 := dict_set state1 "intent_analysis" intent_analysis in
            attempt
              (lift (add_one (dict_get_default state2 "iteration_count" (VInt 0))))
              (lift (analysis_fallback state2))
              (fun count => ret (dict_set state2 "iteration_count" count)))).

Definition document_retrieval_node (state : Dict) : M W Dict :=
  try_except
    (new_retriever ;;;
     let query := dict_get_default state "query" (VStr EmptyString) in
     let intent := dict_get_default state "intent_analysis" (VDict []) in
     category <- lift (py_get intent "category" (VStr "general")) ;;
     documents <-
       (if eq_str category "hr" then retrieve_documents query (Some "hr")
        else if eq_str category "tech" then retrieve_documents query (Some "tech")
        else retrieve_documents query None) ;;
     ret (dict_set state "documents" (VList documents)))
    (fun e =>
       ret (dict_set (dict_set state "error" (VStr (exc_str e)))
              "documents" (VList []))).

(** [documents[:5]] as the loop iterates over it. *)
Definition first_five (documents : Value) : Outcome (list Value) :=
  match documents with
  | VList docs => Returns (firstn 5 docs)
  | VStr text => Returns (first_characters text)
  | _ => Raises (mkExc TypeError "object is not subscriptable with a slice")
  end.

Fixpoint context_parts (i : nat) (docs : list Value) : list string :=
  match docs with
  | [] => []
  | doc :: docs' =>
      ("文档 " ++ Calendar.str_of_nat (i + 1) ++ ":" ++ newline ++ str doc ++ newline)
      :: context_parts (S i) docs'
  end.

(** [[a for a in actions if a.get("status") == "failed" and a.get("error")]]. *)
Fixpoint failed_among (actions : list Value) : Outcome (list Value) :=
  match actions with
  | [] => Returns []
  | a :: actions' =>
      Agent.and_then (py_get a "status" VNone) (fun status =>
      Agent.and_then
        (if py_eqb status (VStr "failed")
         then Agent.and_then (py_get a "error" VNone)
                (fun error => Returns (truthy error))
         else Returns false)
        (fun keep =>
      Agent.and_then (failed_among actions') (fun rest =>
      Returns (if keep then a :: rest else rest))))
  end.

Fixpoint failure_lines (failed : list Value) : Outcome (list string) :=
  match failed with
  | [] => Returns []
  | a :: failed' =>
      Agent.and_then (py_get a "type" (VStr "unknown")) (fun type =>
      Agent.and_then (py_get a "error" VNone) (fun error =>
      Agent.and_then (failure_lines failed') (fun rest =>
      Returns (("- " ++ str type ++ ": " ++ str error) :: rest))))
  end.

Definition assemble (state : Dict) : Outcome Dict :=
  Agent.and_then (subscript (VDict state) "documents") (fun documents =>
  Agent.and_then (subscript (VDict state) "query") (fun _ =>
  Agent.and_then (first_five documents) (fun docs =>
  let joined := join newline (context_parts 0 docs) in
  let context :=
    if negb (truthy (VStr (strip joined))) then "未找到相关文档信息。"
    else joined in
  Agent.and_then (Agent.py_iter (dict_get_default state "actions" (VList [])))
    (fun actions =>
  Agent.and_then (failed_among actions) (fun failed =>
  Agent.and_then
    (match failed with
     | [] => Returns context
     | _ =>
         Agent.and_then (failure_lines failed) (fun lines =>
           Returns (context ++ newline ++ newline ++ "[工具执行失败信息]" ++ newline
                    ++ join newline lines))
     end)
    (fun context' => Returns (dict_set state "context" (VStr context')))))))).

Definition context_assembly_node (state : Dict) : M W Dict :=
  try_except (lift (assemble state))
    (fun e =>
       ret (dict_set (dict_set state "error" (VStr (exc_str e)))
              "context" (VStr "上下文组装失败。"))).

Definition response_generation_node (state : Dict) : M W Dict :=
  try_except
    (new_agent ;;;
     query <- lift (subscript (VDict state) "query") ;;
     context <- lift (subscript (VDict state) "context") ;;
     let history := dict_get_default state "conversation_history" (VList []) in
     response <- generate_response query context history ;;
     ret (dict_set state "response" response))
    (fun e =>
       ret (dict_set (dict_set state "error" (VStr (exc_str e)))
              "response" (VStr "抱歉，响应生成失败。"))).

Definition context_integration_node (state : Dict) : M W Dict :=
  try_except
    (new_agent ;;;
     intent <- lift (subscript (VDict state) "intent_analysis") ;;
     match dict_get_default state "tool_result" VNone with
     | VNone => ret state
     | tool_result =>
         tool_category <- lift (py_get intent "tool_category" (VStr EmptyString)) ;;
         let context := dict_get_default state "context" (VStr EmptyString) in
         let documents := dict_get_default state "documents" (VList []) in
         query <- lift (subscript (VDict state) "query") ;;
         detailed_response <-
           integrate_tool_result_with_context query tool_result tool_category
             context documents ;;
         ret (dict_set state "response" detailed_response)
     end)
    (fun e => ret (dict_set state "error" (VStr (exc_str e)))).

Definition error_handling_node (state : Dict) : M W Dict :=
  let error := dict_get_default state "error" (VStr "未知错误") in
  ret (dict_set state "response" (VStr ("处理请求时发生错误: " ++ str error))).

Definition run_node (node : Node) (state : Dict) : M W Dict :=
  match node with
  | query_analysis => query_analysis_node state
  | document_retrieval => document_retrieval_node state
  | context_assembly => context_assembly_node state
  | response_generation => response_generation_node state
  | action_execution =>
      Workflow.action_execution_node lower W agent_execute_tool state
  | context_integration => context_integration_node state
  | error_handling => error_handling_node state
  end.

Definition recursion_limit : nat := 25.

Definition graph_recursion_error : Exc :=
  mkExc (OtherException "GraphRecursionError")
    "Recursion limit of 25 reached without hitting a stop condition.".

(** A run of the compiled graph from [node]: the node runs, the state it
    returns is folded into the graph's, the edge out of the node is
    followed, until [END]; [steps] is what is left of the recursion
    limit.  The result is the final state and the nodes run, in order. *)
Fixpoint run (steps : nat) (node : Node) (state : Dict) (trace : list Node)
  : M W (Dict * list Node) :=
  match steps with
  | O => raise graph_recursion_error
  | S steps' =>
      returned <- run_node node state ;;
      let state' := merge state returned in
      next <- lift (successor node state') ;;
      match next with
      | None => ret (state', trace ++ [node])%list
      | Some node' => run steps' node' state' (trace ++ [node])%list
      end
  end.

(** [workflow.ainvoke(initial_state)]. *)
Definition ainvoke (initial_state : Dict) : M W (Dict * list Node) :=
  run recursion_limit query_analysis initial_state [].

End Workflow.

(** A node's result keeps every key of the state outside [written]. *)
Definition keeps (written : list string) (state out : Dict) : Prop :=
  forall k, ~ In k written -> dict_get out k = dict_get state k.

(** The state no longer asks for the action node: the intent requires no
    tools, or actions have been recorded. *)
Definition settled (state : Dict) : Prop :=
  match requires_tools state with
  | Returns required =>
      truthy required = false \/
      truthy (dict_get_default state "actions" VNone) = true
  | Raises _ => True
  end.

(** The final state reports an error to the user: the error recorded is
    not empty and the response quotes it. *)
Definition reported (str : Value -> string) (final : Dict) : Prop :=
  exists error,
    dict_get final "error" = Some error /\
    truthy error = true /\
    dict_get final "response"
    = Some (VStr ("处理请求时发生错误: " ++ str error)).

(** The exceptions that leave a run: a [TypeError] or an
    [AttributeError], as the [except] branch of the analysis node and the
    routers raise them. *)
Definition escapes (e : Exc) : Prop :=
  exc_class e = TypeError \/ exc_class e = AttributeError.

(** A run that started with [trace] ends with one of [suffixes] added to
    it, reporting the error when it went through the error node; or it
    ends with one of the exceptions that leave a run. *)
Definition ends_with {S : Type} (str : Value -> string)
    (suffixes : list (list Node)) (trace : list Node)
    (result : Outcome (Dict * list Node) * S) : Prop :=
  match fst result with
  | Returns (final, nodes) =>
      exists suffix,
        In suffix suffixes /\ nodes = (trace ++ suffix)%list /\
        (In error_handling suffix -> reported str final)
  | Raises e => escapes e
  end.

(** Folding a returned state into the graph's key by key. *)
Definition update (old new : Dict) : Dict :=
  fold_right (fun kv acc => dict_set acc (fst kv) (snd kv)) old new.

(** The paths a run can take, from the entry point to [END]. *)
Definition paths : list (list Node) :=
  [[query_analysis; error_handling];
   [query_analysis; action_execution; document_retrieval; context_assembly;
    error_handling];
   [query_analysis; action_execution; document_retrieval; context_assembly;
    context_integration];
   [query_analysis; action_execution; document_retrieval; context_assembly;
    response_generation];
   [query_analysis; action_execution; document_retrieval; context_assembly;
    response_generation; error_handling];
   [query_analysis; document_retrieval; context_assembly; error_handling];
   [query_analysis; document_retrieval; context_assembly; context_integration];
   [query_analysis; document_retrieval; context_assembly; response_generation];
   [query_analysis; document_retrieval; context_assembly; response_generation;
    error_handling]].

End Graph.

(* ------------------------------------------------------------------ *)
(** * Runs of the workflow over the scenarios' calendar and mail system *)

Module GraphRuns.

Import Examples AgentScenarios Graph.

(** The state the chat route starts the workflow from. *)
Definition chat_state (query : string) (conversation_history : Value) : Dict :=
  [("query", VStr query);
   ("intent_analysis", VDict []);
   ("documents", VList []);
   ("context", VStr EmptyString);
   ("response", VStr EmptyString);
   ("actions", VList []);
   ("conversation_history", conversation_history);
   ("error", VStr EmptyString);
   ("iteration_count", VInt 0)].

(** The first five characters of a text in ASCII. *)
Definition first_characters (text : string) : list Value :=
  map (fun c => VStr (String c EmptyString))
    (firstn 5 (list_ascii_of_string text)).

(** Collaborators that answer at once: a request id, the constructors, an
    analysis that returns a given intent, a retriever with one document,
    and the two response generators. *)
Definition request_id : M World string :=
  ret "6f1c2a3e-8b1d-4c5e-9f00-2d7a41b5c3e8".

Definition construct : M World unit := ret tt.

Definition analysis (intent : Dict) (query : Value) : M World Value :=
  ret (VDict intent).

Definition handbook (query : Value) (filter_category : option string)
  : M World (list Value) :=
  ret [VStr "会议室预订须提前一天。"].

Definition answer (query context history : Value) : M World Value :=
  ret (VStr "已为您查询。").

Definition integration (query tool_result tool_category context documents : Value)
  : M World Value :=
  ret (VStr "评审会已创建。").

(** A run of the workflow for a query the analysis maps to [intent]. *)
Definition chat (llm_content : string -> string -> M World Value)
    (intent : Dict) (query : string) : M World (Dict * list Node) :=
  ainvoke World ascii_lower str_scalar ascii_strip first_characters request_id
    construct construct (analysis intent) handbook answer (agent llm_content)
    integration update (chat_state query (VList [])).

(** A request for a review meeting, and the same with a fax. *)
Definition meeting_intent : Dict :=
  [("intent_type", VStr "task"); ("requires_tools", VBool true);
   ("tool_category", VStr "calendar"); ("original_query", VStr "安排评审会")].

Definition meeting_run : Outcome (Dict * list Node) * World :=
  chat llm_meeting meeting_intent "安排评审会" fresh_world.

Definition fax_run : Outcome (Dict * list Node) * World :=
  chat llm_meeting fax_intent "安排评审会并发传真" fresh_world.

Definition final_state (result : Outcome (Dict * list Node) * World) : Dict :=
  match fst result with
  | Returns (final, _) => final
  | Raises _ => []
  end.

Definition nodes_run (result : Outcome (Dict * list Node) * World) : list Node :=
  match fst result with
  | Returns (_, nodes) => nodes
  | Raises _ => []
  end.

End GraphRuns.

(* ===================================================================== *)
(** ** src/agents/knowledge_agent.py: the intent analysis *)
(* ===================================================================== *)

Module IntentAnalysis.

(** A character occurs in a text. *)
Fixpoint mentions (c : ascii) (s : string) : bool :=
  match s with
  | EmptyString => false
  | String c' s' => (Ascii.eqb c' c || mentions c s')%bool
  end.

(** [[^}]*\}] at the front of a text: the text up to its first closing
    brace and that brace. *)
Fixpoint to_closing_brace (s : string) : option string :=
  match s with
  | EmptyString => None
  | String c s' =>
      if Ascii.eqb c "}" then Some "}"
      else option_map (String c) (to_closing_brace s')
  end.

(** [re.search(r'\{[^}]*\}', content, re.DOTALL).group()]: the leftmost
    match, tried at every position. *)
Fixpoint json_match (content : string) : option string :=
  match content with
  | EmptyString => None
  | String c rest =>
      if Ascii.eqb c "{" then
        match to_closing_brace rest with
        | Some body => Some (String c body)
        | None => json_match rest
        end
      else json_match rest
  end.

(** [re.search] on what the response holds. *)
Definition search (content : Value) : Outcome (option string) :=
  match content with
  | VStr text => Returns (json_match text)
  | _ => Raises (mkExc TypeError "expected string or bytes-like object")
  end.

Definition is_json_decode_error (e : Exc) : bool :=
  match exc_class e with
  | OtherException name => String.eqb name "JSONDecodeError"
  | _ => false
  end.

(** [result[k] = v]. *)
Definition set_item (result : Value) (k : string) (v : Value) : Outcome Value :=
  match result with
  | VDict d => Returns (VDict (dict_set d k v))
  | _ => Raises (mkExc TypeError "object does not support item assignment")
  end.

Section Analyze.

Variable W : Type.

(** [str.lower]; the [content] of the model's response to the messages
    built from the query; [json.loads]. *)
Variable lower : string -> string.
Variable llm_content : Value -> M W Value.
Variable json_loads : string -> Outcome Value.

(** [self._fallback_intent_analysis(query)]. *)
Definition fallback (query : Value) : M W Value :=
  match query with
  | VStr text => ret (VDict (FallbackIntent._fallback_intent_analysis lower text))
  | _ => raise (mkExc AttributeError "object has no attribute 'lower'")
  end.

Definition analyze_query_intent (query : Value) : M W Value :=
  try_except
    (content <- llm_content query ;;
     json_match <- lift (search content) ;;
     parsed <-
       match json_match with
       | Some matched =>
           match json_loads matched with
           | Returns result =>
               result' <- lift (set_item result "original_query" query) ;;
               ret (Some result')
           | Raises e =>
               if is_json_decode_error e then ret None else raise e
           end
       | None => ret None
       end ;;
     match parsed with
     | Some result => ret result
     | None => fallback query
     end)
    (fun e => fallback query).

End Analyze.

End IntentAnalysis.

(* ------------------------------------------------------------------ *)
(** * Runs of the workflow with the agent's own analysis *)

Module AnalysedRuns.

Import Examples AgentScenarios Graph GraphRuns.

(** A model that answers without an object, and a parser that accepts
    nothing. *)
Definition llm_apology (query : Value) : M World Value :=
  ret (VStr "抱歉，我无法分析这个请求。").

Definition no_json (text : string) : Outcome Value :=
  Raises (mkExc (OtherException "JSONDecodeError") "Expecting value").

Definition analysis : Value -> M World Value :=
  IntentAnalysis.analyze_query_intent World ascii_lower llm_apology no_json.

Definition chat (query : string) : M World (Dict * list Node) :=
  ainvoke World ascii_lower str_scalar ascii_strip first_characters request_id
    construct construct analysis handbook answer (agent llm_meeting)
    integration update (chat_state query (VList [])).

Definition meeting_run : Outcome (Dict * list Node) * World :=
  chat "安排评审会议" fresh_world.

End AnalysedRuns.

(* ===================================================================== *)
(** ** src/utils/cache.py *)
(* ===================================================================== *)

Module Cache.

(** An entry of [self.cache]: [{'value': ..., 'timestamp': ...}]. *)
Record Entry : Type := mkEntry { value : Value; timestamp : float }.

(** The instance: [self.cache] in the order of insertion, [self.max_size]
    and [self.ttl], together with the clock it reads: the [n]-th call of
    [time.time()] returns [clock n]. *)
Record SimpleCache : Type := mkCache {
  cache : list (string * Entry);
  max_size : Z;
  ttl : Z;
  clock : nat -> float;
  ticks : nat
}.

(** [SimpleCache(max_size, ttl)]. *)
Definition new (max_size ttl : Z) (clock : nat -> float) : SimpleCache :=
  mkCache [] max_size ttl clock 0.

Definition with_cache (entries : list (string * Entry)) (self : SimpleCache)
  : SimpleCache :=
  mkCache entries (max_size self) (ttl self) (clock self) (ticks self).

(** The instance after one reading of the clock. *)
Definition tick (self : SimpleCache) : SimpleCache :=
  mkCache (cache self) (max_size self) (ttl self) (clock self) (S (ticks self)).

Definition time : M SimpleCache float :=
  fun self => (Returns (clock self (ticks self)), tick self).

Definition set_cache (entries : list (string * Entry)) : M SimpleCache unit :=
  modify (with_cache entries).

(** [d[k] = e]: in place for a key of the dictionary, at the end for a
    new one. *)
Fixpoint assign (k : string) (e : Entry) (d : list (string * Entry))
  : list (string * Entry) :=
  match d with
  | [] => [(k, e)]
  | (k', e') :: d' =>
      if String.eqb k' k then (k', e) :: d' else (k', e') :: assign k e d'
  end.

(** [del d[k]]. *)
Fixpoint delete (k : string) (d : list (string * Entry))
  : Outcome (list (string * Entry)) :=
  match d with
  | [] => Raises (mkExc KeyError (quote k))
  | (k', e') :: d' =>
      if String.eqb k' k then Returns d'
      else
        match delete k d' with
        | Returns d'' => Returns ((k', e') :: d'')
        | Raises e => Raises e
        end
  end.

(** [x > n] for a float and an integer, which are compared by their
    exact values. *)
Definition float_gt_int (x : float) (n : Z) : bool :=
  match FloatOps.Prim2SF x with
  | SpecFloat.S754_zero _ => n <? 0
  | SpecFloat.S754_infinity sign => negb sign
  | SpecFloat.S754_nan => false
  | SpecFloat.S754_finite sign m e =>
      let mantissa := if sign then Z.neg m else Z.pos m in
      if 0 <=? e then n <? mantissa * 2 ^ e
      else n * 2 ^ (- e) <? mantissa
  end.

(** [now - entry['timestamp'] > self.ttl]. *)
Definition expired (now : float) (ttl : Z) (entry : Entry) : bool :=
  float_gt_int (PrimFloat.sub now (timestamp entry)) ttl.

(** [min(d.keys(), key=lambda k: d[k]['timestamp'])]: the first key whose
    timestamp no later key is below. *)
Fixpoint oldest (best : string * Entry) (rest : list (string * Entry))
  : string :=
  match rest with
  | [] => fst best
  | x :: rest' =>
      if PrimFloat.ltb (timestamp (snd x)) (timestamp (snd best))
      then oldest x rest'
      else oldest best rest'
  end.

Definition oldest_key (d : list (string * Entry)) : Outcome string :=
  match d with
  | [] => Raises (mkExc ValueError "min() arg is an empty sequence")
  | x :: rest => Returns (oldest x rest)
  end.

Section Methods.

(** [_generate_key]: the MD5 digest, in hexadecimal, of [json.dumps] of a
    dictionary with its keys sorted, and of [str] of any other value.  It
    raises what [json.dumps] or [encode] raises, as for a text with a lone
    surrogate, and nothing guards it. *)
Variable _generate_key : Value -> Outcome string.

Definition get (key : Value) : M SimpleCache Value :=
  cache_key <- lift (_generate_key key) ;;
  self <- Py.get ;;
  match Agent.lookup cache_key (cache self) with
  | None => ret VNone
  | Some entry =>
      now <- time ;;
      if expired now (ttl self) entry
      then
        entries <- lift (delete cache_key (cache self)) ;;
        set_cache entries ;;;
        ret VNone
      else ret (value entry)
  end.

Definition set (key value : Value) : M SimpleCache Value :=
  cache_key <- lift (_generate_key key) ;;
  self <- Py.get ;;
  (if Z.of_nat (List.length (cache self)) >=? max_size self
   then
     oldest_key <- lift (oldest_key (cache self)) ;;
     entries <- lift (delete oldest_key (cache self)) ;;
     set_cache entries
   else ret tt) ;;;
  now <- time ;;
  self' <- Py.get ;;
  set_cache (assign cache_key (mkEntry value now) (cache self')) ;;;
  ret VNone.

Definition clear : M SimpleCache Value :=
  set_cache [] ;;; ret VNone.

Definition size : M SimpleCache Value :=
  self <- Py.get ;;
  ret (VInt (Z.of_nat (List.length (cache self)))).

Definition cleanup_expired : M SimpleCache Value :=
  current_time <- time ;;
  self <- Py.get ;;
  let expired_keys :=
    map fst
      (filter (fun item => expired current_time (ttl self) (snd item))
         (cache self)) in
  for_each expired_keys tt
    (fun _ key =>
       self' <- Py.get ;;
       entries <- lift (delete key (cache self')) ;;
       set_cache entries) ;;;
  ret (VInt (Z.of_nat (List.length expired_keys))).

(** The calls a client makes, one after the other, going on after a call
    that raised. *)
Inductive Call : Type :=
| call_get (key : Value)
| call_set (key value : Value)
| call_clear
| call_size
| call_cleanup_expired.

Definition perform (call : Call) : M SimpleCache Value :=
  match call with
  | call_get key => get key
  | call_set key value => set key value
  | call_clear => clear
  | call_size => size
  | call_cleanup_expired => cleanup_expired
  end.

Fixpoint run_calls (calls : list Call) (self : SimpleCache)
  : list (Outcome Value) * SimpleCache :=
  match calls with
  | [] => ([], self)
  | call :: rest =>
      let (outcome, self') := perform call self in
      let (outcomes, final) := run_calls rest self' in
      (outcome :: outcomes, final)
  end.

End Methods.

(** The keys of a dictionary are distinct. *)
Definition distinct_keys (self : SimpleCache) : Prop :=
  NoDup (map fst (cache self)).

Definition raised_value_error (outcome : Outcome Value) : bool :=
  match outcome with
  | Raises (mkExc ValueError _) => true
  | _ => false
  end.

Definition has_returned (outcome : Outcome Value) : bool :=
  match outcome with
  | Returns _ => true
  | Raises _ => false
  end.

(** The key a call generates a digest for. *)
Definition key_of (call : Call) : option Value :=
  match call with
  | call_get key | call_set key _ => Some key
  | _ => None
  end.

Section Outcomes.

Variable _generate_key : Value -> Outcome string.

(** A call ends as [otherwise] says, unless the digest of its key cannot
    be computed: then it raises what the key generation raised. *)
Definition unless_key_fails (otherwise : Outcome Value -> bool) (call : Call)
    (outcome : Outcome Value) : Prop :=
  match key_of call with
  | Some key =>
      match _generate_key key with
      | Raises e => outcome = Raises e
      | Returns _ => otherwise outcome = true
      end
  | None => otherwise outcome = true
  end.

(** A call on a cache with room returns. *)
Definition served (call : Call) (outcome : Outcome Value) : Prop :=
  unless_key_fails has_returned call outcome.

(** What a call of [set] does when the cache holds nothing and
    [max_size] leaves no room, and what any other call does. *)
Definition refused (call : Call) (outcome : Outcome Value) : Prop :=
  unless_key_fails
    match call with
    | call_set _ _ => raised_value_error
    | _ => has_returned
    end call outcome.

End Outcomes.

End Cache.

(* ------------------------------------------------------------------ *)
(** * Scenarios of the cache *)

Module CacheRuns.

Import Cache.

(** The lone surrogate U+D800, as the bytes a permissive encoder gives
    it, and what [encode] raises for a text that holds it. *)
Definition lone_surrogate : string :=
  String "237" (String "160" (String "128" EmptyString)).

Definition surrogate_error : Exc :=
  mkExc (OtherException "UnicodeEncodeError")
    "'utf-8' codec can't encode character '\ud800' in position 2: surrogates not allowed".

(** Keys by [str] of a scalar, in place of its digest; a text with the
    lone surrogate has none. *)
Definition plain_key (data : Value) : Outcome string :=
  match data with
  | VStr text =>
      if contains text lone_surrogate then Raises surrogate_error
      else Returns text
  | _ => Returns (str_scalar data)
  end.

(** A clock that advances a second at each reading, from the start of
    2024-01-15 14:00 UTC. *)
Definition seconds (n : nat) : float :=
  PrimFloat.add 1705327200%float (PrimFloat.of_uint63 (Uint63.of_Z (Z.of_nat n))).

(** A clock that advances four minutes at each reading. *)
Definition four_minutes (n : nat) : float :=
  PrimFloat.add 1705327200%float
    (PrimFloat.of_uint63 (Uint63.of_Z (240 * Z.of_nat n))).

Definition intents : list Call :=
  [call_set (VStr "年假") (VStr "hr");
   call_set (VStr "部署") (VStr "tech");
   call_get (VStr "年假");
   call_set (VStr "会议") (VStr "calendar");
   call_size;
   call_cleanup_expired;
   call_get (VStr "部署")].

Definition intents_and_a_surrogate : list Call :=
  (intents ++ [call_get (VStr ("年假" ++ lone_surrogate))])%list.

(** A cache of two entries that is full. *)
Definition full_cache : SimpleCache :=
  snd (run_calls plain_key
         [call_set (VStr "年假") (VStr "hr"); call_set (VStr "部署") (VStr "tech")]
         (new 2 300 seconds)).

(** A cache of three entries, the first two older than five minutes at
    the next reading of the clock. *)
Definition aged_cache : SimpleCache :=
  snd (run_calls plain_key
         [call_set (VStr "年假") (VStr "hr"); call_set (VStr "部署") (VStr "tech");
          call_set (VStr "会议") (VStr "calendar")]
         (new 50 300 four_minutes)).

(** A value cached under the number 1, on a cache with room. *)
Definition roomy : SimpleCache := new 50 300 four_minutes.

Definition after_first_set : SimpleCache :=
  snd (set plain_key (VInt 1) (VStr "hr") roomy).

End CacheRuns.

(* ===================================================================== *)
(** * Properties *)
(* ===================================================================== *)

(** ** Dictionaries *)

Module DictFacts.

Lemma dict_get_set_same d k v : dict_get (dict_set d k v) k = Some v.
Proof.
  induction d as [|[k' v'] d IH]; simpl.
  - now rewrite String.eqb_refl.
  - destruct (String.eqb k' k) eqn:E; simpl; rewrite E; auto.
Qed.

Lemma dict_get_set_other d k k' v :
  k <> k' -> dict_get (dict_set d k v) k' = dict_get d k'.
Proof.
  intros Hne. induction d as [|[k0 v0] d IH]; simpl.
  - destruct (String.eqb k k') eqn:E; auto.
    apply String.eqb_eq in E. contradiction.
  - destruct (String.eqb k0 k) eqn:E; simpl.
    + apply String.eqb_eq in E. subst k0.
      destruct (String.eqb k k') eqn:E'; auto.
      apply String.eqb_eq in E'. contradiction.
    + now rewrite IH.
Qed.

Lemma dict_get_remove_other d k k' :
  k <> k' -> dict_get (dict_remove d k) k' = dict_get d k'.
Proof.
  intros Hne. induction d as [|[k0 v0] d IH]; simpl; [reflexivity|].
  destruct (String.eqb k0 k) eqn:E; simpl.
  - apply String.eqb_eq in E. subst k0.
    destruct (String.eqb k k') eqn:E'; [|reflexivity].
    apply String.eqb_eq in E'. contradiction.
  - now rewrite IH.
Qed.

Lemma dict_get_setdefault_other d k k' v :
  k <> k' -> dict_get (dict_setdefault d k v) k' = dict_get d k'.
Proof.
  intros H. unfold dict_setdefault. destruct (dict_has d k); [reflexivity|].
  now apply dict_get_set_other.
Qed.

Lemma dict_has_remove_other d k k' :
  k <> k' -> dict_has (dict_remove d k) k' = dict_has d k'.
Proof.
  intros H. unfold dict_has. now rewrite dict_get_remove_other.
Qed.

End DictFacts.

(* ===================================================================== *)
(** ** The tool framework boundary *)
(* ===================================================================== *)

Module BaseToolProofs.

Import BaseTool.

(** Running a computation step by step. *)
Lemma bind_returns {S A B} (c : M S A) (k : A -> M S B) s a s' :
  c s = (Returns a, s') -> bind c k s = k a s'.
Proof. intros H. unfold bind. now rewrite H. Qed.

Lemma bind_raises {S A B} (c : M S A) (k : A -> M S B) s e s' :
  c s = (Raises e, s') -> bind c k s = (Raises e, s').
Proof. intros H. unfold bind. now rewrite H. Qed.

(** What the wrapper does with each way [execute] can end. *)
Lemma safe_execute_of_return {W} (tool : BaseMCPTool W) kwargs w result w' :
  execute tool kwargs w = (Returns result, w') ->
  safe_execute tool kwargs w =
  (Returns (success_envelope (name tool) result), w').
Proof.
  intros H. unfold safe_execute, try_except.
  rewrite (bind_returns _ _ _ _ _ H). reflexivity.
Qed.

Lemma safe_execute_of_raise {W} (tool : BaseMCPTool W) kwargs w e w' :
  execute tool kwargs w = (Raises e, w') ->
  safe_execute tool kwargs w =
  (Returns (failure_envelope (name tool) e), w').
Proof.
  intros H. unfold safe_execute, try_except.
  rewrite (bind_raises _ _ _ _ _ H). reflexivity.
Qed.

(** C1. For every tool, every parameter map and every state of the tool's
    world, [safe_execute] returns and never raises: when [execute] returns
    a value the envelope is [{success: True, result: <value>, tool_name}],
    and when [execute] raises the envelope is
    [{success: False, error: str(e), tool_name}]. *)
Theorem safe_execute_total {W} (tool : BaseMCPTool W) (kwargs : Dict) (w : W) :
  match execute tool kwargs w with
  | (Returns result, w') =>
      safe_execute tool kwargs w =
      (Returns (VDict [("success", VBool true); ("result", result);
                       ("tool_name", VStr (name tool))]), w')
  | (Raises e, w') =>
      safe_execute tool kwargs w =
      (Returns (VDict [("success", VBool false); ("error", VStr (exc_str e));
                       ("tool_name", VStr (name tool))]), w')
  end.
Proof.
  destruct (execute tool kwargs w) as [[result | e] w'] eqn:H.
  - exact (safe_execute_of_return tool kwargs w result w' H).
  - exact (safe_execute_of_raise tool kwargs w e w' H).
Qed.

End BaseToolProofs.

(* ===================================================================== *)
(** ** The email send tool *)
(* ===================================================================== *)

Module EmailProofs.

Import Email.

(** [quit_quietly] swallows whatever [server.quit()] raises. *)
Lemma quit_quietly_returns net : quit_quietly net = (Returns tt, net).
Proof.
  unfold quit_quietly, try_except, call, ret.
  destruct (quit net) as [[] | e]; reflexivity.
Qed.

(** Building the message leaves the mail system alone. *)
Lemma build_message_state args net : snd (build_message args net) = net.
Proof.
  unfold build_message, bind, lift, call, ret.
  destruct (str_join ", " (to_addresses args)) as [to_header|e]; [|reflexivity].
  destruct (truthy (cc_addresses args)).
  - destruct (str_join ", " (cc_addresses args)) as [cc_header|e]; [|reflexivity].
    destruct (mime_text net (body args)); reflexivity.
  - destruct (mime_text net (body args)); reflexivity.
Qed.

(** No argument list carries a [Message-ID] header into the message. *)
Lemma message_id_absent net args msg :
  message_of net args = Returns msg ->
  msg_get (headers msg) "Message-ID" = None.
Proof.
  unfold message_of, build_message, bind, lift, call, ret.
  destruct (str_join ", " (to_addresses args)) as [to_header|e]; [|discriminate].
  destruct (truthy (cc_addresses args)).
  - destruct (str_join ", " (cc_addresses args)) as [cc_header|e]; [|discriminate].
    destruct (mime_text net (body args)); [|discriminate].
    cbn [fst]. intros H. injection H as <-. reflexivity.
  - destruct (mime_text net (body args)); [|discriminate].
    cbn [fst]. intros H. injection H as <-. reflexivity.
Qed.

(** [execute] is the [try] statement run on the message, when the
    message can be built, and the exception of the building otherwise. *)
Lemma execute_message (smtp_server : string) args net :
  execute smtp_server args net =
  match message_of net args with
  | Returns msg => send smtp_server args msg net
  | Raises e => (Raises e, net)
  end.
Proof.
  unfold execute, message_of, bind.
  pose proof (build_message_state args net) as Hstate.
  destruct (build_message args net) as [[msg|e] net']; cbn [fst snd] in *;
    subst net'; reflexivity.
Qed.

(** The two ways the [try] statement ends, and the mail system after it. *)
Lemma send_outcome (smtp_server : string) args msg net :
  msg_get (headers msg) "Message-ID" = None ->
  exists net',
    send smtp_server args msg net =
    (Returns (if send_fails smtp_server args msg net then VBool false
              else sent_result args), net').
Proof.
  intros Hid. unfold send. rewrite Hid.
  unfold send_fails, sent_result, try_except, bind, lift, call, ret,
    server_sendmail, raises, option_value.
  destruct (create_default_context net) as [[]|e1]; simpl; [|eauto].
  destruct (connect net smtp_server 587) as [[]|e2]; simpl; [|eauto].
  destruct (starttls net) as [[]|e3]; simpl; [|eauto].
  destruct (login net (sender_email args) (sender_password args)) as [[]|e4];
    simpl.
  2:{ rewrite quit_quietly_returns. simpl. eauto. }
  destruct (all_recipients (to_addresses args) (cc_addresses args))
    as [recipients|e5]; simpl; [|eauto].
  destruct (as_string net msg) as [text|e6]; simpl.
  2:{ rewrite quit_quietly_returns. simpl. eauto. }
  destruct (sendmail net (sender_email args) recipients text)
    as [[]|e7]; simpl; rewrite quit_quietly_returns; simpl; eauto.
Qed.

(** The ways a call of [execute] ends. *)
Lemma execute_outcome (smtp_server : string) (args : SendArgs) (net : Smtp) :
  match message_of net args with
  | Raises e => execute smtp_server args net = (Raises e, net)
  | Returns msg =>
      exists net',
        execute smtp_server args net =
        (Returns (if send_fails smtp_server args msg net then VBool false
                  else sent_result args), net')
  end.
Proof.
  rewrite execute_message.
  destruct (message_of net args) as [msg|e] eqn:Hmsg; [|reflexivity].
  apply send_outcome. exact (message_id_absent net args msg Hmsg).
Qed.

(** The envelope the framework makes of a call of the send tool. *)
Lemma safe_execute_outcome (smtp_server : string) (kwargs : Dict) (net : Smtp) :
  exists net',
    BaseTool.safe_execute (email_send smtp_server) kwargs net =
    (Returns
       match bind_arguments kwargs with
       | Raises e => BaseTool.failure_envelope "email_send" e
       | Returns args =>
           match message_of net args with
           | Raises e => BaseTool.failure_envelope "email_send" e
           | Returns msg =>
               VDict [("success", VBool true);
                      ("result",
                       if send_fails smtp_server args msg net then VBool false
                       else sent_result args);
                      ("tool_name", VStr "email_send")]
           end
       end, net').
Proof.
  destruct (bind_arguments kwargs) as [args|e] eqn:Hbind.
  - pose proof (execute_outcome smtp_server args net) as Hexec.
    destruct (message_of net args) as [msg|e].
    + destruct Hexec as [net' Hexec]. exists net'.
      apply (BaseToolProofs.safe_execute_of_return (email_send smtp_server)).
      cbn [BaseTool.execute email_send]. unfold bind, lift.
      rewrite Hbind. exact Hexec.
    + exists net.
      apply (BaseToolProofs.safe_execute_of_raise (email_send smtp_server)).
      cbn [BaseTool.execute email_send]. unfold bind, lift.
      rewrite Hbind. exact Hexec.
  - exists net.
    apply (BaseToolProofs.safe_execute_of_raise (email_send smtp_server)).
    cbn [BaseTool.execute email_send]. unfold bind, lift.
    rewrite Hbind. reflexivity.
Qed.

(** C6 (as the code runs). An invocation of [EmailSendTool.execute] whose
    message can be built from the arguments returns: the boolean [False]
    when a statement of the [try] raises (whatever the class of the
    exception: authentication, connection, protocol or any other), and
    the map [{status: "sent", to_addresses, cc_addresses, subject,
    message_id}] when none does.  An invocation whose message cannot be
    built (a recipient that is no text, a body that cannot be encoded)
    raises that exception, before anything is sent. *)
Theorem email_execute_returns (smtp_server : string) (args : SendArgs) (net : Smtp) :
  match message_of net args with
  | Raises e => execute smtp_server args net = (Raises e, net)
  | Returns msg =>
      exists net',
        execute smtp_server args net =
        (Returns (if send_fails smtp_server args msg net then VBool false
                  else VDict [("status", VStr "sent");
                              ("to_addresses", to_addresses args);
                              ("cc_addresses", or_empty (cc_addresses args));
                              ("subject", subject args);
                              ("message_id", VNone)]),
         net')
  end.
Proof. exact (execute_outcome smtp_server args net). Qed.

(** With a recipient list that holds a number, [execute] raises the
    [TypeError] of [join] on a mail system where every call succeeds: it
    returns neither [False] nor a map. *)
Lemma execute_raises_for_a_numbered_recipient :
  execute "smtp.qq.com" Examples.numbered_args Examples.healthy_mail
  = (Raises Examples.not_a_text, Examples.healthy_mail) /\
  ~ (exists result net',
       execute "smtp.qq.com" Examples.numbered_args Examples.healthy_mail
       = (Returns result, net')).
Proof.
  split; [reflexivity|].
  intros [result [net' H]].
  assert (Hrun : execute "smtp.qq.com" Examples.numbered_args Examples.healthy_mail
                 = (Raises Examples.not_a_text, Examples.healthy_mail))
    by reflexivity.
  rewrite Hrun in H. discriminate H.
Qed.

(** C9 (as the code runs). The envelope the framework returns for a call of
    the send tool.  When the keyword arguments bind and the message can
    be built, the envelope has [success] true, and its [result] is
    [False] when a statement of the [try] raises: such a failure is
    reported as a success.  When the keyword arguments do not bind to
    the parameters of [execute], or the message cannot be built,
    [execute] raises and the envelope is [{success: False, error,
    tool_name: "email_send"}]. *)
Theorem failed_send_reported_as_success
    (smtp_server : string) (kwargs : Dict) (net : Smtp) :
  exists net',
    BaseTool.safe_execute (email_send smtp_server) kwargs net =
    (Returns
       match bind_arguments kwargs with
       | Raises e =>
           VDict [("success", VBool false); ("error", VStr (exc_str e));
                  ("tool_name", VStr "email_send")]
       | Returns args =>
           match message_of net args with
           | Raises e =>
               VDict [("success", VBool false); ("error", VStr (exc_str e));
                      ("tool_name", VStr "email_send")]
           | Returns msg =>
               VDict [("success", VBool true);
                      ("result",
                       if send_fails smtp_server args msg net then VBool false
                       else sent_result args);
                      ("tool_name", VStr "email_send")]
           end
       end, net').
Proof. exact (safe_execute_outcome smtp_server kwargs net). Qed.

(** The send to a recipient list that holds a number fails, and the
    envelope says so with [success] false. *)
Lemma numbered_recipient_surfaces_as_failure :
  bind_arguments Examples.numbered_kwargs = Returns Examples.numbered_args /\
  BaseTool.safe_execute (email_send "smtp.qq.com") Examples.numbered_kwargs
    Examples.healthy_mail
  = (Returns (VDict [("success", VBool false);
                     ("error",
                      VStr "sequence item 0: expected str instance, int found");
                     ("tool_name", VStr "email_send")]),
     Examples.healthy_mail) /\
  fst (BaseTool.safe_execute (email_send "smtp.qq.com") Examples.numbered_kwargs
         Examples.healthy_mail)
  <> Returns (VDict [("success", VBool true); ("result", VBool false);
                     ("tool_name", VStr "email_send")]).
Proof.
  split; [reflexivity|]. split; [reflexivity|].
  assert (Hrun : fst (BaseTool.safe_execute (email_send "smtp.qq.com")
                        Examples.numbered_kwargs Examples.healthy_mail)
                 = Returns (VDict [("success", VBool false);
                                   ("error",
                                    VStr "sequence item 0: expected str instance, int found");
                                   ("tool_name", VStr "email_send")]))
    by reflexivity.
  rewrite Hrun. discriminate.
Qed.

(** A send whose login the server refuses is reported as a success. *)
Example refused_login_reported_as_success :
  bind_arguments Examples.send_kwargs = Returns Examples.send_args /\
  message_of Examples.refusing_server Examples.send_args
  = Returns Examples.send_message /\
  send_fails "smtp.qq.com" Examples.send_args Examples.send_message
    Examples.refusing_server = true /\
  BaseTool.safe_execute (email_send "smtp.qq.com") Examples.send_kwargs
    Examples.refusing_server =
  (Returns (VDict [("success", VBool true); ("result", VBool false);
                   ("tool_name", VStr "email_send")]),
   Examples.refusing_server).
Proof. repeat split; reflexivity. Qed.

End EmailProofs.

(* ===================================================================== *)
(** ** Redaction in the action-execution node *)
(* ===================================================================== *)

Module WorkflowProofs.

Import Workflow DictFacts.

Section Redaction.

Variable lower : string -> string.

(** Below [v], every sensitive key is bound to the mask. *)
Definition masked (v : Value) : Prop :=
  forall k x, occurs v k x -> is_sensitive lower k = true -> x = mask.

(** An entry that may sit in a redacted dictionary. *)
Definition entry_ok (kv : string * Value) : Prop :=
  (is_sensitive lower (fst kv) = true -> snd kv = mask) /\ masked (snd kv).

Lemma mask_masked : masked mask.
Proof. intros k x H. inversion H. Qed.

Lemma dict_set_entries_ok out k v :
  Forall entry_ok out -> entry_ok (k, v) -> Forall entry_ok (dict_set out k v).
Proof.
  intros Hout Hkv. induction Hout as [|[k0 v0] out H0 Hout IH]; simpl.
  - constructor; [exact Hkv | constructor].
  - destruct (String.eqb k0 k) eqn:E.
    + apply String.eqb_eq in E. subst k0. constructor; assumption.
    + constructor; assumption.
Qed.

Lemma redact_item_ok out k v :
  Forall entry_ok out -> masked v -> Forall entry_ok (redact_item lower out k v).
Proof.
  intros Hout Hv. unfold redact_item.
  destruct (is_sensitive lower k) eqn:E; apply dict_set_entries_ok; try assumption.
  - split; [reflexivity | apply mask_masked].
  - split; [simpl; congruence | exact Hv].
Qed.

Lemma redact_loop_ok (kvs : Dict) :
  Forall (fun kv => masked (_redact lower (snd kv))) kvs ->
  forall out, Forall entry_ok out ->
  Forall entry_ok
    (fold_left (fun out kv => redact_item lower out (fst kv) (_redact lower (snd kv)))
       kvs out).
Proof.
  induction 1 as [|kv kvs Hkv _ IH]; intros out Hout; simpl.
  - exact Hout.
  - apply IH. apply redact_item_ok; assumption.
Qed.

Lemma entries_ok_masked (d : Dict) : Forall entry_ok d -> masked (VDict d).
Proof.
  intros Hd k x Hocc Hk. rewrite Forall_forall in Hd.
  inversion Hocc as [d' k1 x1 Hin | d' k' v k1 x1 Hin Hsub | ]; subst.
  - destruct (Hd _ Hin) as [Hmask _]. exact (Hmask Hk).
  - destruct (Hd _ Hin) as [_ Hbelow]. exact (Hbelow k x Hsub Hk).
Qed.

(** [_redact] leaves no sensitive key unmasked, at any depth. *)
Lemma redact_masked (v : Value) : masked (_redact lower v).
Proof.
  induction v as [ | b | z | f | s | xs IH | kvs IH ] using Value_nested_ind;
    try (intros k x H; simpl in H; inversion H; fail).
  - intros k x H Hk. simpl in H.
    inversion H as [ | | xs' v k1 x1 Hin Hsub ]; subst.
    apply in_map_iff in Hin. destruct Hin as [y [Hy Hin]]. subst v.
    rewrite Forall_forall in IH. exact (IH y Hin k x Hsub Hk).
  - simpl. apply entries_ok_masked. apply redact_loop_ok.
    + exact IH.
    + constructor.
Qed.

End Redaction.

Ltac step_outcome o :=
  let E := fresh "E" in destruct o eqn:E; simpl in *.

(** C2. In the state the action-execution node returns, every action
    record that has [tool_params] has them redacted: a key found there at
    any depth, inside nested dictionaries and inside lists, whose
    lowercased name is one of password, sender_password, api_key, token,
    secret, authorization, is bound to the placeholder ["***"]. *)
Theorem action_record_masks_sensitive_keys
    (lower : string -> string) (W : Type) (agent_execute_tool : Value -> M W Value)
    (state : Dict) (w : W) (state' : Dict) (w' : W)
    (actions : list Value) (record : Dict) (tool_params : Value)
    (k : string) (x : Value) :
  action_execution_node lower W agent_execute_tool state w = (Returns state', w') ->
  dict_get state' "actions" = Some (VList actions) ->
  In (VDict record) actions ->
  dict_get record "tool_params" = Some tool_params ->
  occurs tool_params k x ->
  existsb (String.eqb (lower k))
    ["password"; "sender_password"; "api_key"; "token"; "secret"; "authorization"]
  = true ->
  x = VStr "***".
Proof.
  intros Hrun Hactions Hin Htp Hocc Hk.
  assert (Hgoal : forall tp, tool_params = _redact lower tp -> x = VStr "***").
  { intros tp ->. exact (redact_masked lower tp k x Hocc Hk). }
  assert (Herr : forall e,
             state' = dict_set (dict_set state "error" (VStr (exc_str e))) "actions"
                        (VList [VDict [("type", VStr "error");
                                       ("status", VStr "failed");
                                       ("error", VStr (exc_str e))]]) ->
             x = VStr "***").
  { intros e ->. rewrite dict_get_set_same in Hactions.
    injection Hactions as <-. destruct Hin as [Hin|[]].
    injection Hin as <-. discriminate Htp. }
  unfold action_execution_node, try_except, bind, lift, ret in Hrun.
  step_outcome (subscript (VDict state) "intent_analysis");
    [| injection Hrun as <- _; eapply Herr; reflexivity ].
  rename a into intent.
  step_outcome (py_get intent "requires_tools" (VBool false));
    [| injection Hrun as <- _; eapply Herr; reflexivity ].
  rename a into requires_tools.
  destruct (truthy requires_tools).
  2:{ injection Hrun as <- _. rewrite dict_get_set_same in Hactions.
      injection Hactions as <-. destruct Hin. }
  destruct (agent_execute_tool intent w) as [[tool_result | e] w1];
    [| injection Hrun as <- _; eapply Herr; reflexivity ].
  step_outcome (subscript tool_result "success");
    [| injection Hrun as <- _; eapply Herr; reflexivity ].
  rename a into success.
  destruct (truthy success).
  - step_outcome (py_get intent "tool_category" (VStr "unknown"));
      [| injection Hrun as <- _; eapply Herr; reflexivity ].
    step_outcome (subscript tool_result "result");
      [| injection Hrun as <- _; eapply Herr; reflexivity ].
    step_outcome (py_get tool_result "tool_params" (VDict []));
      [| injection Hrun as <- _; eapply Herr; reflexivity ].
    injection Hrun as <- _.
    rewrite dict_get_set_other in Hactions by discriminate.
    rewrite dict_get_set_same in Hactions.
    injection Hactions as <-. destruct Hin as [Hin|[]].
    injection Hin as <-. simpl in Htp. injection Htp as <-.
    eapply Hgoal. reflexivity.
  - step_outcome (py_get intent "tool_category" (VStr "unknown"));
      [| injection Hrun as <- _; eapply Herr; reflexivity ].
    step_outcome (subscript tool_result "error");
      [| injection Hrun as <- _; eapply Herr; reflexivity ].
    injection Hrun as <- _.
    rewrite dict_get_remove_other in Hactions by discriminate.
    rewrite dict_get_set_same in Hactions.
    injection Hactions as <-. destruct Hin as [Hin|[]].
    injection Hin as <-. discriminate Htp.
Qed.

(** An email call whose parameters carry a password at the top and an API
    key inside a list of dictionaries. *)
Lemma action_record_masks_sensitive_keys_witness :
  action_execution_node ascii_lower unit Examples.email_agent
    Examples.email_state tt = (Returns Examples.email_final_state, tt) /\
  dict_get Examples.email_final_state "actions"
    = Some (VList [VDict Examples.email_action]) /\
  In (VDict Examples.email_action) [VDict Examples.email_action] /\
  dict_get Examples.email_action "tool_params"
    = Some Examples.email_redacted_params /\
  occurs Examples.email_redacted_params "API_KEY" (VStr "***") /\
  existsb (String.eqb (ascii_lower "API_KEY"))
    ["password"; "sender_password"; "api_key"; "token"; "secret"; "authorization"]
  = true /\
  VStr "***" = VStr "***".
Proof.
  assert (Hocc : occurs Examples.email_redacted_params "API_KEY" (VStr "***")).
  { eapply occurs_in_dict with (k' := "options").
    - right. right. left. reflexivity.
    - eapply occurs_in_list.
      + left. reflexivity.
      + apply occurs_here. left. reflexivity. }
  split; [reflexivity|]. split; [reflexivity|].
  split; [left; reflexivity|]. split; [reflexivity|].
  split; [exact Hocc|]. split; [reflexivity|].
  apply (action_record_masks_sensitive_keys ascii_lower unit Examples.email_agent
           Examples.email_state tt Examples.email_final_state tt
           [VDict Examples.email_action] Examples.email_action
           Examples.email_redacted_params "API_KEY" (VStr "***")).
  - reflexivity.
  - reflexivity.
  - left; reflexivity.
  - reflexivity.
  - exact Hocc.
  - reflexivity.
Defined.

End WorkflowProofs.

(* ===================================================================== *)
(** ** The upload route *)
(* ===================================================================== *)

Module RoutesProofs.

Import Routes.

Section Upload.

Variable suffix : string -> string.
Variable lower : string -> string.
Variable path_join : string -> string -> string.
Variable http_exception_str : Z -> string -> string.
Variable allowed_extensions_repr : string.
Variable config : Settings.

Let upload :=
  upload_document suffix lower path_join http_exception_str
    allowed_extensions_repr config.

(** Whatever the body raises leaves the route as a 500. *)
Lemma upload_status file srv :
  status_code (fst (upload file srv)) = 200 \/
  status_code (fst (upload file srv)) = 500.
Proof.
  unfold upload, upload_document, try_except.
  match goal with
  | |- context [match ?body srv with _ => _ end] =>
      destruct (body srv) as [[resp | e] srv']
  end; simpl; auto.
Qed.

(** No request is answered with status 400. *)
Lemma upload_never_400 file srv :
  status_code (fst (upload file srv)) <> 400.
Proof. destruct (upload_status file srv) as [H | H]; rewrite H; discriminate. Qed.

(** A file with an extension outside the allowed set is answered 500,
    the detail quoting the 400 raised inside. *)
Lemma upload_bad_extension name sz srv :
  existsb (String.eqb (lower (suffix name))) allowed_extensions = false ->
  upload (mkUpload (Some name) sz) srv =
  (Raises (mkExc (HTTPException 500)
             (http_exception_str 500
                ("文档上传失败: " ++
                 http_exception_str 400
                   ("不支持的文件类型: " ++ lower (suffix name) ++
                    "。支持的类型: " ++ allowed_extensions_repr)))), srv).
Proof.
  intros H. unfold upload, upload_document, try_except, bind, ret, raise.
  cbn [filename]. rewrite H. reflexivity.
Qed.

End Upload.

(** C5 (as the code runs). An upload named [setup.exe] and a PDF of 20 MiB
    are both answered with status 500, not 400: the [HTTPException] with
    status 400 raised inside the [try] is caught by the route's own
    [except Exception] and raised again as a 500. *)
Theorem upload_rejections_answer_500 :
  status_code
    (fst (upload_document posix_suffix ascii_lower posix_join starlette_str
            Examples.allowed_repr settings Examples.exe_upload
            Examples.healthy_server)) = 500 /\
  status_code
    (fst (upload_document posix_suffix ascii_lower posix_join starlette_str
            Examples.allowed_repr settings Examples.huge_upload
            Examples.healthy_server)) = 500.
Proof. split; reflexivity. Qed.

End RoutesProofs.

(* ===================================================================== *)
(** ** The document retriever *)
(* ===================================================================== *)

Module RetrieverProofs.

Import Retriever.

Section Retrieve.

Variable str : Value -> string.
Variable format_3f : float -> string.
Variable strip : string -> string.

(** The loop that builds [documents] either enriches every match it is
    given, in order, or raises. *)
Lemma enrich_loop (rs : list SearchResult) :
  forall (acc : list string) (s : VectorStore),
    (exists ds,
        Forall2 (fun r d => enrich str format_3f strip r = Returns d) rs ds /\
        for_each rs acc
          (fun documents result =>
             enriched_content <- lift (enrich str format_3f strip result) ;;
             ret (documents ++ [enriched_content])%list) s
        = (Returns (acc ++ ds)%list, s)) \/
    (exists e,
        for_each rs acc
          (fun documents result =>
             enriched_content <- lift (enrich str format_3f strip result) ;;
             ret (documents ++ [enriched_content])%list) s
        = (Raises e, s)).
Proof.
  induction rs as [|r rs IH]; intros acc s; simpl.
  - left. exists []. split; [constructor|]. unfold ret. now rewrite app_nil_r.
  - unfold bind at 1. unfold bind at 1. unfold lift at 1.
    destruct (enrich str format_3f strip r) as [d|e] eqn:Er.
    + unfold ret at 1.
      destruct (IH (acc ++ [d])%list s) as [[ds [Hds Hrun]] | [e Hrun]].
      * left. exists (d :: ds). split; [constructor; assumption|].
        rewrite Hrun. now rewrite <- app_assoc.
      * right. exists e. exact Hrun.
    + right. exists e. reflexivity.
Qed.

(** With metadata on every match the loop does not raise. *)
Lemma enrich_returns r :
  has_metadata r = true -> exists d, enrich str format_3f strip r = Returns d.
Proof.
  unfold has_metadata, enrich. destruct (metadata r); try discriminate.
  intros _. simpl. eexists. reflexivity.
Qed.

Lemma log_results_returns rs :
  forallb has_metadata rs = true -> log_results rs = Returns tt.
Proof.
  induction rs as [|r rs IH]; simpl; [reflexivity|].
  intros H. apply andb_prop in H. destruct H as [Hr Hrs].
  unfold log_result, has_metadata in *. destruct (metadata r); try discriminate.
  simpl. auto.
Qed.

Lemma enrich_loop_returns (rs : list SearchResult) :
  forallb has_metadata rs = true ->
  forall (acc : list string) (s : VectorStore),
  exists ds,
    for_each rs acc
      (fun documents result =>
         enriched_content <- lift (enrich str format_3f strip result) ;;
         ret (documents ++ [enriched_content])%list) s
    = (Returns (acc ++ ds)%list, s).
Proof.
  induction rs as [|r rs IH]; simpl; intros H acc s.
  - exists []. unfold ret. now rewrite app_nil_r.
  - apply andb_prop in H. destruct H as [Hr Hrs].
    destruct (enrich_returns r Hr) as [d Hd].
    unfold bind at 1. unfold bind at 1. unfold lift at 1. rewrite Hd.
    unfold ret at 1.
    destruct (IH Hrs (acc ++ [d])%list s) as [ds Hds].
    exists (d :: ds). rewrite Hds. now rewrite <- app_assoc.
Qed.

Lemma forallb_firstn {A} (f : A -> bool) n (xs : list A) :
  forallb f xs = true -> forallb f (firstn n xs) = true.
Proof.
  revert n. induction xs as [|x xs IH]; intros [|n] H; simpl in *; auto.
  apply andb_prop in H. destruct H as [Hx Hxs]. rewrite Hx. simpl. auto.
Qed.

Lemma forallb_filter {A} (f g : A -> bool) (xs : list A) :
  forallb f xs = true -> forallb f (filter g xs) = true.
Proof.
  induction xs as [|x xs IH]; simpl; intros H; auto.
  apply andb_prop in H. destruct H as [Hx Hxs].
  destruct (g x); simpl; [rewrite Hx; simpl|]; auto.
Qed.

Lemma slice_to_length {A} (xs : list A) n :
  0 <= n -> Z.of_nat (List.length (slice_to xs n)) <= n.
Proof.
  intros Hn. unfold slice_to.
  destruct (0 <=? n) eqn:E; [|apply Z.leb_gt in E; lia].
  rewrite length_firstn. lia.
Qed.

(** What a retrieval returns and what it asks of the store. *)
Lemma retrieve_documents_spec store query n_results filter_category min_similarity :
  exists docs,
    retrieve_documents str format_3f strip query n_results filter_category
      min_similarity store
    = (Returns docs,
       mkStore (answer store)
         (requests store ++
          [(enhance query, n_results * 4, make_filter filter_category)])) /\
    (docs = [] \/
     exists raw,
       answer store (enhance query, n_results * 4, make_filter filter_category)
         = Returns raw /\
       Forall2 (fun r d => enrich str format_3f strip r = Returns d)
         (slice_to (filter (passes min_similarity) raw) n_results) docs) /\
    (forall raw,
        answer store (enhance query, n_results * 4, make_filter filter_category)
          = Returns raw ->
        forallb has_metadata raw = true ->
        Forall2 (fun r d => enrich str format_3f strip r = Returns d)
          (slice_to (filter (passes min_similarity) raw) n_results) docs).
Proof.
  unfold retrieve_documents, try_except.
  unfold bind at 1. unfold search_similar at 1.
  destruct (answer store (enhance query, n_results * 4, make_filter filter_category))
    as [raw | e] eqn:Hans.
  2:{ exists []. split; [reflexivity|]. split; [now left | discriminate]. }
  unfold bind at 1. unfold lift at 1.
  destruct (log_results (firstn 5 raw)) as [[] | e] eqn:Hlog.
  2:{ exists []. split; [reflexivity|]. split; [now left|].
      intros raw' Hraw' Hmeta. injection Hraw' as <-.
      rewrite (log_results_returns _ (forallb_firstn _ 5 _ Hmeta)) in Hlog.
      discriminate. }
  match goal with
  | |- context [for_each ?rs ?acc ?body ?s] =>
      destruct (enrich_loop rs acc s) as [[ds [Hds Hrun]] | [e Hrun]];
      rewrite Hrun
  end.
  - exists ds. split; [reflexivity|]. split.
    + right. exists raw. split; [reflexivity | exact Hds].
    + intros raw' Hraw' _. injection Hraw' as <-. exact Hds.
  - exists []. split; [reflexivity|]. split; [now left|].
    intros raw' Hraw' Hmeta. injection Hraw' as <-. exfalso.
    assert (Hsl : forallb has_metadata
                    (slice_to (filter (passes min_similarity) raw) n_results) = true).
    { unfold slice_to. destruct (0 <=? n_results);
        apply forallb_firstn, forallb_filter; exact Hmeta. }
    match type of Hrun with
    | for_each ?rs ?acc ?body ?s = _ =>
        destruct (enrich_loop_returns rs Hsl acc s) as [ds Hds]
    end.
    rewrite Hds in Hrun. discriminate.
Qed.

End Retrieve.



End RetrieverProofs.

(* ===================================================================== *)
(** ** The calendar event tool *)
(* ===================================================================== *)

Module CalendarProofs.

Import Calendar DictFacts.

Section Lifecycle.
Variable str : Value -> string.

Lemma create_runs clk params :
  dict_get params "action" = Some (VStr "create") ->
  dict_has params "title" = true ->
  dict_has params "start_time" = true ->
  dict_has params "end_time" = true ->
  exists suffix rest,
  execute str params (new clk) =
    (Returns (VDict [("action", VStr "create");
                     ("event_id", VStr ("event_" ++ suffix));
                     ("event", VDict (("id", VStr ("event_" ++ suffix)) :: rest));
                     ("status", VStr "created")]),
     mkCalendar [("id", VStr ("event_" ++ suffix)) :: rest] clk 2).
Proof.
  intros Haction Htitle Hstart Hend.
  unfold execute. rewrite Haction. cbn [eq_str]. 
  change (String.eqb "create" "create") with true. cbv iota.
  unfold first_missing.
  rewrite !dict_has_remove_other by discriminate.
  rewrite Htitle, Hstart, Hend.
  unfold _create_event, bind, get, now, set_events, modify, ret, new.
  cbn [events clock ticks List.length app].
  eexists. eexists. reflexivity.
Qed.

Lemma list_runs self :
  execute str [("action", VStr "list")] self =
  (Returns (VDict [("action", VStr "list");
                   ("events", VList (map VDict (events self)));
                   ("total_count", VInt (Z.of_nat (List.length (events self))));
                   ("date_filter", VNone)]), self).
Proof. reflexivity. Qed.

Lemma update_title_runs id rest clk n new_title :
  execute str [("action", VStr "update"); ("event_id", VStr id); ("title", new_title)]
    (mkCalendar [("id", VStr id) :: rest] clk n) =
  (Returns (VDict [("action", VStr "update"); ("event_id", VStr id);
                   ("updated_fields", VList [VStr "title"]);
                   ("event",
                    VDict (("id", VStr id) ::
                           dict_set (dict_set rest "title" new_title) "updated_at"
                             (VStr (isoformat (clk n)))));
                   ("status", VStr "updated")]),
   mkCalendar
     [("id", VStr id) ::
      dict_set (dict_set rest "title" new_title) "updated_at"
        (VStr (isoformat (clk n)))] clk (S n)).
Proof.
  unfold execute. cbn -[_update_event].
  unfold _update_event, bind, get, lift. cbn [events find_event dict_get].
  change (String.eqb "id" "id") with true. cbv iota. cbn [py_eqb].
  rewrite String.eqb_refl. cbn.
  reflexivity.
Qed.

Lemma delete_runs id rest clk n :
  execute str [("action", VStr "delete"); ("event_id", VStr id)]
    (mkCalendar [("id", VStr id) :: rest] clk n) =
  (Returns (VDict [("action", VStr "delete"); ("event_id", VStr id);
                   ("status", VStr "deleted")]),
   mkCalendar [] clk n).
Proof.
  unfold execute. cbn -[_delete_event].
  unfold _delete_event, bind, get, lift. cbn [events find_event dict_get].
  change (String.eqb "id" "id") with true. cbv iota. cbn [py_eqb].
  rewrite String.eqb_refl. cbn.
  reflexivity.
Qed.

Lemma delete_missing id clk n :
  execute str [("action", VStr "delete"); ("event_id", VStr id)]
    (mkCalendar [] clk n) =
  (Raises (mkExc ValueError ("事件不存在: " ++ str (VStr id))), mkCalendar [] clk n).
Proof. reflexivity. Qed.
End Lifecycle.

(** C3. On a fresh calendar tool, [create] with a title, a start time and
    an end time returns status "created" and a non-empty [event_id]; a
    following [list] returns exactly that event; [update] of the title by
    that id returns status "updated" with "title" as the updated field and
    stores the new title; [delete] of that id returns status "deleted" and
    leaves no event; a second [delete] of the same id raises the
    event-does-not-exist [ValueError], which the framework reports with
    [success: False]. *)
Theorem calendar_lifecycle
    (str : Value -> string) (clk : nat -> Instant) (params : Dict)
    (new_title : Value) :
  dict_get params "action" = Some (VStr "create") ->
  dict_has params "title" = true ->
  dict_has params "start_time" = true ->
  dict_has params "end_time" = true ->
  exists event_id event self1,
    execute str params (new clk) =
      (Returns (VDict [("action", VStr "create"); ("event_id", VStr event_id);
                       ("event", VDict event); ("status", VStr "created")]),
       self1) /\
    event_id <> EmptyString /\
    execute str [("action", VStr "list")] self1 =
      (Returns (VDict [("action", VStr "list"); ("events", VList [VDict event]);
                       ("total_count", VInt 1); ("date_filter", VNone)]),
       self1) /\
    exists event' self2,
      execute str [("action", VStr "update"); ("event_id", VStr event_id);
                   ("title", new_title)] self1 =
        (Returns (VDict [("action", VStr "update"); ("event_id", VStr event_id);
                         ("updated_fields", VList [VStr "title"]);
                         ("event", VDict event'); ("status", VStr "updated")]),
         self2) /\
      dict_get event' "title" = Some new_title /\
      exists self3,
        execute str [("action", VStr "delete"); ("event_id", VStr event_id)] self2 =
          (Returns (VDict [("action", VStr "delete"); ("event_id", VStr event_id);
                           ("status", VStr "deleted")]),
           self3) /\
        events self3 = [] /\
        execute str [("action", VStr "delete"); ("event_id", VStr event_id)] self3 =
          (Raises (mkExc ValueError ("事件不存在: " ++ str (VStr event_id))), self3) /\
        BaseTool.safe_execute (calendar_event str)
          [("action", VStr "delete"); ("event_id", VStr event_id)] self3 =
          (Returns (VDict [("success", VBool false);
                           ("error", VStr ("事件不存在: " ++ str (VStr event_id)));
                           ("tool_name", VStr "calendar_event")]),
           self3).
Proof.
  intros Haction Htitle Hstart Hend.
  destruct (create_runs str clk params Haction Htitle Hstart Hend)
    as [suffix [rest Hcreate]].
  eexists. eexists. eexists. split; [exact Hcreate|].
  split; [discriminate|].
  split; [apply list_runs|].
  eexists. eexists. split; [apply update_title_runs|].
  split.
  { cbn [dict_get]. change (String.eqb "id" "title") with false. cbv iota.
    rewrite dict_get_set_other by discriminate. apply dict_get_set_same. }
  eexists. split; [apply delete_runs|].
  split; [reflexivity|].
  split; [apply delete_missing|].
  exact (BaseToolProofs.safe_execute_of_raise (calendar_event str) _ _ _ _
           (delete_missing str ("event_" ++ suffix) clk 3)).
Qed.

(** The meeting of the tool test: created, listed, renamed, deleted, and
    deleted once more. *)
Lemma calendar_lifecycle_witness :
  dict_get Examples.create_meeting "action" = Some (VStr "create") /\
  dict_has Examples.create_meeting "title" = true /\
  dict_has Examples.create_meeting "start_time" = true /\
  dict_has Examples.create_meeting "end_time" = true /\
  exists event_id event self1,
    execute str_scalar Examples.create_meeting (new Examples.test_clock) =
      (Returns (VDict [("action", VStr "create"); ("event_id", VStr event_id);
                       ("event", VDict event); ("status", VStr "created")]),
       self1) /\
    event_id <> EmptyString /\
    execute str_scalar [("action", VStr "list")] self1 =
      (Returns (VDict [("action", VStr "list"); ("events", VList [VDict event]);
                       ("total_count", VInt 1); ("date_filter", VNone)]),
       self1) /\
    exists event' self2,
      execute str_scalar [("action", VStr "update"); ("event_id", VStr event_id);
                          ("title", VStr "更新后的测试会议")] self1 =
        (Returns (VDict [("action", VStr "update"); ("event_id", VStr event_id);
                         ("updated_fields", VList [VStr "title"]);
                         ("event", VDict event'); ("status", VStr "updated")]),
         self2) /\
      dict_get event' "title" = Some (VStr "更新后的测试会议") /\
      exists self3,
        execute str_scalar [("action", VStr "delete"); ("event_id", VStr event_id)]
          self2 =
          (Returns (VDict [("action", VStr "delete"); ("event_id", VStr event_id);
                           ("status", VStr "deleted")]),
           self3) /\
        events self3 = [] /\
        execute str_scalar [("action", VStr "delete"); ("event_id", VStr event_id)]
          self3 =
          (Raises (mkExc ValueError ("事件不存在: " ++ str_scalar (VStr event_id))),
           self3) /\
        BaseTool.safe_execute (calendar_event str_scalar)
          [("action", VStr "delete"); ("event_id", VStr event_id)] self3 =
          (Returns (VDict [("success", VBool false);
                           ("error",
                            VStr ("事件不存在: " ++ str_scalar (VStr event_id)));
                           ("tool_name", VStr "calendar_event")]),
           self3).
Proof.
  split; [reflexivity|]. split; [reflexivity|].
  split; [reflexivity|]. split; [reflexivity|].
  apply (calendar_lifecycle str_scalar Examples.test_clock
           Examples.create_meeting (VStr "更新后的测试会议")); reflexivity.
Defined.

End CalendarProofs.

(* ===================================================================== *)
(** ** The agent: calendar time normalisation *)
(* ===================================================================== *)

Module AgentProofs.

Import Datetime Regex Agent AgentSpec DictFacts.

Lemma add_days_returns dt days :
  valid_time dt -> 1 <= ordinal dt + days <= MAXORDINAL ->
  exists dt', add dt days 0 = Returns dt' /\ ordinal dt' = ordinal dt + days.
Proof.
  unfold valid_time. intros (Hh & Hm & Hs) Hrange.
  assert (Hday : (hour dt * 3600 + minute dt * 60 + second dt + 0 * 3600) / 86400 = 0).
  { apply Z.div_small. lia. }
  unfold add, check_ordinal. cbn [ordinal]. rewrite Hday, Z.add_0_r.
  replace ((1 <=? ordinal dt + days) && (ordinal dt + days <=? MAXORDINAL))%bool
    with true by (symmetry; apply andb_true_intro; split; apply Z.leb_le; lia).
  eexists. split; [reflexivity|]. reflexivity.
Qed.

Lemma add_hour_returns day h mi :
  0 <= h <= 23 -> 0 <= mi <= 59 -> 1 <= day -> day + 1 <= MAXORDINAL ->
  exists dt',
    add (mkDatetime day h mi 0 0) 0 1 = Returns dt' /\
    seconds dt' = seconds (mkDatetime day h mi 0 0) + 3600 /\
    valid_time dt'.
Proof.
  intros Hh Hm Hlo Hhi. unfold add, check_ordinal, seconds, valid_time.
  cbn [ordinal hour minute second microsecond].
  set (secs := h * 3600 + mi * 60 + 0 + 1 * 3600).
  assert (Hsecs : 0 <= secs < 2 * 86400) by (unfold secs; lia).
  assert (Hq : 0 <= secs / 86400 <= 1).
  { split; [apply Z.div_pos; lia|].
    apply Z.lt_succ_r. apply Z.div_lt_upper_bound; lia. }
  replace ((1 <=? day + 0 + secs / 86400) && (day + 0 + secs / 86400 <=? MAXORDINAL))%bool
    with true by (symmetry; apply andb_true_intro; split; apply Z.leb_le; lia).
  eexists. split; [reflexivity|]. cbn [ordinal hour minute second].
  split.
  - Z.div_mod_to_equations. lia.
  - Z.div_mod_to_equations. lia.
Qed.

Section Time.
Variable digit_at : string -> option (Z * string).

Lemma scan_time_spec query :
  scan_time digit_at (time_patterns digit_at query) query 14 0
  = hour_minute digit_at query.
Proof.
  unfold hour_minute, time_patterns, scan_time.
  cbn [compiled source extractor].
  change (contains "(\d{1,2})点" ":(") with false.
  change (contains "下午(\d{1,2})点" ":(") with false.
  change (contains "上午(\d{1,2})点" ":(") with false.
  change (contains "(\d{1,2}):(\d{2})" ":(") with true.
  cbv iota.
  change (Cat digits_1_2 (Lit "点")) with N_dian.
  change (Cat (Lit "下午") N_dian) with afternoon_N_dian.
  change (Cat (Lit "上午") N_dian) with morning_N_dian.
  change (Cat digits_1_2 (Cat (Lit ":") (Group (Rep Digit 2 2)))) with H_colon_MM.
  destruct (search digit_at N_dian query) as [m|]; [reflexivity|].
  destruct (search digit_at afternoon_N_dian query) as [m|].
  { destruct (int_group digit_at m 1); reflexivity. }
  destruct (search digit_at morning_N_dian query) as [m|]; [reflexivity|].
  destruct (search digit_at H_colon_MM query) as [m|]; [|reflexivity].
  destruct (int_group digit_at m 1) as [h|]; [|reflexivity].
  cbn [and_then].
  destruct (int_group digit_at m 2) as [mm|]; [|reflexivity].
  cbn [and_then].
  destruct (contains query "下午" && (h <? 12))%bool;
    [reflexivity | now rewrite Z.add_0_r].
Qed.

Section Process.
Variable W : Type.
Variable now : M W datetime.

Lemma process_calendar_time_runs params query w now_dt w1 h mi :
  now w = (Returns now_dt, w1) ->
  valid_time now_dt ->
  1 <= ordinal now_dt + day_offset query ->
  ordinal now_dt + day_offset query + 1 <= MAXORDINAL ->
  hour_minute digit_at query = Returns (h, mi) ->
  0 <= h <= 23 -> 0 <= mi <= 59 ->
  exists end_dt,
    _process_calendar_time W digit_at now params query w =
    (Returns
       (dict_set
          (dict_set params "start_time"
             (VStr (strftime
                      (mkDatetime (ordinal now_dt + day_offset query) h mi 0 0))))
          "end_time" (VStr (strftime end_dt))), w1) /\
    seconds end_dt =
      seconds (mkDatetime (ordinal now_dt + day_offset query) h mi 0 0) + 3600 /\
    valid_time end_dt.
Proof.
  intros Hnow Hvalid Hlo Hhi Hhm Hh Hmi.
  assert (Htarget : exists target,
             (if contains query "明天" then add now_dt 1 0
              else if contains query "后天" then add now_dt 2 0
              else if contains query "今天" then Returns now_dt
              else add now_dt 1 0) = Returns target /\
             ordinal target = ordinal now_dt + day_offset query).
  { unfold day_offset in *.
    destruct (contains query "明天");
      [apply add_days_returns; [assumption | lia]|].
    destruct (contains query "后天");
      [apply add_days_returns; [assumption | lia]|].
    destruct (contains query "今天");
      [|apply add_days_returns; [assumption | lia]].
    exists now_dt. split; [reflexivity | lia]. }
  destruct Htarget as [target [Htarget Hord]].
  destruct (add_hour_returns (ordinal now_dt + day_offset query) h mi
              Hh Hmi Hlo Hhi) as [end_dt [Hend [Hsecs Hvalid']]].
  exists end_dt. split; [|split; assumption].
  unfold _process_calendar_time.
  unfold bind at 1. rewrite Hnow.
  unfold bind at 1. unfold lift at 1. rewrite Htarget.
  unfold bind at 1. unfold lift at 1. rewrite scan_time_spec, Hhm.
  cbn [fst snd].
  unfold bind at 1. unfold lift at 1. unfold replace_time.
  replace ((0 <=? h) && (h <=? 23))%bool with true
    by (symmetry; apply andb_true_intro; split; apply Z.leb_le; lia).
  replace ((0 <=? mi) && (mi <=? 59))%bool with true
    by (symmetry; apply andb_true_intro; split; apply Z.leb_le; lia).
  cbn [negb]. rewrite Hord.
  unfold bind at 1. unfold lift at 1. rewrite Hend.
  reflexivity.
Qed.
End Process.
End Time.

Section Extraction.
Variable W : Type.
Variable digit_at : string -> option (Z * string).
Variable settings : Settings.
Variable now : M W datetime.
Variable llm_content : string -> string -> M W Value.
Variable json_loads : string -> Outcome Dict.
Let llm_json := Agent.llm_json W llm_content json_loads.
Variable _fallback_parameter_extraction : string -> string -> M W Value.

End Extraction.

Section Shadowing.

Variable digit_at : string -> option (Z * string).

Lemma drop_drop n m s : drop n (drop m s) = drop (m + n) s.
Proof.
  revert s. induction m as [|m IH]; intros s; simpl.
  - reflexivity.
  - destruct s as [|c s]; simpl.
    + destruct n; reflexivity.
    + apply IH.
Qed.

Lemma search_none_everywhere r s :
  search digit_at r s = None ->
  forall n, match_here digit_at r (drop n s) [] (fun _ caps => Some caps) = None.
Proof.
  induction s as [|c s IH]; simpl; intros H n.
  - destruct (match_here digit_at r EmptyString [] (fun _ caps => Some caps)) eqn:E;
      [discriminate|].
    destruct n; exact E.
  - destruct (match_here digit_at r (String c s) [] (fun _ caps => Some caps)) eqn:E;
      [discriminate|].
    destruct n as [|n]; [exact E|]. simpl. apply IH. exact H.
Qed.

Lemma search_some_somewhere r s caps :
  search digit_at r s = Some caps ->
  exists n, match_here digit_at r (drop n s) [] (fun _ caps => Some caps) = Some caps.
Proof.
  induction s as [|c s IH]; simpl; intros H.
  - destruct (match_here digit_at r EmptyString [] (fun _ caps => Some caps)) eqn:E;
      [|discriminate].
    exists 0%nat. simpl. congruence.
  - destruct (match_here digit_at r (String c s) [] (fun _ caps => Some caps)) eqn:E.
    + exists 0%nat. simpl. congruence.
    + destruct (IH H) as [n Hn]. exists (S n). exact Hn.
Qed.

Lemma prefixed_match (word : string) r t caps :
  match_here digit_at (Cat (Lit word) r) t [] (fun _ caps => Some caps) = Some caps ->
  match_here digit_at r (drop (String.length word) t) [] (fun _ caps => Some caps)
  = Some caps.
Proof.
  simpl. destruct (String.prefix word t); [auto | discriminate].
Qed.

Lemma prefixed_pattern_shadowed (word : string) r query caps :
  search digit_at (Cat (Lit word) r) query = Some caps ->
  search digit_at r query <> None.
Proof.
  intros H Hnone.
  destruct (search_some_somewhere _ _ _ H) as [n Hn].
  apply prefixed_match in Hn. rewrite drop_drop in Hn.
  rewrite (search_none_everywhere _ _ Hnone) in Hn. discriminate.
Qed.

(** A query in which [下午N点] or [上午N点] is found is one in which [N点]
    is found, and [N点] is tried first: the second and third pattern never
    decide the hour. *)
Lemma hour_minute_two_patterns query :
  hour_minute digit_at query =
  match search digit_at N_dian query with
  | Some m => and_then (int_group digit_at m 1) (fun n => Returns (n, 0))
  | None =>
      match search digit_at H_colon_MM query with
      | Some m =>
          and_then (int_group digit_at m 1)
            (fun h =>
               and_then (int_group digit_at m 2)
                 (fun mm =>
                    Returns (if (contains query "下午" && (h <? 12))%bool
                             then h + 12 else h, mm)))
      | None => Returns (14, 0)
      end
  end.
Proof.
  unfold hour_minute.
  destruct (search digit_at N_dian query) as [m|] eqn:Hplain; [reflexivity|].
  destruct (search digit_at afternoon_N_dian query) as [m|] eqn:Hpm.
  { exfalso. exact (prefixed_pattern_shadowed _ _ _ _ Hpm Hplain). }
  destruct (search digit_at morning_N_dian query) as [m|] eqn:Ham.
  { exfalso. exact (prefixed_pattern_shadowed _ _ _ _ Ham Hplain). }
  reflexivity.
Qed.
End Shadowing.

(** Text in which [下午N点] or [上午N点] occurs also contains [N点], and the
    scan tries [N点] first: an afternoon hour is read without the twelve. *)
Example afternoon_three_is_read_as_three :
  hour_minute ascii_digit_at "明天下午3点开会" = Returns (3, 0) /\
  hour_minute ascii_digit_at "明天下午3:30开会" = Returns (15, 30) /\
  hour_minute ascii_digit_at "安排一个会议" = Returns (14, 0).
Proof. repeat split; reflexivity. Qed.



End AgentProofs.

(* ===================================================================== *)
(** ** The agent: the composite executor *)
(* ===================================================================== *)

Module CompositeProofs.

Import Agent DictFacts.

Section Composite.
Variable W : Type.
Variable strip : string -> string.
Variable digit_at : string -> option (Z * string).
Variable str : Value -> string.
Variable settings : Settings.
Variable now : M W Datetime.datetime.
Variable llm_content : string -> string -> M W Value.
Variable json_loads : string -> Outcome Dict.
Variable _fallback_parameter_extraction : string -> string -> M W Value.
Variable compose_meeting_email : string -> Value -> Outcome (string * string * string).
Variable tools_map : list (string * ToolCollection W).

Let run := run_category W digit_at str settings now llm_content json_loads
             _fallback_parameter_extraction compose_meeting_email tools_map.

Let known := known W tools_map.

Lemma run_category_returns query st category w st' w' :
  run query st category w = (Returns st', w') ->
  if known category then
    all_success st' = all_success st /\
    exists entry, entry_for category entry /\
                  results st' = (results st ++ [entry])%list
  else
    all_success st' = false /\ results st' = results st.
Proof.
  unfold run, run_category, known, Agent.known.
  destruct (lookup category tools_map) as [tool_instance|].
  2:{ unfold ret. intros H. injection H as <- _. split; reflexivity. }
  unfold bind at 1.
  match goal with
  | |- context [match ?c w with _ => _ end] => destruct (c w) as [[tool_params|e] w1]
  end; [|discriminate].
  unfold bind at 1.
  match goal with
  | |- context [match ?c w1 with _ => _ end] =>
      destruct (c w1) as [[[[result tool_params1] meeting_info1]|e] w2]
  end; [|discriminate].
  unfold ret. intros H. injection H as <- _. cbn [all_success results].
  split; [reflexivity|].
  eexists. split; [|reflexivity]. exists result, tool_params1. reflexivity.
Qed.

Lemma loop_returns query categories :
  forall st w st' w',
    for_each categories st (run query) w = (Returns st', w') ->
    all_success st' = (all_success st && forallb known categories)%bool /\
    exists entries,
      results st' = (results st ++ entries)%list /\
      Forall2 entry_for (filter known categories) entries.
Proof.
  induction categories as [|c cs IH]; intros st w st' w' H; simpl in H.
  - unfold ret in H. injection H as <- _. split.
    + simpl. now rewrite andb_true_r.
    + exists []. split; [now rewrite app_nil_r | constructor].
  - unfold bind in H.
    destruct (run query st c w) as [[st1|e] w1] eqn:Hstep; [|discriminate].
    apply run_category_returns in Hstep.
    destruct (IH _ _ _ _ H) as [Hall [entries [Hres Hentries]]].
    simpl. destruct (known c).
    + destruct Hstep as [Hall1 [entry [Hentry Hres1]]].
      split; [rewrite Hall, Hall1; reflexivity|].
      exists (entry :: entries). split.
      * rewrite Hres, Hres1, <- app_assoc. reflexivity.
      * constructor; assumption.
    + destruct Hstep as [Hall1 Hres1].
      split; [rewrite Hall, Hall1; simpl; now rewrite andb_false_r|].
      exists entries. split; [rewrite Hres, Hres1; reflexivity | exact Hentries].
Qed.

(** What a composite execution returns, by the way its loop ends. *)
Lemma composite_outcome tool_category query intent_analysis w :
  match for_each (split_categories strip tool_category) (mkLoop [] true VNone)
          (run_category W digit_at str settings now llm_content json_loads
             _fallback_parameter_extraction compose_meeting_email tools_map query)
          w with
  | (Returns st, w') =>
      _execute_composite_tools W strip digit_at str settings now llm_content json_loads
        _fallback_parameter_extraction compose_meeting_email tools_map
        tool_category query intent_analysis w =
      (Returns
         (VDict [("success",
                  VBool (forallb (Agent.known W tools_map)
                           (split_categories strip tool_category)));
                 ("result",
                  VDict [("composite_results", VList (results st));
                         ("total_tools",
                          VInt (Z.of_nat (List.length
                                            (split_categories strip tool_category))));
                         ("executed_tools",
                          VInt (Z.of_nat (List.length (results st))))]);
                 ("tool_category", VStr tool_category);
                 ("tool_params", VDict [("composite", VBool true)])]), w') /\
      Forall2 entry_for
        (filter (Agent.known W tools_map) (split_categories strip tool_category))
        (results st)
  | (Raises e, w') =>
      _execute_composite_tools W strip digit_at str settings now llm_content json_loads
        _fallback_parameter_extraction compose_meeting_email tools_map
        tool_category query intent_analysis w =
      (Returns
         (VDict [("success", VBool false); ("error", VStr (exc_str e));
                 ("tool_category", VStr tool_category)]), w')
  end.
Proof.
  unfold _execute_composite_tools, try_except, bind.
  fold run. fold known.
  destruct (for_each (split_categories strip tool_category) (mkLoop [] true VNone)
              (run query) w) as [[st|e] w1] eqn:Hloop; [|reflexivity].
  destruct (loop_returns _ _ _ _ _ _ Hloop) as [Hall [entries [Hres Hentries]]].
  cbn [all_success results andb app] in Hall, Hres.
  split.
  - unfold ret, composite_envelope. rewrite Hall. reflexivity.
  - rewrite Hres. exact Hentries.
Qed.

(** C7 (as the code runs). A composite execution never raises.  When its
    loop over the listed categories runs to the end, it returns the
    envelope whose [tool_params] is [{composite: True}], whose [success]
    is true exactly when every listed category is in the tool map, and
    whose [result.composite_results] holds one
    [{category, result, tool_params}] entry for each listed category that
    is in the tool map, in the order listed: an unknown category is
    skipped and the categories after it still run.  When a step of the
    loop raises, the loop is abandoned and the envelope is
    [{success: False, error, tool_category}], without [tool_params] and
    without [result]. *)
Theorem composite_runs_known_categories_in_order
    tool_category query intent_analysis w :
  match for_each (split_categories strip tool_category) (mkLoop [] true VNone)
          (run_category W digit_at str settings now llm_content json_loads
             _fallback_parameter_extraction compose_meeting_email tools_map query)
          w with
  | (Returns st, w') =>
      _execute_composite_tools W strip digit_at str settings now llm_content json_loads
        _fallback_parameter_extraction compose_meeting_email tools_map
        tool_category query intent_analysis w =
      (Returns
         (VDict [("success",
                  VBool (forallb (Agent.known W tools_map)
                           (split_categories strip tool_category)));
                 ("result",
                  VDict [("composite_results", VList (results st));
                         ("total_tools",
                          VInt (Z.of_nat (List.length
                                            (split_categories strip tool_category))));
                         ("executed_tools",
                          VInt (Z.of_nat (List.length (results st))))]);
                 ("tool_category", VStr tool_category);
                 ("tool_params", VDict [("composite", VBool true)])]), w') /\
      Forall2 entry_for
        (filter (Agent.known W tools_map) (split_categories strip tool_category))
        (results st)
  | (Raises e, w') =>
      _execute_composite_tools W strip digit_at str settings now llm_content json_loads
        _fallback_parameter_extraction compose_meeting_email tools_map
        tool_category query intent_analysis w =
      (Returns
         (VDict [("success", VBool false); ("error", VStr (exc_str e));
                 ("tool_category", VStr tool_category)]), w')
  end.
Proof. exact (composite_outcome tool_category query intent_analysis w). Qed.

(** C10 (as the code runs). When every listed category is in the tool
    map and no exception escaped from a step (the envelope has no
    [error]), the envelope's [success] is true, whatever the envelopes of
    the individual tool calls say. *)
Theorem composite_success_ignores_tool_failures
    tool_category query intent_analysis w env w' :
  _execute_composite_tools W strip digit_at str settings now llm_content json_loads
    _fallback_parameter_extraction compose_meeting_email tools_map
    tool_category query intent_analysis w = (Returns (VDict env), w') ->
  forallb (Agent.known W tools_map) (split_categories strip tool_category) = true ->
  dict_get env "error" = None ->
  dict_get env "success" = Some (VBool true).
Proof.
  intros Hrun Hknown Herror.
  pose proof (composite_outcome tool_category query intent_analysis w) as Hshape.
  destruct (for_each (split_categories strip tool_category) (mkLoop [] true VNone)
              (run_category W digit_at str settings now llm_content json_loads
                 _fallback_parameter_extraction compose_meeting_email tools_map
                 query) w) as [[st|e] w1].
  - destruct Hshape as [Henv _]. rewrite Hrun in Henv.
    injection Henv as -> _. rewrite Hknown. reflexivity.
  - rewrite Hrun in Hshape. injection Hshape as -> _. discriminate Herror.
Qed.

End Composite.

(** A run over two categories of the tool map in which the model names a
    tool the calendar collection does not have: the envelope has neither
    [tool_params] nor [result]. *)
Lemma composite_envelope_without_marker :
  Agent.known Examples.World Examples.tools_map "calendar" = true /\
  Agent.known Examples.World Examples.tools_map "email" = true /\
  exists env w',
    Examples.run_composite Examples.llm_wrong_tool_name "calendar|email"
      "查看日程并发邮件" = (Returns (VDict env), w') /\
    dict_get env "tool_params" = None /\
    dict_get env "result" = None.
Proof.
  split; [reflexivity|]. split; [reflexivity|].
  eexists. eexists. split; [reflexivity|]. split; reflexivity.
Qed.

(** The same run: every listed category is in the tool map, and the
    envelope's [success] is false. *)
Lemma composite_fails_with_known_categories :
  forallb (Agent.known Examples.World Examples.tools_map)
    (split_categories ascii_strip "calendar|email") = true /\
  exists env w',
    Examples.run_composite Examples.llm_wrong_tool_name "calendar|email"
      "查看日程并发邮件" = (Returns (VDict env), w') /\
    dict_get env "success" = Some (VBool false) /\
    dict_get env "error" = Some (VStr "未知的日历工具: calendar").
Proof.
  split; [reflexivity|].
  eexists. eexists. split; [reflexivity|]. split; reflexivity.
Qed.

(** A run in which both tools are called and both fail. *)
Lemma composite_success_ignores_tool_failures_witness :
  Examples.run_composite Examples.llm_bad_parameters "calendar|email"
    "查看日程并发邮件"
    = (Returns (VDict Examples.all_failed_envelope), Examples.fresh_world) /\
  forallb (Agent.known Examples.World Examples.tools_map)
    (split_categories ascii_strip "calendar|email") = true /\
  dict_get Examples.all_failed_envelope "error" = None /\
  dict_get Examples.all_failed_envelope "success" = Some (VBool true).
Proof.
  split; [reflexivity|]. split; [reflexivity|]. split; [reflexivity|].
  apply (composite_success_ignores_tool_failures Examples.World ascii_strip
           Regex.ascii_digit_at str_scalar Examples.agent_settings
           Examples.wall_clock Examples.llm_bad_parameters Examples.loads
           Examples.no_fallback
           Examples.invitation Examples.tools_map "calendar|email"
           "查看日程并发邮件" [] Examples.fresh_world
           Examples.all_failed_envelope Examples.fresh_world); reflexivity.
Defined.

End CompositeProofs.

(* ===================================================================== *)
(** ** The calendar tool: what each call does to the stored events *)
(* ===================================================================== *)

Module CalendarMoreProofs.
Import Calendar CalendarRuns DictFacts.

Lemma dict_get_In d k v : dict_get d k = Some v -> In (k, v) d.
Proof.
  induction d as [|[k0 v0] d IH]; simpl; [discriminate|].
  destruct (String.eqb k0 k) eqn:E.
  - apply String.eqb_eq in E. subst. intros H. injection H as ->. now left.
  - intros H. right. auto.
Qed.

(** Equal dictionaries bind every key of the first to an equal value in
    the second. *)
Lemma py_eqb_dict_entry d1 d2 k v :
  py_eqb (VDict d1) (VDict d2) = true ->
  In (k, v) d1 ->
  exists v', dict_get d2 k = Some v' /\ py_eqb v v' = true.
Proof.
  simpl. intros H. apply andb_prop in H. destruct H as [_ H].
  revert H. induction d1 as [|[k0 v0] d1 IH]; intros H Hin; [destruct Hin|].
  destruct (dict_get d2 k0) as [v0'|] eqn:E; [|discriminate].
  apply andb_prop in H. destruct H as [Hv Hrest].
  destruct Hin as [Hin|Hin].
  - injection Hin as <- <-. exists v0'. split; assumption.
  - apply IH; assumption.
Qed.

Lemma py_eqb_str s v : py_eqb (VStr s) v = true -> v = VStr s.
Proof.
  destruct v; simpl; try discriminate. intros H. apply String.eqb_eq in H. now subst.
Qed.

Lemma find_event_spec evs event_id :
  forall i0,
    match find_event evs event_id i0 with
    | Returns (Some (i, e)) =>
        exists pre post,
          evs = (pre ++ e :: post)%list /\ i = (i0 + List.length pre)%nat /\
          (exists a, dict_get e "id" = Some a /\ py_eqb a event_id = true) /\
          Forall (fun e' => exists a, dict_get e' "id" = Some a /\
                                      py_eqb a event_id = false) pre
    | Returns None =>
        Forall (fun e' => exists a, dict_get e' "id" = Some a /\
                                    py_eqb a event_id = false) evs
    | Raises _ => True
    end.
Proof.
  induction evs as [|e evs IH]; intros i0; simpl; [constructor|].
  destruct (dict_get e "id") as [a|] eqn:Eid; [|exact I].
  destruct (py_eqb a event_id) eqn:Eeq.
  - exists [], evs. repeat split; simpl; eauto; try lia.
  - specialize (IH (S i0)).
    destruct (find_event evs event_id (S i0)) as [[[i e1]|]|]; [| |exact I].
    + destruct IH as [pre [post [-> [-> [Hmatch Hpre]]]]].
      exists (e :: pre), post. repeat split; simpl; eauto; try lia.
    + constructor; eauto.
Qed.

Lemma list_remove_at pre e post :
  Forall (fun e' => py_eqb (VDict e') (VDict e) = false) pre ->
  forall j,
    list_remove (pre ++ e :: post) e (j + List.length pre) j = Some (pre ++ post)%list.
Proof.
  induction 1 as [|e' pre He' _ IH]; intros j; cbn [app list_remove List.length].
  - rewrite Nat.add_0_r, Nat.eqb_refl. reflexivity.
  - replace (Nat.eqb j (j + S (List.length pre))) with false
      by (symmetry; apply Nat.eqb_neq; lia).
    rewrite He'. cbn [orb].
    replace (j + S (List.length pre))%nat with (S j + List.length pre)%nat by lia.
    rewrite IH. reflexivity.
Qed.

(** Among well-formed events, one whose id does not match [event_id] does
    not compare equal to one whose id does. *)
Lemma unequal_ids_unequal_events e' e event_id :
  well_formed_event e' ->
  (exists a, dict_get e' "id" = Some a /\ py_eqb a event_id = false) ->
  (exists a, dict_get e "id" = Some a /\ py_eqb a event_id = true) ->
  py_eqb (VDict e') (VDict e) = false.
Proof.
  intros [[s Hs] _] [a' [Ha' Hne]] [a [Ha Heq]].
  rewrite Hs in Ha'. injection Ha' as <-.
  destruct (py_eqb (VDict e') (VDict e)) eqn:E; [|reflexivity].
  destruct (py_eqb_dict_entry _ _ _ _ E (dict_get_In _ _ _ Hs)) as [b [Hb Hsb]].
  rewrite Ha in Hb. injection Hb as <-.
  apply py_eqb_str in Hsb. subst a. congruence.
Qed.

Lemma dict_has_set_mono d k v k' :
  dict_has d k' = true -> dict_has (dict_set d k v) k' = true.
Proof.
  unfold dict_has. intros H. destruct (String.eqb k k') eqn:E.
  - apply String.eqb_eq in E. subst. now rewrite dict_get_set_same.
  - apply String.eqb_neq in E. now rewrite dict_get_set_other.
Qed.

Lemma apply_updates_spec fields kwargs :
  forall event,
    (forall k, ~ In k fields \/ dict_get kwargs k = None ->
               dict_get (fst (apply_updates fields kwargs event)) k = dict_get event k) /\
    (forall k, dict_has event k = true ->
               dict_has (fst (apply_updates fields kwargs event)) k = true) /\
    (forall k v, In k fields -> dict_get kwargs k = Some v ->
                 dict_get (fst (apply_updates fields kwargs event)) k = Some v) /\
    snd (apply_updates fields kwargs event) = filter (dict_has kwargs) fields.
Proof.
  induction fields as [|f fields IH]; intros event; simpl.
  - repeat split; auto. intros k v [].
  - unfold dict_has at 3. destruct (dict_get kwargs f) as [v|] eqn:E.
    + destruct (IH (dict_set event f v)) as [Hget [Hhas [Hset Hupd]]].
      destruct (apply_updates fields kwargs (dict_set event f v)) as [e' upd].
      cbn [fst snd] in *. split; [|split; [|split]].
      * intros k Hk. rewrite Hget by tauto. apply dict_get_set_other.
        intros <-. destruct Hk as [Hk|Hk]; [tauto | congruence].
      * intros k Hk. apply Hhas. now apply dict_has_set_mono.
      * intros k v' [<-|Hk] Hv.
        -- destruct (in_dec string_dec f fields) as [Hin|Hnin]; [eauto|].
           rewrite Hget by tauto. rewrite dict_get_set_same. congruence.
        -- eauto.
      * now rewrite Hupd.
    + destruct (IH event) as [Hget [Hhas [Hset Hupd]]].
      split; [|split; [|split]]; auto.
      * intros k Hk. apply Hget. destruct Hk as [Hk|Hk]; [tauto | now right].
      * intros k v' [<-|Hk] Hv; [congruence | eauto].
Qed.

Lemma list_update_at pre (e : Dict) post e' :
  list_update (pre ++ e :: post) (List.length pre) e' = (pre ++ e' :: post)%list.
Proof. induction pre as [|x pre IH]; simpl; [reflexivity | now rewrite IH]. Qed.

Lemma list_remove_sub evs event i :
  forall j evs',
    list_remove evs event i j = Some evs' ->
    exists pre e post, evs = (pre ++ e :: post)%list /\ evs' = (pre ++ post)%list.
Proof.
  induction evs as [|e evs IH]; intros j evs'; cbn [list_remove]; [discriminate|].
  destruct (Nat.eqb j i || py_eqb (VDict e) (VDict event))%bool.
  - intros H. injection H as <-. exists [], e, evs. split; reflexivity.
  - destruct (list_remove evs event i (S j)) as [rest|] eqn:E; [|discriminate].
    intros H. injection H as <-.
    destruct (IH _ _ E) as [pre [e1 [post [-> ->]]]].
    exists (e :: pre), e1, post. split; reflexivity.
Qed.

Section Operations.

Variable str : Value -> string.

Lemma create_event_returns kwargs self :
  exists event_id event,
    _create_event kwargs self =
    (Returns (VDict [("action", VStr "create"); ("event_id", VStr event_id);
                     ("event", VDict event); ("status", VStr "created")]),
     mkCalendar (events self ++ [event]) (clock self) (S (S (ticks self)))) /\
    well_formed_event event /\
    dict_get event "id" = Some (VStr event_id).
Proof.
  unfold _create_event, bind, get, now, set_events, modify, ret.
  cbn [events clock ticks].
  eexists. eexists. split; [reflexivity|]. split; [|reflexivity].
  split; [eexists; reflexivity | reflexivity].
Qed.

Lemma list_events_state kwargs self o self' :
  _list_events kwargs self = (o, self') -> self' = self.
Proof.
  unfold _list_events, bind, get, lift, ret.
  destruct (truthy (dict_get_default kwargs "date_filter" VNone)).
  - destruct (filter_by_date (events self) (dict_get_default kwargs "date_filter" VNone));
      intros H; now injection H.
  - intros H; now injection H.
Qed.

Lemma update_event_raises event_id kwargs self e self' :
  _update_event str event_id kwargs self = (Raises e, self') -> self' = self.
Proof.
  unfold _update_event, bind, get, lift, raise.
  destruct (find_event (events self) event_id 0) as [[[i event]|]|];
    try (intros H; now injection H).
  destruct (negb (truthy (VDict event))); [intros H; now injection H|].
  destruct (apply_updates updatable_fields kwargs event) as [event1 updated].
  unfold now, set_events, modify, ret. discriminate.
Qed.

Lemma delete_event_raises event_id kwargs self e self' :
  _delete_event str event_id kwargs self = (Raises e, self') -> self' = self.
Proof.
  unfold _delete_event, bind, get, lift, raise.
  destruct (find_event (events self) event_id 0) as [[[i event]|]|];
    try (intros H; now injection H).
  destruct (negb (truthy (VDict event))); [intros H; now injection H|].
  destruct (list_remove (events self) event i 0);
    [|intros H; now injection H].
  unfold set_events, modify, ret. discriminate.
Qed.

Lemma execute_raises_state params self e self' :
  execute str params self = (Raises e, self') -> self' = self.
Proof.
  unfold execute.
  destruct (dict_get params "action") as [action|];
    [|unfold raise; intros H; now injection H].
  destruct (eq_str action "create").
  { destruct (first_missing ["title"; "start_time"; "end_time"]
                (dict_remove params "action"));
      [unfold raise; intros H; now injection H|].
    destruct (create_event_returns (dict_remove params "action") self)
      as [id [ev [Hrun _]]].
    rewrite Hrun. discriminate. }
  destruct (eq_str action "list"); [apply list_events_state|].
  destruct (eq_str action "update").
  { destruct (dict_get (dict_remove params "action") "event_id");
      [apply update_event_raises | unfold raise; intros H; now injection H]. }
  destruct (eq_str action "delete").
  { destruct (dict_get (dict_remove params "action") "event_id");
      [apply delete_event_raises | unfold raise; intros H; now injection H]. }
  unfold raise; intros H; now injection H.
Qed.

(** X1. A calendar call that [safe_execute] reports as failed has left the
    tool as it was: no event is added, changed or removed, and the clock
    is not read. *)
Theorem failed_calendar_call_changes_nothing params self envelope self' :
  BaseTool.safe_execute (calendar_event str) params self
  = (Returns envelope, self') ->
  subscript envelope "success" = Returns (VBool false) ->
  self' = self.
Proof.
  destruct (execute str params self) as [[r|e] self1] eqn:Hrun.
  - rewrite (BaseToolProofs.safe_execute_of_return (calendar_event str) _ _ _ _ Hrun).
    intros H. injection H as <- <-. discriminate.
  - rewrite (BaseToolProofs.safe_execute_of_raise (calendar_event str) _ _ _ _ Hrun).
    intros H _. injection H as _ <-.
    exact (execute_raises_state _ _ _ _ Hrun).
Qed.

(** What a successful update does to the list of events. *)
Lemma update_event_returns event_id kwargs self r self' :
  _update_event str event_id kwargs self = (Returns r, self') ->
  exists pre event post event',
    events self = (pre ++ event :: post)%list /\
    events self' = (pre ++ event' :: post)%list /\
    clock self' = clock self /\
    (exists a, dict_get event "id" = Some a /\ py_eqb a event_id = true) /\
    Forall (fun e' => exists a, dict_get e' "id" = Some a /\
                                py_eqb a event_id = false) pre /\
    (forall k, k <> "updated_at" ->
               ~ In k updatable_fields \/ dict_get kwargs k = None ->
               dict_get event' k = dict_get event k) /\
    (forall k, dict_has event k = true -> dict_has event' k = true) /\
    (forall k v, In k updatable_fields -> dict_get kwargs k = Some v ->
                 dict_get event' k = Some v) /\
    r = VDict [("action", VStr "update"); ("event_id", event_id);
               ("updated_fields",
                VList (map VStr (filter (dict_has kwargs) updatable_fields)));
               ("event", VDict event'); ("status", VStr "updated")].
Proof.
  unfold _update_event, bind, get, lift, raise.
  pose proof (find_event_spec (events self) event_id 0) as Hfind.
  destruct (find_event (events self) event_id 0) as [[[i event]|]|];
    try discriminate.
  destruct Hfind as [pre [post [Hevs [-> [Hmatch Hpre]]]]].
  destruct (negb (truthy (VDict event))); [discriminate|].
  destruct (apply_updates_spec updatable_fields kwargs event)
    as [Hget [Hhas [Hset Hupd]]].
  destruct (apply_updates updatable_fields kwargs event) as [event1 updated] eqn:Eu.
  cbn [fst snd] in *.
  unfold now, set_events, modify, ret. cbn [events clock ticks].
  intros H. injection H as <- <-. cbn [events clock].
  exists pre, event, post. eexists.
  split; [exact Hevs|]. split; [rewrite Hevs; apply list_update_at|].
  split; [reflexivity|]. split; [exact Hmatch|]. split; [exact Hpre|].
  split; [|split; [|split]].
  - intros k Hk Hk'. rewrite dict_get_set_other by congruence. now apply Hget.
  - intros k Hk. apply dict_has_set_mono. now apply Hhas.
  - intros k v Hk Hv. rewrite dict_get_set_other
      by (intros <-; cbv in Hk; intuition discriminate).
    eauto.
  - rewrite Hupd. reflexivity.
Qed.

Lemma kwargs_of_params params k :
  k <> "action" -> k <> "event_id" ->
  dict_get (dict_remove (dict_remove params "action") "event_id") k
  = dict_get params k.
Proof. intros H1 H2. rewrite !dict_get_remove_other; congruence. Qed.

(** X2. A successful [update] replaces one event in place and changes
    nothing else: the other events and the order are kept, and in the
    updated event only the updatable fields given in the call and
    [updated_at] can differ; its [id] and [created_at] are never changed,
    whatever the call passes. *)
Theorem update_changes_only_given_fields params self r self' :
  dict_get params "action" = Some (VStr "update") ->
  execute str params self = (Returns r, self') ->
  exists pre event post event',
    events self = (pre ++ event :: post)%list /\
    events self' = (pre ++ event' :: post)%list /\
    dict_get event' "id" = dict_get event "id" /\
    dict_get event' "created_at" = dict_get event "created_at" /\
    (forall k, k <> "updated_at" ->
               ~ In k updatable_fields \/ dict_get params k = None ->
               dict_get event' k = dict_get event k) /\
    (forall k v, In k updatable_fields -> dict_get params k = Some v ->
                 dict_get event' k = Some v).
Proof.
  intros Haction. unfold execute. rewrite Haction. cbn [eq_str].
  change (String.eqb "update" "create") with false.
  change (String.eqb "update" "list") with false.
  change (String.eqb "update" "update") with true. cbv iota.
  destruct (dict_get (dict_remove params "action") "event_id") as [event_id|];
    [|discriminate].
  intros Hrun.
  destruct (update_event_returns _ _ _ _ _ Hrun)
    as [pre [event [post [event' [Hevs [Hevs' [_ [_ [_ [Hkeep [_ [Hset Hr]]]]]]]]]]]].
  exists pre, event, post, event'.
  assert (Hfields : forall k, In k updatable_fields ->
                              k <> "action" /\ k <> "event_id").
  { intros k Hk. split; intros ->; cbv in Hk; intuition discriminate. }
  split; [exact Hevs|]. split; [exact Hevs'|].
  split; [apply Hkeep; [discriminate | left; cbv; intuition discriminate]|].
  split; [apply Hkeep; [discriminate | left; cbv; intuition discriminate]|].
  split.
  - intros k Hk [Hnot|Hnone]; apply Hkeep; auto.
    destruct (in_dec string_dec k updatable_fields) as [Hin|Hnin]; [|now left].
    right. destruct (Hfields k Hin). now rewrite kwargs_of_params.
  - intros k v Hk Hv. apply Hset; [exact Hk|].
    destruct (Hfields k Hk). now rewrite kwargs_of_params.
Qed.

Lemma has_id_true event_id e :
  (exists a, dict_get e "id" = Some a /\ py_eqb a event_id = true) <->
  has_id event_id e = true.
Proof.
  unfold has_id. split.
  - intros [a [-> H]]. exact H.
  - destruct (dict_get e "id") as [a|]; [eauto | discriminate].
Qed.

Lemma has_id_false event_id e :
  well_formed_event e ->
  (exists a, dict_get e "id" = Some a /\ py_eqb a event_id = false) <->
  has_id event_id e = false.
Proof.
  unfold has_id. intros [[s ->] _]. split.
  - intros [a [H1 H2]]. now injection H1 as <-.
  - eauto.
Qed.

(** On well-formed events the search for an id does not raise. *)
Lemma find_event_well_formed evs event_id :
  Forall well_formed_event evs ->
  forall i0,
    (exists pre e post,
        evs = (pre ++ e :: post)%list /\
        Forall (fun e' => has_id event_id e' = false) pre /\
        has_id event_id e = true /\
        find_event evs event_id i0 = Returns (Some ((i0 + List.length pre)%nat, e))) \/
    (Forall (fun e' => has_id event_id e' = false) evs /\
     find_event evs event_id i0 = Returns None).
Proof.
  induction 1 as [|e evs He _ IH]; intros i0; cbn [find_event].
  - right. split; [constructor | reflexivity].
  - pose proof He as [[s Hs] _]. rewrite Hs.
    destruct (py_eqb (VStr s) event_id) eqn:Eeq.
    + left. exists [], e, evs. cbn [app List.length]. rewrite Nat.add_0_r.
      repeat split; [constructor | unfold has_id; now rewrite Hs].
    + assert (Hno : has_id event_id e = false) by (unfold has_id; now rewrite Hs).
      destruct (IH (S i0)) as [[pre [e1 [post [-> [Hpre [He1 Hfind]]]]]]|[Hall Hfind]].
      * left. exists (e :: pre), e1, post. cbn [app List.length].
        rewrite Hfind. replace (S i0 + List.length pre)%nat
          with (i0 + S (List.length pre))%nat by lia.
        repeat split; [constructor; assumption | assumption].
      * right. split; [constructor; assumption | assumption].
Qed.

Lemma truthy_well_formed event :
  well_formed_event event -> truthy (VDict event) = true.
Proof. intros [[s Hs] _]. destruct event; [discriminate | reflexivity]. Qed.

Lemma unequal_events e' e event_id :
  well_formed_event e' -> has_id event_id e' = false ->
  has_id event_id e = true ->
  py_eqb (VDict e') (VDict e) = false.
Proof.
  intros Hwf H1 H2. apply (unequal_ids_unequal_events e' e event_id Hwf).
  - now apply has_id_false.
  - now apply has_id_true.
Qed.

(** X3. On a calendar of well-formed events, [delete] removes exactly the
    first event whose id equals [event_id] and keeps every other event in
    place; when no event has that id it raises [事件不存在] and removes
    nothing. *)
Theorem delete_removes_first_event_with_id params event_id self :
  well_formed self ->
  dict_get params "action" = Some (VStr "delete") ->
  dict_get params "event_id" = Some event_id ->
  (exists pre event post,
      events self = (pre ++ event :: post)%list /\
      Forall (fun e => has_id event_id e = false) pre /\
      has_id event_id event = true /\
      execute str params self =
      (Returns (VDict [("action", VStr "delete"); ("event_id", event_id);
                       ("status", VStr "deleted")]),
       mkCalendar (pre ++ post) (clock self) (ticks self))) \/
  (Forall (fun e => has_id event_id e = false) (events self) /\
   execute str params self = (Raises (not_found str event_id), self)).
Proof.
  intros Hwf Haction Hid. unfold execute. rewrite Haction. cbn [eq_str].
  change (String.eqb "delete" "create") with false.
  change (String.eqb "delete" "list") with false.
  change (String.eqb "delete" "update") with false.
  change (String.eqb "delete" "delete") with true. cbv iota.
  rewrite dict_get_remove_other by discriminate. rewrite Hid.
  unfold _delete_event, bind, get, lift, raise.
  destruct (find_event_well_formed (events self) event_id Hwf 0)
    as [[pre [e [post [Hevs [Hpre [He Hfind]]]]]]|[Hall Hfind]];
    rewrite Hfind; [left | right; split; [assumption | reflexivity]].
  exists pre, e, post.
  split; [exact Hevs|]. split; [exact Hpre|]. split; [exact He|].
  assert (Hwfe : well_formed_event e).
  { unfold well_formed in Hwf. rewrite Hevs in Hwf.
    apply Forall_app in Hwf. destruct Hwf as [_ Hwf]. now inversion Hwf. }
  rewrite (truthy_well_formed _ Hwfe). cbn [negb].
  assert (Hrm : list_remove (events self) e (0 + List.length pre) 0
                = Some (pre ++ post)%list).
  { rewrite Hevs. apply list_remove_at.
    unfold well_formed in Hwf. rewrite Hevs in Hwf.
    apply Forall_app in Hwf. destruct Hwf as [Hwfpre _].
    clear Hevs Hfind. induction Hpre as [|e' pre He' Hpre IH]; constructor.
    - inversion Hwfpre; subst. eapply unequal_events; eauto.
    - apply IH. now inversion Hwfpre. }
  rewrite Hrm. reflexivity.
Qed.

(** X4. On a calendar of well-formed events, [update] fails exactly when
    no event has the id asked for, with [事件不存在]. *)
Theorem update_fails_exactly_on_unknown_id params event_id self :
  well_formed self ->
  dict_get params "action" = Some (VStr "update") ->
  dict_get params "event_id" = Some event_id ->
  if existsb (has_id event_id) (events self)
  then exists r self', execute str params self = (Returns r, self')
  else execute str params self = (Raises (not_found str event_id), self).
Proof.
  intros Hwf Haction Hid. unfold execute. rewrite Haction. cbn [eq_str].
  change (String.eqb "update" "create") with false.
  change (String.eqb "update" "list") with false.
  change (String.eqb "update" "update") with true. cbv iota.
  rewrite dict_get_remove_other by discriminate. rewrite Hid.
  unfold _update_event, bind, get, lift, raise.
  destruct (find_event_well_formed (events self) event_id Hwf 0)
    as [[pre [e [post [Hevs [Hpre [He Hfind]]]]]]|[Hall Hfind]];
    rewrite Hfind.
  - assert (Hex : existsb (has_id event_id) (events self) = true).
    { rewrite Hevs, existsb_app. cbn [existsb]. rewrite He.
      now rewrite orb_true_r. }
    rewrite Hex.
    assert (Hwfe : well_formed_event e).
    { unfold well_formed in Hwf. rewrite Hevs in Hwf.
      apply Forall_app in Hwf. destruct Hwf as [_ Hwf]. now inversion Hwf. }
    rewrite (truthy_well_formed _ Hwfe). cbn [negb].
    destruct (apply_updates updatable_fields
                (dict_remove (dict_remove params "action") "event_id") e).
    unfold now, set_events, modify, ret. eexists. eexists. reflexivity.
  - assert (Hex : existsb (has_id event_id) (events self) = false).
    { clear Hfind. induction Hall as [|e evs He _ IH]; [reflexivity|].
      cbn [existsb]. rewrite He. apply IH. }
    rewrite Hex. reflexivity.
Qed.

Lemma well_formed_step params self :
  well_formed self -> well_formed (snd (execute str params self)).
Proof.
  intros Hwf.
  destruct (execute str params self) as [[r|e] self'] eqn:Hrun; cbn [snd];
    [|now rewrite (execute_raises_state _ _ _ _ Hrun)].
  revert Hrun. unfold execute.
  destruct (dict_get params "action") as [action|]; [|discriminate].
  destruct (eq_str action "create").
  { destruct (first_missing ["title"; "start_time"; "end_time"]
                (dict_remove params "action")); [discriminate|].
    destruct (create_event_returns (dict_remove params "action") self)
      as [id [ev [Hrun [Hev _]]]].
    rewrite Hrun. intros H. injection H as _ <-.
    unfold well_formed. cbn [events]. apply Forall_app. split; [exact Hwf|].
    constructor; [exact Hev | constructor]. }
  destruct (eq_str action "list").
  { intros H. now rewrite (list_events_state _ _ _ _ H). }
  destruct (eq_str action "update").
  { destruct (dict_get (dict_remove params "action") "event_id") as [event_id|];
      [|discriminate].
    intros Hrun.
    destruct (update_event_returns _ _ _ _ _ Hrun)
      as [pre [event [post [event' [Hevs [Hevs' [_ [_ [_ [Hkeep [Hhas _]]]]]]]]]]].
    unfold well_formed in *. rewrite Hevs'. rewrite Hevs in Hwf.
    apply Forall_app in Hwf. destruct Hwf as [Hpre Hrest].
    inversion Hrest as [|? ? [[s Hs] Hfields] Hpost]; subst.
    apply Forall_app. split; [exact Hpre|]. constructor; [|exact Hpost].
    split.
    - exists s. rewrite <- Hs. apply Hkeep; [discriminate|].
      left. cbv. intuition discriminate.
    - rewrite forallb_forall in *. intros k Hk. apply Hhas. now apply Hfields. }
  destruct (eq_str action "delete"); [|discriminate].
  destruct (dict_get (dict_remove params "action") "event_id") as [event_id|];
    [|discriminate].
  unfold _delete_event, bind, get, lift, raise.
  destruct (find_event (events self) event_id 0) as [[[i event]|]|];
    try discriminate.
  destruct (negb (truthy (VDict event))); [discriminate|].
  destruct (list_remove (events self) event i 0) as [evs'|] eqn:Hrm;
    [|discriminate].
  unfold set_events, modify, ret. intros H. injection H as _ <-.
  destruct (list_remove_sub _ _ _ _ _ Hrm) as [pre [e1 [post [Hevs ->]]]].
  unfold well_formed in *. cbn [events]. rewrite Hevs in Hwf.
  apply Forall_app in Hwf. destruct Hwf as [Hpre Hrest].
  apply Forall_app. split; [exact Hpre | now inversion Hrest].
Qed.

(** X5. Whatever calls a fresh calendar has served, and however each
    ended, every stored event still has a string id and every field
    [_create_event] gave it: no call removes a field or replaces an id. *)
Theorem stored_events_stay_well_formed clk calls :
  well_formed (run_calls str calls (new clk)).
Proof.
  unfold run_calls.
  assert (H : well_formed (new clk)) by constructor.
  revert H. generalize (new clk).
  induction calls as [|params calls IH]; intros self H; cbn [fold_left];
    [exact H|].
  apply IH. now apply well_formed_step.
Qed.

End Operations.

Lemma two_meetings_well_formed : well_formed two_meetings.
Proof.
  unfold well_formed.
  let evs := eval vm_compute in (events two_meetings) in
  change (events two_meetings) with evs.
  repeat constructor; eexists; reflexivity.
Qed.

Lemma failed_calendar_call_changes_nothing_witness :
  exists envelope self',
    BaseTool.safe_execute (calendar_event str_scalar) delete_unknown two_meetings
    = (Returns envelope, self') /\
    subscript envelope "success" = Returns (VBool false) /\
    self' = two_meetings.
Proof.
  set (call := BaseTool.safe_execute (calendar_event str_scalar)
                 delete_unknown two_meetings).
  assert (Hrun : call = (Returns (returned call), snd call))
    by (vm_compute; reflexivity).
  assert (Hfail : subscript (returned call) "success" = Returns (VBool false))
    by (vm_compute; reflexivity).
  exists (returned call), (snd call).
  split; [exact Hrun|]. split; [exact Hfail|].
  exact (failed_calendar_call_changes_nothing str_scalar _ _ _ _ Hrun Hfail).
Defined.

Lemma update_changes_only_given_fields_witness :
  dict_get rename_first "action" = Some (VStr "update") /\
  exists r self',
    execute str_scalar rename_first two_meetings = (Returns r, self') /\
    exists pre event post event',
      events two_meetings = (pre ++ event :: post)%list /\
      events self' = (pre ++ event' :: post)%list /\
      dict_get event' "id" = dict_get event "id" /\
      dict_get event' "created_at" = dict_get event "created_at" /\
      (forall k, k <> "updated_at" ->
                 ~ In k updatable_fields \/ dict_get rename_first k = None ->
                 dict_get event' k = dict_get event k) /\
      (forall k v, In k updatable_fields -> dict_get rename_first k = Some v ->
                   dict_get event' k = Some v).
Proof.
  split; [reflexivity|].
  set (call := execute str_scalar rename_first two_meetings).
  assert (Hrun : call = (Returns (returned call), snd call))
    by (vm_compute; reflexivity).
  exists (returned call), (snd call). split; [exact Hrun|].
  exact (update_changes_only_given_fields str_scalar rename_first two_meetings
           _ _ eq_refl Hrun).
Defined.

Lemma delete_removes_first_event_with_id_witness :
  well_formed two_meetings /\
  dict_get delete_first "action" = Some (VStr "delete") /\
  dict_get delete_first "event_id" = Some first_id /\
  ((exists pre event post,
       events two_meetings = (pre ++ event :: post)%list /\
       Forall (fun e => has_id first_id e = false) pre /\
       has_id first_id event = true /\
       execute str_scalar delete_first two_meetings =
       (Returns (VDict [("action", VStr "delete"); ("event_id", first_id);
                        ("status", VStr "deleted")]),
        mkCalendar (pre ++ post) (clock two_meetings) (ticks two_meetings))) \/
   (Forall (fun e => has_id first_id e = false) (events two_meetings) /\
    execute str_scalar delete_first two_meetings
    = (Raises (not_found str_scalar first_id), two_meetings))).
Proof.
  split; [exact two_meetings_well_formed|].
  split; [reflexivity|]. split; [reflexivity|].
  exact (delete_removes_first_event_with_id str_scalar delete_first first_id
           two_meetings two_meetings_well_formed eq_refl eq_refl).
Defined.

Lemma update_fails_exactly_on_unknown_id_witness :
  well_formed two_meetings /\
  dict_get update_unknown "action" = Some (VStr "update") /\
  dict_get update_unknown "event_id" = Some (VStr "event_9") /\
  (if existsb (has_id (VStr "event_9")) (events two_meetings)
   then exists r self',
       execute str_scalar update_unknown two_meetings = (Returns r, self')
   else execute str_scalar update_unknown two_meetings
        = (Raises (not_found str_scalar (VStr "event_9")), two_meetings)).
Proof.
  split; [exact two_meetings_well_formed|].
  split; [reflexivity|]. split; [reflexivity|].
  exact (update_fails_exactly_on_unknown_id str_scalar update_unknown
           (VStr "event_9") two_meetings two_meetings_well_formed
           eq_refl eq_refl).
Defined.
End CalendarMoreProofs.

(* ===================================================================== *)
(** ** The email tools: delivery, templates and the template chain *)
(* ===================================================================== *)

Module EmailMoreProofs.
Import Email EmailRuns EmailProofs.



(** The template tool leaves its world alone. *)
Lemma template_execute_state str (W : Type) kwargs (w : W) :
  snd (EmailTemplate.execute str W kwargs w) = w.
Proof.
  unfold EmailTemplate.execute.
  destruct (forallb _ kwargs); [|reflexivity].
  destruct (dict_get kwargs "template_name") as [template_name|]; [|reflexivity].
  destruct (dict_get kwargs "template_vars") as [template_vars|]; [|reflexivity].
  unfold EmailTemplate.generate, bind, lift, raise, ret.
  destruct template_name; try reflexivity.
  destruct (Agent.lookup s EmailTemplate.templates); reflexivity.
Qed.

(** The envelope of a template call: a dictionary that is not empty and
    has neither a subject nor a body of its own. *)
Lemma template_envelope str (W : Type) kwargs (w : W) :
  exists envelope,
    BaseTool.safe_execute (EmailTemplate.email_template str W) kwargs w
    = (Returns (VDict envelope), w) /\
    truthy (VDict envelope) = true /\
    dict_get envelope "subject" = None /\
    dict_get envelope "body" = None /\
    dict_get envelope "success" <> None.
Proof.
  pose proof (template_execute_state str W kwargs w) as Hstate.
  destruct (EmailTemplate.execute str W kwargs w) as [[r|e] w'] eqn:Hrun;
    cbn [snd] in Hstate; subst w'.
  - rewrite (BaseToolProofs.safe_execute_of_return
               (EmailTemplate.email_template str W) _ _ _ _ Hrun).
    eexists. split; [reflexivity|]. repeat split; discriminate.
  - rewrite (BaseToolProofs.safe_execute_of_raise
               (EmailTemplate.email_template str W) _ _ _ _ Hrun).
    eexists. split; [reflexivity|]. repeat split; discriminate.
Qed.

Lemma fill_from_template_returns str server tool_params template_info net :
  dict_get tool_params "template" = Some (VDict template_info) ->
  Agent.fill_from_template Smtp str (EmailTools.new str server) tool_params net =
  (Returns (match Agent.keyword_clash template_info with
            | Some _ => tool_params
            | None => none_unless_given "body"
                        (none_unless_given "subject" tool_params)
            end),
   net).
Proof.
  intros Htemplate. unfold Agent.fill_from_template, dict_get_default.
  rewrite Htemplate. unfold try_except, Agent.call_execute_tool.
  destruct (Agent.keyword_clash template_info) as [name|].
  { reflexivity. }
  unfold Agent.execute_tool, EmailTools.new. cbn [Agent.tools Agent.lookup].
  change (String.eqb "email_send" "email_template") with false.
  change (String.eqb "email_template" "email_template") with true. cbv iota.
  destruct (template_envelope str Smtp template_info net)
    as [envelope [Hrun [Htruthy [Hsubject [Hbody _]]]]].
  rewrite (BaseToolProofs.bind_returns _ _ _ _ _ Hrun).
  rewrite Htruthy. unfold none_unless_given, py_get.
  assert (Hs : dict_get_default envelope "subject" VNone = VNone)
    by (unfold dict_get_default; now rewrite Hsubject).
  assert (Hb : dict_get_default envelope "body" VNone = VNone)
    by (unfold dict_get_default; now rewrite Hbody).
  rewrite Hs, Hb. unfold dict_get_default.
  destruct (dict_get tool_params "subject") as [subject|] eqn:Es.
  - destruct (truthy subject); unfold bind, lift, ret; cbn [negb].
    + destruct (dict_get tool_params "body") as [body|] eqn:Eb;
        [destruct (truthy body)|]; reflexivity.
    + destruct (dict_get (dict_set tool_params "subject" VNone) "body")
        as [body|] eqn:Eb; [destruct (truthy body)|]; reflexivity.
  - unfold bind, lift, ret; cbn [negb truthy].
    destruct (dict_get (dict_set tool_params "subject" VNone) "body")
      as [body|] eqn:Eb; [destruct (truthy body)|]; reflexivity.
Qed.

(** X7. What the template chain does to the parameters of a send.  When
    the template holds a key named [self] or [tool_name], the call of
    the template tool fails on that key and the parameters stay as they
    are.  Otherwise the template tool is called, and whatever it
    rendered or reported, a subject or body the parameters lack is set
    to [None]; the rendered text is never copied, because the chain
    reads [subject] and [body] from the envelope of the call and not
    from its [result]. *)
Theorem template_text_never_reaches_the_mail str server tool_params
    template_info net :
  dict_get tool_params "template" = Some (VDict template_info) ->
  Agent.fill_from_template Smtp str (EmailTools.new str server) tool_params net =
  (Returns (match Agent.keyword_clash template_info with
            | Some _ => tool_params
            | None => none_unless_given "body"
                        (none_unless_given "subject" tool_params)
            end),
   net).
Proof.
  intros Htemplate.
  exact (fill_from_template_returns str server _ _ net Htemplate).
Qed.


(** A keyword outside a signature makes the binding fail. *)
Lemma unexpected_keyword (names : list string) kwargs k v :
  In (k, v) kwargs ->
  existsb (String.eqb k) names = false ->
  forallb (fun kv : string * Value => existsb (String.eqb (fst kv)) names) kwargs
  = false.
Proof.
  intros Hin Hk.
  destruct (forallb _ kwargs) eqn:E; [|reflexivity].
  rewrite forallb_forall in E. specialize (E _ Hin). cbn [fst] in E. congruence.
Qed.

Lemma template_kept_in_kwargs params v :
  dict_get params "template" = Some v ->
  In ("template", v) (Agent.without_tool_name params).
Proof.
  intros H. unfold Agent.without_tool_name. apply filter_In.
  split; [now apply CalendarMoreProofs.dict_get_In | reflexivity].
Qed.

(** [execute] of the send tool has no parameter called [template]. *)
Lemma template_is_no_parameter kwargs v :
  In ("template", v) kwargs ->
  exists e, bind_arguments kwargs = Raises e.
Proof.
  intros Hin. unfold bind_arguments.
  destruct (find _ kwargs) as [[name value]|] eqn:Hfind; [eauto|].
  pose proof (find_none _ _ Hfind _ Hin) as H. discriminate H.
Qed.

(** With a [template] among the parameters, neither tool of the
    collection accepts the call. *)
Lemma dispatch_with_template str server params v net :
  dict_get params "template" = Some v ->
  exists o,
    Agent.dispatch Smtp str (EmailTools.new str server) params net = (o, net) /\
    match o with
    | Returns result => subscript result "success" = Returns (VBool false)
    | Raises _ => True
    end.
Proof.
  intros Htemplate. pose proof (template_kept_in_kwargs _ _ Htemplate) as Hin.
  destruct (template_is_no_parameter _ _ Hin) as [e He].
  unfold Agent.dispatch.
  destruct (negb (truthy (dict_get_default params "tool_name" VNone)));
    [eexists; split; [reflexivity | exact I]|].
  unfold Agent.call_execute_tool.
  destruct (Agent.keyword_clash (Agent.without_tool_name params));
    [eexists; split; [reflexivity | exact I]|].
  unfold Agent.execute_tool.
  destruct (dict_get_default params "tool_name" VNone) as [| | | |n| |];
    try (eexists; split; [reflexivity | exact I]).
  unfold EmailTools.new. cbn [Agent.tools Agent.lookup].
  destruct (String.eqb "email_send" n).
  { eexists. split.
    - apply (BaseToolProofs.safe_execute_of_raise (email_send server)).
      cbn [BaseTool.execute email_send].
      unfold bind, lift. rewrite He. reflexivity.
    - reflexivity. }
  destruct (String.eqb "email_template" n).
  { eexists. split.
    - apply (BaseToolProofs.safe_execute_of_raise
               (EmailTemplate.email_template str Smtp)).
      cbn [BaseTool.execute EmailTemplate.email_template].
      unfold EmailTemplate.execute.
      rewrite (unexpected_keyword EmailTemplate.parameter_names _ _ _ Hin eq_refl).
      reflexivity.
    - reflexivity. }
  eexists; split; [reflexivity | exact I].
Qed.

Lemma none_unless_given_other key params k :
  k <> key -> dict_get (none_unless_given key params) k = dict_get params k.
Proof.
  intros Hk. unfold none_unless_given.
  destruct (truthy (dict_get_default params key VNone)); [reflexivity|].
  apply DictFacts.dict_get_set_other. congruence.
Qed.

(** X8. A send whose parameters carry a [template] dictionary never
    reaches the mail server: after the template chain the parameters
    still hold [template], which neither [email_send] nor
    [email_template] takes as a keyword, so the call ends as a failure
    envelope or an exception, and the mail system is left as it was. *)
Theorem templated_mail_is_never_sent str server tool_params template_info
    meeting_info net :
  dict_get tool_params "template" = Some (VDict template_info) ->
  snd (Agent.single_tool Smtp str "email" (EmailTools.new str server)
         tool_params meeting_info net) = net /\
  match fst (Agent.single_tool Smtp str "email" (EmailTools.new str server)
               tool_params meeting_info net) with
  | Returns (result, _, _) => subscript result "success" = Returns (VBool false)
  | Raises _ => True
  end.
Proof.
  intros Htemplate. unfold Agent.single_tool.
  change (String.eqb "email" "email") with true.
  change (String.eqb "email" "calendar") with false. cbv iota.
  rewrite (BaseToolProofs.bind_returns _ _ _ _ _
             (fill_from_template_returns str server _ _ net Htemplate)).
  set (params1 := match Agent.keyword_clash template_info with
                  | Some _ => tool_params
                  | None => none_unless_given "body"
                              (none_unless_given "subject" tool_params)
                  end).
  assert (Hkept : dict_get params1 "template" = Some (VDict template_info)).
  { unfold params1. destruct (Agent.keyword_clash template_info); [assumption|].
    rewrite !none_unless_given_other by discriminate. assumption. }
  destruct (dispatch_with_template str server params1 _ net Hkept)
    as [[result|e] [Hrun Hfail]].
  - rewrite (BaseToolProofs.bind_returns _ _ _ _ _ Hrun).
    unfold bind, lift, ret. cbn [fst snd]. split; [reflexivity | exact Hfail].
  - rewrite (BaseToolProofs.bind_raises _ _ _ _ _ Hrun).
    cbn [fst snd]. split; [reflexivity | exact I].
Qed.


Section Templates.

Import EmailTemplate.

Variable str : Value -> string.
Variable W : Type.

(** Rendering fails at the first field, from the left, that has no
    variable, and succeeds when there is none. *)
Lemma render_outcome pieces vars :
  match missing (fields pieces) vars with
  | Some k => render str pieces vars = Raises (mkExc KeyError (quote k))
  | None => exists text, render str pieces vars = Returns text
  end.
Proof.
  unfold missing.
  induction pieces as [|[text|name] pieces IH]; cbn [fields find render].
  - eauto.
  - destruct (find _ (fields pieces)) as [k|].
    + now rewrite IH.
    + destruct IH as [rest ->]. eauto.
  - unfold dict_has. destruct (dict_get vars name) as [v|]; cbn [negb].
    + destruct (find _ (fields pieces)) as [k|].
      * now rewrite IH.
      * destruct IH as [rest ->]. eauto.
    + reflexivity.
Qed.

Lemma format_outcome template names vars :
  option_map fields (parse template None EmptyString) = Some names ->
  match missing names vars with
  | Some k => format str template vars = Raises (mkExc KeyError (quote k))
  | None => exists text, format str template vars = Returns text
  end.
Proof.
  unfold format.
  destruct (parse template None EmptyString) as [pieces|]; [|discriminate].
  cbn [option_map]. intros H. injection H as <-. apply render_outcome.
Qed.

(** The call for a template the tool has, given what its subject and
    body need. *)
Lemma generate_outcome name template title required vars (w : W) :
  Agent.lookup name templates = Some template ->
  option_map fields (parse (subject template) None EmptyString) = Some [title] ->
  option_map fields (parse (body template) None EmptyString)
  = Some (title :: required) ->
  match missing (title :: required) vars with
  | Some k =>
      execute str W [("template_name", VStr name); ("template_vars", VDict vars)] w
      = (Raises (mkExc ValueError ("模板变量缺失: '" ++ k ++ "'")), w)
  | None =>
      exists subject body,
        execute str W [("template_name", VStr name); ("template_vars", VDict vars)] w
        = (Returns (VDict [("template_name", VStr name);
                           ("subject", VStr subject);
                           ("body", VStr body);
                           ("variables_used",
                            VList (map (fun kv => VStr (fst kv)) vars))]), w)
  end.
Proof.
  intros Hlookup Hsubject Hbody.
  pose proof (format_outcome _ _ vars Hsubject) as Hs.
  pose proof (format_outcome _ _ vars Hbody) as Hb.
  unfold execute. cbn [forallb existsb parameter_names fst andb orb dict_get].
  change (String.eqb "template_name" "template_name") with true.
  change (String.eqb "template_vars" "template_name") with false.
  change (String.eqb "template_name" "template_vars") with false.
  change (String.eqb "template_vars" "template_vars") with true.
  cbn [orb andb]. cbv iota.
  unfold generate. rewrite Hlookup.
  unfold bind, ret, lift, key_error_as_value_error, Agent.and_then.
  unfold missing in *. cbn [find] in *.
  destruct (negb (dict_has vars title)).
  - rewrite Hs. reflexivity.
  - destruct Hs as [subject_text ->].
    destruct (find _ required) as [k|].
    + rewrite Hb. reflexivity.
    + destruct Hb as [body_text ->]. eauto.
Qed.

(** X9. The template tool renders a template exactly when every variable
    the template names is given: a call for one of the three templates
    returns the subject and the body when none of its variables is
    missing, and otherwise raises [模板变量缺失] naming the first one
    missing; variables the template does not name are ignored, yet all
    the keys given are what [variables_used] lists. *)
Theorem template_renders_iff_variables_given name required vars (w : W) :
  In (name, required)
     [("meeting_invite",
       ["meeting_title"; "meeting_time"; "meeting_location"; "agenda"]);
      ("task_reminder", ["task_title"; "due_date"; "description"; "priority"]);
      ("report_summary", ["report_title"; "summary_content"])] ->
  match missing required vars with
  | Some k =>
      execute str W [("template_name", VStr name); ("template_vars", VDict vars)] w
      = (Raises (mkExc ValueError ("模板变量缺失: '" ++ k ++ "'")), w)
  | None =>
      exists subject body,
        execute str W [("template_name", VStr name); ("template_vars", VDict vars)] w
        = (Returns (VDict [("template_name", VStr name);
                           ("subject", VStr subject);
                           ("body", VStr body);
                           ("variables_used",
                            VList (map (fun kv => VStr (fst kv)) vars))]), w)
  end.
Proof.
  intros [H|[H|[H|[]]]]; injection H as <- <-;
    eapply generate_outcome; vm_compute; reflexivity.
Qed.

End Templates.


Lemma template_text_never_reaches_the_mail_witness :
  dict_get templated_params "template" = Some (VDict invite_template) /\
  Agent.fill_from_template Smtp str_scalar
    (EmailTools.new str_scalar "smtp.qq.com") templated_params
    Examples.healthy_mail =
  (Returns (match Agent.keyword_clash invite_template with
            | Some _ => templated_params
            | None => none_unless_given "body"
                        (none_unless_given "subject" templated_params)
            end),
   Examples.healthy_mail).
Proof.
  split; [reflexivity|].
  apply (template_text_never_reaches_the_mail str_scalar "smtp.qq.com"
           templated_params invite_template Examples.healthy_mail);
    reflexivity.
Defined.

(** The two cases of the template chain on the parameters the extraction
    gives for a reply that asks for the invitation template. *)
Example template_chain_runs :
  Agent._extract_tool_parameters Smtp Regex.ascii_digit_at
    Examples.agent_settings Examples.wall_clock AgentScenarios.llm_template
    Examples.loads (fun _ _ => ret (VDict [])) "发会议邀请" "email"
    Examples.healthy_mail
  = (Returns templated_params, Examples.healthy_mail) /\
  Agent.fill_from_template Smtp str_scalar
    (EmailTools.new str_scalar "smtp.qq.com") templated_params
    Examples.healthy_mail
  = (Returns (templated_params ++ [("subject", VNone); ("body", VNone)])%list,
     Examples.healthy_mail) /\
  Agent.fill_from_template Smtp str_scalar
    (EmailTools.new str_scalar "smtp.qq.com") clashing_params
    Examples.healthy_mail
  = (Returns clashing_params, Examples.healthy_mail).
Proof. repeat split; reflexivity. Qed.

Lemma templated_mail_is_never_sent_witness :
  dict_get templated_params "template" = Some (VDict invite_template) /\
  snd (Agent.single_tool Smtp str_scalar "email"
         (EmailTools.new str_scalar "smtp.qq.com")
         templated_params VNone Examples.healthy_mail)
  = Examples.healthy_mail /\
  match fst (Agent.single_tool Smtp str_scalar "email"
               (EmailTools.new str_scalar "smtp.qq.com")
               templated_params VNone Examples.healthy_mail) with
  | Returns (result, _, _) => subscript result "success" = Returns (VBool false)
  | Raises _ => True
  end.
Proof.
  split; [reflexivity|].
  apply (templated_mail_is_never_sent str_scalar "smtp.qq.com"
           templated_params invite_template VNone Examples.healthy_mail).
  reflexivity.
Defined.

Lemma template_renders_iff_variables_given_witness :
  In ("report_summary", ["report_title"; "summary_content"])
     [("meeting_invite",
       ["meeting_title"; "meeting_time"; "meeting_location"; "agenda"]);
      ("task_reminder", ["task_title"; "due_date"; "description"; "priority"]);
      ("report_summary", ["report_title"; "summary_content"])] /\
  match EmailTemplate.missing ["report_title"; "summary_content"] report_vars with
  | Some k =>
      EmailTemplate.execute str_scalar unit
        [("template_name", VStr "report_summary");
         ("template_vars", VDict report_vars)] tt
      = (Raises (mkExc ValueError ("模板变量缺失: '" ++ k ++ "'")), tt)
  | None =>
      exists subject body,
        EmailTemplate.execute str_scalar unit
          [("template_name", VStr "report_summary");
           ("template_vars", VDict report_vars)] tt
        = (Returns (VDict [("template_name", VStr "report_summary");
                           ("subject", VStr subject);
                           ("body", VStr body);
                           ("variables_used",
                            VList (map (fun kv => VStr (fst kv)) report_vars))]),
           tt)
  end.
Proof.
  assert (H : In ("report_summary", ["report_title"; "summary_content"])
     [("meeting_invite",
       ["meeting_title"; "meeting_time"; "meeting_location"; "agenda"]);
      ("task_reminder", ["task_title"; "due_date"; "description"; "priority"]);
      ("report_summary", ["report_title"; "summary_content"])])
    by (right; right; left; reflexivity).
  split; [exact H|].
  exact (template_renders_iff_variables_given str_scalar unit
           "report_summary" ["report_title"; "summary_content"] report_vars tt H).
Defined.

End EmailMoreProofs.

(* ===================================================================== *)
(** ** The agent's execute_tool and the action-execution node *)
(* ===================================================================== *)

Module AgentToolsProofs.
Import Agent AgentTools DictFacts.

(** Parameters without a key named [self] pass the call of
    [execute_tool] once [tool_name] is taken out. *)
Lemma no_clash_without_self (params : Dict) :
  dict_get params "self" = None ->
  keyword_clash (without_tool_name params) = None.
Proof.
  unfold keyword_clash, without_tool_name.
  induction params as [|[k v] params IH]; cbn [dict_get filter fst]; intros H.
  - reflexivity.
  - destruct (String.eqb k "self") eqn:Eself; [discriminate|].
    destruct (String.eqb k "tool_name") eqn:Ename; cbn [negb].
    + apply IH. exact H.
    + cbn [find fst]. rewrite Eself, Ename. cbn [orb]. apply IH. exact H.
Qed.

Section ExecuteTool.
Variable W : Type.
Variable strip : string -> string.
Variable digit_at : string -> option (Z * string).
Variable str : Value -> string.
Variable settings : Settings.
Variable now : M W Datetime.datetime.
Variable llm_content : string -> string -> M W Value.
Variable json_loads : string -> Outcome Dict.
Variable _fallback_parameter_extraction : string -> string -> M W Value.
Variable compose_meeting_email : string -> Value -> Outcome (string * string * string).
Variable tools_map : list (string * ToolCollection W).
Variable untyped_query : Value -> M W Value.

Let agent_execute_tool :=
  execute_tool W strip digit_at str settings now llm_content json_loads
    _fallback_parameter_extraction compose_meeting_email tools_map
    untyped_query.

Lemma safe_execute_returns (tool : BaseTool.BaseMCPTool W) kwargs w :
  exists result w',
    BaseTool.safe_execute tool kwargs w = (Returns result, w').
Proof.
  destruct (BaseTool.execute tool kwargs w) as [[r|e] w'] eqn:Hrun.
  - rewrite (BaseToolProofs.safe_execute_of_return tool _ _ _ _ Hrun). eauto.
  - rewrite (BaseToolProofs.safe_execute_of_raise tool _ _ _ _ Hrun). eauto.
Qed.

(** The [try] around a single tool call: every exception becomes an
    envelope. *)
Lemma run_tool_envelope category query tool_instance w :
  exists envelope w',
    try_except
      (run_tool W digit_at str settings now llm_content json_loads
         _fallback_parameter_extraction category query tool_instance)
      (fun e => ret (tool_failure (VStr category) e)) w
    = (Returns (VDict envelope), w') /\
    dict_get envelope "tool_category" = Some (VStr category) /\
    exists b,
      dict_get envelope "success" = Some (VBool b) /\
      (b = true -> dict_has envelope "result" = true /\
                   dict_has envelope "tool_params" = true) /\
      (b = false -> dict_has envelope "error" = true).
Proof.
  unfold try_except.
  destruct (run_tool W digit_at str settings now llm_content json_loads
              _fallback_parameter_extraction category query tool_instance w)
    as [[r|e] w'] eqn:Hrun.
  - revert Hrun. unfold run_tool. unfold bind at 1.
    destruct (_extract_tool_parameters _ _ _ _ _ _ _ _ _ w)
      as [[tool_params|e] w1]; [|discriminate].
    destruct (negb (truthy (dict_get_default tool_params "tool_name" VNone)));
      [discriminate|].
    unfold bind at 1.
    match goal with
    | |- context [match ?c w1 with _ => _ end] =>
        destruct (c w1) as [[tool_params1|e] w2]
    end; [|discriminate].
    unfold bind at 1.
    destruct (call_execute_tool W str tool_instance _ _ w2) as [[result|e] w3];
      [|discriminate].
    unfold ret. intros H. injection H as <- <-.
    eexists. eexists. split; [reflexivity|]. split; [reflexivity|].
    exists true. split; [reflexivity|]. split; [split; reflexivity | discriminate].
  - unfold ret, tool_failure.
    eexists. eexists. split; [reflexivity|]. split; [reflexivity|].
    exists false. split; [reflexivity|]. split; [discriminate | reflexivity].
Qed.

(** X10. For an intent whose tool category and query are strings,
    [execute_tool] never raises: it returns an envelope that carries the
    category asked for and a boolean [success]; with [success] true the
    envelope has the [result] and [tool_params] the workflow reads. *)
Theorem execute_tool_returns_an_envelope intent category query w :
  dict_get_default intent "tool_category" (VStr "none") = VStr category ->
  dict_get_default intent "original_query" (VStr EmptyString) = VStr query ->
  exists envelope w',
    agent_execute_tool (VDict intent) w = (Returns (VDict envelope), w') /\
    dict_get envelope "tool_category" = Some (VStr category) /\
    exists b,
      dict_get envelope "success" = Some (VBool b) /\
      (b = true -> dict_has envelope "result" = true /\
                   dict_has envelope "tool_params" = true).
Proof.
  intros Hcategory Hquery.
  unfold agent_execute_tool, execute_tool, py_get, bind, lift.
  rewrite Hcategory, Hquery. cbn [bar_in].
  destruct (contains category "|").
  - pose proof (CompositeProofs.composite_outcome W strip digit_at str settings
                  now llm_content json_loads _fallback_parameter_extraction
                  compose_meeting_email tools_map category query intent w)
      as Hshape.
    destruct (for_each _ _ _ w) as [[st|e] w1].
    + destruct Hshape as [-> _].
      eexists. eexists. split; [reflexivity|]. split; [reflexivity|].
      eexists. split; [reflexivity|]. intros _. split; reflexivity.
    + rewrite Hshape.
      eexists. eexists. split; [reflexivity|]. split; [reflexivity|].
      exists false. split; [reflexivity | discriminate].
  - destruct (lookup category tools_map) as [tool_instance|].
    2:{ unfold ret, unsupported.
        eexists. eexists. split; [reflexivity|]. split; [reflexivity|].
        exists false. split; [reflexivity | discriminate]. }
    destruct (String.eqb category "none").
    { unfold ret, unsupported.
      eexists. eexists. split; [reflexivity|]. split; [reflexivity|].
      exists false. split; [reflexivity | discriminate]. }
    destruct (run_tool_envelope category query tool_instance w)
      as [envelope [w' [Hrun [Hcat [b [Hb [Hok _]]]]]]].
    exists envelope, w'. split; [exact Hrun|]. split; [exact Hcat|].
    exists b. split; assumption.
Qed.


(** A single category the agent has tools for, once the parameters are
    extracted, name a tool of the collection and hold no key named
    [self]: the call goes through [safe_execute], and its envelope,
    whatever it says, is wrapped in an envelope with [success] true. *)
Lemma single_call_wraps_envelope intent category query tool_instance
    params n tool w w1 :
  dict_get_default intent "tool_category" (VStr "none") = VStr category ->
  dict_get_default intent "original_query" (VStr EmptyString) = VStr query ->
  contains category "|" = false ->
  String.eqb category "none" = false ->
  String.eqb category "email" = false ->
  lookup category tools_map = Some tool_instance ->
  _extract_tool_parameters W digit_at settings now llm_content json_loads
    _fallback_parameter_extraction query category w = (Returns params, w1) ->
  dict_get params "tool_name" = Some (VStr n) ->
  n <> EmptyString ->
  dict_get params "self" = None ->
  lookup n (tools tool_instance) = Some tool ->
  exists result w2,
    BaseTool.safe_execute tool (without_tool_name params) w1
    = (Returns result, w2) /\
    agent_execute_tool (VDict intent) w =
    (Returns (VDict [("success", VBool true); ("result", result);
                     ("tool_category", VStr category);
                     ("tool_params", VDict params)]), w2).
Proof.
  intros Hcategory Hquery Hbar Hnone Hemail Htools Hparams Hname Hn Hself Htool.
  destruct (safe_execute_returns tool (without_tool_name params) w1)
    as [result [w2 Hsafe]].
  exists result, w2. split; [exact Hsafe|].
  unfold agent_execute_tool, execute_tool, py_get, bind at 1 2 3, lift.
  rewrite Hcategory, Hquery. cbn [bar_in]. rewrite Hbar, Htools, Hnone.
  unfold try_except, run_tool.
  rewrite (BaseToolProofs.bind_returns _ _ _ _ _ Hparams).
  unfold dict_get_default. rewrite Hname.
  assert (Htruthy : truthy (VStr n) = true)
    by (destruct n; [congruence | reflexivity]).
  rewrite Htruthy, Hemail. cbn [negb].
  unfold bind at 1, ret at 1.
  unfold call_execute_tool. rewrite (no_clash_without_self params Hself).
  unfold Agent.execute_tool. rewrite Htool.
  rewrite (BaseToolProofs.bind_returns _ _ _ _ _ Hsafe). reflexivity.
Qed.


Variable lower : string -> string.

(** X11. A tool that raises is recorded by the workflow as a completed
    action.  For a single category other than email, once the extracted
    parameters name a tool of the collection and hold no key named
    [self] (one that does fails at the call of [execute_tool], before
    any tool runs), an exception raised by the tool is turned into a
    failure envelope by [safe_execute], the agent wraps that envelope
    with [success] true, and the action-execution node stores the action
    with status [completed] and keeps the agent's envelope as
    [tool_result]. *)
Theorem failed_tool_is_recorded_as_completed state intent category query
    tool_instance params n tool e w w1 w2 :
  dict_get state "intent_analysis" = Some (VDict intent) ->
  truthy (dict_get_default intent "requires_tools" (VBool false)) = true ->
  dict_get intent "tool_category" = Some (VStr category) ->
  dict_get_default intent "original_query" (VStr EmptyString) = VStr query ->
  contains category "|" = false ->
  String.eqb category "none" = false ->
  String.eqb category "email" = false ->
  lookup category tools_map = Some tool_instance ->
  _extract_tool_parameters W digit_at settings now llm_content json_loads
    _fallback_parameter_extraction query category w = (Returns params, w1) ->
  dict_get params "tool_name" = Some (VStr n) ->
  n <> EmptyString ->
  dict_get params "self" = None ->
  lookup n (tools tool_instance) = Some tool ->
  BaseTool.execute tool (without_tool_name params) w1 = (Raises e, w2) ->
  Workflow.action_execution_node lower W agent_execute_tool state w =
  (Returns
     (dict_set
        (dict_set state "actions"
           (VList [VDict [("type", VStr category);
                          ("status", VStr "completed");
                          ("result", BaseTool.failure_envelope (BaseTool.name tool) e);
                          ("tool_params", Workflow._redact lower (VDict params))]]))
        "tool_result"
        (VDict [("success", VBool true);
                ("result", BaseTool.failure_envelope (BaseTool.name tool) e);
                ("tool_category", VStr category);
                ("tool_params", VDict params)])),
   w2).
Proof.
  intros Hintent Hrequires Hcategory Hquery Hbar Hnone Hemail Htools Hparams
    Hname Hn Hself Htool Hraise.
  assert (Hcategory' : dict_get_default intent "tool_category" (VStr "none")
                       = VStr category)
    by (unfold dict_get_default; now rewrite Hcategory).
  destruct (single_call_wraps_envelope intent category query tool_instance
              params n tool w w1 Hcategory' Hquery Hbar Hnone Hemail Htools
              Hparams Hname Hn Hself Htool) as [result [w2' [Hsafe Hagent]]].
  rewrite (BaseToolProofs.safe_execute_of_raise tool _ _ _ _ Hraise) in Hsafe.
  injection Hsafe as <- <-.
  unfold Workflow.action_execution_node, try_except.
  unfold subscript at 1. rewrite Hintent.
  unfold bind at 1, lift at 1. unfold py_get at 1.
  unfold bind at 1, lift at 1. rewrite Hrequires.
  rewrite (BaseToolProofs.bind_returns _ _ _ _ _ Hagent).
  unfold dict_get_default in Hcategory'.
  unfold bind, lift, ret, subscript, py_get, dict_get_default.
  cbn [dict_get String.eqb Ascii.eqb Bool.eqb truthy]. rewrite Hcategory.
  reflexivity.
Qed.


(** X12. A composite request that lists a category the agent has no
    tools for ends in the workflow as the error ['error'].  When no step
    of the composite loop raised, the agent's envelope has [success]
    false and no [error] key; the action-execution node then reads
    [tool_result["error"]], and its handler records the [KeyError] as the
    error of the request, although the tools of the known categories
    have run and the world is the one they left. *)
Theorem unknown_category_ends_in_key_error state intent categories query
    envelope w w' :
  dict_get state "intent_analysis" = Some (VDict intent) ->
  truthy (dict_get_default intent "requires_tools" (VBool false)) = true ->
  dict_get_default intent "tool_category" (VStr "none") = VStr categories ->
  dict_get_default intent "original_query" (VStr EmptyString) = VStr query ->
  contains categories "|" = true ->
  forallb (known W tools_map) (split_categories strip categories) = false ->
  agent_execute_tool (VDict intent) w = (Returns (VDict envelope), w') ->
  dict_get envelope "error" = None ->
  Workflow.action_execution_node lower W agent_execute_tool state w =
  (Returns
     (dict_set (dict_set state "error" (VStr "'error'")) "actions"
        (VList [VDict [("type", VStr "error"); ("status", VStr "failed");
                       ("error", VStr "'error'")]])),
   w').
Proof.
  intros Hintent Hrequires Hcategory Hquery Hbar Hunknown Hagent Herror.
  assert (Hsuccess : dict_get envelope "success" = Some (VBool false)).
  { revert Hagent.
    unfold agent_execute_tool, execute_tool, py_get, bind, lift.
    rewrite Hcategory, Hquery. cbn [bar_in]. rewrite Hbar.
    pose proof (CompositeProofs.composite_outcome W strip digit_at str settings
                  now llm_content json_loads _fallback_parameter_extraction
                  compose_meeting_email tools_map categories query intent w)
      as Hshape.
    destruct (for_each _ _ _ w) as [[st|e] w1].
    - destruct Hshape as [-> _]. rewrite Hunknown.
      intros H. injection H as <- _. reflexivity.
    - rewrite Hshape. intros H. injection H as <- _. discriminate Herror. }
  unfold Workflow.action_execution_node, try_except.
  unfold subscript at 1. rewrite Hintent.
  unfold bind at 1, lift at 1. unfold py_get at 1.
  unfold bind at 1, lift at 1. rewrite Hrequires.
  rewrite (BaseToolProofs.bind_returns _ _ _ _ _ Hagent).
  unfold bind, lift, ret, subscript, py_get.
  rewrite Hsuccess, Herror. reflexivity.
Qed.

End ExecuteTool.

(** *** The email category with a template *)

Section TemplatedMail.

Import Email EmailRuns EmailMoreProofs.

Variable strip : string -> string.
Variable digit_at : string -> option (Z * string).
Variable str : Value -> string.
Variable settings : Settings.
Variable now : M Smtp Datetime.datetime.
Variable llm_content : string -> string -> M Smtp Value.
Variable json_loads : string -> Outcome Dict.
Let llm_json := Agent.llm_json Smtp llm_content json_loads.
Variable _fallback_parameter_extraction : string -> string -> M Smtp Value.
Variable compose_meeting_email : string -> Value -> Outcome (string * string * string).
Variable tools_map : list (string * ToolCollection Smtp).
Variable untyped_query : Value -> M Smtp Value.
Variable smtp_server : string.

Lemma inject_sender_other params k :
  k <> "sender_email" -> k <> "sender_password" ->
  dict_get (inject_sender settings params) k = dict_get params k.
Proof.
  intros H1 H2. unfold inject_sender.
  destruct (is_auto (dict_get_default params "sender_email" VNone));
    match goal with
    | |- context [if ?b then _ else _] => destruct b
    end;
    rewrite ?dict_get_set_other by congruence; reflexivity.
Qed.

(** What the extraction for the email category keeps of the parameters
    the model proposed: every key but the recipients, the sender and the
    tool name, which is [email_send] when the model gave none. *)
Lemma extract_email_parameters query params w w' :
  llm_json query "email" w = (Returns params, w') ->
  exists final,
    _extract_tool_parameters Smtp digit_at settings now llm_content json_loads
      _fallback_parameter_extraction query "email" w = (Returns final, w') /\
    dict_get final "tool_name"
    = Some (match dict_get params "tool_name" with
            | Some tool_name => tool_name
            | None => VStr "email_send"
            end) /\
    forall k, ~ In k ["tool_name"; "to_addresses"; "sender_email"; "sender_password"] ->
              dict_get final k = dict_get params k.
Proof.
  intros Hllm. unfold llm_json in Hllm.
  unfold _extract_tool_parameters, _intelligent_parameter_extraction, try_except.
  cbn [existsb]. change (String.eqb "email" "calendar") with false.
  change (String.eqb "email" "email") with true.
  change (String.eqb "email" "file") with false. cbn [orb andb]. cbv iota.
  unfold bind, ret. rewrite Hllm.
  set (params2 :=
         if (negb (truthy (dict_get_default params "to_addresses" VNone))
             || negb (is_list (dict_get_default params "to_addresses" VNone)))%bool
         then dict_set params "to_addresses" (VList [VStr (default_recipient settings)])
         else params).
  set (params3 := dict_setdefault (inject_sender settings params2) "tool_name"
                    (VStr "email_send")).
  set (params4 := match dict_get params3 "to_addresses" with
                  | Some (VStr to_addr) =>
                      dict_set params3 "to_addresses" (VList [VStr to_addr])
                  | _ => params3
                  end).
  assert (H2 : forall k, k <> "to_addresses" ->
                         dict_get params2 k = dict_get params k).
  { intros k Hk. unfold params2.
    match goal with |- context [if ?b then _ else _] => destruct b end;
      [apply dict_get_set_other; congruence | reflexivity]. }
  assert (H4 : forall k, k <> "to_addresses" ->
                         dict_get params4 k = dict_get params3 k).
  { intros k Hk. unfold params4.
    destruct (dict_get params3 "to_addresses") as [[]|];
      try reflexivity. apply dict_get_set_other; congruence. }
  eexists. split; [reflexivity|]. split.
  - rewrite inject_sender_other by discriminate.
    rewrite H4 by discriminate. unfold params3, dict_setdefault, dict_has.
    rewrite inject_sender_other by discriminate.
    rewrite (H2 "tool_name") by discriminate.
    destruct (dict_get params "tool_name") as [tool_name|] eqn:E.
    + rewrite inject_sender_other by discriminate.
      rewrite H2 by discriminate. exact E.
    + apply dict_get_set_same.
  - intros k Hk.
    assert (k <> "tool_name" /\ k <> "to_addresses" /\ k <> "sender_email" /\
            k <> "sender_password") as [K1 [K2 [K3 K4]]].
    { repeat split; intros ->; apply Hk; cbn; tauto. }
    rewrite inject_sender_other by assumption.
    rewrite H4 by assumption. unfold params3.
    rewrite dict_get_setdefault_other by congruence.
    rewrite inject_sender_other by assumption.
    now apply H2.
Qed.


(** [email_send] called with a [template] among its keywords. *)
Lemma send_with_template params v net :
  dict_get params "template" = Some v ->
  dict_get params "self" = None ->
  exists e,
    call_execute_tool Smtp str (EmailTools.new str smtp_server)
      (VStr "email_send") (without_tool_name params) net
    = (Returns (BaseTool.failure_envelope "email_send" e), net).
Proof.
  intros Htemplate Hself.
  pose proof (template_kept_in_kwargs _ _ Htemplate) as Hin.
  destruct (template_is_no_parameter _ _ Hin) as [e He].
  unfold call_execute_tool. rewrite (no_clash_without_self params Hself).
  unfold Agent.execute_tool, EmailTools.new. cbn [tools lookup].
  change (String.eqb "email_send" "email_send") with true. cbv iota.
  exists e.
  apply (BaseToolProofs.safe_execute_of_raise (email_send smtp_server)).
  cbn [BaseTool.execute email_send]. unfold bind, lift. rewrite He.
  reflexivity.
Qed.

(** X13. An email request for which the reply of the model decodes to
    parameters with a [template] dictionary (and no key named [self]) is
    answered by the agent with [success] true although no mail is sent:
    the parameters reach [email_send] with the [template] keyword it does
    not take, the failure envelope of that call becomes the [result] of
    an envelope whose [success] is true, and the mail system is left as
    it was. *)
Theorem templated_mail_is_reported_as_success intent query params
    template_info net :
  lookup "email" tools_map = Some (EmailTools.new str smtp_server) ->
  dict_get_default intent "tool_category" (VStr "none") = VStr "email" ->
  dict_get_default intent "original_query" (VStr EmptyString) = VStr query ->
  llm_json query "email" net = (Returns params, net) ->
  dict_get params "template" = Some (VDict template_info) ->
  dict_get params "self" = None ->
  dict_get_default params "tool_name" (VStr "email_send") = VStr "email_send" ->
  exists result tool_params,
    execute_tool Smtp strip digit_at str settings now llm_content json_loads
      _fallback_parameter_extraction compose_meeting_email tools_map
      untyped_query (VDict intent) net =
    (Returns (VDict [("success", VBool true); ("result", result);
                     ("tool_category", VStr "email");
                     ("tool_params", VDict tool_params)]), net) /\
    subscript result "success" = Returns (VBool false) /\
    dict_get tool_params "template" = Some (VDict template_info).
Proof.
  intros Htools Hcategory Hquery Hllm Htemplate Hself Hname.
  destruct (extract_email_parameters query params net net Hllm)
    as [final [Hextract [Hfinal_name Hfinal]]].
  unfold dict_get_default in Hname. rewrite Hname in Hfinal_name.
  assert (Hfinal_template : dict_get final "template" = Some (VDict template_info)).
  { rewrite Hfinal; [exact Htemplate|].
    cbn. intuition discriminate. }
  assert (Hfinal_self : dict_get final "self" = None).
  { rewrite Hfinal; [exact Hself|].
    cbn. intuition discriminate. }
  set (params1 := match keyword_clash template_info with
                  | Some _ => final
                  | None => none_unless_given "body"
                              (none_unless_given "subject" final)
                  end).
  assert (Hkept : dict_get params1 "template" = Some (VDict template_info)).
  { unfold params1. destruct (keyword_clash template_info); [assumption|].
    rewrite !none_unless_given_other by discriminate. assumption. }
  assert (Hkept_self : dict_get params1 "self" = None).
  { unfold params1. destruct (keyword_clash template_info); [assumption|].
    rewrite !none_unless_given_other by discriminate. assumption. }
  destruct (send_with_template params1 _ net Hkept Hkept_self) as [e Hsend].
  exists (BaseTool.failure_envelope "email_send" e), params1.
  split; [|split; [reflexivity | exact Hkept]].
  unfold execute_tool, py_get, bind at 1 2 3, lift.
  rewrite Hcategory, Hquery. cbn [bar_in].
  change (contains "email" "|") with false. cbv iota.
  rewrite Htools. change (String.eqb "email" "none") with false. cbv iota.
  unfold try_except, run_tool.
  rewrite (BaseToolProofs.bind_returns _ _ _ _ _ Hextract).
  unfold dict_get_default at 1. rewrite Hfinal_name.
  change (negb (truthy (VStr "email_send"))) with false. cbv iota.
  change (String.eqb "email" "email") with true. cbv iota.
  rewrite (BaseToolProofs.bind_returns _ _ _ _ _
             (fill_from_template_returns str smtp_server _ _ net Hfinal_template)).
  fold params1. unfold dict_get_default. rewrite Hfinal_name.
  rewrite (BaseToolProofs.bind_returns _ _ _ _ _ Hsend).
  reflexivity.
Qed.

End TemplatedMail.

Import AgentScenarios.

Lemma execute_tool_returns_an_envelope_witness :
  dict_get_default calendar_intent "tool_category" (VStr "none") = VStr "calendar" /\
  dict_get_default calendar_intent "original_query" (VStr EmptyString)
  = VStr "提醒我日程" /\
  exists envelope w',
    agent Examples.llm_bad_parameters (VDict calendar_intent) Examples.fresh_world
    = (Returns (VDict envelope), w') /\
    dict_get envelope "tool_category" = Some (VStr "calendar") /\
    exists b,
      dict_get envelope "success" = Some (VBool b) /\
      (b = true -> dict_has envelope "result" = true /\
                   dict_has envelope "tool_params" = true).
Proof.
  split; [reflexivity|]. split; [reflexivity|].
  apply (execute_tool_returns_an_envelope Examples.World ascii_strip
           Regex.ascii_digit_at str_scalar Examples.agent_settings
           Examples.wall_clock Examples.llm_bad_parameters Examples.loads
           Examples.no_fallback
           Examples.invitation Examples.tools_map no_untyped_query
           calendar_intent "calendar" "提醒我日程" Examples.fresh_world);
    reflexivity.
Defined.


Lemma failed_tool_is_recorded_as_completed_witness :
  dict_get calendar_state "intent_analysis" = Some (VDict calendar_intent) /\
  truthy (dict_get_default calendar_intent "requires_tools" (VBool false)) = true /\
  dict_get calendar_intent "tool_category" = Some (VStr "calendar") /\
  dict_get_default calendar_intent "original_query" (VStr EmptyString)
  = VStr "提醒我日程" /\
  contains "calendar" "|" = false /\
  String.eqb "calendar" "none" = false /\
  String.eqb "calendar" "email" = false /\
  lookup "calendar" Examples.tools_map = Some Examples.calendar_tools /\
  _extract_tool_parameters Examples.World Regex.ascii_digit_at
    Examples.agent_settings Examples.wall_clock Examples.llm_bad_parameters Examples.loads
    Examples.no_fallback "提醒我日程" "calendar" Examples.fresh_world
  = (Returns remind_params, Examples.fresh_world) /\
  dict_get remind_params "tool_name" = Some (VStr "calendar_event") /\
  "calendar_event" <> EmptyString /\
  dict_get remind_params "self" = None /\
  lookup "calendar_event" (tools Examples.calendar_tools) = Some calendar_tool /\
  BaseTool.execute calendar_tool (without_tool_name remind_params)
    Examples.fresh_world
  = (Raises unsupported_remind, Examples.fresh_world) /\
  Workflow.action_execution_node ascii_lower Examples.World
    (agent Examples.llm_bad_parameters) calendar_state Examples.fresh_world =
  (Returns
     (dict_set
        (dict_set calendar_state "actions"
           (VList [VDict [("type", VStr "calendar");
                          ("status", VStr "completed");
                          ("result",
                           BaseTool.failure_envelope "calendar_event"
                             unsupported_remind);
                          ("tool_params",
                           Workflow._redact ascii_lower (VDict remind_params))]]))
        "tool_result"
        (VDict [("success", VBool true);
                ("result",
                 BaseTool.failure_envelope "calendar_event" unsupported_remind);
                ("tool_category", VStr "calendar");
                ("tool_params", VDict remind_params)])),
   Examples.fresh_world).
Proof.
  assert (Hne : "calendar_event" <> EmptyString) by discriminate.
  repeat (split; [reflexivity || exact Hne|]).
  exact (failed_tool_is_recorded_as_completed Examples.World ascii_strip
           Regex.ascii_digit_at str_scalar Examples.agent_settings
           Examples.wall_clock Examples.llm_bad_parameters Examples.loads
           Examples.no_fallback
           Examples.invitation Examples.tools_map no_untyped_query ascii_lower
           calendar_state calendar_intent "calendar" "提醒我日程"
           Examples.calendar_tools remind_params "calendar_event" calendar_tool
           unsupported_remind Examples.fresh_world Examples.fresh_world
           Examples.fresh_world
           eq_refl eq_refl eq_refl eq_refl eq_refl eq_refl eq_refl eq_refl
           eq_refl eq_refl Hne eq_refl eq_refl eq_refl).
Defined.

Lemma unknown_category_ends_in_key_error_witness :
  dict_get fax_state "intent_analysis" = Some (VDict fax_intent) /\
  truthy (dict_get_default fax_intent "requires_tools" (VBool false)) = true /\
  dict_get_default fax_intent "tool_category" (VStr "none") = VStr "calendar|fax" /\
  dict_get_default fax_intent "original_query" (VStr EmptyString)
  = VStr "安排评审会并发传真" /\
  contains "calendar|fax" "|" = true /\
  forallb (known Examples.World Examples.tools_map)
    (split_categories ascii_strip "calendar|fax") = false /\
  agent llm_meeting (VDict fax_intent) Examples.fresh_world
  = (Returns (VDict (returned_dict
                       (agent llm_meeting (VDict fax_intent) Examples.fresh_world))),
     snd (agent llm_meeting (VDict fax_intent) Examples.fresh_world)) /\
  dict_get (returned_dict
              (agent llm_meeting (VDict fax_intent) Examples.fresh_world))
    "error" = None /\
  List.length (Calendar.events
                 (fst (snd (agent llm_meeting (VDict fax_intent)
                              Examples.fresh_world)))) = 1%nat /\
  Workflow.action_execution_node ascii_lower Examples.World
    (agent llm_meeting) fax_state Examples.fresh_world =
  (Returns
     (dict_set (dict_set fax_state "error" (VStr "'error'")) "actions"
        (VList [VDict [("type", VStr "error"); ("status", VStr "failed");
                       ("error", VStr "'error'")]])),
   snd (agent llm_meeting (VDict fax_intent) Examples.fresh_world)).
Proof.
  assert (Hrun : agent llm_meeting (VDict fax_intent) Examples.fresh_world
                 = (Returns (VDict (returned_dict
                       (agent llm_meeting (VDict fax_intent) Examples.fresh_world))),
                    snd (agent llm_meeting (VDict fax_intent) Examples.fresh_world)))
    by (vm_compute; reflexivity).
  assert (Herror : dict_get (returned_dict
              (agent llm_meeting (VDict fax_intent) Examples.fresh_world))
            "error" = None) by (vm_compute; reflexivity).
  repeat (split; [reflexivity || exact Hrun || exact Herror|]).
  exact (unknown_category_ends_in_key_error Examples.World ascii_strip
           Regex.ascii_digit_at str_scalar Examples.agent_settings
           Examples.wall_clock llm_meeting Examples.loads Examples.no_fallback
           Examples.invitation Examples.tools_map no_untyped_query ascii_lower
           fax_state fax_intent "calendar|fax" "安排评审会并发传真" _
           Examples.fresh_world _
           eq_refl eq_refl eq_refl eq_refl eq_refl eq_refl Hrun Herror).
Defined.

Lemma templated_mail_is_reported_as_success_witness :
  lookup "email" mail_tools_map = Some (EmailTools.new str_scalar "smtp.qq.com") /\
  dict_get_default mail_intent "tool_category" (VStr "none") = VStr "email" /\
  dict_get_default mail_intent "original_query" (VStr EmptyString)
  = VStr "发会议邀请" /\
  Agent.llm_json Email.Smtp llm_template Examples.loads "发会议邀请" "email"
    Examples.healthy_mail
  = (Returns (Examples.template_reply "email"), Examples.healthy_mail) /\
  dict_get (Examples.template_reply "email") "template"
  = Some (VDict EmailRuns.invite_template) /\
  dict_get (Examples.template_reply "email") "self" = None /\
  dict_get_default (Examples.template_reply "email") "tool_name"
    (VStr "email_send")
  = VStr "email_send" /\
  exists result tool_params,
    execute_tool Email.Smtp ascii_strip Regex.ascii_digit_at str_scalar
      Examples.agent_settings Examples.wall_clock llm_template
      Examples.loads (fun _ _ => ret (VDict [])) Examples.invitation mail_tools_map
      no_untyped_query (VDict mail_intent) Examples.healthy_mail =
    (Returns (VDict [("success", VBool true); ("result", result);
                     ("tool_category", VStr "email");
                     ("tool_params", VDict tool_params)]),
     Examples.healthy_mail) /\
    subscript result "success" = Returns (VBool false) /\
    dict_get tool_params "template" = Some (VDict EmailRuns.invite_template).
Proof.
  repeat (split; [reflexivity|]).
  apply (templated_mail_is_reported_as_success ascii_strip
           Regex.ascii_digit_at str_scalar Examples.agent_settings
           Examples.wall_clock llm_template Examples.loads
           (fun _ _ => ret (VDict []))
           Examples.invitation mail_tools_map no_untyped_query "smtp.qq.com"
           mail_intent "发会议邀请" (Examples.template_reply "email")
           EmailRuns.invite_template Examples.healthy_mail); reflexivity.
Defined.

(** A reply with a key named [self]: the call of [execute_tool] fails on
    it before any tool runs, and the action is recorded as failed. *)
Example self_key_is_recorded_as_failed :
  Agent.llm_json Examples.World llm_self Examples.loads "提醒我日程" "calendar"
    Examples.fresh_world
  = (Returns (Examples.self_reply "calendar"), Examples.fresh_world) /\
  Workflow.action_execution_node ascii_lower Examples.World
    (agent llm_self) calendar_state Examples.fresh_world
  = (Returns
       (dict_set calendar_state "actions"
          (VList
             [VDict
                [("type", VStr "calendar"); ("status", VStr "failed");
                 ("error",
                  VStr "CalendarTools.execute_tool() got multiple values for argument 'self'")]])),
     Examples.fresh_world).
Proof. split; reflexivity. Qed.

End AgentToolsProofs.

(* ===================================================================== *)
(** ** The routes: what an upload stores, what the tool route answers *)
(* ===================================================================== *)

Module RoutesMoreProofs.
Import Routes.

Section Upload.

Variable suffix : string -> string.
Variable lower : string -> string.
Variable path_join : string -> string -> string.
Variable http_exception_str : Z -> string -> string.
Variable allowed_extensions_repr : string.
Variable config : Settings.

Let upload :=
  upload_document suffix lower path_join http_exception_str
    allowed_extensions_repr config.


End Upload.

End RoutesMoreProofs.
Module ToolRouteProofs.
Import ToolRoute.

Section ExecuteTool.

Variable W : Type.
Variable lower : string -> string.
Variable str : Value -> string.
Variable http_exception_str : Z -> string -> string.
Variable initialize_components : M W unit.
Variable file_tools email_tools calendar_tools : Agent.ToolCollection W.

Let route :=
  execute_tool W lower str http_exception_str initialize_components
    file_tools email_tools calendar_tools.

Lemma call_outcome collection tool_name parameters w :
  match call W str collection tool_name parameters w with
  | (Returns result, w') =>
      exists tool,
        Agent.lookup tool_name (Agent.tools collection) = Some tool /\
        Agent.keyword_clash parameters = None /\
        BaseTool.safe_execute tool parameters w = (Returns result, w')
  | (Raises e, w') =>
      Agent.lookup tool_name (Agent.tools collection) = None \/
      Agent.keyword_clash parameters <> None
  end.
Proof.
  unfold call, Agent.call_execute_tool.
  destruct (Agent.keyword_clash parameters); [right; discriminate|].
  unfold Agent.execute_tool.
  destruct (Agent.lookup tool_name (Agent.tools collection)) as [tool|];
    [|now left].
  destruct (AgentToolsProofs.safe_execute_returns W tool parameters w)
    as [result [w' Hsafe]].
  rewrite Hsafe. exists tool. repeat split. exact Hsafe.
Qed.

(** X15. The tool route answers 200 or 500 and never 400.  It answers
    200 exactly when the components initialise, the lower-cased category
    is one of [file], [email] and [calendar], the collection has a tool
    of the name asked for and the parameters hold no key named [self] or
    [tool_name]; the body is then the envelope of [safe_execute], so a
    tool that failed is also answered 200.  An unknown category, for
    which the body raises a 400, an unknown tool and a parameter named
    [self] or [tool_name] end as status 500. *)
Theorem tool_route_answers_200_or_500 tool_category tool_name parameters w :
  match route tool_category tool_name parameters w with
  | (Returns result, w') =>
      exists collection tool w0,
        In (lower tool_category, collection)
           [("file", file_tools); ("email", email_tools);
            ("calendar", calendar_tools)] /\
        Agent.lookup tool_name (Agent.tools collection) = Some tool /\
        Agent.keyword_clash parameters = None /\
        initialize_components w = (Returns tt, w0) /\
        BaseTool.safe_execute tool parameters w0 = (Returns result, w')
  | (Raises e, w') =>
      (exists detail,
          e = mkExc (HTTPException 500) (http_exception_str 500 detail)) /\
      ((exists e0 w0, initialize_components w = (Raises e0, w0)) \/
       ~ In (lower tool_category) ["file"; "email"; "calendar"] \/
       exists collection,
         In (lower tool_category, collection)
            [("file", file_tools); ("email", email_tools);
             ("calendar", calendar_tools)] /\
         (Agent.lookup tool_name (Agent.tools collection) = None \/
          Agent.keyword_clash parameters <> None))
  end.
Proof.
  unfold route, execute_tool, try_except, Routes.http_exception.
  unfold bind at 1.
  destruct (initialize_components w) as [[[]|e0] w0] eqn:Hinit;
    [|cbn; split; [eauto | left; eauto]].
  destruct (String.eqb (lower tool_category) "file") eqn:Efile.
  { apply String.eqb_eq in Efile.
    pose proof (call_outcome file_tools tool_name parameters w0) as Hcall.
    destruct (call W str file_tools tool_name parameters w0) as [[r|e] w'].
    - destruct Hcall as [tool [Htool [Hname Hsafe]]].
      exists file_tools, tool, w0. rewrite Efile. cbn [In]. auto 10.
    - cbn. split; [eauto|]. right. right. exists file_tools.
      rewrite Efile. cbn [In]. auto. }
  destruct (String.eqb (lower tool_category) "email") eqn:Eemail.
  { apply String.eqb_eq in Eemail.
    pose proof (call_outcome email_tools tool_name parameters w0) as Hcall.
    destruct (call W str email_tools tool_name parameters w0) as [[r|e] w'].
    - destruct Hcall as [tool [Htool [Hname Hsafe]]].
      exists email_tools, tool, w0. rewrite Eemail. cbn [In]. auto 10.
    - cbn. split; [eauto|]. right. right. exists email_tools.
      rewrite Eemail. cbn [In]. auto. }
  destruct (String.eqb (lower tool_category) "calendar") eqn:Ecalendar.
  { apply String.eqb_eq in Ecalendar.
    pose proof (call_outcome calendar_tools tool_name parameters w0) as Hcall.
    destruct (call W str calendar_tools tool_name parameters w0) as [[r|e] w'].
    - destruct Hcall as [tool [Htool [Hname Hsafe]]].
      exists calendar_tools, tool, w0. rewrite Ecalendar. cbn [In]. auto 10.
    - cbn. split; [eauto|]. right. right. exists calendar_tools.
      rewrite Ecalendar. cbn [In]. auto. }
  cbn. split; [eauto|]. right. left.
  apply String.eqb_neq in Efile, Eemail, Ecalendar.
  cbn [In]. intros [H|[H|[H|[]]]]; congruence.
Qed.

End ExecuteTool.

(** A request for the calendar whose parameters hold a key named [self]
    is answered 500, although the tool exists. *)
Example self_parameter_is_answered_500 :
  Agent.lookup "calendar_event" (Agent.tools Examples.calendar_tools) <> None /\
  execute_tool Examples.World ascii_lower str_scalar Routes.starlette_str
    (ret tt) Examples.file_tools Examples.email_tools Examples.calendar_tools
    "calendar" "calendar_event" [("action", VStr "list"); ("self", VInt 1)]
    Examples.fresh_world
  = (Raises
       (mkExc (HTTPException 500)
          "500: 工具执行失败: CalendarTools.execute_tool() got multiple values for argument 'self'"),
     Examples.fresh_world).
Proof. split; [discriminate | reflexivity]. Qed.

End ToolRouteProofs.

(* ===================================================================== *)
(** ** Retrieval: the rerank entry point and the vector store search *)
(* ===================================================================== *)

Module RerankProofs.
Import Retriever Rerank RetrieverProofs.

Section Retrieve.

Variable str : Value -> string.
Variable format_3f : float -> string.
Variable strip : string -> string.

Lemma Forall2_firstn {A B} (R : A -> B -> Prop) n xs ys :
  Forall2 R xs ys -> Forall2 R (firstn n xs) (firstn n ys).
Proof.
  intros H. revert n. induction H; intros [|n]; simpl; constructor; auto.
Qed.

Lemma firstn_firstn_le {A} (n m : nat) (xs : list A) :
  (n <= m)%nat -> firstn n (firstn m xs) = firstn n xs.
Proof. intros H. rewrite firstn_firstn. now rewrite Nat.min_l. Qed.

(** X16. [retrieve_with_rerank] never raises and asks the vector store
    once, for twelve times [n_results] matches.  What it returns are the
    blocks of the first [n_results] matches whose similarity is at least
    0.2, in the store's order: the same documents [retrieve_documents]
    builds for [n_results] and the threshold 0.2, only from a longer
    answer of the store. *)
Theorem rerank_returns_first_matches_above_threshold store query n_results
    filter_category :
  0 <= n_results ->
  exists docs,
    retrieve_with_rerank str format_3f strip query n_results filter_category
      store
    = (Returns docs,
       mkStore (answer store)
         (requests store ++
          [(enhance query, n_results * 3 * 4, make_filter filter_category)])) /\
    Z.of_nat (List.length docs) <= n_results /\
    (docs = [] \/
     exists raw,
       answer store (enhance query, n_results * 3 * 4, make_filter filter_category)
       = Returns raw /\
       Forall2 (fun r d => enrich str format_3f strip r = Returns d)
         (firstn (Z.to_nat n_results)
            (filter (passes candidate_threshold) raw))
         docs) /\
    (forall raw,
        answer store (enhance query, n_results * 3 * 4, make_filter filter_category)
        = Returns raw ->
        forallb has_metadata raw = true ->
        Forall2 (fun r d => enrich str format_3f strip r = Returns d)
          (firstn (Z.to_nat n_results)
             (filter (passes candidate_threshold) raw))
          docs).
Proof.
  intros Hn.
  destruct (retrieve_documents_spec str format_3f strip store query
              (n_results * 3) filter_category candidate_threshold)
    as [candidates [Hrun [Hsome Hall]]].
  assert (Hslice : forall A (xs : list A) k, 0 <= k ->
             slice_to xs k = firstn (Z.to_nat k) xs).
  { intros A xs k Hk. unfold slice_to.
    destruct (0 <=? k) eqn:E; [reflexivity | apply Z.leb_gt in E; lia]. }
  assert (Hcut : forall raw,
             Forall2 (fun r d => enrich str format_3f strip r = Returns d)
               (slice_to (filter (passes candidate_threshold) raw) (n_results * 3))
               candidates ->
             Forall2 (fun r d => enrich str format_3f strip r = Returns d)
               (firstn (Z.to_nat n_results)
                  (filter (passes candidate_threshold) raw))
               (firstn (Z.to_nat n_results) candidates)).
  { intros raw H. rewrite Hslice in H by lia.
    apply (Forall2_firstn _ (Z.to_nat n_results)) in H.
    rewrite firstn_firstn_le in H by lia. exact H. }
  exists (firstn (Z.to_nat n_results) candidates).
  split; [|split; [|split]].
  - unfold retrieve_with_rerank, try_except.
    rewrite (BaseToolProofs.bind_returns _ _ _ _ _ Hrun).
    destruct candidates as [|c cs].
    + now rewrite firstn_nil.
    + unfold ret. now rewrite Hslice.
  - rewrite length_firstn. lia.
  - destruct Hsome as [-> | [raw [Hans Hdocs]]].
    + left. apply firstn_nil.
    + right. exists raw. split; [exact Hans | exact (Hcut raw Hdocs)].
  - intros raw Hans Hmeta. exact (Hcut raw (Hall raw Hans Hmeta)).
Qed.

End Retrieve.

Lemma rerank_returns_first_matches_above_threshold_witness :
  0 <= 2 /\
  exists docs,
    retrieve_with_rerank str_scalar format_3f ascii_strip "年假怎么休" 2 None
      Examples.scenario_store
    = (Returns docs,
       mkStore (answer Examples.scenario_store)
         (requests Examples.scenario_store ++
          [(enhance "年假怎么休", 2 * 3 * 4, make_filter None)])) /\
    Z.of_nat (List.length docs) <= 2 /\
    (docs = [] \/
     exists raw,
       answer Examples.scenario_store
         (enhance "年假怎么休", 2 * 3 * 4, make_filter None)
       = Returns raw /\
       Forall2 (fun r d => enrich str_scalar format_3f ascii_strip r = Returns d)
         (firstn (Z.to_nat 2) (filter (passes candidate_threshold) raw))
         docs) /\
    (forall raw,
        answer Examples.scenario_store
          (enhance "年假怎么休", 2 * 3 * 4, make_filter None)
        = Returns raw ->
        forallb has_metadata raw = true ->
        Forall2 (fun r d => enrich str_scalar format_3f ascii_strip r = Returns d)
          (firstn (Z.to_nat 2) (filter (passes candidate_threshold) raw))
          docs).
Proof.
  split; [lia|].
  apply (rerank_returns_first_matches_above_threshold str_scalar format_3f
           ascii_strip Examples.scenario_store "年假怎么休" 2 None).
  lia.
Defined.

End RerankProofs.

Module VectorSearchProofs.
Import Retriever VectorSearch.

Lemma log_filenames_outcome results :
  match log_filenames results with
  | Returns _ => forallb has_metadata results = true
  | Raises _ => forallb has_metadata results = false
  end.
Proof.
  induction results as [|r results IH]; cbn [log_filenames forallb]; [reflexivity|].
  unfold has_metadata at 1 3, py_get.
  destruct (metadata r); cbn [andb]; try reflexivity; exact IH.
Qed.

(** X17. The search asks the collection a second time, without the
    filter, only when the first answer has no [documents] list at all
    ([None] or an empty outer list) and a filter was given.  An answer
    that reports no match the way the collection does, as one empty list
    of documents, is a first branch answer: with or without a filter the
    collection is asked exactly once. *)
Theorem unfiltered_retry_needs_missing_documents store query_text n_results
    filter_dict embedding embeddings results :
  embed_documents store [query_text] = Returns (embedding :: embeddings) ->
  collection_query store embedding n_results filter_dict = Returns results ->
  queries (snd (search_similar query_text n_results filter_dict store)) =
  (queries store ++
   (n_results, filter_dict)
   :: (if (negb (has_documents results) && truthy filter_dict)%bool
       then [(n_results, VNone)] else []))%list.
Proof.
  intros Hembed Hquery.
  unfold search_similar, try_except, generate_embeddings.
  unfold bind at 1. rewrite Hembed.
  unfold bind at 1, query at 1. rewrite Hquery.
  destruct (has_documents results); cbn [negb andb].
  - unfold bind, lift, ret.
    destruct (formatted results) as [fs|e]; [|reflexivity].
    destruct (log_filenames (firstn 3 fs)); reflexivity.
  - destruct (truthy filter_dict).
    + unfold bind at 1. unfold bind at 1, query at 1. cbn [collection_query].
      destruct (collection_query store embedding n_results VNone) as [results2|e];
        [|cbn; now rewrite <- app_assoc].
      destruct (has_documents results2); unfold bind, lift, ret;
        cbn [queries embed_documents collection_query].
      * destruct (formatted results2) as [fs|e]; [|cbn; now rewrite <- app_assoc].
        destruct (log_filenames (firstn 3 fs)); cbn; now rewrite <- app_assoc.
      * cbn. now rewrite <- app_assoc.
    + reflexivity.
Qed.

(** X18. What a search returns when the first answer has documents: the
    documents, metadata and distances of the first query embedding,
    zipped, each with the similarity [1 - distance]; unless one of the
    first three has a metadata that is not a dictionary, in which case
    the log line raises and the search returns no result at all. *)
Theorem one_match_without_metadata_empties_the_answer store query_text
    n_results filter_dict embedding embeddings results docs metas dists :
  embed_documents store [query_text] = Returns (embedding :: embeddings) ->
  collection_query store embedding n_results filter_dict = Returns results ->
  first (documents results) = Returns docs ->
  first (metadatas results) = Returns metas ->
  first (distances results) = Returns dists ->
  fst (search_similar query_text n_results filter_dict store) =
  Returns (if forallb has_metadata (firstn 3 (format_results docs metas dists))
           then format_results docs metas dists
           else []).
Proof.
  intros Hembed Hquery Hdocs Hmetas Hdists.
  assert (Hhas : has_documents results = true).
  { unfold has_documents. unfold first in Hdocs.
    destruct (documents results) as [[|d ds]|]; [discriminate | reflexivity | discriminate]. }
  unfold search_similar, try_except, generate_embeddings.
  unfold bind at 1. rewrite Hembed.
  unfold bind at 1, query at 1. rewrite Hquery, Hhas.
  unfold formatted. rewrite Hdocs, Hmetas, Hdists.
  unfold Agent.and_then, bind, lift, ret.
  pose proof (log_filenames_outcome (firstn 3 (format_results docs metas dists)))
    as Hlog.
  destruct (log_filenames (firstn 3 (format_results docs metas dists)));
    rewrite Hlog; reflexivity.
Qed.

Lemma unfiltered_retry_needs_missing_documents_witness :
  embed_documents small_store ["年假"] = Returns ([0.5%float; 0.25%float] :: []) /\
  collection_query small_store [0.5%float; 0.25%float] 20 hr_filter
  = Returns no_match /\
  queries (snd (search_similar "年假" 20 hr_filter small_store)) =
  (queries small_store ++
   (20, hr_filter)
   :: (if (negb (has_documents no_match) && truthy hr_filter)%bool
       then [(20, VNone)] else []))%list.
Proof.
  split; [reflexivity|]. split; [reflexivity|].
  apply (unfiltered_retry_needs_missing_documents small_store "年假" 20
           hr_filter [0.5%float; 0.25%float] [] no_match); reflexivity.
Defined.

Lemma one_match_without_metadata_empties_the_answer_witness :
  embed_documents small_store ["年假"] = Returns ([0.5%float; 0.25%float] :: []) /\
  collection_query small_store [0.5%float; 0.25%float] 20 VNone
  = Returns two_chunks /\
  first (documents two_chunks) = Returns ["年假制度"; "报销流程"] /\
  first (metadatas two_chunks)
  = Returns [VDict [("filename", VStr "hr_policy.txt")]; VNone] /\
  first (distances two_chunks) = Returns [0.25%float; 0.5%float] /\
  fst (search_similar "年假" 20 VNone small_store) =
  Returns (if forallb has_metadata
                (firstn 3 (format_results ["年假制度"; "报销流程"]
                             [VDict [("filename", VStr "hr_policy.txt")]; VNone]
                             [0.25%float; 0.5%float]))
           then format_results ["年假制度"; "报销流程"]
                  [VDict [("filename", VStr "hr_policy.txt")]; VNone]
                  [0.25%float; 0.5%float]
           else []).
Proof.
  repeat (split; [reflexivity|]).
  apply (one_match_without_metadata_empties_the_answer small_store "年假" 20
           VNone [0.5%float; 0.25%float] [] two_chunks); reflexivity.
Defined.

End VectorSearchProofs.

(* ===================================================================== *)
(** ** The fallback intent analysis *)
(* ===================================================================== *)

Module FallbackIntentProofs.
Import FallbackIntent.

Lemma prefix_contains a b s :
  String.prefix (a ++ b) s = true -> contains s b = true.
Proof.
  revert s. induction a as [|c a IH]; intros s H.
  - cbn [append] in H. destruct s; cbn [contains]; rewrite H; reflexivity.
  - destruct s as [|c' s]; cbn [append String.prefix] in H; [discriminate|].
    destruct (Ascii.ascii_dec c c'); [|discriminate].
    cbn [contains]. rewrite (IH s H). apply orb_true_r.
Qed.

(** A text that contains a phrase contains the end of the phrase. *)
Lemma contains_suffix a b s :
  contains s (a ++ b) = true -> contains s b = true.
Proof.
  induction s as [|c s IH]; cbn [contains]; intros H.
  - rewrite orb_false_r in H. apply prefix_contains in H. exact H.
  - apply orb_prop in H. destruct H as [H|H].
    + exact (prefix_contains a b _ H).
    + cbn [contains] in IH. rewrite (IH H). apply orb_true_r.
Qed.

Lemma file_decided s :
  contains_any s file_keywords = contains_any s (deciding_keywords "file").
Proof.
  unfold contains_any, file_keywords.
  change (deciding_keywords "file") with ["文件"; "目录"]. cbn [existsb].
  change "搜索文件" with ("搜索" ++ "文件").
  change "查找文件" with ("查找" ++ "文件").
  change "读取文件" with ("读取" ++ "文件").
  change "创建文件" with ("创建" ++ "文件").
  destruct (contains s ("搜索" ++ "文件")) eqn:E1;
    [rewrite (contains_suffix _ _ _ E1); reflexivity|].
  destruct (contains s ("查找" ++ "文件")) eqn:E2;
    [rewrite (contains_suffix _ _ _ E2); reflexivity|].
  destruct (contains s ("读取" ++ "文件")) eqn:E3;
    [rewrite (contains_suffix _ _ _ E3); reflexivity|].
  destruct (contains s ("创建" ++ "文件")) eqn:E4;
    [rewrite (contains_suffix _ _ _ E4); reflexivity|].
  reflexivity.
Qed.

Lemma email_decided s :
  contains_any s email_keywords = contains_any s (deciding_keywords "email").
Proof.
  unfold contains_any, email_keywords.
  change (deciding_keywords "email") with ["邮件"; "发送"; "email"; "通知"].
  cbn [existsb].
  change "发送邮件" with ("发送" ++ "邮件").
  change "发邮件" with ("发" ++ "邮件").
  destruct (contains s ("发送" ++ "邮件")) eqn:E1;
    [rewrite (contains_suffix _ _ _ E1); reflexivity|].
  destruct (contains s "邮件") eqn:E2; [reflexivity|].
  destruct (contains s ("发" ++ "邮件")) eqn:E3;
    [rewrite (contains_suffix _ _ _ E3) in E2; discriminate|].
  reflexivity.
Qed.

Lemma calendar_decided s :
  contains_any s calendar_keywords
  = contains_any s (deciding_keywords "calendar").
Proof.
  unfold contains_any, calendar_keywords.
  change (deciding_keywords "calendar")
    with ["会议"; "日程"; "预约"; "约会"; "时间安排"].
  cbn [existsb].
  change "安排会议" with ("安排" ++ "会议").
  change "创建会议" with ("创建" ++ "会议").
  destruct (contains s ("安排" ++ "会议")) eqn:E1;
    [rewrite (contains_suffix _ _ _ E1); reflexivity|].
  destruct (contains s ("创建" ++ "会议")) eqn:E2;
    [rewrite (contains_suffix _ _ _ E2); reflexivity|].
  reflexivity.
Qed.

Section Analysis.

Variable lower : string -> string.

(** X19. The fallback analysis is decided by the short keywords, since
    every longer keyword ends in one of them: a category is asked for
    when the lower-cased query contains 文件 or 目录 (file), 邮件, 发送,
    email or 通知 (email), 会议, 日程, 预约, 约会 or 时间安排
    (calendar).  [requires_tools] is true exactly when some category is
    asked for, and [tool_category] is then those categories joined by
    [|] in the order file, email, calendar, which splitting at [|] gives
    back; otherwise it is [none]. *)
Theorem fallback_intent_decided_by_short_keywords query :
  let intent := _fallback_intent_analysis lower query in
  let categories := wanted (lower query) in
  dict_get intent "requires_tools"
  = Some (VBool (negb (Nat.eqb (List.length categories) 0))) /\
  dict_get intent "tool_category"
  = Some (VStr (match categories with
                | [] => "none"
                | _ => join "|" categories
                end)) /\
  dict_get intent "intent_type"
  = Some (VStr (match categories with [] => "question" | _ => "task" end)) /\
  dict_get intent "original_query" = Some (VStr query) /\
  match categories with
  | [] => True
  | _ => split "|" (join "|" categories) = categories
  end.
Proof.
  cbv zeta. unfold _fallback_intent_analysis, wanted.
  rewrite file_decided, email_decided, calendar_decided.
  cbn [filter].
  destruct (contains_any (lower query) (deciding_keywords "file"));
    destruct (contains_any (lower query) (deciding_keywords "email"));
    destruct (contains_any (lower query) (deciding_keywords "calendar"));
    repeat split; reflexivity.
Qed.

End Analysis.

End FallbackIntentProofs.

(* ===================================================================== *)
(** ** The scheduling tool: how many slots, and which one is recommended *)
(* ===================================================================== *)

Module SchedulingProofs.
Import Scheduling.

Section Tool.

Variable end_time_of : string -> Z -> Outcome string.

Lemma try_slot_spec preferred_date duration end_hour h acc m slots :
  try_slot end_time_of preferred_date duration end_hour h acc m = Returns slots ->
  exists new,
    slots = (acc ++ new)%list /\
    Forall2 (slot_at preferred_date duration)
      (filter (fits duration end_hour) [(h, m)]) new.
Proof.
  unfold try_slot, fits. cbn [filter fst snd].
  destruct (h * 60 + m + duration <=? end_hour * 60).
  - destruct (end_time_of (slot_start preferred_date h m) duration) as [e|];
      [|discriminate].
    intros H. injection H as <-. eexists. split; [reflexivity|].
    constructor; [split; reflexivity | constructor].
  - intros H. injection H as <-. exists []. split; [now rewrite app_nil_r|].
    constructor.
Qed.

Lemma scan_spec preferred_date duration end_hour :
  forall current_hours acc slots,
    scan end_time_of preferred_date duration end_hour current_hours acc
    = Returns slots ->
    exists new,
      slots = (acc ++ new)%list /\
      Forall2 (slot_at preferred_date duration)
        (filter (fits duration end_hour) (half_hours current_hours)) new.
Proof.
  induction current_hours as [|h rest IH]; intros acc slots; cbn [scan].
  - intros H. injection H as <-. exists []. split; [now rewrite app_nil_r|].
    constructor.
  - unfold try_hour, Agent.and_then.
    destruct (try_slot end_time_of preferred_date duration end_hour h acc 0)
      as [slots0|] eqn:E0; [|discriminate].
    destruct (try_slot end_time_of preferred_date duration end_hour h slots0 30)
      as [slots30|] eqn:E30; [|discriminate].
    intros Hscan.
    destruct (try_slot_spec _ _ _ _ _ _ _ E0) as [new0 [-> H0]].
    destruct (try_slot_spec _ _ _ _ _ _ _ E30) as [new30 [-> H30]].
    destruct (IH _ _ Hscan) as [new [-> Hnew]].
    exists (new0 ++ new30 ++ new)%list. split; [now rewrite !app_assoc|].
    change (half_hours (h :: rest))
      with ([(h, 0)] ++ [(h, 30)] ++ half_hours rest)%list.
    rewrite !filter_app.
    apply Forall2_app; [exact H0|]. apply Forall2_app; assumption.
Qed.

(** How many half hours fit, in closed form. *)
Lemma fitting_half_hours duration end_hour start_hour (n : nat) :
  Z.of_nat
    (List.length
       (filter (fits duration end_hour)
          (half_hours (map (fun i => start_hour + Z.of_nat i) (seq 0 n)))))
  = Z.max 0 (Z.min (2 * Z.of_nat n)
               ((60 * (end_hour - start_hour) - duration) / 30 + 1)).
Proof.
  induction n as [|n IH].
  - cbn [seq map half_hours flat_map filter List.length].
    change (Z.of_nat 0) with 0. lia.
  - rewrite seq_S, map_app. unfold half_hours in *. rewrite flat_map_app.
    rewrite filter_app, length_app, Nat2Z.inj_add, IH.
    cbn [map flat_map app filter]. unfold fits. cbn [fst snd].
    rewrite Nat.add_0_l.
    destruct ((start_hour + Z.of_nat n) * 60 + 0 + duration <=? end_hour * 60)
      eqn:E0;
      destruct ((start_hour + Z.of_nat n) * 60 + 30 + duration <=? end_hour * 60)
        eqn:E30;
      cbn [List.length];
      [apply Z.leb_le in E0, E30 | apply Z.leb_le in E0; apply Z.leb_gt in E30
       | apply Z.leb_gt in E0; apply Z.leb_le in E30
       | apply Z.leb_gt in E0, E30];
      Z.div_mod_to_equations; lia.
Qed.


(** X20. How many slots the scheduling tool finds.  When [execute]
    returns, [total_available] is the number of half hours from
    [start_hour] on that leave room for the meeting before [end_hour]:
    with [n] the hours between them (0 when [end_hour] is not later),
    it is [min (2 n) ((60 (end_hour - start_hour) - duration) / 30 + 1)],
    and 0 when that is negative; in particular no slot is found for a
    meeting longer than the window.  At most five slots are returned. *)
Theorem total_available_in_closed_form attendees preferred_date duration
    time_range start_hour end_hour result :
  hour_of (match time_range with Some r => r | None => default_range end)
    "start_hour" = Returns start_hour ->
  hour_of (match time_range with Some r => r | None => default_range end)
    "end_hour" = Returns end_hour ->
  execute end_time_of attendees preferred_date duration time_range
  = Returns result ->
  exists slots,
    subscript result "available_slots" = Returns (VList slots) /\
    (List.length slots <= 5)%nat /\
    subscript result "total_available"
    = Returns (VInt (Z.max 0
                       (Z.min (2 * Z.max 0 (end_hour - start_hour))
                          ((60 * (end_hour - start_hour) - duration) / 30 + 1)))).
Proof.
  intros Hstart Hend. unfold execute. rewrite Hstart, Hend.
  unfold Agent.and_then.
  destruct (scan end_time_of preferred_date duration end_hour
              (hours start_hour end_hour) []) as [available|] eqn:Hscan;
    [|discriminate].
  destruct (first_morning available (hd_error available)); [|discriminate].
  intros H. injection H as <-.
  exists (map slot_value (firstn 5 available)). split; [reflexivity|]. split.
  - rewrite length_map, length_firstn. lia.
  - unfold subscript. cbn [dict_get String.eqb Ascii.eqb Bool.eqb]. do 2 f_equal.
    destruct (scan_spec _ _ _ _ _ _ Hscan) as [new [-> Hnew]].
    cbn [app]. rewrite <- (Forall2_length Hnew).
    unfold hours. rewrite fitting_half_hours.
    replace (Z.of_nat (Z.to_nat (end_hour - start_hour)))
      with (Z.max 0 (end_hour - start_hour)) by lia.
    reflexivity.
Qed.

End Tool.

(** *** The recommended slot *)

Lemma split_nonempty sep s : split sep s <> [].
Proof.
  destruct s as [|c s]; cbn [split]; [discriminate|].
  destruct (Ascii.eqb c sep); [discriminate|].
  destruct (split sep s); discriminate.
Qed.

Lemma split_at_separator sep a b :
  split sep (a ++ String sep b) = (split sep a ++ split sep b)%list.
Proof.
  induction a as [|c a IH]; cbn [append split app].
  - now rewrite Ascii.eqb_refl.
  - rewrite IH. destruct (Ascii.eqb c sep); [reflexivity|].
    pose proof (split_nonempty sep a) as Ha.
    destruct (split sep a) as [|w ws]; [congruence | reflexivity].
Qed.

(** The clock times of a day: none holds a [T], and they compare with
    noon as their hours do. *)
Lemma clock_times h m :
  0 <= h < 24 -> m = 0 \/ m = 30 ->
  split "T" (clock_time h m) = [clock_time h m] /\
  String.ltb (clock_time h m) "12:00:00" = (h <? 12).
Proof.
  intros Hh Hm.
  assert (Hall : forallb
                   (fun k =>
                      forallb
                        (fun m =>
                           match split "T" (clock_time (Z.of_nat k) m) with
                           | [t] => String.eqb t (clock_time (Z.of_nat k) m)
                           | _ => false
                           end &&
                           Bool.eqb (String.ltb (clock_time (Z.of_nat k) m) "12:00:00")
                             (Z.of_nat k <? 12))%bool
                        [0; 30])
                   (seq 0 24) = true) by (vm_compute; reflexivity).
  rewrite forallb_forall in Hall.
  specialize (Hall (Z.to_nat h)). rewrite in_seq in Hall.
  specialize (Hall ltac:(lia)). rewrite Z2Nat.id in Hall by lia.
  rewrite forallb_forall in Hall. specialize (Hall m).
  assert (Hin : In m [0; 30]) by (cbn; lia).
  specialize (Hall Hin). apply andb_prop in Hall. destruct Hall as [Hs Hl].
  split.
  - destruct (split "T" (clock_time h m)) as [|t [|t' ts]]; try discriminate.
    apply String.eqb_eq in Hs. now subst.
  - now apply Bool.eqb_prop in Hl.
Qed.

Lemma time_part_of_slot preferred_date duration h m slot :
  0 <= h < 24 -> m = 0 \/ m = 30 ->
  slot_at preferred_date duration (h, m) slot ->
  time_part slot = Returns (morning_key preferred_date (clock_time h m)).
Proof.
  intros Hh Hm [Hstart _]. cbn [fst snd] in Hstart.
  unfold time_part, morning_key. rewrite Hstart. unfold slot_start.
  change (preferred_date ++ "T" ++ clock_time h m)
    with (preferred_date ++ String "T" (clock_time h m)).
  rewrite split_at_separator.
  destruct (clock_times h m Hh Hm) as [-> _].
  pose proof (split_nonempty "T" preferred_date) as Hne.
  destruct (split "T" preferred_date) as [|p0 [|p1 ps]];
    [congruence | reflexivity | reflexivity].
Qed.

(** In the order the loop visits them, the half hours that fit start no
    earlier than the first one, and all lie between the two hours. *)
Lemma fitting_half_hours_ordered duration end_hour start_hour :
  forall n a start rest,
    filter (fits duration end_hour)
      (half_hours (map (fun i => start_hour + Z.of_nat i) (seq a n)))
    = start :: rest ->
    start_hour + Z.of_nat a <= fst start /\
    Forall (fun p => fst start <= fst p) rest /\
    Forall (fun p => fst p < start_hour + Z.of_nat (a + n) /\
                     (snd p = 0 \/ snd p = 30)) (start :: rest).
Proof.
  induction n as [|n IH]; intros a start rest; [discriminate|].
  cbn [seq map half_hours flat_map app filter].
  fold (half_hours (map (fun i => start_hour + Z.of_nat i) (seq (S a) n))).
  set (tail := filter (fits duration end_hour)
                 (half_hours (map (fun i => start_hour + Z.of_nat i) (seq (S a) n)))).
  assert (Htail : Forall (fun p => start_hour + Z.of_nat (S a) <= fst p /\
                                   fst p < start_hour + Z.of_nat (S a + n) /\
                                   (snd p = 0 \/ snd p = 30)) tail).
  { destruct tail as [|t ts] eqn:Et; [constructor|].
    destruct (IH (S a) t ts Et) as [Hlo [Hrest Hall]].
    inversion Hall as [|? ? [Ht1 Ht2] Hall']; subst.
    constructor; [tauto|].
    rewrite Forall_forall in *. intros p Hp.
    specialize (Hrest p Hp). specialize (Hall' p Hp). lia. }
  assert (Htail' : Forall (fun p => start_hour + Z.of_nat a <= fst p /\
                                    fst p < start_hour + Z.of_nat (a + S n) /\
                                    (snd p = 0 \/ snd p = 30)) tail).
  { eapply Forall_impl; [|exact Htail]. cbn beta. intros p Hp. lia. }
  assert (Hweak : forall lo : Z, lo <= start_hour + Z.of_nat a ->
            Forall (fun p : Z * Z => lo <= fst p) tail).
  { intros lo Hlo. eapply Forall_impl; [|exact Htail']. cbn beta. lia. }
  assert (Hbound : Forall (fun p : Z * Z =>
                             fst p < start_hour + Z.of_nat (a + S n) /\
                             (snd p = 0 \/ snd p = 30)) tail).
  { eapply Forall_impl; [|exact Htail']. cbn beta. tauto. }
  destruct (fits duration end_hour (start_hour + Z.of_nat a, 0));
    destruct (fits duration end_hour (start_hour + Z.of_nat a, 30));
    intros H; try (injection H as <- <-); cbn [fst snd].
  - split; [lia|]. split.
    + constructor; [cbn [fst]; lia | apply Hweak; lia].
    + constructor; [cbn [fst snd]; lia|].
      constructor; [cbn [fst snd]; lia | exact Hbound].
  - split; [lia|]. split; [apply Hweak; lia|].
    constructor; [cbn [fst snd]; lia | exact Hbound].
  - split; [lia|]. split; [apply Hweak; lia|].
    constructor; [cbn [fst snd]; lia | exact Hbound].
  - fold tail in H. rewrite H in Htail', Hbound.
    inversion Htail' as [|? ? Hs Hr]; subst.
    destruct (IH (S a) start rest H) as [_ [Hrest _]].
    split; [lia|]. split; [exact Hrest | exact Hbound].
Qed.

(** When no slot passes the test, the default is returned. *)
Lemma first_morning_default slots default :
  Forall (fun slot => exists t, time_part slot = Returns t /\
                                String.ltb t "12:00:00" = false) slots ->
  first_morning slots default = Returns default.
Proof.
  induction 1 as [|slot slots [t [Ht Hlt]] _ IH]; cbn [first_morning];
    [reflexivity|].
  rewrite Ht, Hlt. exact IH.
Qed.

Section Recommendation.

Variable end_time_of : string -> Z -> Outcome string.

Lemma keys_of_slots preferred_date duration (lo : Z) starts slots :
  Forall2 (slot_at preferred_date duration) starts slots ->
  Forall (fun p : Z * Z => 0 <= fst p < 24 /\
                          (snd p = 0 \/ snd p = 30) /\
                          lo <= fst p) starts ->
  Forall2
    (fun (p : Z * Z) s =>
       time_part s
       = Returns (morning_key preferred_date (clock_time (fst p) (snd p))))
    starts slots.
Proof.
  induction 1 as [|p s ps ss Hps _ IH]; intros Hday; constructor.
  - inversion Hday as [|? ? [Hh [Hm _]] _]; subst.
    destruct p as [h m]. exact (time_part_of_slot _ _ _ _ _ Hh Hm Hps).
  - apply IH. now inversion Hday.
Qed.

Lemma first_morning_is_head preferred_date duration end_hour start_hour slots :
  0 <= start_hour -> end_hour <= 24 ->
  Forall2 (slot_at preferred_date duration)
    (filter (fits duration end_hour) (half_hours (hours start_hour end_hour)))
    slots ->
  first_morning slots (hd_error slots) = Returns (hd_error slots).
Proof.
  intros Hlo Hhi Hslots.
  destruct slots as [|slot slots]; [reflexivity|].
  destruct (filter (fits duration end_hour) (half_hours (hours start_hour end_hour)))
    as [|start rest] eqn:Hfilter; [inversion Hslots|]. unfold hours in Hfilter.
  destruct (fitting_half_hours_ordered _ _ _ _ _ _ _ Hfilter)
    as [Hfirst [Hlater Hall]].
  cbn [Nat.add] in Hfirst, Hall. change (Z.of_nat 0) with 0 in Hfirst.
  assert (Hday : Forall (fun p : Z * Z => 0 <= fst p < 24 /\
                                         (snd p = 0 \/ snd p = 30) /\
                                         fst start <= fst p) (start :: rest)).
  { constructor.
    - inversion Hall as [|? ? [H1 H2] _]; subst. lia.
    - inversion Hall as [|? ? _ Hall']; subst.
      rewrite Forall_forall in *. intros p Hp.
      specialize (Hlater p Hp). specialize (Hall' p Hp). lia. }
  clear Hfilter Hall Hlater.
  pose proof (keys_of_slots _ _ _ _ _ Hslots Hday) as Hkeys.
  inversion Hkeys as [|? ? ? ? Hkey Hkeys']; subst.
  cbn [first_morning hd_error]. rewrite Hkey.
  destruct (String.ltb (morning_key preferred_date
                          (clock_time (fst start) (snd start))) "12:00:00")
    eqn:Hmorning; [reflexivity|].
  apply first_morning_default.
  inversion Hday as [|? ? [Hh0 [Hm0 _]] Hday']; subst.
  clear Hkeys Hslots Hkey Hday.
  induction Hkeys' as [|p s ps ss Hps _ IH]; constructor.
  - eexists. split; [exact Hps|].
    inversion Hday' as [|? ? [Hh [Hm Hle]] _]; subst.
    revert Hmorning. unfold morning_key.
    destruct (split "T" preferred_date) as [|p0 [|p1 parts]]; try tauto.
    + destruct (clock_times _ _ Hh0 Hm0) as [_ ->].
      destruct (clock_times _ _ Hh Hm) as [_ ->].
      intros H0. apply Z.ltb_ge in H0. apply Z.ltb_ge. lia.
    + destruct (clock_times _ _ Hh0 Hm0) as [_ ->].
      destruct (clock_times _ _ Hh Hm) as [_ ->].
      intros H0. apply Z.ltb_ge in H0. apply Z.ltb_ge. lia.
  - apply IH. now inversion Hday'.
Qed.

(** X21. The preference for the morning never changes the
    recommendation: for hours within a day, the recommended slot is the
    first available slot, and [None] when there is none.  The slots are
    found in the order of the clock, so a slot before noon exists only
    when the first one is before noon. *)
Theorem recommended_slot_is_the_first_slot attendees preferred_date duration
    time_range start_hour end_hour result :
  hour_of (match time_range with Some r => r | None => default_range end)
    "start_hour" = Returns start_hour ->
  hour_of (match time_range with Some r => r | None => default_range end)
    "end_hour" = Returns end_hour ->
  0 <= start_hour -> end_hour <= 24 ->
  execute end_time_of attendees preferred_date duration time_range
  = Returns result ->
  subscript result "recommended_slot"
  = Returns match subscript result "available_slots" with
            | Returns (VList (slot :: _)) => slot
            | _ => VNone
            end.
Proof.
  intros Hstart Hend Hlo Hhi. unfold execute. rewrite Hstart, Hend.
  unfold Agent.and_then.
  destruct (scan end_time_of preferred_date duration end_hour
              (hours start_hour end_hour) []) as [available|] eqn:Hscan;
    [|discriminate].
  destruct (scan_spec _ _ _ _ _ _ _ Hscan) as [new [Hnew Hslots]].
  cbn [app] in Hnew. subst new.
  rewrite (first_morning_is_head _ _ _ _ _ Hlo Hhi Hslots).
  intros H. injection H as <-.
  unfold subscript. cbn [dict_get String.eqb Ascii.eqb Bool.eqb].
  destruct available as [|slot slots]; reflexivity.
Qed.

End Recommendation.

Lemma total_available_in_closed_form_witness :
  hour_of afternoon "start_hour" = Returns 13 /\
  hour_of afternoon "end_hour" = Returns 18 /\
  execute same_time (VList [VStr "a@company.com"]) "2024-01-16" 60
    (Some afternoon) = Returns afternoon_result /\
  exists slots,
    subscript afternoon_result "available_slots" = Returns (VList slots) /\
    (List.length slots <= 5)%nat /\
    subscript afternoon_result "total_available"
    = Returns (VInt (Z.max 0
                       (Z.min (2 * Z.max 0 (18 - 13))
                          ((60 * (18 - 13) - 60) / 30 + 1)))).
Proof.
  split; [reflexivity|]. split; [reflexivity|]. split; [reflexivity|].
  exact (total_available_in_closed_form same_time
           (VList [VStr "a@company.com"]) "2024-01-16" 60 (Some afternoon)
           13 18 afternoon_result eq_refl eq_refl eq_refl).
Defined.

Lemma recommended_slot_is_the_first_slot_witness :
  hour_of afternoon "start_hour" = Returns 13 /\
  hour_of afternoon "end_hour" = Returns 18 /\
  0 <= 13 /\ 18 <= 24 /\
  execute same_time (VList [VStr "a@company.com"]) "2024-01-16" 60
    (Some afternoon) = Returns afternoon_result /\
  subscript afternoon_result "recommended_slot"
  = Returns match subscript afternoon_result "available_slots" with
            | Returns (VList (slot :: _)) => slot
            | _ => VNone
            end.
Proof.
  split; [reflexivity|]. split; [reflexivity|].
  split; [lia|]. split; [lia|]. split; [reflexivity|].
  apply (recommended_slot_is_the_first_slot same_time
           (VList [VStr "a@company.com"]) "2024-01-16" 60 (Some afternoon)
           13 18 afternoon_result); try reflexivity; lia.
Defined.

End SchedulingProofs.

(* ===================================================================== *)
(** ** The intent analysis: what the workflow is handed *)
(* ===================================================================== *)

Module IntentAnalysisProofs.
Import IntentAnalysis.

Lemma to_closing_brace_spec s m :
  to_closing_brace s = Some m ->
  exists body after,
    s = (body ++ "}" ++ after)%string /\ m = (body ++ "}")%string /\
    mentions "}" body = false.
Proof.
  revert m. induction s as [|c s IH]; intros m; cbn; [discriminate|].
  destruct (Ascii.eqb c "}") eqn:E.
  - apply Ascii.eqb_eq in E. subst c. intros H. injection H as <-.
    exists EmptyString, s. auto.
  - destruct (to_closing_brace s) as [m'|]; [|discriminate].
    intros H. injection H as <-.
    destruct (IH m' eq_refl) as [body [after [-> [-> Hbody]]]].
    exists (String c body), after. cbn. rewrite E, Hbody. auto.
Qed.

Lemma no_closing_brace s :
  to_closing_brace s = None -> json_match s = None.
Proof.
  induction s as [|c s IH]; cbn; [reflexivity|].
  destruct (Ascii.eqb c "}"); [discriminate|].
  destruct (to_closing_brace s) as [m|]; [discriminate|].
  intros _. rewrite (IH eq_refl). destruct (Ascii.eqb c "{"); reflexivity.
Qed.

(** The match starts at the first opening brace and ends at the first
    closing brace after it. *)
Lemma json_match_spec content m :
  json_match content = Some m ->
  exists before body after,
    content = (before ++ "{" ++ body ++ "}" ++ after)%string /\
    m = ("{" ++ body ++ "}")%string /\
    mentions "{" before = false /\ mentions "}" body = false.
Proof.
  induction content as [|c rest IH]; cbn; [discriminate|].
  destruct (Ascii.eqb c "{") eqn:E.
  - apply Ascii.eqb_eq in E. subst c.
    destruct (to_closing_brace rest) as [m'|] eqn:Hclose.
    + intros H. injection H as <-.
      destruct (to_closing_brace_spec _ _ Hclose) as [body [after [-> [-> Hbody]]]].
      exists EmptyString, body, after. auto.
    + rewrite (no_closing_brace _ Hclose). discriminate.
  - intros H. destruct (IH H) as [before [body [after [-> [-> [Hb Hbody]]]]]].
    exists (String c before), body, after. cbn. rewrite E, Hb. auto.
Qed.

Section Analyze.

Variable W : Type.
Variable lower : string -> string.
Variable llm_content : Value -> M W Value.
Variable json_loads : string -> Outcome Value.

Let analyze := analyze_query_intent W lower llm_content json_loads.

(** The analysis by cases: the object parsed from the match, with the
    query added, or the fallback. *)
Lemma analyze_outcome query w :
  (exists content matched parsed w',
      llm_content query w = (Returns (VStr content), w') /\
      json_match content = Some matched /\
      json_loads matched = Returns (VDict parsed) /\
      analyze query w
      = (Returns (VDict (dict_set parsed "original_query" query)), w')) \/
  (exists w', analyze query w = fallback W lower query w').
Proof.
  unfold analyze, analyze_query_intent, try_except, bind, lift, search, set_item.
  destruct (llm_content query w) as [[content|e] w1] eqn:Hllm;
    [|right; eexists; reflexivity].
  destruct content as [| | | |content| |];
    try (right; eexists; reflexivity).
  destruct (json_match content) as [matched|] eqn:Hmatch.
  2:{ right. exists w1. unfold fallback, ret, raise.
      destruct query; reflexivity. }
  destruct (json_loads matched) as [result|e] eqn:Hloads.
  - destruct result as [| | | | | |parsed];
      try (right; eexists; reflexivity).
    left. exists content, matched, parsed, w1. auto.
  - right. exists w1. destruct (is_json_decode_error e).
    + unfold fallback, ret, raise. destruct query; reflexivity.
    + reflexivity.
Qed.

(** Whatever the analysis returns is a dictionary. *)
Lemma analyze_returns_dict query w intent w' :
  analyze query w = (Returns intent, w') -> exists d, intent = VDict d.
Proof.
  destruct (analyze_outcome query w)
    as [[content [matched [parsed [w1 [_ [_ [_ ->]]]]]]]|[w1 ->]].
  - intros H. injection H as <- _. eauto.
  - unfold fallback. destruct query; try discriminate.
    unfold ret. intros H. injection H as <- _. eauto.
Qed.

(** X22. For a query that is a text, the intent analysis never raises
    and returns a dictionary whose [original_query] is the query,
    whatever the model answers.  The dictionary is the keyword fallback,
    or the object parsed from the model's answer with the query added;
    the text parsed runs from the first opening brace of the answer to
    the first closing brace after it, so of an answer with a nested
    object only the part up to the inner closing brace is parsed. *)
Theorem analysis_returns_a_dictionary_with_the_query query w :
  exists intent w',
    analyze_query_intent W lower llm_content json_loads (VStr query) w
    = (Returns (VDict intent), w') /\
    dict_get intent "original_query" = Some (VStr query) /\
    (intent = FallbackIntent._fallback_intent_analysis lower query \/
     exists before body after parsed,
       llm_content (VStr query) w
       = (Returns (VStr (before ++ "{" ++ body ++ "}" ++ after)), w') /\
       mentions "{" before = false /\ mentions "}" body = false /\
       json_loads ("{" ++ body ++ "}") = Returns (VDict parsed) /\
       intent = dict_set parsed "original_query" (VStr query)).
Proof.
  destruct (analyze_outcome (VStr query) w)
    as [[content [matched [parsed [w1 [Hllm [Hmatch [Hloads Hrun]]]]]]]|[w1 Hrun]];
    fold analyze; rewrite Hrun.
  - exists (dict_set parsed "original_query" (VStr query)), w1.
    split; [reflexivity|]. split; [apply DictFacts.dict_get_set_same|].
    right. destruct (json_match_spec _ _ Hmatch)
      as [before [body [after [-> [-> [Hb Hbody]]]]]].
    exists before, body, after, parsed. auto.
  - cbn [fallback]. unfold ret. eexists. exists w1.
    split; [reflexivity|]. split; [reflexivity|]. left. reflexivity.
Qed.

End Analyze.

End IntentAnalysisProofs.

(* ===================================================================== *)
(** ** The workflow graph: the paths of a run and the error it reports *)
(* ===================================================================== *)

Module GraphProofs.
Import Graph DictFacts.

Section Workflow.

Variable W : Type.
Variable lower : string -> string.
Variable str : Value -> string.
Variable strip : string -> string.
Variable first_characters : string -> list Value.
Variable uuid4 : M W string.
Variable new_agent : M W unit.
Variable new_retriever : M W unit.
Variable analyze_query_intent : Value -> M W Value.
Variable retrieve_documents : Value -> option string -> M W (list Value).
Variable generate_response : Value -> Value -> Value -> M W Value.
Variable agent_execute_tool : Value -> M W Value.
Variable integrate_tool_result_with_context :
  Value -> Value -> Value -> Value -> Value -> M W Value.
Variable merge : Dict -> Dict -> Dict.

(** Both ways a graph library can fold a returned state into its own,
    replacing it or updating it key by key, satisfy this. *)
Hypothesis merge_spec :
  forall old new k,
    dict_get (merge old new) k = dict_get new k \/
    (dict_get new k = None /\ dict_get (merge old new) k = dict_get old k).

Let node :=
  run_node W lower str strip first_characters uuid4 new_agent new_retriever
    analyze_query_intent retrieve_documents generate_response
    agent_execute_tool integrate_tool_result_with_context.

Let go :=
  run W lower str strip first_characters uuid4 new_agent new_retriever
    analyze_query_intent retrieve_documents generate_response
    agent_execute_tool integrate_tool_result_with_context merge.

Lemma merged_same old new k :
  dict_get new k = dict_get old k -> dict_get (merge old new) k = dict_get old k.
Proof.
  intros H. destruct (merge_spec old new k) as [Hk|[_ Hk]]; congruence.
Qed.

Lemma merged_new old new k v :
  dict_get new k = Some v -> dict_get (merge old new) k = Some v.
Proof.
  intros H. destruct (merge_spec old new k) as [Hk|[Hk _]]; congruence.
Qed.

(** A handler that only returns makes the node return. *)
Lemma try_except_returns {A} (body : M W A) (handler : Exc -> A) w :
  exists a w', try_except body (fun e => ret (handler e)) w = (Returns a, w') /\
               (body w = (Returns a, w') \/
                exists e, body w = (Raises e, w') /\ a = handler e).
Proof.
  unfold try_except. destruct (body w) as [[a|e] w'].
  - exists a, w'. split; [reflexivity | now left].
  - exists (handler e), w'. split; [reflexivity|]. right. now exists e.
Qed.

Lemma keeps_set written state k v :
  In k written -> keeps written state (dict_set state k v).
Proof.
  intros Hin k' Hk'. apply dict_get_set_other. intros <-. contradiction.
Qed.

Lemma keeps_trans written a b c :
  keeps written a b -> keeps written b c -> keeps written a c.
Proof. intros H1 H2 k Hk. rewrite (H2 k Hk). exact (H1 k Hk). Qed.

Lemma keeps_refl written a : keeps written a a.
Proof. intros k _. reflexivity. Qed.

Lemma document_retrieval_returns state w :
  exists out w',
    node document_retrieval state w = (Returns out, w') /\
    keeps ["documents"; "error"] state out.
Proof.
  cbn [node run_node]. unfold document_retrieval_node.
  match goal with
  | |- context [try_except ?body (fun e => ret (@?h e))] =>
      destruct (try_except_returns body h w) as [out [w' [Hrun Hout]]]
  end.
  exists out, w'. split; [exact Hrun|].
  destruct Hout as [Hbody | [e [_ ->]]].
  - revert Hbody. unfold bind at 1.
    destruct (new_retriever w) as [[[]|e] w1]; [|discriminate].
    unfold bind at 1, lift at 1.
    destruct (py_get _ "category" _) as [category|e]; [|discriminate].
    unfold bind.
    match goal with
    | |- context [match ?c w1 with _ => _ end] =>
        destruct (c w1) as [[documents|e] w2]
    end; [|discriminate].
    unfold ret. intros H. injection H as <- _.
    apply keeps_set. cbn; tauto.
  - eapply keeps_trans; apply keeps_set; cbn; tauto.
Qed.

Lemma context_assembly_returns state w :
  exists out,
    node context_assembly state w = (Returns out, w) /\
    keeps ["context"; "error"] state out.
Proof.
  cbn [node run_node]. unfold context_assembly_node, try_except, lift, ret.
  destruct (assemble str strip first_characters state) as [out|e] eqn:Hassemble.
  - exists out. split; [reflexivity|].
    revert Hassemble. unfold assemble, Agent.and_then.
    repeat match goal with
           | |- context [match ?o with Returns _ => _ | Raises _ => _ end] =>
               destruct o; try discriminate
           end;
      intros H; injection H as <-; apply keeps_set; cbn; tauto.
  - eexists. split; [reflexivity|].
    eapply keeps_trans; apply keeps_set; cbn; tauto.
Qed.

Lemma response_generation_returns state w :
  exists out w',
    node response_generation state w = (Returns out, w') /\
    keeps ["response"; "error"] state out.
Proof.
  cbn [node run_node]. unfold response_generation_node.
  match goal with
  | |- context [try_except ?body (fun e => ret (@?h e))] =>
      destruct (try_except_returns body h w) as [out [w' [Hrun Hout]]]
  end.
  exists out, w'. split; [exact Hrun|].
  destruct Hout as [Hbody | [e [_ ->]]].
  - revert Hbody. unfold bind at 1.
    destruct (new_agent w) as [[[]|e] w1]; [|discriminate].
    unfold bind at 1, lift at 1.
    destruct (subscript (VDict state) "query") as [query|e]; [|discriminate].
    unfold bind at 1, lift at 1.
    destruct (subscript (VDict state) "context") as [context|e]; [|discriminate].
    unfold bind.
    destruct (generate_response _ _ _ w1) as [[response|e] w2]; [|discriminate].
    unfold ret. intros H. injection H as <- _.
    apply keeps_set. cbn; tauto.
  - eapply keeps_trans; apply keeps_set; cbn; tauto.
Qed.

Lemma context_integration_returns state w :
  exists out w', node context_integration state w = (Returns out, w').
Proof.
  cbn [node run_node]. unfold context_integration_node.
  match goal with
  | |- context [try_except ?body (fun e => ret (@?h e))] =>
      destruct (try_except_returns body h w) as [out [w' [Hrun _]]]
  end.
  eauto.
Qed.

Lemma action_execution_returns state w :
  exists out w',
    node action_execution state w = (Returns out, w') /\
    keeps ["actions"; "error"; "tool_result"] state out /\
    (forall required,
        requires_tools state = Returns required ->
        truthy required = true ->
        truthy (dict_get_default out "actions" VNone) = true).
Proof.
  cbn [node run_node]. unfold Workflow.action_execution_node.
  match goal with
  | |- context [try_except ?body (fun e => ret (@?h e))] =>
      destruct (try_except_returns body h w) as [out [w' [Hrun Hout]]]
  end.
  exists out, w'. split; [exact Hrun|].
  destruct Hout as [Hbody | [e [_ ->]]].
  2:{ split.
      - eapply keeps_trans; apply keeps_set; cbn; tauto.
      - intros _ _ _. unfold dict_get_default.
        rewrite dict_get_set_same. reflexivity. }
  revert Hbody. unfold bind at 1, lift at 1.
  destruct (subscript (VDict state) "intent_analysis") as [intent|e] eqn:Hintent;
    [|discriminate].
  unfold bind at 1, lift at 1.
  destruct (py_get intent "requires_tools" (VBool false)) as [required|e]
    eqn:Hrequired; [|discriminate].
  assert (Hreq : requires_tools state = Returns required).
  { unfold requires_tools, dict_get_default. unfold subscript in Hintent.
    destruct (dict_get state "intent_analysis") as [i|]; [|discriminate].
    injection Hintent as ->. exact Hrequired. }
  destruct (truthy required) eqn:Htruthy.
  - unfold bind at 1.
    destruct (agent_execute_tool intent w) as [[tool_result|e] w1]; [|discriminate].
    unfold bind at 1, lift at 1.
    destruct (subscript tool_result "success") as [success|e]; [|discriminate].
    unfold bind at 1.
    match goal with
    | |- context [match ?c w1 with _ => _ end] =>
        destruct (c w1) as [[action|e] w2]
    end; [|discriminate].
    destruct (truthy success); unfold ret; intros H; injection H as <- _.
    + split.
      * eapply keeps_trans; apply keeps_set; cbn; tauto.
      * intros _ _ _. unfold dict_get_default.
        rewrite dict_get_set_other by discriminate.
        rewrite dict_get_set_same. reflexivity.
    + split.
      * intros k Hk. rewrite dict_get_remove_other by (intros <-; apply Hk; cbn; tauto).
        apply dict_get_set_other. intros <-. apply Hk. cbn; tauto.
      * intros _ _ _. unfold dict_get_default.
        rewrite dict_get_remove_other by discriminate.
        rewrite dict_get_set_same. reflexivity.
  - unfold ret. intros H. injection H as <- _. split.
    + apply keeps_set. cbn; tauto.
    + intros r Hr Ht. rewrite Hreq in Hr. injection Hr as <-. congruence.
Qed.

Lemma error_handling_returns state w :
  exists out, node error_handling state w = (Returns out, w).
Proof. cbn [node run_node]. unfold error_handling_node, ret. eauto. Qed.

(** What the routers read is kept along with the keys. *)
Lemma settled_kept state state' :
  dict_get state' "intent_analysis" = dict_get state "intent_analysis" ->
  dict_get state' "actions" = dict_get state "actions" ->
  settled state -> settled state'.
Proof.
  unfold settled, requires_tools, dict_get_default. now intros -> ->.
Qed.

Lemma settled_merged written state out :
  ~ In "intent_analysis" written -> ~ In "actions" written ->
  keeps written state out -> settled state -> settled (merge state out).
Proof.
  intros H1 H2 Hkeeps. apply settled_kept; apply merged_same; now apply Hkeeps.
Qed.

Lemma successor_raises nd state e :
  successor nd state = Raises e -> escapes e.
Proof.
  assert (Hget : forall v k dflt e0,
             py_get v k dflt = Raises e0 -> escapes e0).
  { intros v k dflt e0. unfold py_get.
    destruct v; try discriminate; intros H; injection H as <-;
      right; reflexivity. }
  destruct nd; cbn [successor]; try discriminate;
    unfold should_continue_after_analysis, should_continue_after_response,
      after_context_assembly, requires_tools, Agent.and_then, destination.
  - destruct (truthy (dict_get_default state "error" VNone));
      [cbn; discriminate|].
    destruct (py_get _ "requires_tools" _) as [r|e0] eqn:Hr.
    + destruct (truthy r); cbn; discriminate.
    + intros H. injection H as <-. exact (Hget _ _ _ _ Hr).
  - destruct (truthy (dict_get_default state "error" VNone));
      [cbn; discriminate|].
    destruct (dict_get_default state "tool_result" VNone); cbn; discriminate.
  - destruct (truthy (dict_get_default state "error" VNone));
      [cbn; discriminate|].
    destruct (py_get _ "requires_tools" _) as [r|e0] eqn:Hr.
    + destruct (truthy r && _)%bool; cbn; discriminate.
    + intros H. injection H as <-. exact (Hget _ _ _ _ Hr).
Qed.

(** One step of a run. *)
Lemma go_step n nd state trace w :
  go (S n) nd state trace w =
  match node nd state w with
  | (Returns out, w1) =>
      match successor nd (merge state out) with
      | Returns None => (Returns (merge state out, trace ++ [nd])%list, w1)
      | Returns (Some nd') => go n nd' (merge state out) (trace ++ [nd])%list w1
      | Raises e => (Raises e, w1)
      end
  | (Raises e, w1) => (Raises e, w1)
  end.
Proof.
  unfold go, node. cbn [run]. unfold bind at 1.
  destruct (run_node _ _ _ _ _ _ _ _ _ _ _ _ _ nd state w) as [[out|e] w1];
    [|reflexivity].
  unfold bind, lift. destruct (successor nd (merge state out)) as [[nd'|]|e];
    reflexivity.
Qed.

Lemma from_error_handling n state trace w :
  truthy (dict_get_default state "error" VNone) = true ->
  ends_with str [[error_handling]] trace (go (S n) error_handling state trace w).
Proof.
  intros Herror. rewrite go_step. cbn [node run_node].
  unfold error_handling_node, ret. cbn [successor]. unfold ends_with. cbn [fst].
  eexists. split; [left; reflexivity|]. split; [reflexivity|]. intros _.
  unfold dict_get_default in Herror.
  destruct (dict_get state "error") as [error|] eqn:E; [|discriminate].
  exists error. split; [|split; [exact Herror|]].
  - rewrite merged_same; [exact E|]. apply dict_get_set_other. discriminate.
  - apply merged_new. rewrite dict_get_set_same.
    unfold dict_get_default. now rewrite E.
Qed.

Lemma from_context_integration n state trace w :
  ends_with str [[context_integration]] trace
    (go (S n) context_integration state trace w).
Proof.
  rewrite go_step.
  destruct (context_integration_returns state w) as [out [w' ->]].
  cbn [successor]. unfold ends_with. cbn [fst].
  eexists. split; [left; reflexivity|]. split; [reflexivity|].
  intros [H|[]]. discriminate H.
Qed.

Lemma ends_with_more {S} (suffixes suffixes' : list (list Node)) nd trace
    (result : Outcome (Dict * list Node) * S) :
  nd <> error_handling ->
  (forall suffix, In suffix suffixes -> In (nd :: suffix) suffixes') ->
  ends_with str suffixes (trace ++ [nd]) result ->
  ends_with str suffixes' trace result.
Proof.
  unfold ends_with. intros Hnd Hin. destruct (fst result) as [[final nodes]|e];
    [|tauto].
  intros [suffix [Hs [-> Hreported]]]. exists (nd :: suffix).
  split; [now apply Hin|]. split; [now rewrite <- app_assoc|].
  intros [H|H]; [congruence | now apply Hreported].
Qed.

Lemma from_response_generation n state trace w :
  settled state ->
  ends_with str [[response_generation]; [response_generation; error_handling]]
    trace (go (S (S n)) response_generation state trace w).
Proof.
  intros Hsettled. rewrite go_step.
  destruct (response_generation_returns state w) as [out [w' [-> Hkeeps]]].
  assert (Hsettled' : settled (merge state out)).
  { apply (settled_merged ["response"; "error"]); auto; cbn; intuition discriminate. }
  pose proof (successor_raises response_generation (merge state out)) as Hraises.
  revert Hraises. cbn [successor]. unfold should_continue_after_response.
  destruct (truthy (dict_get_default (merge state out) "error" VNone)) eqn:Herror.
  - intros _. cbn [Agent.and_then destination Agent.lookup].
    change (String.eqb "action_execution" "error_handling") with false.
    change (String.eqb "error_handling" "error_handling") with true. cbv iota.
    eapply ends_with_more; [| |apply from_error_handling; assumption]; [discriminate|].
    intros suffix [<-|[]]. cbn; tauto.
  - unfold settled in Hsettled'.
    destruct (requires_tools (merge state out)) as [required|e].
    + cbn [Agent.and_then].
      assert (Hend : (truthy required &&
                      negb (truthy (dict_get_default (merge state out) "actions" VNone)))%bool
                     = false).
      { destruct Hsettled' as [->| ->]; [reflexivity | apply andb_false_r]. }
      rewrite Hend. intros _. cbn [destination Agent.lookup].
      change (String.eqb "action_execution" "end") with false.
      change (String.eqb "error_handling" "end") with false.
      change (String.eqb "end" "end") with true. cbv iota.
      unfold ends_with. cbn [fst]. eexists. split; [left; reflexivity|].
      split; [reflexivity|]. intros [H|[]]. discriminate H.
    + cbn [Agent.and_then]. intros Hraises. unfold ends_with. cbn [fst].
      now apply Hraises.
Qed.

Lemma from_context_assembly n state trace w :
  settled state ->
  ends_with str
    [[context_assembly; error_handling];
     [context_assembly; context_integration];
     [context_assembly; response_generation];
     [context_assembly; response_generation; error_handling]]
    trace (go (S (S (S n))) context_assembly state trace w).
Proof.
  intros Hsettled. rewrite go_step.
  destruct (context_assembly_returns state w) as [out [-> Hkeeps]].
  assert (Hsettled' : settled (merge state out)).
  { apply (settled_merged ["context"; "error"]); auto; cbn; intuition discriminate. }
  cbn [successor]. unfold after_context_assembly.
  destruct (truthy (dict_get_default (merge state out) "error" VNone)) eqn:Herror.
  - cbn [Agent.and_then destination Agent.lookup].
    change (String.eqb "context_integration" "error_handling") with false.
    change (String.eqb "response_generation" "error_handling") with false.
    change (String.eqb "error_handling" "error_handling") with true. cbv iota.
    eapply ends_with_more; [| |apply from_error_handling; assumption]; [discriminate|].
    intros suffix [<-|[]]. cbn; tauto.
  - assert (Hcases :
              (Agent.and_then
                 match dict_get_default (merge state out) "tool_result" VNone with
                 | VNone => Returns "response_generation"
                 | _ => Returns "context_integration"
                 end
                 (destination
                    [("context_integration", Some context_integration);
                     ("response_generation", Some response_generation);
                     ("error_handling", Some error_handling)]))
              = Returns (Some response_generation) \/
              (Agent.and_then
                 match dict_get_default (merge state out) "tool_result" VNone with
                 | VNone => Returns "response_generation"
                 | _ => Returns "context_integration"
                 end
                 (destination
                    [("context_integration", Some context_integration);
                     ("response_generation", Some response_generation);
                     ("error_handling", Some error_handling)]))
              = Returns (Some context_integration)).
    { destruct (dict_get_default (merge state out) "tool_result" VNone);
        [left|right..]; reflexivity. }
    destruct Hcases as [-> | ->].
    + eapply ends_with_more; [| |apply from_response_generation; exact Hsettled']; [discriminate|].
      intros suffix [<-|[<-|[]]]; cbn; tauto.
    + eapply ends_with_more; [| |apply from_context_integration]; [discriminate|].
      intros suffix [<-|[]]. cbn; tauto.
Qed.

Lemma from_document_retrieval n state trace w :
  settled state ->
  ends_with str
    [[document_retrieval; context_assembly; error_handling];
     [document_retrieval; context_assembly; context_integration];
     [document_retrieval; context_assembly; response_generation];
     [document_retrieval; context_assembly; response_generation; error_handling]]
    trace (go (S (S (S (S n)))) document_retrieval state trace w).
Proof.
  intros Hsettled. rewrite go_step.
  destruct (document_retrieval_returns state w) as [out [w' [-> Hkeeps]]].
  assert (Hsettled' : settled (merge state out)).
  { apply (settled_merged ["documents"; "error"]); auto; cbn; intuition discriminate. }
  cbn [successor].
  eapply ends_with_more; [| |apply from_context_assembly; exact Hsettled']; [discriminate|].
  intros suffix [<-|[<-|[<-|[<-|[]]]]]; cbn; tauto.
Qed.

Lemma from_action_execution n state trace w required :
  requires_tools state = Returns required ->
  truthy required = true ->
  ends_with str
    [[action_execution; document_retrieval; context_assembly; error_handling];
     [action_execution; document_retrieval; context_assembly; context_integration];
     [action_execution; document_retrieval; context_assembly; response_generation];
     [action_execution; document_retrieval; context_assembly; response_generation;
      error_handling]]
    trace (go (S (S (S (S (S n))))) action_execution state trace w).
Proof.
  intros Hrequired Htruthy. rewrite go_step.
  destruct (action_execution_returns state w) as [out [w' [-> [Hkeeps Hactions]]]].
  specialize (Hactions required Hrequired Htruthy).
  assert (Hsettled : settled (merge state out)).
  { unfold settled. destruct (requires_tools (merge state out)); [|exact I].
    right. unfold dict_get_default in *.
    destruct (dict_get out "actions") as [actions|] eqn:E; [|discriminate].
    now rewrite (merged_new state out _ _ E). }
  cbn [successor].
  eapply ends_with_more; [| |apply from_document_retrieval; exact Hsettled]; [discriminate|].
  intros suffix [<-|[<-|[<-|[<-|[]]]]]; cbn; tauto.
Qed.

Lemma analysis_fallback_raises state e :
  analysis_fallback state = Raises e -> escapes e.
Proof.
  unfold analysis_fallback, Agent.and_then, add_one.
  destruct (dict_get_default state "iteration_count" (VInt 0));
    try (intros H; injection H as <-; left; reflexivity);
    match goal with
    | |- context [match ?q with VStr _ => _ | _ => _ end] => destruct q
    end; try discriminate; intros H; injection H as <-; right; reflexivity.
Qed.

Lemma query_analysis_raises state w e w' :
  node query_analysis state w = (Raises e, w') -> escapes e.
Proof.
  cbn [node run_node]. unfold query_analysis_node, attempt, lift.
  match goal with
  | |- context [match ?c w with _ => _ end] => destruct (c w) as [[state1|e1] w1]
  end.
  2:{ intros H. injection H as H _. exact (analysis_fallback_raises _ _ H). }
  match goal with
  | |- context [match ?c w1 with _ => _ end] => destruct (c w1) as [[intent|e2] w2]
  end.
  2:{ intros H. injection H as H _. exact (analysis_fallback_raises _ _ H). }
  destruct (add_one _) as [count|e3].
  - unfold ret. discriminate.
  - intros H. injection H as H _. exact (analysis_fallback_raises _ _ H).
Qed.

(** A run from the entry point, by the way it ends. *)
Lemma run_outcome initial_state w :
  ends_with str paths [] (go recursion_limit query_analysis initial_state [] w).
Proof.
  unfold recursion_limit. rewrite go_step.
  destruct (node query_analysis initial_state w) as [[out|e] w1] eqn:Hnode.
  2:{ unfold ends_with. cbn [fst]. exact (query_analysis_raises _ _ _ _ Hnode). }
  pose proof (successor_raises query_analysis (merge initial_state out))
    as Hraises.
  revert Hraises. cbn [successor]. unfold should_continue_after_analysis.
  destruct (truthy (dict_get_default (merge initial_state out) "error" VNone))
    eqn:Herror.
  - intros _. cbn [Agent.and_then destination Agent.lookup].
    change (String.eqb "document_retrieval" "error_handling") with false.
    change (String.eqb "action_execution" "error_handling") with false.
    change (String.eqb "error_handling" "error_handling") with true. cbv iota.
    eapply ends_with_more; [| |apply from_error_handling; assumption]; [discriminate|].
    intros suffix [<-|[]]. cbn; tauto.
  - destruct (requires_tools (merge initial_state out)) as [required|e]
      eqn:Hrequired.
    + cbn [Agent.and_then]. destruct (truthy required) eqn:Htruthy; intros _.
      * cbn [destination Agent.lookup].
        change (String.eqb "document_retrieval" "action_execution") with false.
        change (String.eqb "action_execution" "action_execution") with true.
        cbv iota.
        eapply ends_with_more;
          [| |eapply from_action_execution; [exact Hrequired | exact Htruthy]];
          [discriminate|].
        intros suffix [<-|[<-|[<-|[<-|[]]]]]; cbn; tauto.
      * cbn [destination Agent.lookup].
        change (String.eqb "document_retrieval" "document_retrieval") with true.
        cbv iota.
        eapply ends_with_more; [| |eapply from_document_retrieval];
          [discriminate| |].
        -- intros suffix [<-|[<-|[<-|[<-|[]]]]]; cbn; tauto.
        -- unfold settled. rewrite Hrequired. now left.
    + cbn [Agent.and_then]. intros Hraises. unfold ends_with. cbn [fst].
      now apply Hraises.
Qed.

(** X23. Every run of the workflow follows one of nine paths from the
    entry point to the end, of at most six nodes, or ends with a
    [TypeError] or an [AttributeError], which only the [except] branch
    of the analysis node and the routers raise; the recursion limit is
    never reached.  The action node runs at most once, directly after
    the analysis; the edge from response generation back to the action
    node is never taken, because after the action node has run the
    recorded actions are not empty, and when it has not run the intent
    requires no tools. *)
Theorem workflow_follows_one_of_nine_paths initial_state w :
  match ainvoke W lower str strip first_characters uuid4 new_agent
          new_retriever analyze_query_intent retrieve_documents
          generate_response agent_execute_tool
          integrate_tool_result_with_context merge initial_state w with
  | (Returns (final, nodes), _) => In nodes paths
  | (Raises e, _) =>
      e <> graph_recursion_error /\
      (exc_class e = TypeError \/ exc_class e = AttributeError)
  end.
Proof.
  pose proof (run_outcome initial_state w) as H.
  unfold ends_with in H. unfold ainvoke. fold go.
  destruct (go recursion_limit query_analysis initial_state [] w)
    as [[[final nodes]|e] w']; cbn [fst] in H.
  - destruct H as [suffix [Hin [-> _]]]. exact Hin.
  - split; [|exact H]. intros ->. destruct H as [H|H]; discriminate H.
Qed.

(** X24. A run that goes through the error node answers with the error
    recorded: the final state holds an error that is not empty, and the
    response is [处理请求时发生错误: ] followed by it.  So whatever a
    node's handler stored as [state["error"]], the text of an exception
    included, is what the user reads. *)
Theorem error_node_reports_the_recorded_error initial_state w :
  match ainvoke W lower str strip first_characters uuid4 new_agent
          new_retriever analyze_query_intent retrieve_documents
          generate_response agent_execute_tool
          integrate_tool_result_with_context merge initial_state w with
  | (Returns (final, nodes), _) =>
      if existsb (fun nd => match nd with error_handling => true | _ => false end)
           nodes
      then exists error,
          dict_get final "error" = Some error /\
          truthy error = true /\
          dict_get final "response"
          = Some (VStr ("处理请求时发生错误: " ++ str error))
      else True
  | (Raises _, _) => True
  end.
Proof.
  pose proof (run_outcome initial_state w) as H.
  unfold ends_with in H. unfold ainvoke. fold go.
  destruct (go recursion_limit query_analysis initial_state [] w)
    as [[[final nodes]|e] w']; cbn [fst] in H; [|exact I].
  destruct H as [suffix [Hin [-> Hreported]]]. cbn [app].
  destruct (existsb _ suffix) eqn:Hexists; [|exact I].
  apply Hreported. apply existsb_exists in Hexists.
  destruct Hexists as [nd [Hnd Hq]]. destruct nd; try discriminate. exact Hnd.
Qed.

(** *** Runs that return *)

(** The analysis returns dictionaries, as the agent's does. *)
Hypothesis analysis_gives_dictionary :
  forall query w intent w',
    analyze_query_intent query w = (Returns intent, w') ->
    exists d, intent = VDict d.

Lemma analysis_fallback_returns state query count :
  dict_get state "query" = Some (VStr query) ->
  dict_get_default state "iteration_count" (VInt 0) = VInt count ->
  exists out d,
    analysis_fallback state = Returns out /\
    dict_get out "intent_analysis" = Some (VDict d).
Proof.
  intros Hquery Hcount. unfold analysis_fallback. rewrite Hcount.
  cbn [add_one Agent.and_then]. unfold dict_get_default.
  rewrite dict_get_set_other by discriminate. rewrite Hquery.
  eexists. eexists. split; [reflexivity|]. apply dict_get_set_same.
Qed.

Lemma query_analysis_returns state w query count :
  dict_get state "query" = Some (VStr query) ->
  dict_get_default state "iteration_count" (VInt 0) = VInt count ->
  exists out w' d,
    node query_analysis state w = (Returns out, w') /\
    dict_get out "intent_analysis" = Some (VDict d).
Proof.
  intros Hquery Hcount. cbn [node run_node].
  unfold query_analysis_node, attempt, lift.
  assert (Hfallback : forall state',
             dict_get state' "query" = dict_get state "query" ->
             dict_get state' "iteration_count" = dict_get state "iteration_count" ->
             forall w' : W, exists out (w'' : W) d,
               (analysis_fallback state', w') = (Returns out, w'') /\
               dict_get out "intent_analysis" = Some (VDict d)).
  { intros state' Hq Hc w'.
    destruct (analysis_fallback_returns state' query count) as [out [d [-> Hd]]].
    - now rewrite Hq.
    - unfold dict_get_default in *. now rewrite Hc.
    - eauto. }
  match goal with
  | |- context [match ?c w with _ => _ end] =>
      assert (Hfirst : forall s1 w1, c w = (Returns s1, w1) ->
                dict_get s1 "query" = dict_get state "query" /\
                dict_get s1 "iteration_count" = dict_get state "iteration_count");
      [|destruct (c w) as [[state1|e1] w1] eqn:Hstep]
  end.
  { destruct (negb _).
    - unfold bind, ret. destruct (uuid4 w) as [[id|e] w0]; [|discriminate].
      intros s1 w1 H. injection H as <- _.
      split; apply dict_get_set_other; discriminate.
    - unfold ret. intros s1 w1 H. injection H as <- _. auto. }
  2:{ apply Hfallback; reflexivity. }
  destruct (Hfirst _ _ eq_refl) as [Hq1 Hc1].
  match goal with
  | |- context [match ?c w1 with _ => _ end] =>
      destruct (c w1) as [[intent|e2] w2] eqn:Hanalysis
  end.
  2:{ apply Hfallback; assumption. }
  assert (Hdict : exists d, intent = VDict d).
  { revert Hanalysis. unfold bind.
    destruct (new_agent w1) as [[[]|e] w0]; [|discriminate].
    unfold lift. destruct (subscript (VDict state1) "query"); [|discriminate].
    apply analysis_gives_dictionary. }
  destruct Hdict as [d ->].
  unfold dict_get_default at 1.
  rewrite dict_get_set_other by discriminate. rewrite Hc1.
  unfold dict_get_default in Hcount. rewrite Hcount. cbn [add_one].
  unfold ret. eexists. eexists. exists d. split; [reflexivity|].
  rewrite dict_get_set_other by discriminate. apply dict_get_set_same.
Qed.

Lemma successor_returns nd state d :
  dict_get state "intent_analysis" = Some (VDict d) ->
  exists next, successor nd state = Returns next /\ next <> Some query_analysis.
Proof.
  intros Hintent.
  destruct nd; cbn [successor];
    try (eexists; split; [reflexivity|discriminate]);
    unfold should_continue_after_analysis, should_continue_after_response,
      after_context_assembly, requires_tools, dict_get_default;
    try rewrite Hintent; cbn [py_get Agent.and_then].
  - destruct (truthy match dict_get state "error" with
                     | Some v => v | None => VNone end);
      [cbn; eexists; split; [reflexivity|discriminate]|].
    cbn [Agent.and_then].
    destruct (truthy _); cbn; eexists; split; try reflexivity; discriminate.
  - destruct (truthy match dict_get state "error" with
                     | Some v => v | None => VNone end);
      [cbn; eexists; split; [reflexivity|discriminate]|].
    destruct (match dict_get state "tool_result" with
              | Some v => v | None => VNone end);
      cbn; eexists; split; try reflexivity; discriminate.
  - destruct (truthy match dict_get state "error" with
                     | Some v => v | None => VNone end);
      [cbn; eexists; split; [reflexivity|discriminate]|].
    cbn [Agent.and_then].
    destruct (truthy _ && _)%bool; cbn; eexists; split; try reflexivity;
      discriminate.
Qed.

(** After the analysis, a run ends or uses up the recursion limit. *)
Lemma later_nodes_return n :
  forall nd state trace w d,
    nd <> query_analysis ->
    dict_get state "intent_analysis" = Some (VDict d) ->
    match fst (go n nd state trace w) with
    | Returns _ => True
    | Raises e => e = graph_recursion_error
    end.
Proof.
  induction n as [|n IH]; intros nd state trace w d Hnd Hintent.
  - reflexivity.
  - rewrite go_step.
    assert (Hnode : exists out w',
               node nd state w = (Returns out, w') /\
               (successor nd (merge state out) = Returns None \/
                dict_get (merge state out) "intent_analysis" = Some (VDict d))).
    { destruct nd; [contradiction| | | | | |].
      - destruct (document_retrieval_returns state w) as [out [w' [-> Hk]]].
        eexists. eexists. split; [reflexivity|]. right.
        rewrite merged_same; [exact Hintent|]. apply Hk.
        cbn. intuition discriminate.
      - destruct (context_assembly_returns state w) as [out [-> Hk]].
        eexists. eexists. split; [reflexivity|]. right.
        rewrite merged_same; [exact Hintent|]. apply Hk.
        cbn. intuition discriminate.
      - destruct (response_generation_returns state w) as [out [w' [-> Hk]]].
        eexists. eexists. split; [reflexivity|]. right.
        rewrite merged_same; [exact Hintent|]. apply Hk.
        cbn. intuition discriminate.
      - destruct (action_execution_returns state w) as [out [w' [-> [Hk _]]]].
        eexists. eexists. split; [reflexivity|]. right.
        rewrite merged_same; [exact Hintent|]. apply Hk.
        cbn. intuition discriminate.
      - destruct (context_integration_returns state w) as [out [w' ->]].
        eexists. eexists. split; [reflexivity|]. left. reflexivity.
      - destruct (error_handling_returns state w) as [out ->].
        eexists. eexists. split; [reflexivity|]. left. reflexivity. }
    destruct Hnode as [out [w' [-> [->|Hmerged]]]]; [exact I|].
    destruct (successor_returns nd _ _ Hmerged) as [[nd'|] [-> Hnext]];
      [|exact I].
    apply (IH nd' _ _ _ d); [congruence|exact Hmerged].
Qed.

(** X25. With an analysis that returns dictionaries, as the agent's
    does, a run of the workflow from a state whose [query] is a text
    and whose [iteration_count] is an integer (or missing) never
    raises: it ends with a final state.  The chat route starts the
    workflow from such a state. *)
Theorem run_returns_when_the_analysis_gives_a_dictionary initial_state query
    count w :
  dict_get initial_state "query" = Some (VStr query) ->
  dict_get_default initial_state "iteration_count" (VInt 0) = VInt count ->
  exists final nodes w',
    ainvoke W lower str strip first_characters uuid4 new_agent new_retriever
      analyze_query_intent retrieve_documents generate_response
      agent_execute_tool integrate_tool_result_with_context merge
      initial_state w
    = (Returns (final, nodes), w') /\
    In nodes paths.
Proof.
  intros Hquery Hcount.
  pose proof (run_outcome initial_state w) as Hends.
  assert (Hlater : match fst (go recursion_limit query_analysis initial_state
                                [] w) with
                   | Returns _ => True
                   | Raises e => e = graph_recursion_error
                   end).
  { unfold recursion_limit. rewrite go_step.
    destruct (query_analysis_returns initial_state w query count Hquery Hcount)
      as [out [w' [d [-> Hd]]]].
    pose proof (merged_new initial_state out _ _ Hd) as Hmerged.
    destruct (successor_returns query_analysis _ _ Hmerged)
      as [[nd'|] [-> Hnext]]; [|exact I].
    apply (later_nodes_return _ nd' _ _ _ d); [congruence|exact Hmerged]. }
  unfold ends_with in Hends. unfold ainvoke. fold go.
  destruct (go recursion_limit query_analysis initial_state [] w)
    as [[[final nodes]|e] w']; cbn [fst] in *.
  - destruct Hends as [suffix [Hin [-> _]]]. eauto.
  - subst e. destruct Hends as [H|H]; discriminate H.
Qed.

End Workflow.

(** Updating the graph's state key by key is one of the ways of folding
    a returned state into it. *)
Lemma update_spec old new k :
  dict_get (update old new) k = dict_get new k \/
  (dict_get new k = None /\ dict_get (update old new) k = dict_get old k).
Proof.
  induction new as [|[k' v] new IH]; cbn [update fold_right fst snd].
  - right. split; reflexivity.
  - fold (update old new). cbn [dict_get].
    destruct (String.eqb k' k) eqn:E.
    + apply String.eqb_eq in E. subst k'. left. apply dict_get_set_same.
    + apply String.eqb_neq in E.
      rewrite dict_get_set_other by exact E. exact IH.
Qed.

(** A request for a review meeting runs the calendar tool, retrieves,
    assembles and integrates. *)
Lemma workflow_follows_one_of_nine_paths_witness :
  (forall old new k,
     dict_get (update old new) k = dict_get new k \/
     (dict_get new k = None /\ dict_get (update old new) k = dict_get old k)) /\
  GraphRuns.nodes_run GraphRuns.meeting_run
  = [query_analysis; action_execution; document_retrieval; context_assembly;
     context_integration] /\
  match GraphRuns.meeting_run with
  | (Returns (final, nodes), _) => In nodes paths
  | (Raises e, _) =>
      e <> graph_recursion_error /\
      (exc_class e = TypeError \/ exc_class e = AttributeError)
  end.
Proof.
  split; [exact update_spec|]. split; [vm_compute; reflexivity|].
  exact (workflow_follows_one_of_nine_paths Examples.World ascii_lower
           str_scalar ascii_strip GraphRuns.first_characters
           GraphRuns.request_id GraphRuns.construct GraphRuns.construct
           (GraphRuns.analysis GraphRuns.meeting_intent) GraphRuns.handbook
           GraphRuns.answer (AgentScenarios.agent AgentScenarios.llm_meeting)
           GraphRuns.integration update update_spec
           (GraphRuns.chat_state "安排评审会" (VList [])) Examples.fresh_world).
Defined.

(** The same request with a fax added: the agent's envelope has no
    [error], the action node records the key error, and the user reads
    it. *)
Lemma error_node_reports_the_recorded_error_witness :
  (forall old new k,
     dict_get (update old new) k = dict_get new k \/
     (dict_get new k = None /\ dict_get (update old new) k = dict_get old k)) /\
  GraphRuns.nodes_run GraphRuns.fax_run
  = [query_analysis; action_execution; document_retrieval; context_assembly;
     error_handling] /\
  dict_get (GraphRuns.final_state GraphRuns.fax_run) "response"
  = Some (VStr "处理请求时发生错误: 'error'") /\
  match GraphRuns.fax_run with
  | (Returns (final, nodes), _) =>
      if existsb (fun nd => match nd with error_handling => true | _ => false end)
           nodes
      then exists error,
          dict_get final "error" = Some error /\
          truthy error = true /\
          dict_get final "response"
          = Some (VStr ("处理请求时发生错误: " ++ str_scalar error))
      else True
  | (Raises _, _) => True
  end.
Proof.
  split; [exact update_spec|]. split; [vm_compute; reflexivity|].
  split; [vm_compute; reflexivity|].
  exact (error_node_reports_the_recorded_error Examples.World ascii_lower
           str_scalar ascii_strip GraphRuns.first_characters
           GraphRuns.request_id GraphRuns.construct GraphRuns.construct
           (GraphRuns.analysis AgentScenarios.fax_intent) GraphRuns.handbook
           GraphRuns.answer (AgentScenarios.agent AgentScenarios.llm_meeting)
           GraphRuns.integration update update_spec
           (GraphRuns.chat_state "安排评审会并发传真" (VList []))
           Examples.fresh_world).
Defined.

(** A request the model gives no object for: the keyword fallback asks
    for the calendar, and the run ends after the integration. *)
Lemma run_returns_when_the_analysis_gives_a_dictionary_witness :
  (forall old new k,
     dict_get (update old new) k = dict_get new k \/
     (dict_get new k = None /\ dict_get (update old new) k = dict_get old k)) /\
  (forall query w intent w',
     AnalysedRuns.analysis query w = (Returns intent, w') ->
     exists d, intent = VDict d) /\
  dict_get (GraphRuns.chat_state "安排评审会议" (VList [])) "query"
  = Some (VStr "安排评审会议") /\
  dict_get_default (GraphRuns.chat_state "安排评审会议" (VList []))
    "iteration_count" (VInt 0) = VInt 0 /\
  GraphRuns.nodes_run AnalysedRuns.meeting_run
  = [query_analysis; action_execution; document_retrieval; context_assembly;
     context_integration] /\
  exists final nodes w',
    AnalysedRuns.meeting_run = (Returns (final, nodes), w') /\
    In nodes paths.
Proof.
  assert (Hdict : forall query w intent w',
             AnalysedRuns.analysis query w = (Returns intent, w') ->
             exists d, intent = VDict d).
  { intros query w intent w'.
    apply IntentAnalysisProofs.analyze_returns_dict. }
  split; [exact update_spec|]. split; [exact Hdict|].
  split; [reflexivity|]. split; [reflexivity|].
  split; [vm_compute; reflexivity|].
  exact (run_returns_when_the_analysis_gives_a_dictionary Examples.World
           ascii_lower str_scalar ascii_strip GraphRuns.first_characters
           GraphRuns.request_id GraphRuns.construct GraphRuns.construct
           AnalysedRuns.analysis GraphRuns.handbook GraphRuns.answer
           (AgentScenarios.agent AgentScenarios.llm_meeting)
           GraphRuns.integration update update_spec Hdict
           (GraphRuns.chat_state "安排评审会议" (VList [])) "安排评审会议" 0
           Examples.fresh_world eq_refl eq_refl).
Defined.

End GraphProofs.

(* ===================================================================== *)
(** ** The cache: its size, its keys and what a lookup gives back *)
(* ===================================================================== *)

Module CacheProofs.
Import Cache.

(** *** Dictionaries in insertion order *)

Lemma lookup_In {A} k (d : list (string * A)) a :
  Agent.lookup k d = Some a -> In k (map fst d).
Proof.
  induction d as [|[k' a'] d IH]; cbn; [discriminate|].
  destruct (String.eqb k' k) eqn:E.
  - apply String.eqb_eq in E. intros _. left. exact E.
  - intros H. right. exact (IH H).
Qed.

Lemma lookup_not_In {A} k (d : list (string * A)) :
  ~ In k (map fst d) -> Agent.lookup k d = None.
Proof.
  induction d as [|[k' a'] d IH]; cbn; [reflexivity|].
  intros H. destruct (String.eqb k' k) eqn:E.
  - apply String.eqb_eq in E. exfalso. apply H. left. exact E.
  - apply IH. intros Hin. apply H. right. exact Hin.
Qed.

Lemma In_lookup {A} k (d : list (string * A)) :
  In k (map fst d) -> exists a, Agent.lookup k d = Some a.
Proof.
  induction d as [|[k' a'] d IH]; cbn; [intros []|].
  destruct (String.eqb k' k) eqn:E; [eexists; reflexivity|].
  apply String.eqb_neq in E. intros [H|H]; [contradiction|]. exact (IH H).
Qed.

(** Deleting a key of the dictionary removes its entry and nothing
    else. *)
Lemma delete_present k d :
  In k (map fst d) ->
  exists d',
    delete k d = Returns d' /\
    S (List.length d') = List.length d /\
    (forall k', In k' (map fst d') -> In k' (map fst d)) /\
    (NoDup (map fst d) ->
     NoDup (map fst d') /\ ~ In k (map fst d') /\
     forall k', k' <> k -> Agent.lookup k' d' = Agent.lookup k' d).
Proof.
  induction d as [|[k0 e0] d IH]; cbn; [intros []|].
  destruct (String.eqb k0 k) eqn:E.
  - apply String.eqb_eq in E. subst k0. intros _. exists d.
    split; [reflexivity|]. split; [reflexivity|].
    split; [intros k' H; right; exact H|].
    intros Hnd. inversion Hnd as [|? ? Hnotin Hnd']; subst.
    split; [exact Hnd'|]. split; [exact Hnotin|].
    intros k' Hne. destruct (String.eqb k k') eqn:E'; [|reflexivity].
    apply String.eqb_eq in E'. congruence.
  - apply String.eqb_neq in E. intros [H|H]; [contradiction|].
    destruct (IH H) as [d' [-> [Hlen [Hsub Hrest]]]].
    exists ((k0, e0) :: d'). split; [reflexivity|].
    split; [cbn; now rewrite Hlen|].
    split.
    { cbn. intros k' [Hk|Hk]; [left; exact Hk|right; exact (Hsub _ Hk)]. }
    intros Hnd. inversion Hnd as [|? ? Hnotin Hnd']; subst.
    destruct (Hrest Hnd') as [Hnd'' [Hgone Hother]].
    split.
    { cbn. constructor; [|exact Hnd'']. intros Hin. exact (Hnotin (Hsub _ Hin)). }
    split.
    { cbn. intros [Hk|Hk]; [contradiction|exact (Hgone Hk)]. }
    intros k' Hne. cbn. destruct (String.eqb k0 k'); [reflexivity|].
    exact (Hother _ Hne).
Qed.

Lemma assign_keys k e d :
  map fst (assign k e d)
  = match Agent.lookup k d with
    | Some _ => map fst d
    | None => (map fst d ++ [k])%list
    end.
Proof.
  induction d as [|[k0 e0] d IH]; cbn; [reflexivity|].
  destruct (String.eqb k0 k) eqn:E; cbn.
  - reflexivity.
  - rewrite IH. destruct (Agent.lookup k d); reflexivity.
Qed.

Lemma assign_length k e d :
  List.length (assign k e d)
  = match Agent.lookup k d with
    | Some _ => List.length d
    | None => S (List.length d)
    end.
Proof.
  rewrite <- (length_map fst), assign_keys.
  destruct (Agent.lookup k d); [apply length_map|].
  rewrite length_app, length_map. cbn. lia.
Qed.

Lemma assign_distinct k e d :
  NoDup (map fst d) -> NoDup (map fst (assign k e d)).
Proof.
  intros Hnd. rewrite assign_keys.
  destruct (Agent.lookup k d) eqn:Hl; [exact Hnd|].
  apply NoDup_app; [exact Hnd|repeat constructor; intros []|].
  intros k' Hin [<-|[]].
  destruct (In_lookup _ _ Hin) as [a Ha]. congruence.
Qed.

Lemma lookup_assign_same k e d : Agent.lookup k (assign k e d) = Some e.
Proof.
  induction d as [|[k0 e0] d IH]; cbn.
  - now rewrite String.eqb_refl.
  - destruct (String.eqb k0 k) eqn:E; cbn; rewrite E; [reflexivity|exact IH].
Qed.

Lemma lookup_assign_other k k' e d :
  k' <> k -> Agent.lookup k' (assign k e d) = Agent.lookup k' d.
Proof.
  intros Hne. induction d as [|[k0 e0] d IH]; cbn.
  - destruct (String.eqb k k') eqn:E; [|reflexivity].
    apply String.eqb_eq in E. congruence.
  - destruct (String.eqb k0 k) eqn:E; cbn.
    + apply String.eqb_eq in E. subst k0.
      destruct (String.eqb k k') eqn:E'; [|reflexivity].
      apply String.eqb_eq in E'. congruence.
    + destruct (String.eqb k0 k'); [reflexivity|exact IH].
Qed.

Lemma oldest_In best rest :
  In (oldest best rest) (map fst (best :: rest)).
Proof.
  revert best. induction rest as [|x rest IH]; intros best; cbn.
  - left. reflexivity.
  - destruct (PrimFloat.ltb _ _).
    + right. exact (IH x).
    + destruct (IH best) as [H|H]; [left; exact H|right; right; exact H].
Qed.

Lemma delete_middle k e pre d :
  ~ In k (map fst pre) ->
  delete k (pre ++ (k, e) :: d) = Returns (pre ++ d)%list.
Proof.
  induction pre as [|[k0 e0] pre IH]; cbn.
  - now rewrite String.eqb_refl.
  - intros H. destruct (String.eqb k0 k) eqn:E.
    + apply String.eqb_eq in E. exfalso. apply H. left. exact E.
    + rewrite IH; [reflexivity|]. intros Hin. apply H. right. exact Hin.
Qed.

Lemma filter_distinct (p : string * Entry -> bool) d :
  NoDup (map fst d) -> NoDup (map fst (filter p d)).
Proof.
  induction d as [|x d IH]; cbn; [auto|].
  intros Hnd. inversion Hnd as [|? ? Hnotin Hnd']; subst.
  destruct (p x); cbn; [|exact (IH Hnd')].
  constructor; [|exact (IH Hnd')].
  intros Hin. apply Hnotin. apply in_map_iff in Hin.
  destruct Hin as [y [Hy Hin]]. apply filter_In in Hin.
  apply in_map_iff. exists y. tauto.
Qed.

Lemma with_cache_same self : with_cache (cache self) self = self.
Proof. destruct self. reflexivity. Qed.

Section Methods.

Variable _generate_key : Value -> Outcome string.

(** *** The methods, by cases *)

(** Nothing guards the key generation: what it raises leaves [get] and
    [set], with the cache as it was. *)
Lemma get_key_fails key e self :
  _generate_key key = Raises e ->
  get _generate_key key self = (Raises e, self).
Proof. intros H. unfold get, bind, lift. now rewrite H. Qed.

Lemma set_key_fails key value e self :
  _generate_key key = Raises e ->
  set _generate_key key value self = (Raises e, self).
Proof. intros H. unfold set, bind, lift. now rewrite H. Qed.

Lemma get_cases key cache_key self :
  _generate_key key = Returns cache_key ->
  get _generate_key key self =
  match Agent.lookup cache_key (cache self) with
  | None => (Returns VNone, self)
  | Some entry =>
      if expired (clock self (ticks self)) (ttl self) entry
      then match delete cache_key (cache self) with
           | Returns d' => (Returns VNone, with_cache d' (tick self))
           | Raises e => (Raises e, tick self)
           end
      else (Returns (value entry), tick self)
  end.
Proof.
  intros Hkey.
  unfold get, bind, Py.get, time, lift, set_cache, modify, ret. rewrite Hkey.
  destruct (Agent.lookup _ _); [|reflexivity].
  destruct (expired _ _ _); [|reflexivity].
  cbn. destruct (delete _ _); reflexivity.
Qed.

Lemma set_cases key cache_key value self :
  _generate_key key = Returns cache_key ->
  set _generate_key key value self =
  let entry := mkEntry value (clock self (ticks self)) in
  if Z.of_nat (List.length (cache self)) >=? max_size self then
    match oldest_key (cache self) with
    | Raises e => (Raises e, self)
    | Returns k =>
        match delete k (cache self) with
        | Raises e => (Raises e, self)
        | Returns d' =>
            (Returns VNone,
             with_cache (assign cache_key entry d') (tick self))
        end
    end
  else
    (Returns VNone,
     with_cache (assign cache_key entry (cache self)) (tick self)).
Proof.
  intros Hkey.
  unfold set, bind, Py.get, time, lift, set_cache, modify, ret. cbv zeta.
  rewrite Hkey.
  destruct (_ >=? _); [|reflexivity].
  destruct (oldest_key _); [|reflexivity].
  destruct (delete _ _); reflexivity.
Qed.

(** The loop of [cleanup_expired] over the keys it collected. *)
Lemma cleanup_loop (p : string * Entry -> bool) d :
  forall pre self,
    cache self = (pre ++ d)%list ->
    NoDup (map fst (pre ++ d)) ->
    for_each (map fst (filter p d)) tt
      (fun _ key =>
         self' <- Py.get ;;
         entries <- lift (delete key (cache self')) ;;
         set_cache entries) self
    = (Returns tt,
       with_cache (pre ++ filter (fun item => negb (p item)) d) self).
Proof.
  set (body := fun (_ : unit) (key : string) =>
                 self' <- Py.get ;;
                 entries <- lift (delete key (cache self')) ;;
                 set_cache entries).
  induction d as [|[k e] d IH]; intros pre self Hcache Hnd.
  - cbn. unfold ret. rewrite <- Hcache, with_cache_same. reflexivity.
  - cbn [filter]. destruct (p (k, e)) eqn:Hp; cbn [negb map fst for_each].
    + assert (Hbody : body tt k self
                      = (Returns tt, with_cache (pre ++ d) self)).
      { unfold body, bind, Py.get, lift, set_cache, modify.
        rewrite Hcache, delete_middle; [reflexivity|].
        rewrite map_app in Hnd. cbn in Hnd.
        apply NoDup_remove_2 in Hnd. intros Hin. apply Hnd.
        apply in_or_app. left. exact Hin. }
      unfold bind at 1. rewrite Hbody.
      rewrite (IH pre (with_cache (pre ++ d) self)).
      * reflexivity.
      * reflexivity.
      * rewrite map_app in *. cbn in Hnd. exact (NoDup_remove_1 _ _ _ Hnd).
    + rewrite (IH (pre ++ [(k, e)])%list self).
      * rewrite <- app_assoc. reflexivity.
      * rewrite <- app_assoc. exact Hcache.
      * rewrite <- app_assoc. exact Hnd.
Qed.

Lemma cleanup_cases self :
  distinct_keys self ->
  let now := clock self (ticks self) in
  let gone := filter (fun item => expired now (ttl self) (snd item)) (cache self) in
  let kept :=
    filter (fun item => negb (expired now (ttl self) (snd item))) (cache self) in
  cleanup_expired self
  = (Returns (VInt (Z.of_nat (List.length gone))), with_cache kept (tick self)).
Proof.
  intros Hnd. cbv zeta. unfold cleanup_expired.
  unfold bind at 1. unfold time at 1.
  unfold bind at 1. unfold Py.get at 1.
  unfold bind at 1. cbn [cache tick ttl].
  rewrite (cleanup_loop
             (fun item => expired (clock self (ticks self)) (ttl self) (snd item))
             (cache self) [] (tick self) eq_refl Hnd).
  unfold ret. rewrite length_map. reflexivity.
Qed.

(** *** What every call keeps *)

Lemma perform_keeps_bound call self outcome self' :
  1 <= max_size self ->
  distinct_keys self ->
  Z.of_nat (List.length (cache self)) <= max_size self ->
  perform _generate_key call self = (outcome, self') ->
  served _generate_key call outcome /\
  max_size self' = max_size self /\
  distinct_keys self' /\
  Z.of_nat (List.length (cache self')) <= max_size self'.
Proof.
  intros Hroom Hnd Hlen. unfold served, unless_key_fails.
  destruct call as [key|key v| | |]; cbn [perform key_of].
  - destruct (_generate_key key) as [cache_key|e] eqn:Hkey.
    2:{ rewrite (get_key_fails _ _ _ Hkey). intros H. injection H as <- <-. auto. }
    rewrite (get_cases _ _ _ Hkey).
    destruct (Agent.lookup _ _) as [entry|] eqn:Hl.
    2:{ intros H. injection H as <- <-. auto. }
    destruct (expired _ _ _).
    2:{ intros H. injection H as <- <-. auto. }
    destruct (delete_present _ _ (lookup_In _ _ _ Hl))
      as [d' [-> [Hd' [_ Hrest]]]].
    destruct (Hrest Hnd) as [Hnd' _].
    intros H. injection H as <- <-. unfold distinct_keys. cbn.
    repeat split; [exact Hnd'|lia].
  - destruct (_generate_key key) as [cache_key|e] eqn:Hkey.
    2:{ rewrite (set_key_fails _ _ _ _ Hkey). intros H. injection H as <- <-.
        auto. }
    rewrite (set_cases _ _ _ _ Hkey). cbv zeta.
    destruct (_ >=? _) eqn:Hfull.
    + destruct (cache self) as [|x rest] eqn:Hcache.
      { cbn in Hfull. lia. }
      cbn [oldest_key].
      destruct (delete_present _ _ (oldest_In x rest))
        as [d' [-> [Hd' [_ Hrest]]]].
      unfold distinct_keys in Hnd. rewrite Hcache in Hnd.
      destruct (Hrest Hnd) as [Hnd' _].
      intros H. injection H as <- <-. unfold distinct_keys. cbn [has_returned
        max_size cache with_cache tick].
      split; [reflexivity|]. split; [reflexivity|].
      split; [apply assign_distinct; exact Hnd'|].
      rewrite assign_length. destruct (Agent.lookup _ d'); lia.
    + intros H. injection H as <- <-. unfold distinct_keys. cbn [has_returned
        max_size cache with_cache tick].
      split; [reflexivity|]. split; [reflexivity|].
      split; [apply assign_distinct; exact Hnd|].
      rewrite assign_length. destruct (Agent.lookup _ (cache self)); lia.
  - unfold clear, bind, set_cache, modify, ret.
    intros H. injection H as <- <-. unfold distinct_keys. cbn.
    repeat split; [constructor|lia].
  - unfold size, bind, Py.get, ret.
    intros H. injection H as <- <-. auto.
  - rewrite (cleanup_cases self Hnd).
    intros H. injection H as <- <-. unfold distinct_keys.
    cbn [has_returned max_size cache with_cache tick].
    split; [reflexivity|]. split; [reflexivity|]. split.
    + apply filter_distinct. exact Hnd.
    + pose proof (filter_length_le
                    (fun item => negb (expired (clock self (ticks self))
                                         (ttl self) (snd item)))
                    (cache self)).
      lia.
Qed.

Lemma calls_keep_bound calls :
  forall self,
    1 <= max_size self ->
    distinct_keys self ->
    Z.of_nat (List.length (cache self)) <= max_size self ->
    Forall2 (served _generate_key) calls
      (fst (run_calls _generate_key calls self)) /\
    Z.of_nat (List.length (cache (snd (run_calls _generate_key calls self))))
    <= max_size self.
Proof.
  induction calls as [|call calls IH]; intros self Hroom Hnd Hlen; cbn.
  - split; [constructor|exact Hlen].
  - destruct (perform _generate_key call self) as [outcome self'] eqn:Hcall.
    destruct (perform_keeps_bound _ _ _ _ Hroom Hnd Hlen Hcall)
      as [Hret [Hmax [Hnd' Hlen']]].
    assert (Hroom' : 1 <= max_size self') by (rewrite Hmax; exact Hroom).
    specialize (IH self' Hroom' Hnd' Hlen').
    destruct (run_calls _generate_key calls self') as [outcomes final].
    cbn [fst snd] in *. rewrite Hmax in IH. destruct IH as [IH1 IH2].
    split; [constructor; assumption|exact IH2].
Qed.

(** X26. A cache with room for at least one entry never holds more than
    [max_size] entries, and a call raises only when the digest of its
    key cannot be computed: whatever calls of [get], [set], [clear],
    [size] and [cleanup_expired] a fresh cache has served, each of them
    returned, or it is a [get] or [set] whose key generation raised and
    it raised the same, and the cache holds at most [max_size] entries.
    A full cache is never empty, so [min] finds an oldest key, and
    every key deleted is a key of the dictionary. *)
Theorem cache_never_exceeds_max_size size_limit lifetime readings calls :
  1 <= size_limit ->
  Forall2 (served _generate_key) calls
    (fst (run_calls _generate_key calls (new size_limit lifetime readings))) /\
  Z.of_nat
    (List.length
       (cache (snd (run_calls _generate_key calls
                      (new size_limit lifetime readings)))))
  <= size_limit.
Proof.
  intros Hroom.
  apply (calls_keep_bound calls (new size_limit lifetime readings)).
  - exact Hroom.
  - constructor.
  - cbn. lia.
Qed.

Lemma perform_without_room call self outcome self' :
  max_size self <= 0 ->
  cache self = [] ->
  perform _generate_key call self = (outcome, self') ->
  refused _generate_key call outcome /\ max_size self' = max_size self /\
  cache self' = [].
Proof.
  intros Hroom Hempty. unfold refused, unless_key_fails.
  destruct call as [key|key v| | |]; cbn [perform key_of].
  - destruct (_generate_key key) as [cache_key|e] eqn:Hkey.
    2:{ rewrite (get_key_fails _ _ _ Hkey). intros H. injection H as <- <-. auto. }
    rewrite (get_cases _ _ _ Hkey), Hempty. cbn [Agent.lookup].
    intros H. injection H as <- <-. auto.
  - destruct (_generate_key key) as [cache_key|e] eqn:Hkey.
    2:{ rewrite (set_key_fails _ _ _ _ Hkey). intros H. injection H as <- <-.
        auto. }
    rewrite (set_cases _ _ _ _ Hkey), Hempty. cbv zeta.
    cbn [List.length oldest_key].
    destruct (Z.of_nat 0 >=? max_size self) eqn:Hfull; [|cbn in Hfull; lia].
    intros H. injection H as <- <-. auto.
  - unfold clear, bind, set_cache, modify, ret.
    intros H. injection H as <- <-. auto.
  - unfold size, bind, Py.get, ret. intros H. injection H as <- <-. auto.
  - rewrite cleanup_cases by (unfold distinct_keys; rewrite Hempty; constructor).
    rewrite Hempty. intros H. injection H as <- <-. auto.
Qed.

(** X27. A cache built with [max_size] zero or negative stores nothing:
    on a fresh one every call of [set] raises [ValueError], from [min]
    over the keys of an empty dictionary, every other call returns, and
    the cache stays empty.  (A [get] or [set] whose key has no digest
    raises what the key generation raised.) *)
Theorem cache_without_room_stores_nothing size_limit lifetime readings calls :
  size_limit <= 0 ->
  let result :=
    run_calls _generate_key calls (new size_limit lifetime readings) in
  cache (snd result) = [] /\
  List.length (fst result) = List.length calls /\
  Forall2 (refused _generate_key) calls (fst result).
Proof.
  intros Hroom. cbv zeta.
  assert (H : forall self,
             max_size self <= 0 -> cache self = [] ->
             cache (snd (run_calls _generate_key calls self)) = [] /\
             Forall2 (refused _generate_key) calls
               (fst (run_calls _generate_key calls self))).
  { induction calls as [|call calls IH]; intros self Hmax Hempty; cbn.
    - split; [assumption|constructor].
    - destruct (perform _generate_key call self) as [outcome self'] eqn:Hcall.
      destruct (perform_without_room _ _ _ _ Hmax Hempty Hcall)
        as [Hrefused [Hmax' Hempty']].
      assert (Hroom' : max_size self' <= 0) by (rewrite Hmax'; exact Hmax).
      specialize (IH self' Hroom' Hempty').
      destruct (run_calls _generate_key calls self') as [outcomes final].
      cbn [fst snd] in *. destruct IH as [IH1 IH2].
      split; [exact IH1|constructor; assumption]. }
  destruct (H (new size_limit lifetime readings) Hroom eq_refl) as [H1 H2].
  split; [exact H1|]. split; [|exact H2].
  symmetry. exact (Forall2_length H2).
Qed.

(** X28. What is read back after a [set] that returned: a [get] right
    after it, for any key with the same digest, returns the value when
    the time between the two readings of the clock is not above [ttl];
    when it is above, the [get] returns [None] and deletes the entry.
    The other entries are as the [set] left them. *)
Theorem get_after_set_returns_the_value_until_it_expires self key value key'
    self1 :
  distinct_keys self ->
  _generate_key key' = _generate_key key ->
  set _generate_key key value self = (Returns VNone, self1) ->
  let entry := mkEntry value (clock self (ticks self)) in
  let late := expired (clock self (S (ticks self))) (ttl self) entry in
  exists cache_key self2,
    _generate_key key = Returns cache_key /\
    get _generate_key key' self1
    = (Returns (if late then VNone else value), self2) /\
    Agent.lookup cache_key (cache self2)
    = (if late then None else Some entry) /\
    forall other,
      other <> cache_key ->
      Agent.lookup other (cache self2) = Agent.lookup other (cache self1).
Proof.
  intros Hnd Hsame Hset. cbv zeta.
  destruct (_generate_key key) as [cache_key|e] eqn:Hkey.
  2:{ rewrite (set_key_fails _ _ _ _ Hkey) in Hset. discriminate. }
  exists cache_key.
  assert (Hstored : exists d,
             NoDup (map fst d) /\
             self1 = with_cache
                       (assign cache_key
                          (mkEntry value (clock self (ticks self))) d)
                       (tick self)).
  { rewrite (set_cases _ _ _ _ Hkey) in Hset. cbv zeta in Hset.
    destruct (_ >=? _).
    - destruct (cache self) as [|x rest] eqn:Hcache; [discriminate|].
      cbn [oldest_key] in Hset.
      destruct (delete_present _ _ (oldest_In x rest))
        as [d' [Hdel [_ [_ Hrest]]]].
      rewrite Hdel in Hset. injection Hset as <-.
      unfold distinct_keys in Hnd. rewrite Hcache in Hnd.
      exists d'. split; [exact (proj1 (Hrest Hnd))|reflexivity].
    - injection Hset as <-. exists (cache self). split; [exact Hnd|reflexivity]. }
  destruct Hstored as [d [Hnd' ->]].
  rewrite (get_cases _ _ _ Hsame). cbn [cache with_cache tick clock ticks ttl].
  rewrite lookup_assign_same.
  destruct (expired _ _ _).
  - assert (Hin : In cache_key
                    (map fst (assign cache_key
                                (mkEntry value (clock self (ticks self))) d))).
    { eapply lookup_In. apply lookup_assign_same. }
    destruct (delete_present _ _ Hin) as [d' [-> [_ [_ Hrest]]]].
    destruct (Hrest (assign_distinct _ _ _ Hnd')) as [_ [Hgone Hother]].
    eexists. split; [reflexivity|]. split; [reflexivity|].
    cbn [cache with_cache].
    split; [apply lookup_not_In; exact Hgone|exact Hother].
  - eexists. split; [reflexivity|]. split; [reflexivity|].
    cbn [cache with_cache tick].
    split; [apply lookup_assign_same|reflexivity].
Qed.

(** X29. A [set] on a full cache evicts before it looks whether the key
    is cached: the oldest entry is deleted, then the value is stored.
    So overwriting a cached key that is not the oldest loses another
    entry and leaves the cache one entry smaller, although no key was
    added; in every other case the size stays the same. *)
Theorem set_on_a_full_cache_evicts_before_it_looks self key cache_key value
    first_key :
  distinct_keys self ->
  _generate_key key = Returns cache_key ->
  Z.of_nat (List.length (cache self)) >= max_size self ->
  oldest_key (cache self) = Returns first_key ->
  let entry := mkEntry value (clock self (ticks self)) in
  exists self1,
    set _generate_key key value self = (Returns VNone, self1) /\
    Agent.lookup cache_key (cache self1) = Some entry /\
    Agent.lookup first_key (cache self1)
    = (if String.eqb first_key cache_key then Some entry else None) /\
    List.length (cache self1)
    = match Agent.lookup cache_key (cache self) with
      | Some _ =>
          if String.eqb first_key cache_key
          then List.length (cache self)
          else (List.length (cache self) - 1)%nat
      | None => List.length (cache self)
      end.
Proof.
  intros Hnd Hkey Hfull Holdest. cbv zeta.
  rewrite (set_cases _ _ _ _ Hkey). cbv zeta.
  destruct (_ >=? _) eqn:Hgeb; [|lia].
  rewrite Holdest.
  assert (Hin : In first_key (map fst (cache self))).
  { destruct (cache self) as [|x rest]; [discriminate|].
    cbn [oldest_key] in Holdest. injection Holdest as <-. apply oldest_In. }
  destruct (delete_present _ _ Hin) as [d' [-> [Hlen [_ Hrest]]]].
  destruct (Hrest Hnd) as [Hnd' [Hgone Hother]].
  eexists. split; [reflexivity|]. cbn [cache with_cache tick].
  split; [apply lookup_assign_same|].
  destruct (String.eqb first_key cache_key) eqn:E.
  - apply String.eqb_eq in E. subst first_key.
    split; [apply lookup_assign_same|].
    rewrite assign_length, (lookup_not_In _ _ Hgone).
    destruct (In_lookup _ _ Hin) as [a ->]. exact Hlen.
  - apply String.eqb_neq in E.
    split.
    { rewrite lookup_assign_other by exact E. apply lookup_not_In. exact Hgone. }
    rewrite assign_length, Hother by (intros Heq; apply E; now rewrite Heq).
    destruct (Agent.lookup _ (cache self)); lia.
Qed.

End Methods.

(** X30. [cleanup_expired] reads the clock once and keeps exactly the
    entries that are not expired at that reading, in their order; it
    returns the number of entries it removed. *)
Theorem cleanup_removes_exactly_the_expired self :
  distinct_keys self ->
  let now := clock self (ticks self) in
  let kept :=
    filter (fun item => negb (expired now (ttl self) (snd item))) (cache self) in
  cleanup_expired self
  = (Returns (VInt (Z.of_nat (List.length (cache self))
                    - Z.of_nat (List.length kept))),
     with_cache kept (tick self)).
Proof.
  intros Hnd. cbv zeta. rewrite (cleanup_cases self Hnd). cbv zeta.
  pose proof (filter_length
                (fun item => expired (clock self (ticks self)) (ttl self)
                               (snd item))
                (cache self)) as Hsum.
  cbv beta in Hsum. do 3 f_equal. lia.
Qed.

(** Eight calls on a cache of two entries, the last with a key that has
    no digest; seven calls on a cache without room. *)
Lemma cache_never_exceeds_max_size_witness :
  1 <= 2 /\
  fst (run_calls CacheRuns.plain_key CacheRuns.intents_and_a_surrogate
         (new 2 300 CacheRuns.seconds))
  = [Returns VNone; Returns VNone; Returns (VStr "hr"); Returns VNone;
     Returns (VInt 2); Returns (VInt 0); Returns (VStr "tech");
     Raises CacheRuns.surrogate_error] /\
  Forall2 (served CacheRuns.plain_key) CacheRuns.intents_and_a_surrogate
    (fst (run_calls CacheRuns.plain_key CacheRuns.intents_and_a_surrogate
            (new 2 300 CacheRuns.seconds))) /\
  Z.of_nat
    (List.length
       (cache (snd (run_calls CacheRuns.plain_key
                      CacheRuns.intents_and_a_surrogate
                      (new 2 300 CacheRuns.seconds)))))
  <= 2.
Proof.
  split; [lia|]. split; [vm_compute; reflexivity|].
  apply (cache_never_exceeds_max_size CacheRuns.plain_key 2 300
           CacheRuns.seconds CacheRuns.intents_and_a_surrogate).
  lia.
Defined.

Lemma cache_without_room_stores_nothing_witness :
  0 <= 0 /\
  cache (snd (run_calls CacheRuns.plain_key CacheRuns.intents
                (new 0 300 CacheRuns.seconds))) = [] /\
  List.length (fst (run_calls CacheRuns.plain_key CacheRuns.intents
                      (new 0 300 CacheRuns.seconds)))
  = List.length CacheRuns.intents /\
  Forall2 (refused CacheRuns.plain_key) CacheRuns.intents
    (fst (run_calls CacheRuns.plain_key CacheRuns.intents
            (new 0 300 CacheRuns.seconds))).
Proof.
  split; [lia|].
  apply (cache_without_room_stores_nothing CacheRuns.plain_key 0 300
           CacheRuns.seconds CacheRuns.intents).
  lia.
Defined.

(** The number 1 and the text "1" have the same key: what was cached
    under the one is read back under the other, four minutes later. *)
Lemma get_after_set_returns_the_value_until_it_expires_witness :
  distinct_keys CacheRuns.roomy /\
  CacheRuns.plain_key (VStr "1") = CacheRuns.plain_key (VInt 1) /\
  set CacheRuns.plain_key (VInt 1) (VStr "hr") CacheRuns.roomy
  = (Returns VNone, CacheRuns.after_first_set) /\
  expired (CacheRuns.four_minutes 1) 300
    (mkEntry (VStr "hr") (CacheRuns.four_minutes 0)) = false /\
  exists cache_key self2,
    CacheRuns.plain_key (VInt 1) = Returns cache_key /\
    get CacheRuns.plain_key (VStr "1") CacheRuns.after_first_set
    = (Returns
         (if expired (CacheRuns.four_minutes 1) 300
               (mkEntry (VStr "hr") (CacheRuns.four_minutes 0))
          then VNone else VStr "hr"), self2) /\
    Agent.lookup cache_key (cache self2)
    = (if expired (CacheRuns.four_minutes 1) 300
            (mkEntry (VStr "hr") (CacheRuns.four_minutes 0))
       then None else Some (mkEntry (VStr "hr") (CacheRuns.four_minutes 0))) /\
    forall other,
      other <> cache_key ->
      Agent.lookup other (cache self2)
      = Agent.lookup other (cache CacheRuns.after_first_set).
Proof.
  assert (Hnd : distinct_keys CacheRuns.roomy) by constructor.
  split; [exact Hnd|]. split; [reflexivity|]. split; [reflexivity|].
  split; [vm_compute; reflexivity|].
  exact (get_after_set_returns_the_value_until_it_expires CacheRuns.plain_key
           CacheRuns.roomy (VInt 1) (VStr "hr") (VStr "1")
           CacheRuns.after_first_set Hnd eq_refl eq_refl).
Defined.

(** Overwriting the newer of two entries of a full cache leaves one. *)
Lemma set_on_a_full_cache_evicts_before_it_looks_witness :
  distinct_keys CacheRuns.full_cache /\
  CacheRuns.plain_key (VStr "部署") = Returns "部署" /\
  Z.of_nat (List.length (cache CacheRuns.full_cache))
  >= max_size CacheRuns.full_cache /\
  oldest_key (cache CacheRuns.full_cache) = Returns "年假" /\
  exists self1,
    set CacheRuns.plain_key (VStr "部署") (VStr "ops") CacheRuns.full_cache
    = (Returns VNone, self1) /\
    Agent.lookup "部署" (cache self1)
    = Some (mkEntry (VStr "ops")
              (clock CacheRuns.full_cache (ticks CacheRuns.full_cache))) /\
    Agent.lookup "年假" (cache self1) = None /\
    List.length (cache self1) = 1%nat.
Proof.
  assert (Hnd : distinct_keys CacheRuns.full_cache).
  { unfold distinct_keys.
    change (map fst (cache CacheRuns.full_cache)) with ["年假"; "部署"].
    repeat constructor; cbn; intuition discriminate. }
  split; [exact Hnd|]. split; [reflexivity|].
  split; [vm_compute; discriminate|].
  split; [reflexivity|].
  exact (set_on_a_full_cache_evicts_before_it_looks CacheRuns.plain_key
           CacheRuns.full_cache (VStr "部署") "部署" (VStr "ops") "年假" Hnd
           eq_refl ltac:(vm_compute; discriminate) eq_refl).
Defined.

(** Of three entries set four minutes apart, the first two are older
    than five minutes at the next reading. *)
Lemma cleanup_removes_exactly_the_expired_witness :
  distinct_keys CacheRuns.aged_cache /\
  fst (cleanup_expired CacheRuns.aged_cache) = Returns (VInt 2) /\
  map fst (cache (snd (cleanup_expired CacheRuns.aged_cache))) = ["会议"] /\
  cleanup_expired CacheRuns.aged_cache
  = (Returns
       (VInt (Z.of_nat (List.length (cache CacheRuns.aged_cache))
              - Z.of_nat
                  (List.length
                     (filter
                        (fun item =>
                           negb (expired
                                   (clock CacheRuns.aged_cache
                                      (ticks CacheRuns.aged_cache))
                                   (ttl CacheRuns.aged_cache) (snd item)))
                        (cache CacheRuns.aged_cache))))),
     with_cache
       (filter
          (fun item =>
             negb (expired
                     (clock CacheRuns.aged_cache (ticks CacheRuns.aged_cache))
                     (ttl CacheRuns.aged_cache) (snd item)))
          (cache CacheRuns.aged_cache))
       (tick CacheRuns.aged_cache)).
Proof.
  assert (Hnd : distinct_keys CacheRuns.aged_cache).
  { unfold distinct_keys.
    change (map fst (cache CacheRuns.aged_cache)) with ["年假"; "部署"; "会议"].
    repeat constructor; cbn; intuition discriminate. }
  split; [exact Hnd|]. split; [vm_compute; reflexivity|].
  split; [vm_compute; reflexivity|].
  exact (cleanup_removes_exactly_the_expired CacheRuns.aged_cache Hnd).
Defined.

End CacheProofs.
